(** * kotoba: natural-language browser tests, checked against the source

    A shallow embedding of the parts of the kotoba sources that the
    specification talks about:

    - [Py]: the Python values the code manipulates (text as sequences of
      code points, exceptions, results of calls that may raise);
    - [Re]: the fragment of the [re] module used by the pattern table
      and by the mock translator ([re.search], groups, compile errors);
    - [Assertions]: [assertions.py] (assertion taxonomy, pattern table,
      [parse], [_text_to_selector], the assertion executor);
    - [MockLLM]: [mock_llm.py];
    - [Config]: [config.py] with the YAML dump and safe-load layer;
    - [Runner], [OptimizedRunner], [RobustRunner]: the three runners;
    - [Main]: the exit code logic of [__main__.py]. *)

From Stdlib Require Import String Ascii List NArith ZArith Bool Lia DecimalString.
Import ListNotations.

Set Implicit Arguments.
Set Warnings "-register-all".

(* ================================================================== *)
(** * Python values *)
(* ================================================================== *)

Module Py.

(** A Python [str] is a sequence of Unicode code points. *)
Definition ustr := list N.

Fixpoint bytes_of_string (s : string) : list N :=
  match s with
  | EmptyString => []
  | String c s' => N_of_ascii c :: bytes_of_string s'
  end.

(** String literals of this file are UTF-8; [utf8_decode] turns their
    bytes into code points (U+FFFD on a truncated sequence). *)
Fixpoint utf8_decode (bs : list N) : ustr :=
  match bs with
  | [] => []
  | b0 :: r0 =>
      if (b0 <? 128)%N then b0 :: utf8_decode r0
      else if (b0 <? 224)%N then
        match r0 with
        | b1 :: r1 => ((b0 - 192) * 64 + (b1 - 128))%N :: utf8_decode r1
        | _ => [65533%N]
        end
      else if (b0 <? 240)%N then
        match r0 with
        | b1 :: b2 :: r2 =>
            ((b0 - 224) * 4096 + (b1 - 128) * 64 + (b2 - 128))%N :: utf8_decode r2
        | _ => [65533%N]
        end
      else
        match r0 with
        | b1 :: b2 :: b3 :: r3 =>
            ((b0 - 240) * 262144 + (b1 - 128) * 4096 + (b2 - 128) * 64 + (b3 - 128))%N
              :: utf8_decode r3
        | _ => [65533%N]
        end
  end.

Definition u (s : string) : ustr := utf8_decode (bytes_of_string s).
Arguments u : simpl never.

(** The straight double quote (U+0022) and the newline, as one-character
    texts. *)
Definition dq : string := String (ascii_of_nat 34) EmptyString.
Definition nl : string := String (ascii_of_nat 10) EmptyString.

Definition ustr_eqb (a b : ustr) : bool :=
  if list_eq_dec N.eq_dec a b then true else false.

(** ** Exceptions *)

Inductive exn_class :=
| ReError            (* re.error *)
| ValueError
| RuntimeError
| TypeError
| AttributeError
| KeyError
| IndexError
| UnboundLocalError
| ConstructorError   (* yaml.constructor.ConstructorError *)
| ValidationError    (* pydantic.ValidationError *)
| EngineError        (* any Exception raised by the browser engine or the model *)
| AsyncioTimeoutError (* asyncio.TimeoutError *)
| MarkupError        (* rich.errors.MarkupError *)
| KeyboardInterrupt  (* a BaseException that is no Exception *)
| NotModelled.       (* syntax of [re] outside the modelled fragment *)

Record exn := Exn { exn_cls : exn_class; exn_msg : ustr }.

(** [except Exception] catches everything but [KeyboardInterrupt]. *)
Definition is_Exception (e : exn) : bool :=
  match exn_cls e with
  | KeyboardInterrupt => false
  | _ => true
  end.

(** [str(e)] *)
Definition str_of_exn (e : exn) : ustr := exn_msg e.

Inductive result (A : Type) :=
| Ok (a : A)
| Raise (e : exn).
Arguments Ok {A} a.
Arguments Raise {A} e.

Definition bind {A B} (m : result A) (f : A -> result B) : result B :=
  match m with
  | Ok a => f a
  | Raise e => Raise e
  end.

(** ** The console

    [console.print(text)] of rich renders [text] as console markup and
    writes it. The rendering raises [MarkupError] with the message [m] when
    a closing tag of the text closes no open tag, [console text = Some m];
    what else the text holds is rendered. The fixed texts of the program
    close the tags they open, and the numbers, enumeration values and file
    names (which hold no slash) put into them bring no closing tag: the
    calls that print only these return, and are left out below. The calls
    that print a text of a test file, of a page or of an exception go
    through [console_print], with the whole text of the line. *)
Definition Console := ustr -> option ustr.

Definition console_print (console : Console) (text : ustr) : result unit :=
  match console text with
  | Some message => Raise (Exn MarkupError message)
  | None => Ok tt
  end.

(** ** The Unicode character database

    [str.lower], the digit value of a decimal digit ([\d], [int]) and the
    general [int(str)] parser depend on Python's Unicode tables; they are a
    parameter of the development. [ascii_ucd] is the instance that knows
    ASCII only. *)

Record Unicode := {
  uc_decimal : N -> option N;
  uc_lower : ustr -> ustr;
  uc_int : ustr -> result Z
}.

(** ** Text operations *)

(** [str.isspace] for one code point. *)
Definition is_space (c : N) : bool :=
  ((9 <=? c) && (c <=? 13) || (28 <=? c) && (c <=? 32)
   || (c =? 133) || (c =? 160) || (c =? 5760)
   || (8192 <=? c) && (c <=? 8202)
   || (c =? 8232) || (c =? 8233) || (c =? 8239) || (c =? 8287) || (c =? 12288))%N.

Definition mem_char (c : N) (cs : ustr) : bool := existsb (N.eqb c) cs.

Fixpoint lstrip_by (p : N -> bool) (s : ustr) : ustr :=
  match s with
  | [] => []
  | c :: s' => if p c then lstrip_by p s' else s
  end.

Definition strip_by (p : N -> bool) (s : ustr) : ustr :=
  rev (lstrip_by p (rev (lstrip_by p s))).

(** [s.strip()] *)
Definition strip (s : ustr) : ustr := strip_by is_space s.

(** [s.strip(chars)] *)
Definition strip_chars (chars s : ustr) : ustr :=
  strip_by (fun c => mem_char c chars) s.

Fixpoint starts_with (p s : ustr) : bool :=
  match p, s with
  | [], _ => true
  | a :: p', b :: s' => (a =? b)%N && starts_with p' s'
  | _ :: _, [] => false
  end.

Definition ends_with (p s : ustr) : bool := starts_with (rev p) (rev s).

(** [p in s] *)
Fixpoint contains (p s : ustr) : bool :=
  starts_with p s ||
  match s with
  | [] => false
  | _ :: s' => contains p s'
  end.

(** [s.replace(old, new)] for a non-empty [old]: leftmost occurrences,
    not overlapping. *)
Fixpoint replace_fuel (fuel : nat) (old new s : ustr) : ustr :=
  match fuel with
  | O => s
  | S f =>
      match s with
      | [] => []
      | c :: s' =>
          if starts_with old s
          then new ++ replace_fuel f old new (skipn (length old) s)
          else c :: replace_fuel f old new s'
      end
  end.

Definition replace (old new s : ustr) : ustr :=
  replace_fuel (length s) old new s.

(** [str(n)] for an integer. *)
Definition str_of_nat (n : nat) : ustr := u (NilEmpty.string_of_uint (Nat.to_uint n)).

Definition str_of_Z (z : Z) : ustr :=
  match z with
  | Zneg p => (45%N :: str_of_nat (Pos.to_nat p))
  | _ => str_of_nat (Z.to_nat z)
  end.

(** ASCII lower-casing, and the instance of the database that knows ASCII
    only. *)
Definition ascii_lower_char (c : N) : N :=
  if ((65 <=? c) && (c <=? 90))%N then (c + 32)%N else c.

Definition ascii_decimal (c : N) : option N :=
  if ((48 <=? c) && (c <=? 57))%N then Some (c - 48)%N else None.

Fixpoint digits_value (dec : N -> option N) (acc : Z) (s : ustr) : option Z :=
  match s with
  | [] => Some acc
  | c :: s' =>
      match dec c with
      | Some d => digits_value dec (acc * 10 + Z.of_N d)%Z s'
      | None => None
      end
  end.

(** [int(s)] on a text [s] of decimal digits only. CPython refuses a text of
    more than 4300 digits (the default of [sys.set_int_max_str_digits]),
    leading zeros counted; the empty text and a text that holds another
    character are left to the general parser [uc_int]. *)
Definition int_max_str_digits : N := 4300.

Definition digit_limit_error (digits : nat) : exn :=
  Exn ValueError
    (u "Exceeds the limit (4300 digits) for integer string conversion: value has "
     ++ str_of_nat digits
     ++ u " digits; use sys.set_int_max_str_digits() to increase the limit")%list.

Definition int_of_digits (ucd : Unicode) (s : ustr) : result Z :=
  match s, digits_value (uc_decimal ucd) 0%Z s with
  | _ :: _, Some z =>
      if (int_max_str_digits <? N.of_nat (length s))%N
      then Raise (digit_limit_error (length s))
      else Ok z
  | _, _ => uc_int ucd s
  end.

(** The digits of an integer literal without its sign: single underscores
    between digits are dropped (1_000), any other underscore is refused. *)
Fixpoint literal_digits (after_digit : bool) (s : ustr) : option ustr :=
  match s with
  | [] => if after_digit then Some [] else None
  | c :: s' =>
      if (c =? 95)%N then
        if after_digit then literal_digits false s' else None
      else option_map (cons c) (literal_digits true s')
  end.

(** [int(s)] for ASCII digits: white space around the literal and a sign
    are accepted. The message shows the text between quotes, as [repr]
    does for a text without quote, backslash or control character. *)
Definition ascii_int (s : ustr) : result Z :=
  let invalid :=
    Raise (Exn ValueError (u "invalid literal for int() with base 10: '" ++ s ++ u "'")%list) in
  let '(negative, body) :=
    match strip s with
    | 45%N :: d => (true, d)
    | 43%N :: d => (false, d)
    | d => (false, d)
    end in
  match literal_digits false body with
  | None => invalid
  | Some d =>
      match digits_value ascii_decimal 0%Z d with
      | Some z =>
          if (int_max_str_digits <? N.of_nat (length d))%N
          then Raise (digit_limit_error (length d))
          else Ok (if negative then (- z)%Z else z)
      | None => invalid
      end
  end.

Definition ascii_ucd : Unicode :=
  {| uc_decimal := ascii_decimal;
     uc_lower := map ascii_lower_char;
     uc_int := ascii_int |}.

End Py.

(* ================================================================== *)
(** * The fragment of Python's [re] used by the program *)
(* ================================================================== *)

Module Re.
Import Py.

(** Members of a character set [[...]]. *)
Inductive cset_item :=
| CChar (c : N)
| CRange (lo hi : N)
| CDigit      (* \d *)
| CSpace.     (* \s *)

Inductive regex :=
| Eps
| Lit (c : N)
| Dot                                   (* any code point but newline *)
| Cls (neg : bool) (items : list cset_item)
| Cat (r1 r2 : regex)
| Alt (r1 r2 : regex)
| Grp (i : nat) (r : regex)             (* capturing group number i *)
| Rep (r : regex) (lo : nat) (hi : option nat) (greedy : bool).

(** ** Compiling a pattern

    A recursive-descent reading of the pattern text that follows
    [sre_parse]: alternatives separated by [|], each a sequence of
    quantified atoms. A repetition character with nothing before it in
    its alternative is the compile error [nothing to repeat]. *)

Definition re_error (msg : string) {A} : result A := Raise (Exn ReError (u msg)).
Definition re_error_at (msg : string) (pos : nat) {A} : result A :=
  Raise (Exn ReError (u msg ++ u " at position " ++ str_of_nat pos)).
Definition not_modelled {A} : result A := Raise (Exn NotModelled []).

(** Code points of the characters with a meaning in patterns. *)
Definition c_lpar : N := 40.     (* ( *)
Definition c_rpar : N := 41.     (* ) *)
Definition c_star : N := 42.     (* * *)
Definition c_plus : N := 43.     (* + *)
Definition c_minus : N := 45.    (* - *)
Definition c_dot : N := 46.      (* . *)
Definition c_colon : N := 58.    (* : *)
Definition c_quest : N := 63.    (* ? *)
Definition c_lbrk : N := 91.     (* [ *)
Definition c_bslash : N := 92.   (* \ *)
Definition c_rbrk : N := 93.     (* ] *)
Definition c_caret : N := 94.    (* ^ *)
Definition c_dollar : N := 36.   (* $ *)
Definition c_lbrace : N := 123.  (* { *)
Definition c_bar : N := 124.     (* | *)
Definition c_d : N := 100.       (* d *)
Definition c_s : N := 115.       (* s *)

Definition is_ascii_alnum (c : N) : bool :=
  ((48 <=? c) && (c <=? 57) || (65 <=? c) && (c <=? 90) || (97 <=? c) && (c <=? 122))%N.

Definition is_repeat_char (c : N) : bool :=
  ((c =? c_star) || (c =? c_plus) || (c =? c_quest))%N.

(** An escape [\c] inside or outside a set: [\d], [\s], or an escaped
    punctuation character standing for itself. *)
Definition escape_item (c : N) : result cset_item :=
  if (c =? c_d)%N then Ok CDigit
  else if (c =? c_s)%N then Ok CSpace
  else if is_ascii_alnum c then not_modelled
  else Ok (CChar c).

(** The members of a set, up to the closing bracket. [first] is true at
    the first member, where a closing bracket stands for itself. *)
Fixpoint parse_set (first : bool) (s : ustr) (acc : list cset_item)
  : result (list cset_item * ustr) :=
  match s with
  | [] => re_error "unterminated character set"
  | c :: s1 =>
      if (c =? c_rbrk)%N && negb first then Ok (rev acc, s1)
      else if (c =? c_bslash)%N then
        match s1 with
        | [] => re_error "bad escape (end of pattern)"
        | e :: s2 =>
            match escape_item e with
            | Ok it =>
                match s2 with
                | m :: h :: _ =>
                    if (m =? c_minus)%N && negb (h =? c_rbrk)%N
                    then not_modelled
                    else parse_set false s2 (it :: acc)
                | _ => parse_set false s2 (it :: acc)
                end
            | Raise x => Raise x
            end
        end
      else
        match s1 with
        | m :: h :: s3 =>
            if (m =? c_minus)%N && negb (h =? c_rbrk)%N then
              if (h =? c_bslash)%N then not_modelled
              else if (h <? c)%N then re_error "bad character range"
              else parse_set false s3 (CRange c h :: acc)
            else parse_set false s1 (CChar c :: acc)
        | _ => parse_set false s1 (CChar c :: acc)
        end
  end.

(** The quantifier after an atom, if any: [?], [*], [+], each lazy when
    followed by [?]. A third repetition character is [multiple repeat]
    (or a possessive quantifier, which the program does not use). *)
Definition parse_quant (a : regex) (s : ustr) : result (regex * ustr) :=
  match s with
  | q :: s1 =>
      if is_repeat_char q then
        let '(lo, hi) :=
          if (q =? c_quest)%N then (0%nat, Some 1%nat)
          else if (q =? c_star)%N then (0%nat, None)
          else (1%nat, None) in
        match s1 with
        | l :: s2 =>
            if (l =? c_quest)%N then
              match s2 with
              | x :: _ => if is_repeat_char x then re_error "multiple repeat"
                          else Ok (Rep a lo hi false, s2)
              | [] => Ok (Rep a lo hi false, s2)
              end
            else if is_repeat_char l then not_modelled
            else Ok (Rep a lo hi true, s1)
        | [] => Ok (Rep a lo hi true, s1)
        end
      else if (q =? c_lbrace)%N then not_modelled
      else Ok (a, s)
  | [] => Ok (a, s)
  end.

(** [parse_alt], [parse_seq] and [parse_atom] thread the text still to be
    read and the number of capturing groups opened so far; [total] is the
    length of the whole pattern, from which the position of an error is
    computed. *)
Section Parser.
Variable total : nat.

Fixpoint parse_alt (fuel : nat) (s : ustr) (g : nat) {struct fuel}
  : result (regex * ustr * nat) :=
  match fuel with
  | O => not_modelled
  | S f =>
      bind (parse_seq f s g) (fun '(r, s1, g1) =>
        match s1 with
        | c :: s2 =>
            if (c =? c_bar)%N
            then bind (parse_alt f s2 g1) (fun '(r2, s3, g3) => Ok (Alt r r2, s3, g3))
            else Ok (r, s1, g1)
        | [] => Ok (r, s1, g1)
        end)
  end
with parse_seq (fuel : nat) (s : ustr) (g : nat) {struct fuel}
  : result (regex * ustr * nat) :=
  match fuel with
  | O => not_modelled
  | S f =>
      match s with
      | [] => Ok (Eps, s, g)
      | c :: _ =>
          if ((c =? c_bar) || (c =? c_rpar))%N then Ok (Eps, s, g)
          else
            bind (parse_atom f s g) (fun '(a, s1, g1) =>
            bind (parse_quant a s1) (fun '(q, s2) =>
            bind (parse_seq f s2 g1) (fun '(rest, s3, g3) =>
              Ok (Cat q rest, s3, g3))))
      end
  end
with parse_atom (fuel : nat) (s : ustr) (g : nat) {struct fuel}
  : result (regex * ustr * nat) :=
  match fuel with
  | O => not_modelled
  | S f =>
      match s with
      | [] => not_modelled
      | c :: s1 =>
          if is_repeat_char c
          then re_error_at "nothing to repeat" (total - length s)
          else if (c =? c_lpar)%N then
            match s1 with
            | q :: s2 =>
                if (q =? c_quest)%N then
                  match s2 with
                  | k :: s3 =>
                      if (k =? c_colon)%N then
                        bind (parse_alt f s3 g) (fun '(r, s4, g4) =>
                          match s4 with
                          | p :: s5 =>
                              if (p =? c_rpar)%N then Ok (r, s5, g4)
                              else re_error "missing ), unterminated subpattern"
                          | [] => re_error "missing ), unterminated subpattern"
                          end)
                      else not_modelled
                  | [] => re_error "unexpected end of pattern"
                  end
                else
                  bind (parse_alt f s1 (S g)) (fun '(r, s4, g4) =>
                    match s4 with
                    | p :: s5 =>
                        if (p =? c_rpar)%N then Ok (Grp (S g) r, s5, g4)
                        else re_error "missing ), unterminated subpattern"
                    | [] => re_error "missing ), unterminated subpattern"
                    end)
            | [] => re_error "missing ), unterminated subpattern"
            end
          else if (c =? c_lbrk)%N then
            match s1 with
            | n :: s2 =>
                if (n =? c_caret)%N
                then bind (parse_set true s2 []) (fun '(its, s3) => Ok (Cls true its, s3, g))
                else bind (parse_set true s1 []) (fun '(its, s3) => Ok (Cls false its, s3, g))
            | [] => re_error "unterminated character set"
            end
          else if (c =? c_bslash)%N then
            match s1 with
            | [] => re_error "bad escape (end of pattern)"
            | e :: s2 =>
                bind (escape_item e) (fun it =>
                  match it with
                  | CChar x => Ok (Lit x, s2, g)
                  | _ => Ok (Cls false [it], s2, g)
                  end)
            end
          else if (c =? c_dot)%N then Ok (Dot, s1, g)
          else if ((c =? c_caret) || (c =? c_dollar) || (c =? c_lbrace))%N then not_modelled
          else Ok (Lit c, s1, g)
      end
  end.

End Parser.

(** [re.compile(pattern)]: the expression and its number of groups. Text
    left over after the top-level alternation starts with a closing
    parenthesis that nothing opened. *)
Definition compile (pattern : ustr) : result (regex * nat) :=
  bind (parse_alt (length pattern) (S (3 * length pattern)) pattern 0) (fun '(r, rest, g) =>
    match rest with
    | [] => Ok (r, g)
    | _ => re_error "unbalanced parenthesis"
    end).

(** ** Matching

    A backtracking matcher in continuation-passing style: alternatives
    are tried left to right, a greedy repetition tries one more round
    before stopping, a lazy one stops before trying one more round. The
    captures are the text of each group's last successful round. *)

Definition caps := list (nat * ustr).

Fixpoint lookup_cap (i : nat) (c : caps) : option ustr :=
  match c with
  | [] => None
  | (j, v) :: c' => if Nat.eqb i j then Some v else lookup_cap i c'
  end.

Section Matcher.
Variable ucd : Unicode.

Definition in_item (c : N) (it : cset_item) : bool :=
  match it with
  | CChar x => (c =? x)%N
  | CRange lo hi => ((lo <=? c) && (c <=? hi))%N
  | CDigit => match uc_decimal ucd c with Some _ => true | None => false end
  | CSpace => is_space c
  end.

Definition in_set (c : N) (its : list cset_item) : bool := existsb (in_item c) its.

Definition may_repeat (n : nat) (hi : option nat) : bool :=
  match hi with
  | None => true
  | Some h => Nat.ltb n h
  end.

Fixpoint rmatch (r : regex) (s : ustr) (c : caps)
  (k : ustr -> caps -> option caps) {struct r} : option caps :=
  match r with
  | Eps => k s c
  | Lit x =>
      match s with
      | y :: s' => if (x =? y)%N then k s' c else None
      | [] => None
      end
  | Dot =>
      match s with
      | y :: s' => if (y =? 10)%N then None else k s' c
      | [] => None
      end
  | Cls neg its =>
      match s with
      | y :: s' => if xorb neg (in_set y its) then k s' c else None
      | [] => None
      end
  | Cat r1 r2 => rmatch r1 s c (fun s1 c1 => rmatch r2 s1 c1 k)
  | Alt r1 r2 =>
      match rmatch r1 s c k with
      | Some x => Some x
      | None => rmatch r2 s c k
      end
  | Grp i r1 =>
      rmatch r1 s c
        (fun s1 c1 => k s1 ((i, firstn (length s - length s1) s) :: c1))
  | Rep r1 lo hi greedy =>
      (fix rounds (fuel n : nat) (s : ustr) (c : caps) {struct fuel} : option caps :=
         match fuel with
         | O => None
         | S f =>
             let more (_ : unit) :=
               if may_repeat n hi then
                 rmatch r1 s c (fun s1 c1 =>
                   match hi with
                   | None => if Nat.ltb (length s1) (length s)
                             then rounds f (S n) s1 c1 else None
                   | Some _ => rounds f (S n) s1 c1
                   end)
               else None in
             let stop (_ : unit) := if Nat.leb lo n then k s c else None in
             if greedy then
               match more tt with
               | Some x => Some x
               | None => stop tt
               end
             else
               match stop tt with
               | Some x => Some x
               | None => more tt
               end
         end)
        (S (length s + lo + match hi with Some h => h | None => 0 end)) 0%nat s c
  end.

(** The leftmost match: the first start position at which the
    expression matches. Group 0 is the whole match. *)
Fixpoint search_from (r : regex) (s : ustr) : option caps :=
  match rmatch (Grp 0 r) s [] (fun _ c => Some c) with
  | Some c => Some c
  | None =>
      match s with
      | [] => None
      | _ :: s' => search_from r s'
      end
  end.

(** A match object: [group(0)] and [groups()]. *)
Record rmatch_obj := MatchObj { group0 : ustr; groups : list (option ustr) }.

Definition match_of (ngroups : nat) (c : caps) : rmatch_obj :=
  {| group0 := match lookup_cap 0 c with Some v => v | None => [] end;
     groups := map (fun i => lookup_cap i c) (seq 1 ngroups) |}.

(** [re.search(pattern, string)]: raises [re.error] when the pattern
    does not compile. *)
Definition search (pattern : ustr) (s : ustr) : result (option rmatch_obj) :=
  bind (compile pattern) (fun '(r, g) =>
    Ok (option_map (match_of g) (search_from r s))).

End Matcher.

End Re.

(* ================================================================== *)
(** * assertions.py *)
(* ================================================================== *)

Module Assertions.
Import Py.
Local Open Scope string_scope.

(** [class AssertionType(Enum)]: the 27 declared types. *)
Inductive AssertionType :=
| TEXT_EXISTS | TEXT_NOT_EXISTS | TEXT_EQUALS | TEXT_CONTAINS | TEXT_MATCHES
| ELEMENT_EXISTS | ELEMENT_NOT_EXISTS | ELEMENT_VISIBLE | ELEMENT_HIDDEN | ELEMENT_COUNT
| ATTRIBUTE_EQUALS | ATTRIBUTE_CONTAINS | ATTRIBUTE_EXISTS
| URL_EQUALS | URL_CONTAINS | URL_MATCHES | URL_STARTS_WITH | URL_ENDS_WITH
| TITLE_EQUALS | TITLE_CONTAINS | TITLE_MATCHES
| INPUT_VALUE_EQUALS | INPUT_VALUE_CONTAINS | CHECKBOX_CHECKED | CHECKBOX_UNCHECKED
| ELEMENT_ENABLED | ELEMENT_DISABLED.

Definition all_assertion_types : list AssertionType :=
  [TEXT_EXISTS; TEXT_NOT_EXISTS; TEXT_EQUALS; TEXT_CONTAINS; TEXT_MATCHES;
   ELEMENT_EXISTS; ELEMENT_NOT_EXISTS; ELEMENT_VISIBLE; ELEMENT_HIDDEN; ELEMENT_COUNT;
   ATTRIBUTE_EQUALS; ATTRIBUTE_CONTAINS; ATTRIBUTE_EXISTS;
   URL_EQUALS; URL_CONTAINS; URL_MATCHES; URL_STARTS_WITH; URL_ENDS_WITH;
   TITLE_EQUALS; TITLE_CONTAINS; TITLE_MATCHES;
   INPUT_VALUE_EQUALS; INPUT_VALUE_CONTAINS; CHECKBOX_CHECKED; CHECKBOX_UNCHECKED;
   ELEMENT_ENABLED; ELEMENT_DISABLED].

(** [AssertionType.value] *)
Definition type_value (t : AssertionType) : string :=
  match t with
  | TEXT_EXISTS => "text_exists" | TEXT_NOT_EXISTS => "text_not_exists"
  | TEXT_EQUALS => "text_equals" | TEXT_CONTAINS => "text_contains"
  | TEXT_MATCHES => "text_matches"
  | ELEMENT_EXISTS => "element_exists" | ELEMENT_NOT_EXISTS => "element_not_exists"
  | ELEMENT_VISIBLE => "element_visible" | ELEMENT_HIDDEN => "element_hidden"
  | ELEMENT_COUNT => "element_count"
  | ATTRIBUTE_EQUALS => "attribute_equals" | ATTRIBUTE_CONTAINS => "attribute_contains"
  | ATTRIBUTE_EXISTS => "attribute_exists"
  | URL_EQUALS => "url_equals" | URL_CONTAINS => "url_contains"
  | URL_MATCHES => "url_matches" | URL_STARTS_WITH => "url_starts_with"
  | URL_ENDS_WITH => "url_ends_with"
  | TITLE_EQUALS => "title_equals" | TITLE_CONTAINS => "title_contains"
  | TITLE_MATCHES => "title_matches"
  | INPUT_VALUE_EQUALS => "input_value_equals"
  | INPUT_VALUE_CONTAINS => "input_value_contains"
  | CHECKBOX_CHECKED => "checkbox_checked" | CHECKBOX_UNCHECKED => "checkbox_unchecked"
  | ELEMENT_ENABLED => "element_enabled" | ELEMENT_DISABLED => "element_disabled"
  end.

(** [AssertionType.name] *)
Definition type_name (t : AssertionType) : string :=
  match t with
  | TEXT_EXISTS => "TEXT_EXISTS"
  | TEXT_NOT_EXISTS => "TEXT_NOT_EXISTS"
  | TEXT_EQUALS => "TEXT_EQUALS"
  | TEXT_CONTAINS => "TEXT_CONTAINS"
  | TEXT_MATCHES => "TEXT_MATCHES"
  | ELEMENT_EXISTS => "ELEMENT_EXISTS"
  | ELEMENT_NOT_EXISTS => "ELEMENT_NOT_EXISTS"
  | ELEMENT_VISIBLE => "ELEMENT_VISIBLE"
  | ELEMENT_HIDDEN => "ELEMENT_HIDDEN"
  | ELEMENT_COUNT => "ELEMENT_COUNT"
  | ATTRIBUTE_EQUALS => "ATTRIBUTE_EQUALS"
  | ATTRIBUTE_CONTAINS => "ATTRIBUTE_CONTAINS"
  | ATTRIBUTE_EXISTS => "ATTRIBUTE_EXISTS"
  | URL_EQUALS => "URL_EQUALS"
  | URL_CONTAINS => "URL_CONTAINS"
  | URL_MATCHES => "URL_MATCHES"
  | URL_STARTS_WITH => "URL_STARTS_WITH"
  | URL_ENDS_WITH => "URL_ENDS_WITH"
  | TITLE_EQUALS => "TITLE_EQUALS"
  | TITLE_CONTAINS => "TITLE_CONTAINS"
  | TITLE_MATCHES => "TITLE_MATCHES"
  | INPUT_VALUE_EQUALS => "INPUT_VALUE_EQUALS"
  | INPUT_VALUE_CONTAINS => "INPUT_VALUE_CONTAINS"
  | CHECKBOX_CHECKED => "CHECKBOX_CHECKED"
  | CHECKBOX_UNCHECKED => "CHECKBOX_UNCHECKED"
  | ELEMENT_ENABLED => "ELEMENT_ENABLED"
  | ELEMENT_DISABLED => "ELEMENT_DISABLED"
  end.

(** A Python [float], seen through the operations the code applies to an
    expected value: [str], [int] and the truth test. *)
Record PyFloat := { fl_str : ustr; fl_int : result Z; fl_bool : bool }.

(** [Optional[Union[str, bool, int, float]]], and the values found in
    [actual_value] and [expected_value]. *)
Inductive pyval :=
| VNone
| VStr (s : ustr)
| VBool (b : bool)
| VInt (z : Z)
| VFloat (f : PyFloat).

(** [class Assertion(BaseModel)] *)
Record Assertion := {
  type : AssertionType;
  selector : option ustr;
  expected : pyval;
  attribute : option ustr;
  timeout : Z;
  ignore_case : bool;
  wait_for : bool
}.

(** The dictionary [parse] returns: the keys "type", "expected" and
    "selector". *)
Record assertion_info := {
  info_type : AssertionType;
  info_expected : pyval;
  info_selector : option ustr
}.

(** The [Assertion] built from the dictionary (its keys as keyword
    arguments): the other fields take their defaults. *)
Definition Assertion_of_info (i : assertion_info) : Assertion :=
  {| type := info_type i;
     selector := info_selector i;
     expected := info_expected i;
     attribute := None;
     timeout := 5000;
     ignore_case := false;
     wait_for := true |}.

(** ** The pattern table

    Each entry is (pattern, assertion type, parameter kind), in the order
    of the source. Where the source writes two double quotes in a row
    inside a pattern, Python reads the end of one literal and the start of
    the next and concatenates them; the pieces are kept apart here as the
    source has them. *)

Definition PATTERNS : list (string * AssertionType * string) := [
  (* line 107 *)
  ("(.+?)が(?:表示されて|出て|見えて)?(?:いる|いること|いることを)(?:確認|チェック|検証)(?:する|します|してください|お願いします)?",
   TEXT_EXISTS, "text");
  (* line 109 *)
  ("[「" ++ "](.+?)[」" ++ "]が(?:表示|存在|出現)(?:している|することを|することを確認)(?:する|します|してください|お願いします)?",
   TEXT_EXISTS, "text");
  (* line 111 *)
  ("[「" ++ "](.+?)[」" ++ "]という(?:テキスト|文字|メッセージ)が(?:表示|存在)(?:している|することを確認)(?:する|します|してください|お願いします)?",
   TEXT_EXISTS, "text");
  (* line 115 *)
  ("(.+?)が(?:表示されて|出て|見えて)?(?:いない|いないこと|いないことを)(?:確認|チェック|検証)(?:する|します|してください|お願いします)?",
   TEXT_NOT_EXISTS, "text");
  (* line 117 *)
  ("[「" ++ "](.+?)[」" ++ "]が(?:表示されて|存在して)?(?:いない|いないことを確認)(?:する|します|してください|お願いします)?",
   TEXT_NOT_EXISTS, "text");
  (* line 119 *)
  ("[「" ++ "](.+?)[」" ++ "]という(?:テキスト|文字|メッセージ)が(?:表示されて|存在して)?(?:いない|いないことを確認)(?:する|します|してください|お願いします)?",
   TEXT_NOT_EXISTS, "text");
  (* line 123 *)
  ("(.+?)(?:ボタン|リンク|フィールド|要素|項目)が(?:存在|表示|出現)(?:している|することを確認)",
   ELEMENT_EXISTS, "selector");
  (* line 125 *)
  ("(.+?)が(?:見える|表示されている|存在することを確認)",
   ELEMENT_VISIBLE, "selector");
  (* line 129 *)
  ("(.+?)(?:ボタン|リンク|フィールド|要素|項目)が(?:存在して|表示されて)?(?:いない|いないことを確認)",
   ELEMENT_NOT_EXISTS, "selector");
  (* line 131 *)
  ("(.+?)が(?:見えない|表示されていない|存在しないことを確認)",
   ELEMENT_HIDDEN, "selector");
  (* line 135 *)
  ("URLが(.+?)(?:で終わる|になっている|であることを確認)(?:する|します|してください|お願いします)?",
   URL_CONTAINS, "url");
  (* line 137 *)
  ("URLに[「" ++ "]?(.+?)[」" ++ "]?が含まれる(?:ことを確認)?(?:する|します|してください|お願いします)?",
   URL_CONTAINS, "url");
  (* line 139 *)
  ("(?:ページの)?URLが[「" ++ "](.+?)[」" ++ "](?:と一致|であることを確認)(?:する|します|してください|お願いします)?",
   URL_EQUALS, "url");
  (* line 141 *)
  ("URLが[「" ++ "]?(.+?)[」" ++ "]?で始まることを確認(?:する|します|してください|お願いします)?",
   URL_STARTS_WITH, "url");
  (* line 143 *)
  ("URLが[「" ++ "]?(.+?)[」" ++ "]?で終わることを確認(?:する|します|してください|お願いします)?",
   URL_ENDS_WITH, "url");
  (* line 147 *)
  ("(?:ページ)?タイトルが[「" ++ "](.+?)[」" ++ "](?:であることを確認|と一致)(?:する|します|してください|お願いします)?",
   TITLE_EQUALS, "title");
  (* line 149 *)
  ("(?:ページ)?タイトルに[「" ++ "]?(.+?)[」" ++ "]?が含まれる(?:ことを確認)?(?:する|します|してください|お願いします)?",
   TITLE_CONTAINS, "title");
  (* line 153 *)
  ("(.+?)(?:フィールド|入力欄)の値が「(.+?)」(?:であることを確認|と一致)",
   INPUT_VALUE_EQUALS, "selector_value");
  (* line 155 *)
  ("(.+?)(?:チェックボックス|チェック)が(?:チェックされて|選択されて)(?:いる|いることを確認)",
   CHECKBOX_CHECKED, "selector");
  (* line 157 *)
  ("(.+?)(?:チェックボックス|チェック)が(?:チェックされて|選択されて)?(?:いない|いないことを確認)",
   CHECKBOX_UNCHECKED, "selector");
  (* line 161 *)
  ("(.+?)が(\d+)(?:個|件|つ)(?:表示|存在)(?:している|することを確認)",
   ELEMENT_COUNT, "selector_count");
  (* line 163 *)
  ("(.+?)の(?:数が|件数が)(\d+)(?:であることを確認|と一致)",
   ELEMENT_COUNT, "selector_count");
  (* line 167 *)
  ("(h[1-6]|div|span|p|table|form|input|button)要素が(?:表示されて|存在して)?(?:いる|いることを確認)",
   ELEMENT_EXISTS, "html_element");
  (* line 169 *)
  ("(h[1-6]|div|span|p|table|form|input|button)タグが(?:表示されて|存在して)?(?:いる|いることを確認)",
   ELEMENT_EXISTS, "html_element");
  (* line 173 *)
  ("(?:verify|check|confirm|assert)(?:\s+that)?\s+[\" ++ dq ++ "'](.+?)[\" ++ dq ++ "']\s+(?:is|exists?|appears?|is\s+(?:visible|displayed|present))",
   TEXT_EXISTS, "text");
  (* line 175 *)
  ("(?:verify|check|confirm|assert)(?:\s+that)?\s+[\" ++ dq ++ "'](.+?)[\" ++ dq ++ "']\s+(?:is\s+not|does\s+not\s+exist|is\s+(?:not\s+visible|hidden|absent))",
   TEXT_NOT_EXISTS, "text");
  (* line 177 *)
  ("(?:verify|check|confirm|assert)(?:\s+that)?\s+(?:the\s+)?url\s+contains\s+[\" ++ dq ++ "'](.+?)[\" ++ dq ++ "']",
   URL_CONTAINS, "url");
  (* line 179 *)
  ("(?:verify|check|confirm|assert)(?:\s+that)?\s+(?:the\s+)?url\s+starts\s+with\s+[\" ++ dq ++ "'](.+?)[\" ++ dq ++ "']",
   URL_STARTS_WITH, "url");
  (* line 181 *)
  ("(?:verify|check|confirm|assert)(?:\s+that)?\s+(?:the\s+)?url\s+ends\s+with\s+[\" ++ dq ++ "'](.+?)[\" ++ dq ++ "']",
   URL_ENDS_WITH, "url");
  (* line 183 *)
  ("(?:verify|check|confirm|assert)(?:\s+that)?\s+(?:the\s+)?title\s+contains\s+[\" ++ dq ++ "'](.+?)[\" ++ dq ++ "']",
   TITLE_CONTAINS, "title");
  (* line 185 *)
  ("(?:verify|check|confirm|assert)(?:\s+that)?\s+(?:the\s+)?title\s+(?:is|equals)\s+[\" ++ dq ++ "'](.+?)[\" ++ dq ++ "']",
   TITLE_EQUALS, "title");
  (* line 189 *)
  ("(?:验证|检查|确认|断言)[\" ++ dq ++ "'" ++ "](.+?)[" ++ dq ++ "'" ++ "](?:存在|显示|出现)",
   TEXT_EXISTS, "text");
  (* line 191 *)
  ("(?:验证|检查|确认|断言)[\" ++ dq ++ "'" ++ "](.+?)[" ++ dq ++ "'" ++ "](?:不存在|未显示|不出现)",
   TEXT_NOT_EXISTS, "text");
  (* line 193 *)
  ("(?:验证|检查|确认|断言)(?:网址|URL)包含[\" ++ dq ++ "'" ++ "](.+?)[" ++ dq ++ "'" ++ "]",
   URL_CONTAINS, "url");
  (* line 195 *)
  ("(?:验证|检查|确认|断言)(?:网址|URL)以[\" ++ dq ++ "'" ++ "](.+?)[" ++ dq ++ "'" ++ "]开头",
   URL_STARTS_WITH, "url");
  (* line 197 *)
  ("(?:验证|检查|确认|断言)(?:网址|URL)以[\" ++ dq ++ "'" ++ "](.+?)[" ++ dq ++ "'" ++ "]结尾",
   URL_ENDS_WITH, "url");
  (* line 199 *)
  ("(?:验证|检查|确认|断言)标题包含[\" ++ dq ++ "'" ++ "](.+?)[" ++ dq ++ "'" ++ "]",
   TITLE_CONTAINS, "title");
  (* line 201 *)
  ("(?:验证|检查|确认|断言)标题(?:是|等于)[\" ++ dq ++ "'" ++ "](.+?)[" ++ dq ++ "'" ++ "]",
   TITLE_EQUALS, "title");
  (* line 207 *)
  ("[「" ++ "]?(.+?)[」" ++ "]?(?:って|という(?:の|もの))(?:が|は)(?:あるか|存在するか|見えるか)(?:確認|チェック)(?:する|します|してください)?",
   TEXT_EXISTS, "text");
  (* line 209 *)
  ("[「" ++ "]?(.+?)[」" ++ "]?(?:は|が)(?:表示されて|見えて)(?:いますか|いるでしょうか|いるか)(?:？|\?)?",
   TEXT_EXISTS, "text");
  (* line 211 *)
  ("[「" ++ "]?(.+?)[」" ++ "]?(?:が|って)(?:ちゃんと|きちんと|正しく)(?:表示|出て)(?:る|いる)(?:か|かな|だろうか)(?:確認|見る)",
   TEXT_EXISTS, "text");
  (* line 213 *)
  ("[「" ++ "]?(.+?)[」" ++ "]?(?:が|って)(?:表示されてる|出てる|見える)(?:よね|ね|な)(?:？|\?)?",
   TEXT_EXISTS, "text");
  (* line 217 *)
  ("[「" ++ "]?(.+?)[」" ++ "]?(?:が|の)(?:表示状況|存在状況|可視性)(?:を|について)(?:確認|検証|チェック)(?:する|します|してください)?",
   TEXT_EXISTS, "text");
  (* line 219 *)
  ("[「" ++ "]?(.+?)[」" ++ "]?(?:について|に関して)(?:表示|存在)(?:確認|検証|チェック)(?:を行う|を実施)(?:する|します|してください)?",
   TEXT_EXISTS, "text");
  (* line 221 *)
  ("[「" ++ "]?(.+?)[」" ++ "]?(?:の|が)(?:画面表示|画面出力|レンダリング)(?:を|について)(?:確認|検証)(?:する|します|してください)?",
   TEXT_EXISTS, "text");
  (* line 225 *)
  ("もし[「" ++ "]?(.+?)[」" ++ "]?(?:が|って)(?:表示|存在)(?:されて|して)?(?:いる|いたら)(?:なら|場合)(?:確認|チェック)(?:する|します)?",
   TEXT_EXISTS, "text");
  (* line 227 *)
  ("[「" ++ "]?(.+?)[」" ++ "]?(?:が|って)(?:正常に|適切に)(?:表示|出力|レンダリング)(?:されている|されてる)(?:こと|ことを)(?:確認|検証)(?:する|します)?",
   TEXT_EXISTS, "text");
  (* line 231 *)
  ("[「" ++ "]?(.+?)[」" ++ "]?(?:が|って)(?:間違いなく|確実に|絶対に)(?:表示|存在)(?:している|してる)(?:はず|だろう)(?:だから|なので)?(?:確認|チェック)(?:する|します)?",
   TEXT_EXISTS, "text");
  (* line 233 *)
  ("[「" ++ "]?(.+?)[」" ++ "]?(?:が|って)(?:やっぱり|結局|案の定)(?:表示|出て)(?:いる|いた)(?:か|かな|だろうか)(?:確認|見る)(?:します)?",
   TEXT_EXISTS, "text");
  (* line 237 *)
  ("(?:現在の|今の|このページの)?(?:URL|アドレス|リンク)(?:が|に|で)[「" ++ "]?(.+?)[」" ++ "]?(?:が|を)(?:含んで|含ま|入って)(?:いる|いること|いることを)(?:確認|チェック|検証)(?:する|します|してください)?",
   URL_CONTAINS, "url");
  (* line 239 *)
  ("(?:ページの|サイトの)?(?:URL|アドレス)(?:が|は)[「" ++ "]?(.+?)[」" ++ "]?(?:から|で)(?:始まって|スタートして)(?:いる|いること|いることを)(?:確認|チェック|検証)(?:する|します|してください)?",
   URL_STARTS_WITH, "url");
  (* line 241 *)
  ("(?:URL|アドレス)(?:の|が)(?:末尾|最後)(?:が|は|に)[「" ++ "]?(.+?)[」" ++ "]?(?:で|と)(?:終わって|なって)(?:いる|いること|いることを)(?:確認|チェック|検証)(?:する|します|してください)?",
   URL_ENDS_WITH, "url");
  (* line 245 *)
  ("(?:ページの|サイトの|この)?(?:タイトル|題名|見出し)(?:が|に|で)[「" ++ "]?(.+?)[」" ++ "]?(?:が|を)(?:含んで|含ま|入って)(?:いる|いること|いることを)(?:確認|チェック|検証)(?:する|します|してください)?",
   TITLE_CONTAINS, "title");
  (* line 247 *)
  ("(?:ページの|サイトの)?(?:タイトル|題名|見出し)(?:が|は)[「" ++ "]?(.+?)[」" ++ "]?(?:と|に|で)(?:一致|同じ|マッチ)(?:している|してる|することを)(?:確認|チェック|検証)(?:する|します|してください)?",
   TITLE_EQUALS, "title");
  (* line 251 *)
  ("[「" ++ "]?(.+?)[」" ++ "]?(?:が|って)(?:表示されて|出て|見えて)?(?:いない|ない)(?:こと|ことを|はず)(?:を|について)?(?:確認|チェック|検証)(?:する|します|してください)?",
   TEXT_NOT_EXISTS, "text");
  (* line 253 *)
  ("[「" ++ "]?(.+?)[」" ++ "]?(?:が|って)(?:画面に|ページに)(?:表示されて|出て|見えて)?(?:いない|ない|存在しない)(?:はず|だろう|と思う)(?:だから|なので)?(?:確認|チェック)(?:する|します)?",
   TEXT_NOT_EXISTS, "text");
  (* line 255 *)
  ("[「" ++ "]?(.+?)[」" ++ "]?(?:なんて|という)(?:テキスト|文字|メッセージ)(?:が|は)(?:表示されて|出て)?(?:いない|ない)(?:はず|だろう)(?:確認|チェック)(?:する|します)?",
   TEXT_NOT_EXISTS, "text");
  (* line 259 *)
  ("(?:make sure|ensure|verify|check)(?:\s+that)?\s+[\" ++ dq ++ "'](.+?)[\" ++ dq ++ "']\s+(?:is\s+(?:present|shown|displayed|visible|there)|(?:appears|exists|shows up))",
   TEXT_EXISTS, "text");
  (* line 261 *)
  ("(?:make sure|ensure|verify|check)(?:\s+that)?\s+[\" ++ dq ++ "'](.+?)[\" ++ dq ++ "']\s+(?:is\s+not\s+(?:present|shown|displayed|visible|there)|(?:does\s+not\s+(?:appear|exist|show up)))",
   TEXT_NOT_EXISTS, "text");
  (* line 263 *)
  ("(?:i\s+(?:should|need to|want to)\s+)?(?:see|find|locate)\s+[\" ++ dq ++ "'](.+?)[\" ++ dq ++ "']\s+(?:on\s+(?:the\s+)?(?:page|screen))?",
   TEXT_EXISTS, "text");
  (* line 265 *)
  ("(?:the\s+)?(?:page|screen)\s+(?:should|must|needs to)\s+(?:show|display|contain)\s+[\" ++ dq ++ "'](.+?)[\" ++ dq ++ "']",
   TEXT_EXISTS, "text");
  (* line 269 *)
  ("(?:检查|确认|验证)[\" ++ dq ++ "'" ++ "](.+?)[" ++ dq ++ "'" ++ "](?:是否|有没有)(?:显示|出现|存在)",
   TEXT_EXISTS, "text");
  (* line 271 *)
  ("(?:页面|屏幕)(?:上|中)(?:应该|必须|需要)(?:显示|包含|有)[\" ++ dq ++ "'" ++ "](.+?)[" ++ dq ++ "'" ++ "]",
   TEXT_EXISTS, "text");
  (* line 273 *)
  ("(?:确保|保证)[\" ++ dq ++ "'" ++ "](.+?)[" ++ dq ++ "'" ++ "](?:在|于)(?:页面|屏幕)(?:上|中)(?:显示|出现)",
   TEXT_EXISTS, "text");
  (* line 279 *)
  ("[「" ++ "]?(.+?)[」" ++ "]?(?:が|って)(?:出てる|見える)(?:で|やん|やんか|わ|な)(?:？|\?)?",
   TEXT_EXISTS, "text");
  (* line 281 *)
  ("[「" ++ "]?(.+?)[」" ++ "]?(?:ちゃんと|きちんと)(?:表示されてる|出てる)(?:か|やろか|やん)(?:確認|見る)(?:し|しい|してや)?",
   TEXT_EXISTS, "text");
  (* line 283 *)
  ("[「" ++ "]?(.+?)[」" ++ "]?(?:が|って)(?:表示されとる|出とる)(?:か|やろ|わ)(?:確認|チェック)",
   TEXT_EXISTS, "text");
  (* line 287 *)
  ("[「" ++ "]?(.+?)[」" ++ "]?(?:が|って)(?:出てる|見える)(?:べ|だべ|ぺ)(?:？|\?)?",
   TEXT_EXISTS, "text");
  (* line 289 *)
  ("[「" ++ "]?(.+?)[」" ++ "]?(?:ちゃんと|きちんと)(?:表示されてる|出てる)(?:べ|だべ)(?:か|が)(?:確認|見る)",
   TEXT_EXISTS, "text");
  (* line 293 *)
  ("[「" ++ "]?(.+?)[」" ++ "]?(?:が|って)(?:出てる|見える)(?:と|ばい|たい)(?:？|\?)?",
   TEXT_EXISTS, "text");
  (* line 295 *)
  ("[「" ++ "]?(.+?)[」" ++ "]?(?:ちゃんと|きちんと)(?:表示されてる|出てる)(?:と|ばい)(?:確認|見る)",
   TEXT_EXISTS, "text");
  (* line 301 *)
  ("(?:あっ|おっ|えっ)[「" ++ "]?(.+?)[」" ++ "]?(?:が|って)(?:表示されてる|出てる|見える)(?:じゃん|やん|ね)(?:！|!)?(?:確認|チェック)?",
   TEXT_EXISTS, "text");
  (* line 303 *)
  ("(?:やっぱり|案の定|思った通り)[「" ++ "]?(.+?)[」" ++ "]?(?:が|って)(?:表示されてる|出てる|見える)(?:な|ね|わ)(?:確認|チェック)?",
   TEXT_EXISTS, "text");
  (* line 307 *)
  ("[「" ++ "]?(.+?)[」" ++ "]?(?:が|って)(?:本当に|ちゃんと|きちんと)(?:表示されてる|出てる|見える)(?:かな|だろうか|のかしら)(?:？|\?)?(?:確認|チェック)?",
   TEXT_EXISTS, "text");
  (* line 309 *)
  ("[「" ++ "]?(.+?)[」" ++ "]?(?:が|って)(?:正しく|適切に|問題なく)(?:表示されてる|出てる|見える)(?:か|かな)(?:不安|心配)(?:だから|なので)(?:確認|チェック)",
   TEXT_EXISTS, "text");
  (* line 313 *)
  ("[「" ++ "]?(.+?)[」" ++ "]?(?:が|って)(?:絶対に|間違いなく|確実に|必ず)(?:表示されてる|出てる|見える)(?:はず|に違いない|と思う)(?:確認|チェック)?",
   TEXT_EXISTS, "text");
  (* line 315 *)
  ("[「" ++ "]?(.+?)[」" ++ "]?(?:は|が)(?:当然|もちろん|当たり前に)(?:表示されてる|出てる|見える)(?:よね|でしょ|はず)(?:確認|チェック)?",
   TEXT_EXISTS, "text");
  (* line 321 *)
  ("[「" ++ "]?(.+?)[」" ++ "]?(?:が|の)(?:レンダリング|描画|出力)(?:が|は)(?:正常|適切|問題なし)(?:か|かどうか)(?:確認|検証|チェック)",
   TEXT_EXISTS, "text");
  (* line 323 *)
  ("[「" ++ "]?(.+?)[」" ++ "]?(?:が|の)(?:DOM|HTML)(?:に|上で)(?:存在|表示)(?:している|してる)(?:か|かどうか)(?:確認|検証)",
   TEXT_EXISTS, "text");
  (* line 325 *)
  ("[「" ++ "]?(.+?)[」" ++ "]?(?:の|が)(?:UI|画面|インターフェース)(?:上|で)(?:表示|レンダリング)(?:されている|されてる)(?:確認|検証)",
   TEXT_EXISTS, "text");
  (* line 329 *)
  ("[「" ++ "]?(.+?)[」" ++ "]?(?:が|の)(?:期待値|想定値|予期値)(?:通り|どおり)(?:表示|出力)(?:されている|されてる)(?:確認|検証|テスト)",
   TEXT_EXISTS, "text");
  (* line 331 *)
  ("[「" ++ "]?(.+?)[」" ++ "]?(?:の|が)(?:表示|出力)(?:に関する|について)(?:回帰テスト|リグレッションテスト|検証)",
   TEXT_EXISTS, "text");
  (* line 333 *)
  ("[「" ++ "]?(.+?)[」" ++ "]?(?:が|の)(?:アサーション|assertion)(?:として|で)(?:期待|想定)(?:されている|されてる)(?:確認|検証)",
   TEXT_EXISTS, "text");
  (* line 339 *)
  ("[「" ++ "]?(.+?)[」" ++ "]?(?:が|って)(?:前は|以前は|昨日は)(?:表示されて|出て)(?:いた|た)(?:か|かな)(?:確認|チェック)",
   TEXT_EXISTS, "text");
  (* line 341 *)
  ("[「" ++ "]?(.+?)[」" ++ "]?(?:が|って)(?:さっき|先ほど|今しがた)(?:表示されて|出て)(?:いた|た)(?:はず|と思う)(?:確認|チェック)",
   TEXT_EXISTS, "text");
  (* line 345 *)
  ("[「" ++ "]?(.+?)[」" ++ "]?(?:が|って)(?:これから|今後|後で)(?:表示される|出る)(?:はず|だろう|と思う)(?:確認|チェック)",
   TEXT_EXISTS, "text");
  (* line 347 *)
  ("[「" ++ "]?(.+?)[」" ++ "]?(?:が|って)(?:きっと|おそらく|たぶん)(?:表示される|出る)(?:だろう|と思う)(?:確認|チェック)",
   TEXT_EXISTS, "text");
  (* line 353 *)
  ("(?:もし|if)[「" ++ "]?(.+?)[」" ++ "]?(?:が|って)(?:表示されて|出て)(?:いて|て)(?:、かつ|、そして|、なおかつ)(?:正常|適切|問題なし)(?:なら|であれば)(?:確認|検証)",
   TEXT_EXISTS, "text");
  (* line 355 *)
  ("[「" ++ "]?(.+?)[」" ++ "]?(?:が|って)(?:表示されて|出て)(?:いる|る)(?:こと|の)(?:を|について)(?:前提|条件)(?:として|に)(?:確認|検証)",
   TEXT_EXISTS, "text");
  (* line 359 *)
  ("[「" ++ "]?(.+?)[」" ++ "]?(?:が|って)(?:表示されて|出て)(?:いない|ない)(?:かも|かもしれない|可能性)(?:だから|なので)(?:確認|チェック)",
   TEXT_NOT_EXISTS, "text");
  (* line 361 *)
  ("[「" ++ "]?(.+?)[」" ++ "]?(?:が|って)(?:もう|既に)(?:表示されて|出て)(?:いない|ない)(?:はず|だろう|と思う)(?:確認|チェック)",
   TEXT_NOT_EXISTS, "text");
  (* line 367 *)
  ("[「" ++ "]?(.+?)[」" ++ "]?(?:が|の)(?:表示|出力)(?:について|に関して)(?:ご確認|確認)(?:いただき|して)(?:たい|ください|お願いします)",
   TEXT_EXISTS, "text");
  (* line 369 *)
  ("[「" ++ "]?(.+?)[」" ++ "]?(?:の|が)(?:表示状況|存在確認)(?:について|に関して)(?:お調べ|調査)(?:いただき|して)(?:たい|ください)",
   TEXT_EXISTS, "text");
  (* line 373 *)
  ("[「" ++ "]?(.+?)[」" ++ "]?(?:が|の)(?:表示|存在)(?:について|に関して)(?:拝見|確認)(?:させて|して)(?:いただき|)(?:たい|ます)",
   TEXT_EXISTS, "text");
  (* line 375 *)
  ("[「" ++ "]?(.+?)[」" ++ "]?(?:の|が)(?:表示確認|存在確認)(?:を|について)(?:実施|行わ)(?:せて|して)(?:いただき|)(?:たい|ます)",
   TEXT_EXISTS, "text");
  (* line 381 *)
  ("(?:現在表示中|表示されている|アクセス中)(?:の|している)(?:URL|アドレス|ページ)(?:が|に|で)[「" ++ "]?(.+?)[」" ++ "]?(?:が|を)(?:含んで|含有して|内包して)(?:いる|いること)(?:を|について)(?:確認|検証|チェック)",
   URL_CONTAINS, "url");
  (* line 383 *)
  ("(?:ブラウザ|画面)(?:の|で)(?:アドレスバー|URL欄)(?:が|に|で)[「" ++ "]?(.+?)[」" ++ "]?(?:で|から)(?:開始|スタート)(?:している|してる)(?:確認|検証)",
   URL_STARTS_WITH, "url");
  (* line 385 *)
  ("(?:WebページのURL|サイトアドレス)(?:が|は)[「" ++ "]?(.+?)[」" ++ "]?(?:で|にて)(?:終了|終わっ|完了)(?:している|してる)(?:確認|検証)",
   URL_ENDS_WITH, "url");
  (* line 389 *)
  ("(?:ブラウザ|タブ)(?:の|で)(?:タイトルバー|題名欄|ヘッダー)(?:が|に|で)[「" ++ "]?(.+?)[」" ++ "]?(?:が|を)(?:含んで|含有して)(?:いる|いること)(?:確認|検証)",
   TITLE_CONTAINS, "title");
  (* line 391 *)
  ("(?:Webページ|サイト)(?:の|で)(?:メタタイトル|ページタイトル)(?:が|は)[「" ++ "]?(.+?)[」" ++ "]?(?:と|に)(?:完全一致|正確に一致)(?:している|してる)(?:確認|検証)",
   TITLE_EQUALS, "title");
  (* line 397 *)
  ("(?:yo|hey|ok|so),?\s*(?:is|does)\s*[\" ++ dq ++ "'](.+?)[\" ++ dq ++ "']\s*(?:show up|appear|display|show)(?:\s+(?:on|in)\s+(?:the\s+)?(?:page|screen))?",
   TEXT_EXISTS, "text");
  (* line 399 *)
  ("(?:can\s+(?:you|i|we)|could\s+(?:you|i|we))\s*(?:see|find|spot|locate)\s*[\" ++ dq ++ "'](.+?)[\" ++ dq ++ "'](?:\s+(?:on|in)\s+(?:the\s+)?(?:page|screen))?",
   TEXT_EXISTS, "text");
  (* line 401 *)
  ("(?:looks like|seems like|appears that)\s*[\" ++ dq ++ "'](.+?)[\" ++ dq ++ "']\s*(?:is|shows|appears|displays)(?:\s+(?:on|in)\s+(?:the\s+)?(?:page|screen))?",
   TEXT_EXISTS, "text");
  (* line 405 *)
  ("(?:please\s+)?(?:validate|verify|confirm|check)\s+(?:that\s+)?(?:the\s+)?(?:text|content|element)\s+[\" ++ dq ++ "'](.+?)[\" ++ dq ++ "']\s+(?:is\s+)?(?:present|visible|displayed|shown)",
   TEXT_EXISTS, "text");
  (* line 407 *)
  ("(?:we\s+(?:need|must|should)\s+to\s+)?(?:ensure|verify|confirm)\s+(?:that\s+)?[\" ++ dq ++ "'](.+?)[\" ++ dq ++ "']\s+(?:appears|shows|displays|is\s+visible)",
   TEXT_EXISTS, "text");
  (* line 409 *)
  ("(?:it\s+is\s+)?(?:required|necessary|essential)\s+(?:that\s+)?[\" ++ dq ++ "'](.+?)[\" ++ dq ++ "']\s+(?:be|is)\s+(?:present|visible|displayed)",
   TEXT_EXISTS, "text");
  (* line 413 *)
  ("(?:do\s+(?:you|we)|can\s+(?:you|we)|should\s+(?:we|i))\s+(?:see|find|verify|check)\s+(?:if\s+)?[\" ++ dq ++ "'](.+?)[\" ++ dq ++ "']\s+(?:is\s+)?(?:there|present|visible|shown)",
   TEXT_EXISTS, "text");
  (* line 415 *)
  ("(?:is|are|does)\s+[\" ++ dq ++ "'](.+?)[\" ++ dq ++ "']\s+(?:currently\s+)?(?:showing|displayed|visible|present)(?:\s+(?:on|in)\s+(?:the\s+)?(?:page|screen))?",
   TEXT_EXISTS, "text");
  (* line 421 *)
  ("(?:看看|瞅瞅|瞧瞧)[\" ++ dq ++ "'" ++ "](.+?)[" ++ dq ++ "'" ++ "](?:有没有|是否)(?:显示|出现|存在)(?:了|呢|吗|嗎)?",
   TEXT_EXISTS, "text");
  (* line 423 *)
  ("[\" ++ dq ++ "'" ++ "](.+?)[" ++ dq ++ "'" ++ "](?:应该|应当|估计|可能)(?:会|要)(?:显示|出现|存在)(?:吧|呢|了)(?:，|,)?(?:检查|确认|验证)(?:一下|下)",
   TEXT_EXISTS, "text");
  (* line 427 *)
  ("(?:请|請)(?:您|你们|大家)(?:协助|帮助|帮忙)(?:确认|检查|验证)[\" ++ dq ++ "'" ++ "](.+?)[" ++ dq ++ "'" ++ "](?:的|之)(?:显示|存在|出现)(?:情况|状态|状况)",
   TEXT_EXISTS, "text");
  (* line 429 *)
  ("(?:需要|必须|须要)(?:对|针对)[\" ++ dq ++ "'" ++ "](.+?)[" ++ dq ++ "'" ++ "](?:进行|开展|实施)(?:显示|存在)(?:性|状态)(?:确认|检查|验证)",
   TEXT_EXISTS, "text");
  (* line 433 *)
  ("[\" ++ dq ++ "'" ++ "](.+?)[" ++ dq ++ "'" ++ "](?:有|在)(?:这个|这|那个|那)(?:页面|屏幕|界面)(?:上|里|中)(?:显示|出现|存在)(?:了|着|呢|嗎)(?:？|?)?",
   TEXT_EXISTS, "text");
  (* line 435 *)
  ("(?:你|您|大家)(?:能|可以|会)(?:看到|找到|发现)[\" ++ dq ++ "'" ++ "](.+?)[" ++ dq ++ "'" ++ "](?:在|于)(?:页面|屏幕)(?:上|中)(?:显示|出现)(?:吗|嗎|呢)(?:？|?)?",
   TEXT_EXISTS, "text");
  (* line 441 *)
  ("[「" ++ "]?(.+?)[」" ++ "]?(?:ボタン|button|Button|按钮|按鈕)(?:が|は)(?:表示|存在|クリック可能|押せる|有効)(?:になって|で|に)(?:いる|いること)(?:を|について)?(?:確認|検証|チェック)",
   ELEMENT_EXISTS, "button");
  (* line 443 *)
  ("[「" ++ "]?(.+?)[」" ++ "]?(?:を|の)(?:クリック|押す|タップ|click)(?:できる|可能)(?:か|かどうか)(?:確認|検証|チェック)",
   ELEMENT_ENABLED, "button");
  (* line 445 *)
  ("[「" ++ "]?(.+?)[」" ++ "]?(?:ボタン|button)(?:が|は)(?:無効|押せない|クリックできない|disabled)(?:になって|で)(?:いる|いること)(?:確認|検証)",
   ELEMENT_DISABLED, "button");
  (* line 449 *)
  ("[「" ++ "]?(.+?)[」" ++ "]?(?:リンク|link|Link|链接|鏈接)(?:が|は)(?:表示|存在|クリック可能|有効)(?:になって|で|に)(?:いる|いること)(?:を|について)?(?:確認|検証|チェック)",
   ELEMENT_EXISTS, "link");
  (* line 451 *)
  ("[「" ++ "]?(.+?)[」" ++ "]?(?:へのリンク|のリンク|へのリンク先)(?:が|は)(?:正しく|適切に)(?:設定|機能)(?:されて|して)(?:いる|いること)(?:確認|検証)",
   ELEMENT_EXISTS, "link");
  (* line 455 *)
  ("[「" ++ "]?(.+?)[」" ++ "]?(?:入力欄|フィールド|テキストボックス|input|field)(?:が|は|に)(?:空|から|empty|blank)(?:である|になって|で)(?:いる|いること)(?:確認|検証)",
   INPUT_VALUE_EQUALS, "input_empty");
  (* line 457 *)
  ("[「" ++ "]?(.+?)[」" ++ "]?(?:入力欄|フィールド|テキストボックス)(?:に|へ)(?:何か|値|データ)(?:が|を)(?:入力|設定)(?:されて|できて)(?:いる|いること)(?:確認|検証)",
   INPUT_VALUE_CONTAINS, "input_any");
  (* line 461 *)
  ("[「" ++ "]?(.+?)[」" ++ "]?(?:プルダウン|ドロップダウン|セレクトボックス|select)(?:で|から)[「" ++ "]?(.+?)[」" ++ "]?(?:が|を)(?:選択|選ばれて)(?:いる|いること)(?:確認|検証)",
   INPUT_VALUE_EQUALS, "select_value");
  (* line 463 *)
  ("[「" ++ "]?(.+?)[」" ++ "]?(?:の選択肢|のオプション)(?:に|で)[「" ++ "]?(.+?)[」" ++ "]?(?:が|を)(?:含まれて|存在して)(?:いる|いること)(?:確認|検証)",
   ELEMENT_EXISTS, "select_option");
  (* line 469 *)
  ("(?:ページ|画面|サイト)(?:が|の)(?:読み込み中|ローディング中|loading|載入中)(?:でない|ではない)(?:こと|ことを)(?:確認|検証)",
   ELEMENT_NOT_EXISTS, "loading");
  (* line 471 *)
  ("(?:ローディング|読み込み|スピナー|spinner)(?:が|は)(?:消えて|終わって|完了して)(?:いる|いること)(?:確認|検証)",
   ELEMENT_NOT_EXISTS, "loading");
  (* line 475 *)
  ("(?:エラー|error|Error|错误|錯誤)(?:メッセージ|表示|画面)(?:が|は)(?:出て|表示されて)(?:いない|ない)(?:こと|ことを)(?:確認|検証)",
   TEXT_NOT_EXISTS, "error");
  (* line 477 *)
  ("(?:警告|warning|Warning|警告信息)(?:が|は)(?:表示されて|出て)(?:いない|ない)(?:こと|ことを)(?:確認|検証)",
   TEXT_NOT_EXISTS, "warning");
  (* line 481 *)
  ("(?:成功|success|Success|成功信息)(?:メッセージ|表示)(?:が|は)(?:表示されて|出て)(?:いる|いること)(?:確認|検証)",
   TEXT_EXISTS, "success");
  (* line 483 *)
  ("(?:完了|完成|complete|Complete)(?:メッセージ|表示|画面)(?:が|は)(?:表示されて|出て)(?:いる|いること)(?:確認|検証)",
   TEXT_EXISTS, "complete");
  (* line 489 *)
  ("[「" ++ "]?(.+?)[」" ++ "]?(?:画像|イメージ|image|Image|图片|圖片)(?:が|は)(?:表示|ロード|読み込まれて)(?:いる|いること)(?:確認|検証)",
   ELEMENT_EXISTS, "image");
  (* line 491 *)
  ("(?:アイコン|icon|Icon)(?:の|で)[「" ++ "]?(.+?)[」" ++ "]?(?:が|は)(?:表示|見えて)(?:いる|いること)(?:確認|検証)",
   ELEMENT_EXISTS, "icon");
  (* line 495 *)
  ("(?:動画|ビデオ|video|Video|视频|視頻)(?:が|は)(?:再生可能|再生できる|playable)(?:な状態|で)(?:ある|いる)(?:確認|検証)",
   ELEMENT_EXISTS, "video");
  (* line 497 *)
  ("(?:動画|ビデオ|video)(?:プレイヤー|player)(?:が|は)(?:表示|ロード)(?:されて|して)(?:いる|いること)(?:確認|検証)",
   ELEMENT_EXISTS, "video_player");
  (* line 503 *)
  ("(?:テーブル|表|table|Table)(?:に|で)[「" ++ "]?(.+?)[」" ++ "]?(?:という|の)(?:データ|行|列)(?:が|は)(?:表示|含まれて)(?:いる|いること)(?:確認|検証)",
   TEXT_EXISTS, "table_data");
  (* line 505 *)
  ("(?:テーブル|表)(?:の|で)(?:行数|レコード数|件数)(?:が|は)(\d+)(?:件|行|個)(?:である|になって)(?:いる|いること)(?:確認|検証)",
   ELEMENT_COUNT, "table_rows");
  (* line 509 *)
  ("(?:リスト|一覧|list|List)(?:に|で)[「" ++ "]?(.+?)[」" ++ "]?(?:が|は)(?:含まれて|表示されて)(?:いる|いること)(?:確認|検証)",
   TEXT_EXISTS, "list_item");
  (* line 511 *)
  ("(?:リスト|一覧)(?:の|で)(?:項目数|アイテム数)(?:が|は)(\d+)(?:個|件|つ)(?:である|になって)(?:いる|いること)(?:確認|検証)",
   ELEMENT_COUNT, "list_items");
  (* line 517 *)
  ("(?:モーダル|ダイアログ|ポップアップ|modal|dialog|popup)(?:が|は)(?:開いて|表示されて)(?:いる|いること)(?:確認|検証)",
   ELEMENT_VISIBLE, "modal");
  (* line 519 *)
  ("(?:モーダル|ダイアログ|ポップアップ)(?:が|は)(?:閉じて|消えて)(?:いる|いること)(?:確認|検証)",
   ELEMENT_NOT_EXISTS, "modal");
  (* line 523 *)
  ("(?:アラート|alert|Alert)(?:が|は)(?:表示されて|出て)(?:いない|ない)(?:こと|ことを)(?:確認|検証)",
   ELEMENT_NOT_EXISTS, "alert");
  (* line 525 *)
  ("(?:通知|notification|Notification)(?:が|は)(?:表示されて|出て)(?:いる|いること)(?:確認|検証)",
   ELEMENT_EXISTS, "notification");
  (* line 531 *)
  ("[「" ++ "]?(.+?)[」" ++ "]?(?:メニュー|menu|Menu)(?:が|は)(?:開いて|展開されて|表示されて)(?:いる|いること)(?:確認|検証)",
   ELEMENT_VISIBLE, "menu");
  (* line 533 *)
  ("(?:ナビゲーション|navigation|nav)(?:に|で)[「" ++ "]?(.+?)[」" ++ "]?(?:が|は)(?:含まれて|表示されて)(?:いる|いること)(?:確認|検証)",
   TEXT_EXISTS, "nav");
  (* line 537 *)
  ("[「" ++ "]?(.+?)[」" ++ "]?(?:タブ|tab|Tab)(?:が|は)(?:選択|アクティブ|active)(?:されて|になって)(?:いる|いること)(?:確認|検証)",
   ELEMENT_EXISTS, "tab_active");
  (* line 539 *)
  ("(?:タブ|tab)(?:の|で)(?:内容|コンテンツ)(?:が|は)(?:正しく|適切に)(?:表示されて|切り替わって)(?:いる|いること)(?:確認|検証)",
   ELEMENT_VISIBLE, "tab_content");
  (* line 545 *)
  ("[「" ++ "]?(.+?)[」" ++ "]?(?:に|で)(?:aria-label|ariaラベル)(?:が|は)(?:設定|付与)(?:されて|して)(?:いる|いること)(?:確認|検証)",
   ATTRIBUTE_EXISTS, "aria_label");
  (* line 547 *)
  ("(?:スクリーンリーダー|screen reader)(?:で|に)(?:読み上げ可能|アクセス可能)(?:な|に)(?:なって|設定されて)(?:いる|いること)(?:確認|検証)",
   ATTRIBUTE_EXISTS, "aria");
  (* line 551 *)
  ("[「" ++ "]?(.+?)[」" ++ "]?(?:に|へ)(?:フォーカス|focus)(?:が|は)(?:当たって|移動して|設定されて)(?:いる|いること)(?:確認|検証)",
   ELEMENT_EXISTS, "focused");
  (* line 553 *)
  ("(?:タブキー|Tab)(?:で|により)(?:正しく|適切に)(?:フォーカス移動|ナビゲーション)(?:できる|可能)(?:である|こと)(?:確認|検証)",
   ELEMENT_ENABLED, "tabbable");
  (* line 559 *)
  ("(?:モバイル|スマホ|スマートフォン|mobile)(?:表示|ビュー|画面)(?:で|において)[「" ++ "]?(.+?)[」" ++ "]?(?:が|は)(?:正しく|適切に)(?:表示|レイアウト)(?:されて|して)(?:いる|いること)(?:確認|検証)",
   ELEMENT_VISIBLE, "mobile");
  (* line 561 *)
  ("(?:レスポンシブ|responsive)(?:デザイン|表示)(?:が|は)(?:正常|適切)(?:に|で)(?:動作|機能)(?:して|されて)(?:いる|いること)(?:確認|検証)",
   ELEMENT_VISIBLE, "responsive");
  (* line 567 *)
  ("(?:ページ|画面)(?:が|は)(\d+)(?:秒|ミリ秒|ms)(?:以内に|未満で)(?:表示|ロード|読み込み)(?:される|完了する)(?:こと|ことを)(?:確認|検証)",
   ELEMENT_VISIBLE, "performance");
  (* line 569 *)
  ("(?:レスポンス|応答|response)(?:が|は)(?:高速|速い|早い|quick|fast)(?:である|で)(?:こと|ことを)(?:確認|検証)",
   ELEMENT_VISIBLE, "fast_response");
  (* line 575 *)
  ("(?:HTTPS|https|SSL)(?:で|により)(?:保護|暗号化|secure)(?:されて|して)(?:いる|いること)(?:確認|検証)",
   URL_STARTS_WITH, "https");
  (* line 577 *)
  ("(?:セキュア|secure|安全)(?:な|に)(?:接続|通信)(?:である|になって)(?:いる|いること)(?:確認|検証)",
   URL_STARTS_WITH, "secure");
  (* line 583 *)
  ("[「" ++ "]?(.+?)[」" ++ "]?(?:※|＊|★|☆|●|○|■|□)(?:マーク|印|記号)(?:が|は)(?:表示|付いて)(?:いる|いること)(?:確認|検証)",
   TEXT_EXISTS, "symbol");
  (* line 585 *)
  ("(?:必須|required)(?:項目|フィールド)(?:に|で)(?:※|＊|アスタリスク)(?:が|は)(?:表示|付いて)(?:いる|いること)(?:確認|検証)",
   TEXT_EXISTS, "required_mark");
  (* line 591 *)
  ("(?:日付|日時|date|Date)(?:が|は)[「" ++ "]?(.+?)[」" ++ "]?(?:と|に)(?:設定|表示)(?:されて|して)(?:いる|いること)(?:確認|検証)",
   TEXT_EXISTS, "date");
  (* line 593 *)
  ("(?:今日|本日|today|Today)(?:の|が)(?:日付|日時)(?:が|は)(?:正しく|適切に)(?:表示|設定)(?:されて|して)(?:いる|いること)(?:確認|検証)",
   TEXT_EXISTS, "today_date");
  (* line 597 *)
  ("(?:時刻|時間|time|Time)(?:が|は)[「" ++ "]?(.+?)[」" ++ "]?(?:と|に)(?:設定|表示)(?:されて|して)(?:いる|いること)(?:確認|検証)",
   TEXT_EXISTS, "time");
  (* line 599 *)
  ("(?:現在時刻|現在時間|current time)(?:が|は)(?:正しく|適切に)(?:表示|更新)(?:されて|して)(?:いる|いること)(?:確認|検証)",
   TEXT_EXISTS, "current_time");
  (* line 605 *)
  ("(?:価格|金額|値段|price|Price)(?:が|は)[「" ++ "]?(.+?)[」" ++ "]?(?:円|ドル|dollar|USD|JPY)(?:で|と)(?:表示|設定)(?:されて|して)(?:いる|いること)(?:確認|検証)",
   TEXT_EXISTS, "price");
  (* line 607 *)
  ("(?:合計|総額|total|Total)(?:が|は)(?:正しく|適切に)(?:計算|表示)(?:されて|して)(?:いる|いること)(?:確認|検証)",
   TEXT_EXISTS, "total");
  (* line 613 *)
  ("(?:カウント|数|件数|count|Count)(?:が|は)(\d+)(?:に|と)(?:なって|等しく)(?:いる|いること)(?:確認|検証)",
   TEXT_CONTAINS, "count");
  (* line 615 *)
  ("(?:残り|あと|remaining)(\d+)(?:個|件|つ)(?:である|になって)(?:いる|いること)(?:確認|検証)",
   TEXT_CONTAINS, "remaining");
  (* line 621 *)
  ("(?:ログイン|サインイン|login|sign in)(?:状態|済み|中)(?:である|になって)(?:いる|いること)(?:確認|検証)",
   TEXT_EXISTS, "logged_in");
  (* line 623 *)
  ("(?:ログアウト|サインアウト|logout|sign out)(?:状態|済み)(?:である|になって)(?:いる|いること)(?:確認|検証)",
   TEXT_NOT_EXISTS, "logged_in");
  (* line 627 *)
  ("(?:ユーザー名|ユーザーID|username|Username)(?:が|は)[「" ++ "]?(.+?)[」" ++ "]?(?:と|で)(?:表示|設定)(?:されて|して)(?:いる|いること)(?:確認|検証)",
   TEXT_EXISTS, "username");
  (* line 629 *)
  ("(?:アカウント|account|Account)(?:情報|名)(?:が|は)(?:正しく|適切に)(?:表示|設定)(?:されて|して)(?:いる|いること)(?:確認|検証)",
   TEXT_EXISTS, "account");
  (* line 635 *)
  ("(?:ダウンロード|download|Download)(?:ボタン|リンク)(?:が|は)(?:利用可能|有効|クリック可能)(?:である|になって)(?:いる|いること)(?:確認|検証)",
   ELEMENT_ENABLED, "download");
  (* line 637 *)
  ("(?:ファイル|file|File)[「" ++ "]?(.+?)[」" ++ "]?(?:が|を)(?:ダウンロード可能|取得可能)(?:である|になって)(?:いる|いること)(?:確認|検証)",
   ELEMENT_EXISTS, "file_download");
  (* line 641 *)
  ("(?:アップロード|upload|Upload)(?:ボタン|フォーム)(?:が|は)(?:利用可能|有効)(?:である|になって)(?:いる|いること)(?:確認|検証)",
   ELEMENT_ENABLED, "upload");
  (* line 643 *)
  ("(?:ファイル選択|file selection)(?:ボタン|フィールド)(?:が|は)(?:表示|利用可能)(?:である|になって)(?:いる|いること)(?:確認|検証)",
   ELEMENT_EXISTS, "file_input");
  (* line 649 *)
  ("(?:進捗|プログレス|progress|Progress)(?:が|は)(\d+)(?:%|パーセント)(?:である|になって)(?:いる|いること)(?:確認|検証)",
   TEXT_CONTAINS, "progress");
  (* line 651 *)
  ("(?:プログレスバー|進捗バー|progress bar)(?:が|は)(?:表示|更新)(?:されて|して)(?:いる|いること)(?:確認|検証)",
   ELEMENT_EXISTS, "progress_bar");
  (* line 657 *)
  ("(?:情報|インフォ|info|Info)(?:メッセージ|表示)(?:が|は)(?:表示|出て)(?:いる|いること)(?:確認|検証)",
   TEXT_EXISTS, "info");
  (* line 659 *)
  ("(?:ヒント|ヒント|hint|Hint|tip|Tip)(?:が|は)(?:表示|出て)(?:いる|いること)(?:確認|検証)",
   TEXT_EXISTS, "hint");
  (* line 665 *)
  ("(?:バリデーション|検証|validation|Validation)(?:エラー|メッセージ)(?:が|は)(?:表示されて|出て)(?:いない|ない)(?:こと|ことを)(?:確認|検証)",
   TEXT_NOT_EXISTS, "validation_error");
  (* line 667 *)
  ("(?:入力内容|フォーム|form)(?:が|は)(?:正しい|有効|valid)(?:である|になって)(?:いる|いること)(?:確認|検証)",
   ELEMENT_EXISTS, "valid_form");
  (* line 673 *)
  ("(?:ソート|並び替え|sort|Sort)(?:が|は)(?:昇順|降順|ascending|descending)(?:に|で)(?:設定|適用)(?:されて|して)(?:いる|いること)(?:確認|検証)",
   ELEMENT_EXISTS, "sorted");
  (* line 675 *)
  ("(?:項目|アイテム|items)(?:が|は)(?:正しく|適切に)(?:並んで|ソートされて)(?:いる|いること)(?:確認|検証)",
   ELEMENT_EXISTS, "ordered");
  (* line 681 *)
  ("(?:フィルター|フィルタ|filter|Filter)(?:が|は)(?:適用|設定)(?:されて|して)(?:いる|いること)(?:確認|検証)",
   ELEMENT_EXISTS, "filter");
  (* line 683 *)
  ("(?:検索結果|search results)(?:が|は)(\d+)(?:件|個|つ)(?:表示|ヒット)(?:されて|して)(?:いる|いること)(?:確認|検証)",
   TEXT_CONTAINS, "search_results");
  (* line 689 *)
  ("(?:ページ|page|Page)(\d+)(?:が|を)(?:表示|選択)(?:されて|して)(?:いる|いること)(?:確認|検証)",
   TEXT_CONTAINS, "page_number");
  (* line 691 *)
  ("(?:次のページ|前のページ|next|previous)(?:ボタン|リンク)(?:が|は)(?:利用可能|クリック可能)(?:である|になって)(?:いる|いること)(?:確認|検証)",
   ELEMENT_ENABLED, "pagination");
  (* line 697 *)
  ("(?:言語|language|Language)(?:が|は)[「" ++ "]?(.+?)[」" ++ "]?(?:に|で)(?:設定|切り替え)(?:されて|して)(?:いる|いること)(?:確認|検証)",
   TEXT_EXISTS, "language");
  (* line 699 *)
  ("(?:日本語|英語|中国語|Japanese|English|Chinese)(?:表示|版)(?:に|で)(?:なって|設定されて)(?:いる|いること)(?:確認|検証)",
   TEXT_EXISTS, "locale")
].

Section Parse.
Variable ucd : Unicode.

(** The characters stripped from a captured text, the argument of the
    three [strip] calls of [parse]: two adjacent literals holding the two
    corner brackets, the straight double quote and the straight single
    quote (each quote several times). *)
Definition quote_chars : ustr := u ("「」" ++ dq ++ dq ++ "''" ++ dq ++ dq).

(** [groups[i]] followed by a [str] method: an index past the tuple is an
    [IndexError], a group that took no part in the match is [None]. *)
Definition group_at (groups : list (option ustr)) (i : nat) : result ustr :=
  match nth_error groups i with
  | None => Raise (Exn IndexError (u "tuple index out of range"))
  | Some None => Raise (Exn AttributeError (u "'NoneType' object has no attribute 'strip'"))
  | Some (Some s) => Ok s
  end.

(** [int(groups[i])]: the captured text is a run of decimal digits. *)
Definition int_of_group (groups : list (option ustr)) (i : nat) : result Z :=
  match nth_error groups i with
  | None => Raise (Exn IndexError (u "tuple index out of range"))
  | Some None => Raise (Exn TypeError (u "int() argument must be a string, a bytes-like object or a real number, not 'NoneType'"))
  | Some (Some s) =>
      match s with
      | [] => Raise (Exn ValueError (u "invalid literal for int() with base 10: ''"))
      | _ => int_of_digits ucd s
      end
  end.

(** [_text_to_selector] *)
Definition _text_to_selector (text : ustr) : ustr :=
  let text := strip_chars quote_chars text in
  let button_selector (element_name : ustr) : ustr :=
    (u ("button:has-text(" ++ dq) ++ element_name
     ++ u (dq ++ "), input[type=" ++ dq ++ "button" ++ dq ++ "]:has-text(" ++ dq) ++ element_name
     ++ u (dq ++ "), input[type=" ++ dq ++ "submit" ++ dq ++ "]:has-text(" ++ dq) ++ element_name
     ++ u (dq ++ ")"))%list in
  let link_selector (element_name : ustr) : ustr :=
    (u ("a:has-text(" ++ dq) ++ element_name ++ u (dq ++ "):visible"))%list in
  if contains (u "ボタン") text then
    let element_name := strip (replace (u "ボタン") [] text) in
    let element_name := strip_chars quote_chars element_name in
    button_selector element_name
  else if contains (u "リンク") text then
    let element_name := strip (replace (u "リンク") [] text) in
    let element_name := strip_chars quote_chars element_name in
    link_selector element_name
  else if contains (u "フィールド") text || contains (u "入力欄") text then
    let element_name := strip (replace (u "入力欄") [] (replace (u "フィールド") [] text)) in
    let element_name := strip_chars quote_chars element_name in
    (u ("input[placeholder*=" ++ dq) ++ element_name
     ++ u (dq ++ "], input[name*=" ++ dq) ++ element_name
     ++ u (dq ++ "], label:has-text(" ++ dq) ++ element_name
     ++ u (dq ++ ") + input"))%list
  else if contains (u "チェックボックス") text then
    let element_name := strip (replace (u "チェックボックス") [] text) in
    let element_name := strip_chars quote_chars element_name in
    (u ("input[type=" ++ dq ++ "checkbox" ++ dq ++ "][name*=" ++ dq) ++ element_name
     ++ u (dq ++ "], label:has-text(" ++ dq) ++ element_name
     ++ u (dq ++ ") input[type=" ++ dq ++ "checkbox" ++ dq ++ "]"))%list
  else if contains (u "button") (uc_lower ucd text) then
    let element_name := strip (replace (u "button") [] (uc_lower ucd text)) in
    let element_name := strip_chars quote_chars element_name in
    button_selector element_name
  else if contains (u "link") (uc_lower ucd text) then
    let element_name := strip (replace (u "link") [] (uc_lower ucd text)) in
    let element_name := strip_chars quote_chars element_name in
    link_selector element_name
  else if contains (u "按钮") text || contains (u "按鈕") text then
    let element_name := strip (replace (u "按鈕") [] (replace (u "按钮") [] text)) in
    let element_name := strip_chars quote_chars element_name in
    button_selector element_name
  else if contains (u "链接") text || contains (u "連結") text then
    let element_name := strip (replace (u "連結") [] (replace (u "链接") [] text)) in
    let element_name := strip_chars quote_chars element_name in
    link_selector element_name
  else
    (u (":has-text(" ++ dq) ++ text ++ u (dq ++ ")"))%list.

(** What [parse] does with a match of one entry: [Some] dictionary when
    the parameter kind is one of the seven the function handles, [None]
    when no branch applies and the loop goes on to the next entry. *)
Definition build_info (assertion_type : AssertionType) (param_type : string)
  (groups : list (option ustr)) : result (option assertion_info) :=
  if param_type =? "text" then
    bind (group_at groups 0) (fun g0 =>
      let text := strip g0 in
      let text := strip_chars quote_chars text in
      Ok (Some {| info_type := assertion_type; info_expected := VStr text;
                  info_selector := None |}))
  else if param_type =? "selector" then
    bind (group_at groups 0) (fun g0 =>
      Ok (Some {| info_type := assertion_type; info_expected := VNone;
                  info_selector := Some (_text_to_selector (strip g0)) |}))
  else if param_type =? "url" then
    bind (group_at groups 0) (fun g0 =>
      let text := strip g0 in
      let text := strip_chars quote_chars text in
      Ok (Some {| info_type := assertion_type; info_expected := VStr text;
                  info_selector := None |}))
  else if param_type =? "title" then
    bind (group_at groups 0) (fun g0 =>
      let text := strip g0 in
      let text := strip_chars quote_chars text in
      Ok (Some {| info_type := assertion_type; info_expected := VStr text;
                  info_selector := None |}))
  else if param_type =? "selector_value" then
    bind (group_at groups 0) (fun g0 =>
    bind (group_at groups 1) (fun g1 =>
      Ok (Some {| info_type := assertion_type; info_expected := VStr (strip g1);
                  info_selector := Some (_text_to_selector (strip g0)) |})))
  else if param_type =? "selector_count" then
    bind (group_at groups 0) (fun g0 =>
    bind (int_of_group groups 1) (fun n =>
      Ok (Some {| info_type := assertion_type; info_expected := VInt n;
                  info_selector := Some (_text_to_selector (strip g0)) |})))
  else if param_type =? "html_element" then
    bind (group_at groups 0) (fun g0 =>
      Ok (Some {| info_type := assertion_type; info_expected := VNone;
                  info_selector := Some (strip g0) |}))
  else Ok None.

(** The loop of [parse] over a table, for any implementation [re_search]
    of [re.search]. *)
Section Loop.
Variable re_search : ustr -> ustr -> result (option Re.rmatch_obj).

Fixpoint parse_with (patterns : list (string * AssertionType * string))
  (instruction : ustr) : result (option assertion_info) :=
  match patterns with
  | [] => Ok None
  | (pattern, assertion_type, param_type) :: rest =>
      bind (re_search (u pattern) instruction) (fun m =>
        match m with
        | Some mo =>
            bind (build_info assertion_type param_type (Re.groups mo)) (fun r =>
              match r with
              | Some info => Ok (Some info)
              | None => parse_with rest instruction
              end)
        | None => parse_with rest instruction
        end)
  end.

End Loop.

(** [AssertionPatternMatcher.parse] *)
Definition parse (instruction : ustr) : result (option assertion_info) :=
  parse_with (Re.search ucd) PATTERNS instruction.

End Parse.

(** ** The assertion executor *)

(** [class AssertionResult(BaseModel)]; [execution_time_ms], a wall-clock
    measurement, is left out. *)
Record AssertionResult := {
  passed : bool;
  assertion : Assertion;
  actual_value : pyval;
  expected_value : pyval;
  error_message : option ustr;
  screenshot_path : option ustr
}.

(** The page an executor is bound to, in one fixed state: what each call
    of the browser engine made by the evaluators answers. A locator is
    named by the selector it was built from ([None] when the assertion
    has no selector). *)
Record Page := {
  pg_url : ustr;                                         (* page.url *)
  pg_title : result ustr;                                (* await page.title() *)
  pg_content : result ustr;                              (* await page.content() *)
  loc_count : option ustr -> result Z;                   (* await locator.count() *)
  loc_first_wait_for : option ustr -> option ustr -> Z -> result unit;
                               (* await locator.first().wait_for(state=.., timeout=..) *)
  loc_wait_for : option ustr -> option ustr -> Z -> result unit;
                               (* await locator.wait_for(state=.., timeout=..) *)
  loc_is_visible : option ustr -> result bool;           (* await locator.is_visible() *)
  loc_input_value : option ustr -> result ustr;          (* await locator.input_value() *)
  loc_is_checked : option ustr -> result bool            (* await locator.is_checked() *)
}.

Section Executor.
Variable ucd : Unicode.
Variable page : Page.

(** [str(x)], also what an f-string inserts for [x]. *)
Definition str_of_pyval (v : pyval) : ustr :=
  match v with
  | VNone => u "None"
  | VStr s => s
  | VBool true => u "True"
  | VBool false => u "False"
  | VInt z => str_of_Z z
  | VFloat f => fl_str f
  end.

Definition str_of_opt (o : option ustr) : ustr :=
  match o with
  | Some s => s
  | None => u "None"
  end.

(** The truth test [if x:]. *)
Definition truthy (v : pyval) : bool :=
  match v with
  | VNone => false
  | VStr s => match s with [] => false | _ => true end
  | VBool b => b
  | VInt z => negb (z =? 0)%Z
  | VFloat f => fl_bool f
  end.

(** [int(x)] *)
Definition int_of_pyval (v : pyval) : result Z :=
  match v with
  | VNone => Raise (Exn TypeError (u "int() argument must be a string, a bytes-like object or a real number, not 'NoneType'"))
  | VStr s => uc_int ucd s
  | VBool b => Ok (if b then 1 else 0)%Z
  | VInt z => Ok z
  | VFloat f => fl_int f
  end.

(** [type(x).__name__] *)
Definition type_of_pyval (v : pyval) : ustr :=
  match v with
  | VNone => u "NoneType"
  | VStr _ => u "str"
  | VBool _ => u "bool"
  | VInt _ => u "int"
  | VFloat _ => u "float"
  end.

(** [x.lower()]: only a [str] has the method. *)
Definition lower_of_pyval (v : pyval) : result ustr :=
  match v with
  | VStr s => Ok (uc_lower ucd s)
  | _ =>
      Raise (Exn AttributeError
               (u "'" ++ type_of_pyval v ++ u "' object has no attribute 'lower'")%list)
  end.

Definition failed_result (a : Assertion) (msg : ustr) : AssertionResult :=
  {| passed := false; assertion := a; actual_value := VNone; expected_value := VNone;
     error_message := Some msg; screenshot_path := None |}.

(** [try: body  except Exception as e: failed result with prefix + str(e)] *)
Definition guarded (a : Assertion) (prefix : string) (body : result AssertionResult)
  : result AssertionResult :=
  match body with
  | Ok r => Ok r
  | Raise e =>
      if is_Exception e then Ok (failed_result a (u prefix ++ str_of_exn e)%list)
      else Raise e
  end.

Definition outcome (a : Assertion) (ok : bool) (actual expected_v : pyval) (msg : ustr)
  : AssertionResult :=
  {| passed := ok; assertion := a; actual_value := actual; expected_value := expected_v;
     error_message := if ok then None else Some msg; screenshot_path := None |}.

(** The loop over the selector strategies of [_assert_text_exists]: a
    strategy that raises is skipped (bare [except: continue]); the first
    one with a positive count wins. *)
Fixpoint text_exists_loop (wait : bool) (selectors : list ustr) (count : Z) : bool * Z :=
  match selectors with
  | [] => (false, count)
  | sel :: rest =>
      match (if wait then loc_first_wait_for page (Some sel) None 1000 else Ok tt) with
      | Raise _ => text_exists_loop wait rest count
      | Ok _ =>
          match loc_count page (Some sel) with
          | Raise _ => text_exists_loop wait rest count
          | Ok n => if (0 <? n)%Z then (true, n) else text_exists_loop wait rest n
          end
      end
  end.

(** The fallback of the two text evaluators: a case-insensitive search
    of the expected text in the whole page content; any failure counts
    as not found (bare [except: pass]). *)
Definition content_has (a : Assertion) : bool :=
  match pg_content page with
  | Raise _ => false
  | Ok page_content =>
      match lower_of_pyval (expected a) with
      | Raise _ => false
      | Ok e => contains e (uc_lower ucd page_content)
      end
  end.

Definition _assert_text_exists (a : Assertion) : result AssertionResult :=
  let e := str_of_pyval (expected a) in
  let selectors :=
    [ (u ("text=" ++ dq) ++ e ++ u dq)%list;
      (u "text=/" ++ e ++ u "/i")%list;
      (u ("text*=" ++ dq) ++ e ++ u dq)%list;
      (u (":text-is(" ++ dq) ++ e ++ u (dq ++ ")"))%list;
      (u (":text(" ++ dq) ++ e ++ u (dq ++ ")"))%list ] in
  let '(passed0, count0) := text_exists_loop (wait_for a) selectors 0%Z in
  let '(passed1, count1) :=
    if passed0 then (passed0, count0)
    else if content_has a then (true, 1%Z) else (passed0, count0) in
  Ok (outcome a passed1 (VInt count1)
        (VStr (u "テキスト '" ++ e ++ u "' が1つ以上存在")%list)
        (u "テキスト '" ++ e ++ u "' が見つかりません")%list).

(** The loop of [_assert_text_not_exists]: no waiting. *)
Fixpoint text_found_loop (selectors : list ustr) : bool :=
  match selectors with
  | [] => false
  | sel :: rest =>
      match loc_count page (Some sel) with
      | Raise _ => text_found_loop rest
      | Ok n => if (0 <? n)%Z then true else text_found_loop rest
      end
  end.

Definition _assert_text_not_exists (a : Assertion) : result AssertionResult :=
  let e := str_of_pyval (expected a) in
  let selectors :=
    [ (u ("text=" ++ dq) ++ e ++ u dq)%list;
      (u "text=/" ++ e ++ u "/i")%list;
      (u ("text*=" ++ dq) ++ e ++ u dq)%list ] in
  let found0 := text_found_loop selectors in
  let found := if found0 then true else content_has a in
  Ok (outcome a (negb found) (VInt (if found then 1 else 0)%Z)
        (VStr (u "テキスト '" ++ e ++ u "' が存在しない")%list)
        (u "テキスト '" ++ e ++ u "' が見つかりました")%list).

Definition _assert_element_exists (a : Assertion) : result AssertionResult :=
  let sel := str_of_opt (selector a) in
  guarded a "要素存在確認エラー: "
    (bind (if wait_for a
           then loc_first_wait_for page (selector a) (Some (u "visible")) (timeout a)
           else Ok tt) (fun _ =>
     bind (loc_count page (selector a)) (fun count =>
       Ok (outcome a (0 <? count)%Z (VInt count)
             (VStr (u "要素 '" ++ sel ++ u "' が1つ以上存在")%list)
             (u "要素 '" ++ sel ++ u "' が見つかりません")%list)))).

Definition _assert_element_not_exists (a : Assertion) : result AssertionResult :=
  let sel := str_of_opt (selector a) in
  guarded a "要素非存在確認エラー: "
    (bind (loc_count page (selector a)) (fun count =>
       Ok (outcome a (count =? 0)%Z (VInt count)
             (VStr (u "要素 '" ++ sel ++ u "' が存在しない")%list)
             (u "要素 '" ++ sel ++ u "' が見つかりました（" ++ str_of_Z count ++ u "個）")%list))).

Definition _assert_element_visible (a : Assertion) : result AssertionResult :=
  let sel := str_of_opt (selector a) in
  guarded a "要素表示確認エラー: "
    (bind (if wait_for a
           then loc_wait_for page (selector a) (Some (u "visible")) (timeout a)
           else Ok tt) (fun _ =>
     bind (loc_is_visible page (selector a)) (fun is_visible =>
       Ok (outcome a is_visible (VBool is_visible)
             (VStr (u "要素 '" ++ sel ++ u "' が表示されている")%list)
             (u "要素 '" ++ sel ++ u "' が表示されていません")%list)))).

Definition _assert_element_hidden (a : Assertion) : result AssertionResult :=
  let sel := str_of_opt (selector a) in
  guarded a "要素非表示確認エラー: "
    (bind (loc_is_visible page (selector a)) (fun is_visible =>
       Ok (outcome a (negb is_visible) (VBool is_visible)
             (VStr (u "要素 '" ++ sel ++ u "' が非表示")%list)
             (u "要素 '" ++ sel ++ u "' が表示されています")%list))).

Definition _assert_url_contains (a : Assertion) : result AssertionResult :=
  let current_url := pg_url page in
  let expected_url := str_of_pyval (expected a) in
  Ok (outcome a (contains expected_url current_url) (VStr current_url)
        (VStr (u "URLに '" ++ expected_url ++ u "' が含まれる")%list)
        (u "URLに '" ++ expected_url ++ u "' が含まれていません")%list).

Definition _assert_url_equals (a : Assertion) : result AssertionResult :=
  let current_url := pg_url page in
  let expected_url := str_of_pyval (expected a) in
  Ok (outcome a (ustr_eqb current_url expected_url) (VStr current_url)
        (VStr expected_url) (u "URLが一致しません")).

Definition _assert_url_starts_with (a : Assertion) : result AssertionResult :=
  let current_url := pg_url page in
  let expected_start := str_of_pyval (expected a) in
  Ok (outcome a (starts_with expected_start current_url) (VStr current_url)
        (VStr (u "URLが '" ++ expected_start ++ u "' で始まる")%list)
        (u "URLが '" ++ expected_start ++ u "' で始まっていません")%list).

Definition _assert_url_ends_with (a : Assertion) : result AssertionResult :=
  let current_url := pg_url page in
  let expected_end := str_of_pyval (expected a) in
  Ok (outcome a (ends_with expected_end current_url) (VStr current_url)
        (VStr (u "URLが '" ++ expected_end ++ u "' で終わる")%list)
        (u "URLが '" ++ expected_end ++ u "' で終わっていません")%list).

Definition _assert_title_contains (a : Assertion) : result AssertionResult :=
  guarded a "タイトル包含確認エラー: "
    (bind (pg_title page) (fun current_title =>
       let expected_text := str_of_pyval (expected a) in
       Ok (outcome a (contains expected_text current_title) (VStr current_title)
             (VStr (u "タイトルに '" ++ expected_text ++ u "' が含まれる")%list)
             (u "タイトルに '" ++ expected_text ++ u "' が含まれていません")%list))).

Definition _assert_title_equals (a : Assertion) : result AssertionResult :=
  guarded a "タイトル一致確認エラー: "
    (bind (pg_title page) (fun current_title =>
       let expected_title := str_of_pyval (expected a) in
       Ok (outcome a (ustr_eqb current_title expected_title) (VStr current_title)
             (VStr expected_title) (u "タイトルが一致しません")))).

Definition _assert_element_count (a : Assertion) : result AssertionResult :=
  guarded a "要素数確認エラー: "
    (bind (loc_count page (selector a)) (fun actual_count =>
     bind (int_of_pyval (expected a)) (fun expected_count =>
       Ok (outcome a (actual_count =? expected_count)%Z (VInt actual_count)
             (VInt expected_count)
             (u "要素数が一致しません（期待値: " ++ str_of_Z expected_count
                ++ u ", 実際: " ++ str_of_Z actual_count ++ u "）")%list)))).

Definition _assert_input_value_equals (a : Assertion) : result AssertionResult :=
  guarded a "入力値確認エラー: "
    (bind (loc_input_value page (selector a)) (fun actual =>
       let expected_v := str_of_pyval (expected a) in
       Ok (outcome a (ustr_eqb actual expected_v) (VStr actual) (VStr expected_v)
             (u "入力値が一致しません")))).

Definition _assert_checkbox_checked (a : Assertion) : result AssertionResult :=
  guarded a "チェックボックス確認エラー: "
    (bind (loc_is_checked page (selector a)) (fun is_checked =>
       Ok (outcome a is_checked (VBool is_checked) (VBool true)
             (u "チェックボックスがチェックされていません")))).

Definition _assert_checkbox_unchecked (a : Assertion) : result AssertionResult :=
  guarded a "チェックボックス確認エラー: "
    (bind (loc_is_checked page (selector a)) (fun is_checked =>
       Ok (outcome a (negb is_checked) (VBool is_checked) (VBool false)
             (u "チェックボックスがチェックされています")))).

(** [str(assertion.type)], as the message of the last branch prints it. *)
Definition type_repr (t : AssertionType) : ustr :=
  (u "AssertionType." ++ u (type_name t))%list.

(** [_execute_assertion]: the dispatch on the type. *)
Definition _execute_assertion (a : Assertion) : result AssertionResult :=
  match type a with
  | TEXT_EXISTS => _assert_text_exists a
  | TEXT_NOT_EXISTS => _assert_text_not_exists a
  | ELEMENT_EXISTS => _assert_element_exists a
  | ELEMENT_NOT_EXISTS => _assert_element_not_exists a
  | ELEMENT_VISIBLE => _assert_element_visible a
  | ELEMENT_HIDDEN => _assert_element_hidden a
  | URL_CONTAINS => _assert_url_contains a
  | URL_EQUALS => _assert_url_equals a
  | URL_STARTS_WITH => _assert_url_starts_with a
  | URL_ENDS_WITH => _assert_url_ends_with a
  | TITLE_CONTAINS => _assert_title_contains a
  | TITLE_EQUALS => _assert_title_equals a
  | ELEMENT_COUNT => _assert_element_count a
  | INPUT_VALUE_EQUALS => _assert_input_value_equals a
  | CHECKBOX_CHECKED => _assert_checkbox_checked a
  | CHECKBOX_UNCHECKED => _assert_checkbox_unchecked a
  | t => Ok (failed_result a (u "Unimplemented assertion type: " ++ type_repr t)%list)
  end.

(** [AssertionExecutor.execute] *)
Definition execute (a : Assertion) : result AssertionResult :=
  guarded a "アサーション実行エラー: " (_execute_assertion a).

End Executor.

(** The types [_execute_assertion] has a branch for. *)
Definition implemented (t : AssertionType) : bool :=
  match t with
  | TEXT_EXISTS | TEXT_NOT_EXISTS | ELEMENT_EXISTS | ELEMENT_NOT_EXISTS
  | ELEMENT_VISIBLE | ELEMENT_HIDDEN | URL_CONTAINS | URL_EQUALS
  | URL_STARTS_WITH | URL_ENDS_WITH | TITLE_CONTAINS | TITLE_EQUALS
  | ELEMENT_COUNT | INPUT_VALUE_EQUALS | CHECKBOX_CHECKED | CHECKBOX_UNCHECKED => true
  | _ => false
  end.

(** The failure of the last branch of the dispatcher. *)
Definition is_unimplemented_failure (r : AssertionResult) : bool :=
  match error_message r with
  | Some m => starts_with (u "Unimplemented assertion type: ") m
  | None => false
  end.

End Assertions.

(* ================================================================== *)
(** * Actions *)
(* ================================================================== *)

Module Actions.
Import Py.

(** An action is a dictionary with the key "action_type" and the keys
    its type needs. *)
Record Action := {
  action_type : ustr;
  a_selector : option ustr;
  a_text : option ustr;
  a_timeout : option Z;
  a_url : option ustr;
  a_path : option ustr;
  a_value : option ustr
}.

Definition action (ty : string) : Action :=
  {| action_type := u ty; a_selector := None; a_text := None; a_timeout := None;
     a_url := None; a_path := None; a_value := None |}.

Definition with_selector (s : ustr) (a : Action) : Action :=
  {| action_type := action_type a; a_selector := Some s; a_text := a_text a;
     a_timeout := a_timeout a; a_url := a_url a; a_path := a_path a; a_value := a_value a |}.
Definition with_text (s : ustr) (a : Action) : Action :=
  {| action_type := action_type a; a_selector := a_selector a; a_text := Some s;
     a_timeout := a_timeout a; a_url := a_url a; a_path := a_path a; a_value := a_value a |}.
Definition with_timeout (z : Z) (a : Action) : Action :=
  {| action_type := action_type a; a_selector := a_selector a; a_text := a_text a;
     a_timeout := Some z; a_url := a_url a; a_path := a_path a; a_value := a_value a |}.
Definition with_url (s : ustr) (a : Action) : Action :=
  {| action_type := action_type a; a_selector := a_selector a; a_text := a_text a;
     a_timeout := a_timeout a; a_url := Some s; a_path := a_path a; a_value := a_value a |}.
Definition with_path (s : ustr) (a : Action) : Action :=
  {| action_type := action_type a; a_selector := a_selector a; a_text := a_text a;
     a_timeout := a_timeout a; a_url := a_url a; a_path := Some s; a_value := a_value a |}.
Definition with_value (s : ustr) (a : Action) : Action :=
  {| action_type := action_type a; a_selector := a_selector a; a_text := a_text a;
     a_timeout := a_timeout a; a_url := a_url a; a_path := a_path a; a_value := Some s |}.

End Actions.

(* ================================================================== *)
(** * mock_llm.py *)
(* ================================================================== *)

Module MockLLM.
Import Py Actions.
Local Open Scope string_scope.

(** The name [re] inside [translate_to_actions]. The function body holds
    [import re] statements (in the navigation, click, typing and wait
    branches), so [re] is a local variable of the whole function: unbound
    on entry, bound by the import of the branch that runs. *)
Inductive local_name := Unbound | Bound.

Section Translate.
Variable ucd : Unicode.

(** [re.search(pattern, s)] with the local name [re] in state [re]. *)
Definition re_search (re : local_name) (pattern s : ustr) : result (option Re.rmatch_obj) :=
  match re with
  | Bound => Re.search ucd pattern s
  | Unbound =>
      Raise (Exn UnboundLocalError
               (u "cannot access local variable 're' where it is not associated with a value"))
  end.

(** [m.group(i)] for a group number [i >= 1]. *)
Definition group (m : Re.rmatch_obj) (i : nat) : option ustr :=
  match nth_error (Re.groups m) (i - 1) with
  | Some g => g
  | None => None
  end.

(** [a or b] on optional texts: the first if it is a non-empty text,
    else the second. *)
Definition py_or (a b : option ustr) : option ustr :=
  match a with
  | Some (_ :: _) => a
  | _ => b
  end.

Definition str_of_group (g : option ustr) : ustr :=
  match g with
  | Some s => s
  | None => u "None"
  end.

Definition kw (k : string) (s : ustr) : bool := contains (u k) s.

(** [MockLLMManager.translate_to_actions] *)
Definition translate_to_actions (natural_language : ustr) : result Action :=
  let re := Unbound in
  let text_lower := uc_lower ucd natural_language in
  if kw "移動" natural_language || kw "navigate" text_lower || kw "に移動" natural_language then
    let re := Bound in
    bind (re_search re (u "https?://[^\s]+") natural_language) (fun url_match =>
      let url := match url_match with
                 | Some m => Re.group0 m
                 | None => u "https://example.com"
                 end in
      Ok (with_url url (action "navigate")))
  else if kw "クリック" natural_language || kw "click" text_lower || kw "押す" natural_language then
    bind
      (if kw "ボタン" natural_language || kw "button" text_lower then Ok (u "button")
       else if kw "リンク" natural_language || kw "link" text_lower then Ok (u "a")
       else if kw "Add Element" natural_language then Ok (u "button:has-text('Add Element')")
       else if kw "Login" natural_language
       then Ok (u "button[type='submit'], input[type='submit']")
       else if kw "Delete" natural_language then Ok (u "button:has-text('Delete')")
       else
         let re := Bound in
         bind (re_search re
                 (u ("「([^」]+)」|" ++ dq ++ "([^" ++ dq ++ "]+)" ++ dq
                     ++ "|([A-Za-z][A-Za-z\s]+)"))
                 natural_language) (fun text_match =>
           match text_match with
           | Some m =>
               let text := py_or (py_or (group m 1) (group m 2)) (group m 3) in
               Ok (u "*:has-text('" ++ str_of_group text ++ u "')")%list
           | None => Ok (u "button, a, input[type='submit']")
           end))
      (fun selector => Ok (with_selector selector (action "click")))
  else if kw "入力" natural_language || kw "type" text_lower then
    let re := Bound in
    let selector :=
      if kw "ユーザー名" natural_language || kw "username" text_lower
      then u "input[name='username'], input[id='username']"
      else if kw "パスワード" natural_language || kw "password" text_lower
      then u "input[type='password']"
      else if kw "検索" natural_language || kw "search" text_lower
      then u "input[type='search'], input[name='q'], input[name='search'], input[placeholder*='search' i]"
      else u "input[type='text'], input:not([type]), textarea" in
    bind (re_search re
            (u ("「([^」]+)」|" ++ dq ++ "([^" ++ dq ++ "]+)" ++ dq
                ++ "|に\s*([^\s]+)\s*と|を\s*([^\s]+)\s*と"))
            natural_language) (fun text_match =>
      let text :=
        match text_match with
        | Some m =>
            str_of_group
              (py_or (py_or (py_or (group m 1) (group m 2)) (group m 3)) (group m 4))
        | None => u "test input"
        end in
      Ok (with_text text (with_selector selector (action "type"))))
  else if kw "待つ" natural_language || kw "wait" text_lower then
    let re := Bound in
    bind (re_search re (u "(\d+)\s*(?:秒|seconds?)") natural_language) (fun time_match =>
      match time_match with
      | Some m =>
          bind (match group m 1 with
                | Some d => int_of_digits ucd d
                | None => Raise (Exn TypeError (u "int() argument must be a string, a bytes-like object or a real number, not 'NoneType'"))
                end) (fun n =>
            Ok (with_timeout (n * 1000) (action "wait")))
      | None => Ok (with_timeout 3000 (action "wait"))
      end)
  else if kw "スクリーンショット" natural_language || kw "screenshot" text_lower then
    Ok (with_path (u "test_screenshot.png") (action "screenshot"))
  else if kw "確認" natural_language || kw "check" text_lower || kw "verify" text_lower then
    Ok (with_timeout 1000 (action "wait"))
  else if kw "戻る" natural_language || kw "back" text_lower then
    Ok (with_url (u "back") (action "navigate"))
  else if kw "選択" natural_language || kw "select" text_lower then
    bind (re_search re
            (u ("「([^」]+)」|" ++ dq ++ "([^" ++ dq ++ "]+)" ++ dq ++ "|([A-Za-z0-9]+)"))
            natural_language) (fun value_match =>
      let value :=
        match value_match with
        | Some m => str_of_group (py_or (py_or (group m 1) (group m 2)) (group m 3))
        | None => u "Option 1"
        end in
      Ok (with_value value (with_selector (u "select") (action "select"))))
  else
    Ok (with_selector (u "*") (action "click")).

(** The keyword tests of the branches before the selection branch. *)
Definition earlier_keyword (natural_language : ustr) : bool :=
  let text_lower := uc_lower ucd natural_language in
  kw "移動" natural_language || kw "navigate" text_lower || kw "に移動" natural_language
  || kw "クリック" natural_language || kw "click" text_lower || kw "押す" natural_language
  || kw "入力" natural_language || kw "type" text_lower
  || kw "待つ" natural_language || kw "wait" text_lower
  || kw "スクリーンショット" natural_language || kw "screenshot" text_lower
  || kw "確認" natural_language || kw "check" text_lower || kw "verify" text_lower
  || kw "戻る" natural_language || kw "back" text_lower.

Definition selection_keyword (natural_language : ustr) : bool :=
  kw "選択" natural_language || kw "select" (uc_lower ucd natural_language).

End Translate.

End MockLLM.

(* ================================================================== *)
(** * config.py *)
(* ================================================================== *)

Module Config.
Import Py.
Local Open Scope string_scope.

Section WithFloat.
(** Python floats are carried around, never computed with. *)
Variable float : Type.

Record LLMConfig := {
  model_name : ustr;
  device : ustr;
  max_length : Z;
  temperature : float;
  top_p : float
}.

Record PlaywrightConfig := {
  browser : ustr;
  headless : bool;
  pw_timeout : Z;
  viewport : list (ustr * Z)
}.

(** [output_dir] is a [pathlib.Path]: the sequence of its parts. *)
Record TestConfig := {
  base_url : ustr;
  screenshot_on_failure : bool;
  output_dir : list ustr;
  retry_count : Z
}.

Record KotobaConfig := {
  llm : LLMConfig;
  playwright : PlaywrightConfig;
  test : TestConfig;
  log_level : ustr
}.

(** The defaults of the four models. *)
Variable f_0_7 f_0_9 : float.

Definition default_LLMConfig : LLMConfig :=
  {| model_name := u "rinna/japanese-gpt-neox-3.6b"; device := u "auto";
     max_length := 512; temperature := f_0_7; top_p := f_0_9 |}.

Definition default_PlaywrightConfig : PlaywrightConfig :=
  {| browser := u "chromium"; headless := true; pw_timeout := 30000;
     viewport := [(u "width", 1280%Z); (u "height", 720%Z)] |}.

Definition default_TestConfig : TestConfig :=
  {| base_url := []; screenshot_on_failure := true; output_dir := [u "outputs"];
     retry_count := 3 |}.

Definition default_KotobaConfig : KotobaConfig :=
  {| llm := default_LLMConfig; playwright := default_PlaywrightConfig;
     test := default_TestConfig; log_level := u "INFO" |}.

(** ** Python data and YAML documents *)

(** The objects [model_dump] returns and [yaml.safe_load] builds. *)
Inductive pydata :=
| DNone
| DStr (s : ustr)
| DInt (z : Z)
| DFloat (f : float)
| DBool (b : bool)
| DList (l : list pydata)
| DDict (items : list (ustr * pydata))
| DPath (parts : list ustr).       (* a pathlib.PosixPath *)

(** The tag of a YAML node. The tags of the core schema are the ones a
    safe loader knows; [yaml.dump] also writes tags that name a Python
    callable and its arguments. *)
Inductive ytag :=
| TagNull | TagStr | TagInt | TagFloat | TagBool | TagSeq | TagMap
| TagPythonApply (callable : ustr).   (* !!python/object/apply:callable *)

(** A YAML document as the representation graph between the text and
    the Python objects: what [yaml.dump] serialises and a loader
    composes from the text it wrote. *)
Inductive ynode :=
| YNull
| YStr (s : ustr)
| YInt (z : Z)
| YFloat (f : float)
| YBool (b : bool)
| YSeq (tag : ytag) (items : list ynode)
| YMap (items : list (ustr * ynode)).

(** [config.model_dump()]: nested dictionaries of the field values; the
    path stays a [Path] object. *)
Definition model_dump (c : KotobaConfig) : pydata :=
  DDict
    [ (u "llm", DDict [ (u "model_name", DStr (model_name (llm c)));
                        (u "device", DStr (device (llm c)));
                        (u "max_length", DInt (max_length (llm c)));
                        (u "temperature", DFloat (temperature (llm c)));
                        (u "top_p", DFloat (top_p (llm c))) ]);
      (u "playwright", DDict [ (u "browser", DStr (browser (playwright c)));
                               (u "headless", DBool (headless (playwright c)));
                               (u "timeout", DInt (pw_timeout (playwright c)));
                               (u "viewport",
                                DDict (map (fun kv => (fst kv, DInt (snd kv)))
                                         (viewport (playwright c)))) ]);
      (u "test", DDict [ (u "base_url", DStr (base_url (test c)));
                         (u "screenshot_on_failure", DBool (screenshot_on_failure (test c)));
                         (u "output_dir", DPath (output_dir (test c)));
                         (u "retry_count", DInt (retry_count (test c))) ]);
      (u "log_level", DStr (log_level (c))) ].

(** [yaml.dump(data, ...)] with the default dumper: the representer
    turns each object into a node. An object that is no YAML type is
    written through its reduction: for a path, the class and its parts,
    under the tag of the class. *)
Fixpoint represent (d : pydata) : ynode :=
  match d with
  | DNone => YNull
  | DStr s => YStr s
  | DInt z => YInt z
  | DFloat f => YFloat f
  | DBool b => YBool b
  | DList l => YSeq TagSeq (map represent l)
  | DDict items => YMap (map (fun kv => (fst kv, represent (snd kv))) items)
  | DPath parts => YSeq (TagPythonApply (u "pathlib.PosixPath")) (map YStr parts)
  end.

(** [yaml.safe_load]: the safe constructor builds the objects of the
    core schema and refuses every other tag. *)
Definition constructor_error (callable : ustr) : exn :=
  Exn ConstructorError
    (u "could not determine a constructor for the tag 'tag:yaml.org,2002:python/object/apply:"
       ++ callable ++ u "'")%list.

Fixpoint safe_construct (n : ynode) : result pydata :=
  match n with
  | YNull => Ok DNone
  | YStr s => Ok (DStr s)
  | YInt z => Ok (DInt z)
  | YFloat f => Ok (DFloat f)
  | YBool b => Ok (DBool b)
  | YSeq (TagPythonApply callable) _ => Raise (constructor_error callable)
  | YSeq _ items =>
      bind ((fix go (l : list ynode) : result (list pydata) :=
               match l with
               | [] => Ok []
               | x :: l' =>
                   bind (safe_construct x) (fun d =>
                   bind (go l') (fun ds => Ok (d :: ds)))
               end) items) (fun ds => Ok (DList ds))
  | YMap items =>
      bind ((fix go (l : list (ustr * ynode)) : result (list (ustr * pydata)) :=
               match l with
               | [] => Ok []
               | (k, x) :: l' =>
                   bind (safe_construct x) (fun d =>
                   bind (go l') (fun ds => Ok ((k, d) :: ds)))
               end) items) (fun ds => Ok (DDict ds))
  end.

(** ** Validation: building the models from loaded data

    Each model takes its fields from the dictionary and its defaults for
    the keys that are absent. A value of the declared type is taken as it
    is (an integer where a float is declared through [float_of_int], a
    text where a path is declared through [path_parts]). A value of another
    type goes to the conversions of pydantic's lax mode, which convert it
    (the text 30 where an integer is declared) or refuse it with a
    validation error. *)
Variable float_of_int : Z -> float.
(** The parts of the path a text names, as [pathlib] splits it. *)
Variable path_parts : ustr -> list ustr.

Class LaxMode := {
  lax_str : pydata -> result ustr;
  lax_int : pydata -> result Z;
  lax_bool : pydata -> result bool;
  lax_float : pydata -> result float;
  lax_path : pydata -> result (list ustr)
}.
Context {lax : LaxMode}.

Fixpoint lookup (k : ustr) (items : list (ustr * pydata)) : option pydata :=
  match items with
  | [] => None
  | (k', v) :: rest => if ustr_eqb k k' then Some v else lookup k rest
  end.

Definition validation_error {A} : result A :=
  Raise (Exn ValidationError (u "validation error")).

Definition field {A} (items : list (ustr * pydata)) (k : string) (default : A)
  (conv : pydata -> result A) : result A :=
  match lookup (u k) items with
  | None => Ok default
  | Some v => conv v
  end.

Definition as_str (d : pydata) : result ustr :=
  match d with DStr s => Ok s | _ => lax_str d end.
Definition as_int (d : pydata) : result Z :=
  match d with DInt z => Ok z | _ => lax_int d end.
Definition as_bool (d : pydata) : result bool :=
  match d with DBool b => Ok b | _ => lax_bool d end.
Definition as_float (d : pydata) : result float :=
  match d with
  | DFloat f => Ok f
  | DInt z => Ok (float_of_int z)
  | _ => lax_float d
  end.
Definition as_path (d : pydata) : result (list ustr) :=
  match d with
  | DPath parts => Ok parts
  | DStr s => Ok (path_parts s)
  | _ => lax_path d
  end.
Definition as_int_dict (d : pydata) : result (list (ustr * Z)) :=
  match d with
  | DDict items =>
      (fix go (l : list (ustr * pydata)) : result (list (ustr * Z)) :=
         match l with
         | [] => Ok []
         | (k, v) :: l' =>
             bind (as_int v) (fun z => bind (go l') (fun r => Ok ((k, z) :: r)))
         end) items
  | _ => validation_error
  end.

Definition build_LLMConfig (d : pydata) : result LLMConfig :=
  match d with
  | DDict items =>
      bind (field items "model_name" (model_name default_LLMConfig) as_str) (fun a =>
      bind (field items "device" (device default_LLMConfig) as_str) (fun b =>
      bind (field items "max_length" (max_length default_LLMConfig) as_int) (fun c =>
      bind (field items "temperature" (temperature default_LLMConfig) as_float) (fun d =>
      bind (field items "top_p" (top_p default_LLMConfig) as_float) (fun e =>
        Ok {| model_name := a; device := b; max_length := c; temperature := d;
              top_p := e |})))))
  | _ => validation_error
  end.

Definition build_PlaywrightConfig (d : pydata) : result PlaywrightConfig :=
  match d with
  | DDict items =>
      bind (field items "browser" (browser default_PlaywrightConfig) as_str) (fun a =>
      bind (field items "headless" (headless default_PlaywrightConfig) as_bool) (fun b =>
      bind (field items "timeout" (pw_timeout default_PlaywrightConfig) as_int) (fun c =>
      bind (field items "viewport" (viewport default_PlaywrightConfig) as_int_dict) (fun d =>
        Ok {| browser := a; headless := b; pw_timeout := c; viewport := d |}))))
  | _ => validation_error
  end.

Definition build_TestConfig (d : pydata) : result TestConfig :=
  match d with
  | DDict items =>
      bind (field items "base_url" (base_url default_TestConfig) as_str) (fun a =>
      bind (field items "screenshot_on_failure"
              (screenshot_on_failure default_TestConfig) as_bool) (fun b =>
      bind (field items "output_dir" (output_dir default_TestConfig) as_path) (fun c =>
      bind (field items "retry_count" (retry_count default_TestConfig) as_int) (fun d =>
        Ok {| base_url := a; screenshot_on_failure := b; output_dir := c;
              retry_count := d |}))))
  | _ => validation_error
  end.

(** [type(d).__name__] *)
Definition type_of_pydata (d : pydata) : ustr :=
  match d with
  | DNone => u "NoneType"
  | DStr _ => u "str"
  | DInt _ => u "int"
  | DFloat _ => u "float"
  | DBool _ => u "bool"
  | DList _ => u "list"
  | DDict _ => u "dict"
  | DPath _ => u "PosixPath"
  end.

(** The [KotobaConfig] built from the loaded dictionary (its keys as
    keyword arguments); data that is no dictionary cannot be unpacked. *)
Definition build_KotobaConfig (d : pydata) : result KotobaConfig :=
  match d with
  | DDict items =>
      bind (field items "llm" default_LLMConfig build_LLMConfig) (fun a =>
      bind (field items "playwright" default_PlaywrightConfig build_PlaywrightConfig) (fun b =>
      bind (field items "test" default_TestConfig build_TestConfig) (fun c =>
      bind (field items "log_level" (log_level default_KotobaConfig) as_str) (fun d =>
        Ok {| llm := a; playwright := b; test := c; log_level := d |}))))
  | _ =>
      Raise (Exn TypeError
               (u "kotoba.config.KotobaConfig() argument after ** must be a mapping, not "
                ++ type_of_pydata d)%list)
  end.

(** ** Files *)

(** The file system: the document stored at each path, if any. *)
Definition files := ustr -> option ynode.

(** [save_config]: creates the parent directories and writes the dump
    of [model_dump] at the path. *)
Definition save_config (config : KotobaConfig) (config_path : ustr) (fs : files) : files :=
  fun p => if ustr_eqb p config_path then Some (represent (model_dump config)) else fs p.

(** [load_config]: the defaults when the path does not exist, else the
    model built from the safely loaded document. *)
Definition load_config (config_path : ustr) (fs : files) : result KotobaConfig :=
  match fs config_path with
  | None => Ok default_KotobaConfig
  | Some doc => bind (safe_construct doc) build_KotobaConfig
  end.

End WithFloat.

End Config.

(* ================================================================== *)
(** * Test suites and results *)
(* ================================================================== *)

Module Suite.
Import Py Actions Assertions.

(** ** The test-suite description, as loaded from YAML or JSON

    A step is a mapping with the optional keys "instruction" and
    "description", or some other value ([StepOther]: a list item that is
    no mapping, with the name of its Python type: str, int, list,
    NoneType, ...). For the lists, [None] is a key present with a null
    value; an absent key reads as the empty list. *)
Inductive Step :=
| StepMap (instruction description : option ustr)
| StepOther (type_name : ustr).

Record TestCase := {
  tc_name : option ustr;
  tc_steps : option (list Step)
}.

Record TestData := {
  td_name : option ustr;
  td_base_url : option ustr;
  td_test_cases : option (list TestCase)
}.

(** ** Results (the timestamps are left out) *)

Inductive Status := running | passed | failed | error.

Definition status_eqb (a b : Status) : bool :=
  match a, b with
  | running, running | passed, passed | failed, failed | error, error => true
  | _, _ => false
  end.

(** The dictionary stored under "assertion_result". *)
Record AssertionSummary := {
  as_type : string;
  as_passed : bool;
  as_expected : pyval;
  as_actual : pyval;
  as_error_message : option ustr
}.

(** A step result. [ErrorStep] is the shorter dictionary the Robust
    Runner builds for a step that crashed. *)
Record StepFields := {
  sr_index : nat;
  sr_description : ustr;
  sr_natural_language : ustr;
  sr_status : Status;
  sr_action : option Action;
  sr_assertion_result : option AssertionSummary;
  sr_error : option ustr
}.

Inductive StepResult :=
| FullStep (f : StepFields)
| ErrorStep (index : nat) (err : ustr).

Definition step_status (r : StepResult) : Status :=
  match r with
  | FullStep f => sr_status f
  | ErrorStep _ _ => error
  end.

Record CaseResult := {
  cr_name : ustr;
  cr_status : Status;
  cr_steps : list StepResult;
  cr_error : option ustr;
  cr_screenshot : option ustr
}.

Record Summary := { total : Z; n_passed : Z; n_failed : Z; n_errors : Z }.

Record SuiteResult := {
  test_name : ustr;
  res_base_url : ustr;
  test_cases : list CaseResult;
  summary : Summary
}.

(** The update of the summary after a case. *)
Definition count_case (s : Summary) (st : Status) : Summary :=
  match st with
  | passed => {| total := total s + 1; n_passed := n_passed s + 1;
                 n_failed := n_failed s; n_errors := n_errors s |}
  | failed => {| total := total s + 1; n_passed := n_passed s;
                 n_failed := n_failed s + 1; n_errors := n_errors s |}
  | _ => {| total := total s + 1; n_passed := n_passed s;
            n_failed := n_failed s; n_errors := n_errors s + 1 |}
  end.

Definition empty_summary : Summary :=
  {| total := 0; n_passed := 0; n_failed := 0; n_errors := 0 |}.

(** ** Setters of the step dictionary *)

Definition new_step (idx : nat) (instruction description : option ustr) : StepFields :=
  {| sr_index := idx;
     sr_description := match description with Some d => d | None => [] end;
     sr_natural_language := match instruction with Some i => i | None => [] end;
     sr_status := running; sr_action := None; sr_assertion_result := None;
     sr_error := None |}.

Definition set_status (st : Status) (f : StepFields) : StepFields :=
  {| sr_index := sr_index f; sr_description := sr_description f;
     sr_natural_language := sr_natural_language f; sr_status := st;
     sr_action := sr_action f; sr_assertion_result := sr_assertion_result f;
     sr_error := sr_error f |}.

Definition set_error (e : option ustr) (f : StepFields) : StepFields :=
  {| sr_index := sr_index f; sr_description := sr_description f;
     sr_natural_language := sr_natural_language f; sr_status := sr_status f;
     sr_action := sr_action f; sr_assertion_result := sr_assertion_result f;
     sr_error := e |}.

Definition set_action (a : Action) (f : StepFields) : StepFields :=
  {| sr_index := sr_index f; sr_description := sr_description f;
     sr_natural_language := sr_natural_language f; sr_status := sr_status f;
     sr_action := Some a; sr_assertion_result := sr_assertion_result f;
     sr_error := sr_error f |}.

Definition set_assertion_result (r : AssertionSummary) (f : StepFields) : StepFields :=
  {| sr_index := sr_index f; sr_description := sr_description f;
     sr_natural_language := sr_natural_language f; sr_status := sr_status f;
     sr_action := sr_action f; sr_assertion_result := Some r;
     sr_error := sr_error f |}.

(** The handler of a step: [status = "failed"], [error = str(e)]. *)
Definition fail_step (e : exn) (f : StepFields) : StepFields :=
  set_error (Some (str_of_exn e)) (set_status failed f).

Definition summarise (a : Assertion) (r : AssertionResult) : AssertionSummary :=
  {| as_type := type_value (type a);
     as_passed := Assertions.passed r;
     as_expected := expected_value r;
     as_actual := actual_value r;
     as_error_message := error_message r |}.

(** How a step was resolved. *)
Inductive Resolution := AsAssertion | AsAction | Unresolved.

Definition resolution (r : StepResult) : Resolution :=
  match r with
  | FullStep f =>
      match sr_assertion_result f, sr_action f with
      | Some _, _ => AsAssertion
      | None, Some _ => AsAction
      | None, None => Unresolved
      end
  | ErrorStep _ _ => Unresolved
  end.

(** ** Calls that change the world and may raise *)

Section Monad.
Variable W : Type.

Definition M (A : Type) : Type := W -> result A * W.

Definition ret {A} (a : A) : M A := fun w => (Ok a, w).
Definition raise {A} (e : exn) : M A := fun w => (Raise e, w).
Definition lift {A} (r : result A) : M A := fun w => (r, w).

Definition mbind {A B} (m : M A) (f : A -> M B) : M B :=
  fun w =>
    match m w with
    | (Ok a, w') => f a w'
    | (Raise e, w') => (Raise e, w')
    end.

(** [try: body  except Exception as e: handler e] *)
Definition try_except {A} (body : M A) (handler : exn -> M A) : M A :=
  fun w =>
    match body w with
    | (Ok a, w') => (Ok a, w')
    | (Raise e, w') => if is_Exception e then handler e w' else (Raise e, w')
    end.

(** [try: body  finally: cleanup] where the cleanup does not raise. *)
Definition try_finally {A} (body : M A) (cleanup : W -> W) : M A :=
  fun w => let (r, w') := body w in (r, cleanup w').

End Monad.

End Suite.

(* ================================================================== *)
(** * runner.py: the Standard Runner *)
(* ================================================================== *)

Module Runner.
Import Py Actions Assertions Suite.
Local Open Scope string_scope.

Section WithWorld.
(** The state of everything outside the runner: browser, model, clock. *)
Variable W : Type.

(** The collaborators of a runner and the configuration it reads. *)
Record Env := {
  parse : ustr -> M W (option assertion_info);
                                   (* self.assertion_pattern_matcher.parse *)
  translate_to_actions : ustr -> M W Action;
                                   (* self.llm_manager.translate_to_actions *)
  execute_action : Action -> M W unit;
                                   (* await self.browser_manager.execute_action *)
  execute_assertion : Assertion -> M W AssertionResult;
                                   (* await self.browser_manager.execute_assertion *)
  navigate : ustr -> M W unit;     (* await self.browser_manager.navigate *)
  take_screenshot : ustr -> M W ustr;
                                   (* await self.browser_manager.take_screenshot *)
  timestamp : M W ustr;            (* datetime.now().strftime(..) *)
  screenshot_on_failure : bool;    (* self.config.test.screenshot_on_failure *)
  output_dir : ustr                (* self.config.test.output_dir *)
}.

Variable env : Env.

(** A call made inside the [try] of a step while the step dictionary is
    [f]: an [Exception] ends the step through the handler, which marks
    the dictionary as it stands failed. *)
Definition attempt {A} (m : M W A) (f : StepFields) (k : A -> M W StepResult)
  : M W StepResult :=
  fun w =>
    match m w with
    | (Ok a, w') => k a w'
    | (Raise e, w') =>
        if is_Exception e then (Ok (FullStep (fail_step e f)), w') else (Raise e, w')
    end.

(** [step.get] on a value of type [type_name] that is no mapping. *)
Definition no_get (type_name : ustr) : exn :=
  Exn AttributeError (u "'" ++ type_name ++ u "' object has no attribute 'get'")%list.

(** [TestRunner._execute_step] *)
Definition _execute_step (step : Step) (step_idx : nat) : M W StepResult :=
  match step with
  | StepOther ty => raise (no_get ty)
  | StepMap instr descr =>
      let step_result := new_step step_idx instr descr in
      let instruction := match instr with Some i => i | None => [] end in
      match instruction with
      | [] =>
          attempt (raise (Exn ValueError (u "No instruction provided"))) step_result
            (fun _ : unit => ret (FullStep step_result))
      | _ =>
          attempt (parse env instruction) step_result (fun assertion_info =>
            match assertion_info with
            | Some info =>
                let assertion := Assertion_of_info info in
                attempt (execute_assertion env assertion) step_result
                  (fun assertion_result =>
                     let f1 := set_assertion_result (summarise assertion assertion_result)
                                 step_result in
                     let f2 := set_status (if Assertions.passed assertion_result
                                           then passed else failed) f1 in
                     let f3 := if Assertions.passed assertion_result then f2
                               else set_error (error_message assertion_result) f2 in
                     ret (FullStep f3))
            | None =>
                attempt (translate_to_actions env instruction) step_result (fun action =>
                  let f1 := set_action action step_result in
                  attempt (execute_action env action) f1 (fun _ =>
                    ret (FullStep (set_status passed f1))))
            end)
      end
  end.

(** [_take_failure_screenshot]: the path under the output directory, or
    the fallback name when the capture raises. *)
Definition _take_failure_screenshot (test_name : ustr) (step_idx : Z) : M W ustr :=
  mbind (timestamp env) (fun ts =>
    let screenshot_name :=
      (u "failure_" ++ test_name ++ u "_" ++ str_of_Z step_idx ++ u "_" ++ ts ++ u ".png")%list in
    let screenshot_path := (output_dir env ++ u "/" ++ screenshot_name)%list in
    try_except
      (mbind (take_screenshot env screenshot_path) (fun _ => ret screenshot_path))
      (fun _ => ret (u "screenshot_failed.png"))).

Definition key_error_name : exn := Exn KeyError (u "'name'").

(** [test_case["name"]] *)
Definition name_item (test_case : TestCase) : result ustr :=
  match tc_name test_case with
  | Some n => Ok n
  | None => Raise key_error_name
  end.

Definition add_step (sr : StepResult) (c : CaseResult) : CaseResult :=
  {| cr_name := cr_name c; cr_status := cr_status c; cr_steps := cr_steps c ++ [sr];
     cr_error := cr_error c; cr_screenshot := cr_screenshot c |}.
Definition set_case_status (st : Status) (c : CaseResult) : CaseResult :=
  {| cr_name := cr_name c; cr_status := st; cr_steps := cr_steps c;
     cr_error := cr_error c; cr_screenshot := cr_screenshot c |}.
Definition set_case_error (e : ustr) (c : CaseResult) : CaseResult :=
  {| cr_name := cr_name c; cr_status := cr_status c; cr_steps := cr_steps c;
     cr_error := Some e; cr_screenshot := cr_screenshot c |}.
Definition set_screenshot (p : ustr) (c : CaseResult) : CaseResult :=
  {| cr_name := cr_name c; cr_status := cr_status c; cr_steps := cr_steps c;
     cr_error := cr_error c; cr_screenshot := Some p |}.

Definition new_case (test_case : TestCase) : CaseResult :=
  {| cr_name := match tc_name test_case with Some n => n | None => u "Unknown" end;
     cr_status := running; cr_steps := []; cr_error := None; cr_screenshot := None |}.

(** The body of the [try] of a case: the case dictionary when the body
    ends, and the exception that ended it, if any. *)
Definition Body : Type := W -> (CaseResult * option exn) * W.

(** The loop over the steps: it stops at the first failed step, after
    the failure screenshot when the configuration asks for one. *)
Fixpoint steps_loop (test_case : TestCase) (steps : list Step) (step_idx : nat)
  (c : CaseResult) : Body :=
  fun w =>
    match steps with
    | [] => ((c, None), w)
    | step :: rest =>
        match _execute_step step step_idx w with
        | (Raise e, w1) => ((c, Some e), w1)
        | (Ok step_result, w1) =>
            let c1 := add_step step_result c in
            if status_eqb (step_status step_result) failed then
              let c2 := set_case_status failed c1 in
              if screenshot_on_failure env then
                match name_item test_case with
                | Raise e => ((c2, Some e), w1)
                | Ok name =>
                    match _take_failure_screenshot name (Z.of_nat step_idx) w1 with
                    | (Ok p, w2) => ((set_screenshot p c2, None), w2)
                    | (Raise e, w2) => ((c2, Some e), w2)
                    end
                end
              else ((c2, None), w1)
            else steps_loop test_case rest (S step_idx) c1 w1
        end
    end.

Definition not_iterable : exn := Exn TypeError (u "'NoneType' object is not iterable").

(** [TestRunner._execute_test_case] *)
Definition _execute_test_case (test_case : TestCase) : M W CaseResult :=
  fun w =>
    let c0 := new_case test_case in
    let '((c, pending), w1) :=
      match tc_steps test_case with
      | None => ((c0, Some not_iterable), w)
      | Some steps => steps_loop test_case steps 0 c0 w
      end in
    match pending with
    | None =>
        (Ok (if status_eqb (cr_status c) running then set_case_status passed c else c), w1)
    | Some e =>
        if is_Exception e then
          let c1 := set_case_error (str_of_exn e) (set_case_status error c) in
          if screenshot_on_failure env then
            match name_item test_case with
            | Raise e' => (Raise e', w1)
            | Ok name =>
                match _take_failure_screenshot name (-1) w1 with
                | (Ok p, w2) => (Ok (set_screenshot p c1), w2)
                | (Raise e', w2) => (Raise e', w2)
                end
            end
          else (Ok c1, w1)
        else (Raise e, w1)
    end.

Definition add_case (c : CaseResult) (r : SuiteResult) : SuiteResult :=
  {| test_name := test_name r; res_base_url := res_base_url r;
     test_cases := test_cases r ++ [c];
     summary := count_case (summary r) (cr_status c) |}.

Definition new_results (test_data : TestData) : SuiteResult :=
  {| test_name := match td_name test_data with Some n => n | None => u "Unknown" end;
     res_base_url := match td_base_url test_data with Some b => b | None => [] end;
     test_cases := []; summary := empty_summary |}.

(** The loop over the cases: every case is run and counted. *)
Fixpoint cases_loop (cases : list TestCase) (r : SuiteResult) : M W SuiteResult :=
  match cases with
  | [] => ret r
  | test_case :: rest =>
      mbind (_execute_test_case test_case) (fun case_result =>
        cases_loop rest (add_case case_result r))
  end.

Definition no_len : exn := Exn TypeError (u "object of type 'NoneType' has no len()").

(** [TestRunner._execute_test_suite] *)
Definition _execute_test_suite (test_data : TestData) : M W SuiteResult :=
  let results := new_results test_data in
  mbind (match td_base_url test_data with
         | Some (c :: b) => navigate env (c :: b)
         | _ => ret tt
         end) (fun _ =>
    match td_test_cases test_data with
    | None => raise no_len
    | Some cases => cases_loop cases results
    end).

End WithWorld.

End Runner.

(* ================================================================== *)
(** * optimized_runner.py: the step executor of the Optimized Runner *)
(* ================================================================== *)

Module OptimizedRunner.
Import Py Actions Assertions Suite.
Local Open Scope string_scope.

Section WithWorld.
Variable W : Type.
Variable env : Runner.Env W.

(** [OptimizedTestRunner._execute_step]: the pause after an action is
    0.3 s instead of 0.5 s; a pause changes no result. *)
Definition _execute_step (step : Step) (step_idx : nat) : M W StepResult :=
  match step with
  | StepOther ty => raise (Runner.no_get ty)
  | StepMap instr descr =>
      let step_result := new_step step_idx instr descr in
      let instruction := match instr with Some i => i | None => [] end in
      match instruction with
      | [] =>
          Runner.attempt (raise (Exn ValueError (u "No instruction provided"))) step_result
            (fun _ : unit => ret (FullStep step_result))
      | _ =>
          Runner.attempt (Runner.parse env instruction) step_result
            (fun assertion_info =>
               match assertion_info with
               | Some info =>
                   let assertion := Assertion_of_info info in
                   Runner.attempt (Runner.execute_assertion env assertion) step_result
                     (fun assertion_result =>
                        let f1 := set_assertion_result
                                    (summarise assertion assertion_result) step_result in
                        let f2 := set_status (if Assertions.passed assertion_result
                                              then passed else failed) f1 in
                        let f3 := if Assertions.passed assertion_result then f2
                                  else set_error (error_message assertion_result) f2 in
                        ret (FullStep f3))
               | None =>
                   Runner.attempt (Runner.translate_to_actions env instruction) step_result
                     (fun action =>
                        let f1 := set_action action step_result in
                        Runner.attempt (Runner.execute_action env action) f1 (fun _ =>
                          ret (FullStep (set_status passed f1))))
               end)
      end
  end.

End WithWorld.

End OptimizedRunner.

(* ================================================================== *)
(** * robust_runner.py: the Robust Runner *)
(* ================================================================== *)

Module RobustRunner.
Import Py Actions Assertions Suite.
Local Open Scope string_scope.

(** A page object of the browser engine, by identity. *)
Definition page := nat.

Section WithWorld.
(** The state of the browser engine, the model, the files and the clock. *)
Variable W : Type.

(** The runner with its browser manager: the manager's [page] field and
    the world. *)
Record State := { bm_page : option page; world : W }.

Definition set_page (p : option page) (s : State) : State :=
  {| bm_page := p; world := world s |}.

(** A call on the world made from the runner. *)
Definition on_world {A} (m : M W A) : M State A :=
  fun s => let (r, w') := m (world s) in (r, {| bm_page := bm_page s; world := w' |}).

(** The collaborators. The browser manager's operations act on the page
    its [page] field holds when they are called. *)
Record Env := {
  translate_to_actions : ustr -> M W Action;
  execute_action : option page -> Action -> Z -> M W unit;
        (* await asyncio.wait_for(self.browser_manager.execute_action(action), timeout) *)
  navigate : option page -> ustr -> M W unit;
  new_page : M W page;             (* await self.browser_manager.context.new_page() *)
  set_default_timeout : page -> Z -> M W unit;
  is_closed : page -> W -> bool;   (* page.is_closed() *)
  close_page : page -> M W unit;   (* await page.close() *)
  start_browser : M W page;        (* await self.browser_manager.start(): the page it opens *)
  close_browser : M W unit;        (* await self.browser_manager.close() *)
  load_model : M W unit;
  _load_test_file : ustr -> M W TestData;
  _save_results : SuiteResult -> ustr -> M W ustr;
  repr_action : Action -> ustr;    (* the text an f-string prints for the dictionary *)
  config_timeout : Z;              (* self.browser_manager.config.timeout *)
  console : Console                (* the module's rich console *)
}.

Variable env : Env.

(** [console.print(text)] *)
Definition print (text : ustr) : M State unit :=
  lift (console_print (console env) text).

(** The lines printed with a text of the test file or of the result file
    in them (the characters are those of the source file). *)
Definition loaded_line (name : ustr) : ustr :=
  (u "  âœ“ Test data loaded: [green]" ++ name ++ u "[/green]")%list.

Definition saved_line (result_file : ustr) : ustr :=
  (u "  âœ“ Results saved: [dim]" ++ result_file ++ u "[/dim]")%list.

Definition case_line (test_name : ustr) : ustr :=
  (u "    âš¡ " ++ test_name)%list.

Definition attempt {A} (m : M State A) (f : StepFields) (k : A -> M State StepResult)
  : M State StepResult :=
  fun s =>
    match m s with
    | (Ok a, s') => k a s'
    | (Raise e, s') =>
        if is_Exception e then (Ok (FullStep (fail_step e f)), s') else (Raise e, s')
    end.

(** The page test at the start of a step. *)
Definition page_unusable (s : State) : bool :=
  match bm_page s with
  | None => true
  | Some p => is_closed env p (world s)
  end.

(** The action under [asyncio.wait_for]: a timeout becomes a
    [RuntimeError] naming the action. *)
Definition execute_with_timeout (action : Action) : M State unit :=
  fun s =>
    match on_world (execute_action env (bm_page s) action (config_timeout env)) s with
    | (Raise e, s') =>
        match exn_cls e with
        | AsyncioTimeoutError =>
            (Raise (Exn RuntimeError (u "Action timed out: " ++ repr_action env action)%list), s')
        | _ => (Raise e, s')
        end
    | ok => ok
    end.

(** [RobustTestRunner._execute_step_robust] *)
Definition _execute_step_robust (step : Step) (step_idx : nat) : M State StepResult :=
  match step with
  | StepOther ty => raise (Runner.no_get ty)
  | StepMap instr descr =>
      let step_result := new_step step_idx instr descr in
      attempt (fun s => if page_unusable s
                        then (Raise (Exn RuntimeError (u "Page is closed or unavailable")), s)
                        else (Ok tt, s)) step_result (fun _ =>
        let instruction := match instr with Some i => i | None => [] end in
        match instruction with
        | [] =>
            attempt (raise (Exn ValueError (u "No instruction provided"))) step_result
              (fun _ : unit => ret (FullStep step_result))
        | _ =>
            attempt (on_world (translate_to_actions env instruction)) step_result
              (fun action =>
                 let f1 := set_action action step_result in
                 attempt (execute_with_timeout action) f1 (fun _ =>
                   ret (FullStep (set_status passed f1))))
        end)
  end.

Definition CaseBody : Type := State -> (CaseResult * option exn) * State.

(** The loop over the steps, with the crash boundary of a step: a step
    executor that raises leaves an error step and the case in error. *)
Fixpoint steps_loop (steps : list Step) (step_idx : nat) (c : CaseResult) : CaseBody :=
  fun s =>
    match steps with
    | [] => ((c, None), s)
    | step :: rest =>
        match _execute_step_robust step step_idx s with
        | (Ok step_result, s1) =>
            let c1 := Runner.add_step step_result c in
            if status_eqb (step_status step_result) failed
            then ((Runner.set_case_status failed c1, None), s1)
            else steps_loop rest (S step_idx) c1 s1
        | (Raise e, s1) =>
            if is_Exception e then
              let error_step := ErrorStep step_idx (str_of_exn e) in
              ((Runner.set_case_status error (Runner.add_step error_step c), None), s1)
            else ((c, Some e), s1)
        end
    end.

(** [RobustTestRunner._execute_test_case_robust] *)
Definition _execute_test_case_robust (test_case : TestCase) : M State CaseResult :=
  fun s =>
    let c0 := Runner.new_case test_case in
    let '((c, pending), s1) :=
      match tc_steps test_case with
      | None => ((c0, Some Runner.not_iterable), s)
      | Some steps => steps_loop steps 0 c0 s
      end in
    match pending with
    | None =>
        (Ok (if status_eqb (cr_status c) running
             then Runner.set_case_status passed c else c), s1)
    | Some e =>
        if is_Exception e
        then (Ok (Runner.set_case_error (str_of_exn e) (Runner.set_case_status error c)), s1)
        else (Raise e, s1)
    end.

Definition case_name (i : nat) (test_case : TestCase) : ustr :=
  match tc_name test_case with
  | Some n => n
  | None => (u "Test " ++ str_of_nat (S i))%list
  end.

(** The dictionary of a case that crashed. *)
Definition error_case (name : ustr) (e : exn) : CaseResult :=
  {| cr_name := name; cr_status := error; cr_steps := [];
     cr_error := Some (str_of_exn e); cr_screenshot := None |}.

(** The loop over the cases, with the crash boundary of a case. The name
    of the case is printed before the [try] of the case. *)
Fixpoint cases_loop (cases : list TestCase) (i : nat) (r : SuiteResult)
  : M State SuiteResult :=
  match cases with
  | [] => ret r
  | test_case :: rest =>
      let test_name := case_name i test_case in
      mbind (print (case_line test_name)) (fun _ =>
        fun s =>
          match _execute_test_case_robust test_case s with
          | (Ok case_result, s1) => cases_loop rest (S i) (Runner.add_case case_result r) s1
          | (Raise e, s1) =>
              if is_Exception e
              then cases_loop rest (S i) (Runner.add_case (error_case test_name e) r) s1
              else (Raise e, s1)
          end)
  end.

Definition count_error (r : SuiteResult) : SuiteResult :=
  {| test_name := test_name r; res_base_url := res_base_url r;
     test_cases := test_cases r;
     summary := {| total := total (summary r); n_passed := n_passed (summary r);
                   n_failed := n_failed (summary r);
                   n_errors := n_errors (summary r) + 1 |} |}.

(** [RobustTestRunner._execute_test_suite_robust] *)
Definition _execute_test_suite_robust (test_data : TestData) : M State SuiteResult :=
  fun s =>
    let results := Runner.new_results test_data in
    let after_navigation (s1 : State) :=
      match td_test_cases test_data with
      | None => (Raise Runner.no_len, s1)
      | Some cases => cases_loop cases 0 results s1
      end in
    match td_base_url test_data with
    | Some (c :: b) =>
        match on_world (navigate env (bm_page s) (c :: b)) s with
        | (Ok _, s1) => after_navigation s1
        | (Raise e, s1) =>
            if is_Exception e then (Ok (count_error results), s1) else (Raise e, s1)
        end
    | _ => after_navigation s
    end.

(** The [finally] of [_run_single_test_robust]: the page opened for the
    file is closed if it is not closed yet; an [Exception] of the close
    is a warning. *)
Definition close_used_page (p : option page) {A} (r : result A) (s : State)
  : result A * State :=
  match p with
  | None => (r, s)
  | Some pg =>
      if is_closed env pg (world s) then (r, s)
      else
        match on_world (close_page env pg) s with
        | (Ok _, s') => (r, s')
        | (Raise e, s') => if is_Exception e then (r, s') else (Raise e, s')
        end
  end.

(** [test_data.get('name', 'Unnamed')] *)
Definition suite_name (test_data : TestData) : ustr :=
  match td_name test_data with
  | Some n => n
  | None => u "Unnamed"
  end.

(** [RobustTestRunner._run_single_test_robust] *)
Definition _run_single_test_robust (test_file_path : ustr) : M State SuiteResult :=
  mbind (on_world (_load_test_file env test_file_path)) (fun test_data =>
  mbind (print (loaded_line (suite_name test_data))) (fun _ s0 =>
        (* page = None; try: *)
        match on_world (new_page env) s0 with
        | (Raise e, s1) => close_used_page None (Raise e) s1
        | (Ok pg, s1) =>
            match on_world (set_default_timeout env pg (config_timeout env)) s1 with
            | (Raise e, s2) => close_used_page (Some pg) (Raise e) s2
            | (Ok _, s2) =>
                (* temporarily switch page *)
                let original_page := bm_page s2 in
                let s3 := set_page (Some pg) s2 in
                match _execute_test_suite_robust test_data s3 with
                | (Raise e, s4) => close_used_page (Some pg) (Raise e) s4
                | (Ok results, s4) =>
                    (* restore original page *)
                    let s5 := set_page original_page s4 in
                    match on_world (_save_results env results test_file_path) s5 with
                    | (Raise e, s6) => close_used_page (Some pg) (Raise e) s6
                    | (Ok result_file, s6) =>
                        match print (saved_line result_file) s6 with
                        | (Raise e, s7) => close_used_page (Some pg) (Raise e) s7
                        | (Ok _, s7) => close_used_page (Some pg) (Ok results) s7
                        end
                    end
                end
            end
        end)).

(** One result of a batch: the suite result of a file, or the error
    dictionary of a file that failed (it has no summary). *)
Inductive FileResult :=
| FileSuite (r : SuiteResult)
| FileError (name : ustr) (err : ustr).

(** The loop of [run_test_files_batch] over the files. *)
Fixpoint files_loop (paths : list ustr) (acc : list FileResult) : M State (list FileResult) :=
  match paths with
  | [] => ret acc
  | test_file_path :: rest =>
      fun s =>
        match _run_single_test_robust test_file_path s with
        | (Ok r, s1) => files_loop rest (acc ++ [FileSuite r]) s1
        | (Raise e, s1) =>
            if is_Exception e
            then files_loop rest (acc ++ [FileError test_file_path (str_of_exn e)]) s1
            else (Raise e, s1)
        end
  end.

(** [RobustTestRunner._display_batch_summary]: the table of the results,
    one row for each. The first cell of a row is the name of the result,
    rendered as markup on its own when the table is printed: the name of the
    suite, or for an error dictionary the name of the file. The other cells
    and the lines around the table are fixed texts with numbers. *)
Fixpoint _display_batch_summary (batch_results : list FileResult) : M State unit :=
  match batch_results with
  | [] => ret tt
  | FileSuite r :: rest =>
      mbind (print (test_name r)) (fun _ => _display_batch_summary rest)
  | FileError _ _ :: rest => _display_batch_summary rest
  end.

(** [RobustTestRunner.run_test_files_batch] *)
Definition run_test_files_batch (test_file_paths : list ustr) : M State (list FileResult) :=
  match test_file_paths with
  | [] => ret []
  | _ =>
      mbind (on_world (load_model env)) (fun _ =>
      mbind (on_world (start_browser env)) (fun p0 =>
      mbind (fun s =>
               let '(r, s1) := files_loop test_file_paths [] (set_page (Some p0) s) in
               (* finally: close the browser session *)
               match on_world (close_browser env) s1 with
               | (Ok _, s2) => (r, s2)
               | (Raise e, s2) => if is_Exception e then (r, s2) else (Raise e, s2)
               end) (fun batch_results =>
      mbind (_display_batch_summary batch_results) (fun _ =>
        ret batch_results))))
  end.

End WithWorld.

End RobustRunner.

(* ================================================================== *)
(** * __main__.py: runner selection and the exit code *)
(* ================================================================== *)

Module Main.
Import Py Suite.

Section WithWorld.
Variable W : Type.

(** What the command line selects. *)
Record Options := {
  test_file : option ustr;        (* --test-file *)
  test_files : list ustr;         (* --test-files *)
  test_dir : option (list ustr);  (* --test-dir: the YAML files found in it *)
  optimized : bool;
  robust : bool
}.

(** One run of each runner, as [asyncio.run] sees it: the value the
    coroutine returns or the exception it raises. *)
Record Runners := {
  robust_batch : list ustr -> M W (list RobustRunner.FileResult);
  optimized_batch : list ustr -> M W (list RobustRunner.FileResult);
  run_test_file : ustr -> M W SuiteResult;     (* TestRunner.run_test_file *)
  run_interactive : M W unit                   (* TestRunner.run_interactive *)
}.

Variable runners : Runners.

(** [result.get("summary", {})]: an error dictionary has no summary. *)
Definition summary_of (r : RobustRunner.FileResult) : option Summary :=
  match r with
  | RobustRunner.FileSuite s => Some (summary s)
  | RobustRunner.FileError _ _ => None
  end.

(** [summary.get("failed", 0) > 0 or summary.get("errors", 0) > 0] *)
Definition reports_failure (s : option Summary) : bool :=
  match s with
  | Some m => ((0 <? n_failed m) || (0 <? n_errors m))%Z
  | None => false
  end.

(** The list of test files: the three options add up. *)
Definition test_file_paths (o : Options) : list ustr :=
  (match test_file o with Some f => [f] | None => [] end)
  ++ test_files o
  ++ (match test_dir o with Some l => l | None => [] end).

(** The loop over the results of a batch. *)
Fixpoint check_results (results : list RobustRunner.FileResult) (all_tests_passed : bool)
  : bool :=
  match results with
  | [] => all_tests_passed
  | result :: rest =>
      check_results rest
        (if reports_failure (summary_of result) then false else all_tests_passed)
  end.

(** Standard mode with several files: one run per file. *)
Fixpoint standard_loop (paths : list ustr) (all_tests_passed : bool) : M W bool :=
  match paths with
  | [] => ret all_tests_passed
  | test_path :: rest =>
      mbind (run_test_file runners test_path) (fun result =>
        standard_loop rest
          (if reports_failure (Some (summary result)) then false else all_tests_passed))
  end.

(** [runner.run_test_file] of the batch runners: the only result of a
    batch of one file. *)
Definition first_of (batch : list ustr -> M W (list RobustRunner.FileResult)) (p : ustr)
  : M W RobustRunner.FileResult :=
  mbind (batch [p]) (fun l =>
    match l with
    | r :: _ => ret r
    | [] => raise (Exn IndexError (u "list index out of range"))
    end).

(** The body of the [try] of [main]: the value of [all_tests_passed]
    when the runs are over. *)
Definition run_tests (o : Options) : M W bool :=
  let paths := test_file_paths o in
  match paths with
  | [] => mbind (run_interactive runners) (fun _ => ret true)
  | [p] =>
      if robust o then
        mbind (first_of (robust_batch runners) p) (fun result =>
          ret (negb (reports_failure (summary_of result))))
      else if optimized o then
        mbind (first_of (optimized_batch runners) p) (fun result =>
          ret (negb (reports_failure (summary_of result))))
      else
        mbind (run_test_file runners p) (fun result =>
          ret (negb (reports_failure (Some (summary result)))))
  | _ =>
      if robust o then
        mbind (robust_batch runners paths) (fun results => ret (check_results results true))
      else if optimized o then
        mbind (optimized_batch runners paths) (fun results => ret (check_results results true))
      else standard_loop paths true
  end.

(** The exit code of the process, from the selection of the runner on:
    [sys.exit(1)] when files were run and not all passed, or on an
    [Exception]; a keyboard interrupt is logged and [main] returns. *)
Definition main (o : Options) (w : W) : Z * W :=
  match run_tests o w with
  | (Ok all_tests_passed, w') =>
      match test_file_paths o with
      | [] => (0%Z, w')
      | _ => if all_tests_passed then (0%Z, w') else (1%Z, w')
      end
  | (Raise e, w') =>
      match exn_cls e with
      | KeyboardInterrupt => (0%Z, w')
      | _ => (1%Z, w')
      end
  end.

End WithWorld.

End Main.

(* ================================================================== *)
(** * Notions used in the statements *)
(* ================================================================== *)

Module Notions.
Import Py Actions Assertions Suite.
Local Open Scope string_scope.

(** ** The pattern table *)

(** The parameter kinds for which [parse] has a branch. *)
Definition handled_kind (k : string) : bool :=
  (k =? "text") || (k =? "selector") || (k =? "url") || (k =? "title")
  || (k =? "selector_value") || (k =? "selector_count") || (k =? "html_element").

(** An entry whose kind is handled carries a type with an evaluator. *)
Definition entry_ok (e : string * AssertionType * string) : bool :=
  let '(_, t, k) := e in
  if handled_kind k then implemented t else true.

Definition entry_has_type (t : AssertionType) (e : string * AssertionType * string) : bool :=
  let '(_, t', _) := e in String.eqb (type_value t) (type_value t').

(** A pattern is inside the modelled fragment of [re]: it compiles, or
    compiling it raises [re.error]. *)
Definition compiles_or_re_error (e : string * AssertionType * string) : bool :=
  match Re.compile (u (fst (fst e))) with
  | Ok _ => true
  | Raise x => match exn_cls x with ReError => true | _ => false end
  end.

Definition does_not_compile (e : string * AssertionType * string) : bool :=
  match Re.compile (u (fst (fst e))) with
  | Ok _ => false
  | Raise _ => true
  end.

(** The instruction of the URL suffix example: the text between the
    quotes is [success]. *)
Definition url_suffix_instruction : ustr :=
  u ("URLが" ++ dq ++ "success" ++ dq ++ "で終わることを確認する").

(** The entries of lines 135, 143 and 433 of assertions.py. *)
Definition entry_line_135 : string * AssertionType * string :=
  ("URLが(.+?)(?:で終わる|になっている|であることを確認)(?:する|します|してください|お願いします)?",
   URL_CONTAINS, "url").

Definition entry_line_143 : string * AssertionType * string :=
  ("URLが[「" ++ "]?(.+?)[」" ++ "]?で終わることを確認(?:する|します|してください|お願いします)?",
   URL_ENDS_WITH, "url").

Definition entry_line_433 : string * AssertionType * string :=
  ("[\" ++ dq ++ "'" ++ "](.+?)[" ++ dq ++ "'" ++ "](?:有|在)(?:这个|这|那个|那)(?:页面|屏幕|界面)(?:上|里|中)(?:显示|出现|存在)(?:了|着|呢|嗎)(?:？|?)?",
   TEXT_EXISTS, "text").

(** ** The assertion executor *)



(** A page that answers every locator query with no element, with the
    given address, title and content. *)
Definition static_page (url title content : ustr) : Page :=
  {| pg_url := url; pg_title := Ok title; pg_content := Ok content;
     loc_count := fun _ => Ok 0%Z;
     loc_first_wait_for := fun _ _ _ => Ok tt;
     loc_wait_for := fun _ _ _ => Ok tt;
     loc_is_visible := fun _ => Ok false;
     loc_input_value := fun _ => Ok [];
     loc_is_checked := fun _ => Ok false |}.

Definition assertion_of (t : AssertionType) (e : ustr) : Assertion :=
  {| type := t; selector := None; expected := VStr e; attribute := None;
     timeout := 5000; ignore_case := false; wait_for := true |}.

(** ** The calls a step makes to its collaborators *)

Inductive Call :=
| CallParse (instruction : ustr)
| CallTranslate (instruction : ustr)
| CallExecuteAction (a : Action)
| CallExecuteAssertion (a : Assertion).

Section Tracing.
Variable W : Type.

(** The world with the log of the calls made so far. *)
Definition logged {A} (c : Call) (m : M W A) : M (W * list Call) A :=
  fun s => let (r, w') := m (fst s) in (r, (w', (snd s ++ [c])%list)).

Definition quiet {A} (m : M W A) : M (W * list Call) A :=
  fun s => let (r, w') := m (fst s) in (r, (w', snd s)).

(** The collaborators of the Standard and Optimized runners, logging. *)
Definition traced (env : Runner.Env W) : Runner.Env (W * list Call) :=
  {| Runner.parse := fun i => logged (CallParse i) (Runner.parse env i);
     Runner.translate_to_actions :=
       fun i => logged (CallTranslate i) (Runner.translate_to_actions env i);
     Runner.execute_action :=
       fun a => logged (CallExecuteAction a) (Runner.execute_action env a);
     Runner.execute_assertion :=
       fun a => logged (CallExecuteAssertion a) (Runner.execute_assertion env a);
     Runner.navigate := fun url => quiet (Runner.navigate env url);
     Runner.take_screenshot := fun p => quiet (Runner.take_screenshot env p);
     Runner.timestamp := quiet (Runner.timestamp env);
     Runner.screenshot_on_failure := Runner.screenshot_on_failure env;
     Runner.output_dir := Runner.output_dir env |}.

(** The collaborators of the Robust Runner, logging. *)
Definition traced_robust (env : RobustRunner.Env W) : RobustRunner.Env (W * list Call) :=
  {| RobustRunner.translate_to_actions :=
       fun i => logged (CallTranslate i) (RobustRunner.translate_to_actions env i);
     RobustRunner.execute_action :=
       fun p a t => logged (CallExecuteAction a) (RobustRunner.execute_action env p a t);
     RobustRunner.navigate := fun p url => quiet (RobustRunner.navigate env p url);
     RobustRunner.new_page := quiet (RobustRunner.new_page env);
     RobustRunner.set_default_timeout :=
       fun p t => quiet (RobustRunner.set_default_timeout env p t);
     RobustRunner.is_closed := fun p s => RobustRunner.is_closed env p (fst s);
     RobustRunner.close_page := fun p => quiet (RobustRunner.close_page env p);
     RobustRunner.start_browser := quiet (RobustRunner.start_browser env);
     RobustRunner.close_browser := quiet (RobustRunner.close_browser env);
     RobustRunner.load_model := quiet (RobustRunner.load_model env);
     RobustRunner._load_test_file := fun p => quiet (RobustRunner._load_test_file env p);
     RobustRunner._save_results := fun r p => quiet (RobustRunner._save_results env r p);
     RobustRunner.repr_action := RobustRunner.repr_action env;
     RobustRunner.config_timeout := RobustRunner.config_timeout env;
     RobustRunner.console := RobustRunner.console env |}.

(** The log of a step of the Standard Runner started with an empty log. *)
Definition calls_of_step (env : Runner.Env W) (step : Step) (idx : nat) (w : W) : list Call :=
  snd (snd (Runner._execute_step (traced env) step idx (w, []))).

Definition calls_of_optimized_step (env : Runner.Env W) (step : Step) (idx : nat) (w : W)
  : list Call :=
  snd (snd (OptimizedRunner._execute_step (traced env) step idx (w, []))).

Definition calls_of_robust_step (env : RobustRunner.Env W) (step : Step) (idx : nat)
  (s : RobustRunner.State W) : list Call :=
  snd (RobustRunner.world
         (snd (RobustRunner._execute_step_robust (traced_robust env) step idx
                 {| RobustRunner.bm_page := RobustRunner.bm_page s;
                    RobustRunner.world := (RobustRunner.world s, []) |}))).

(** The calls a step makes when it resolves as the pattern matcher
    decides: the matcher first, then the assertion executor for a
    dictionary, the translator and (once it returned an action) the
    action executor for [None]. *)
Definition calls_by_matcher (env : Runner.Env W) (instruction : ustr) (w : W) : list Call :=
  match Runner.parse env instruction w with
  | (Ok (Some info), _) =>
      [CallParse instruction; CallExecuteAssertion (Assertion_of_info info)]
  | (Ok None, w1) =>
      match Runner.translate_to_actions env instruction w1 with
      | (Ok a, _) => [CallParse instruction; CallTranslate instruction; CallExecuteAction a]
      | (Raise _, _) => [CallParse instruction; CallTranslate instruction]
      end
  | (Raise _, _) => [CallParse instruction]
  end.

(** The calls of a step that goes to the translator without asking the
    matcher. *)
Definition calls_without_matcher (env : RobustRunner.Env W) (instruction : ustr) (w : W)
  : list Call :=
  match RobustRunner.translate_to_actions env instruction w with
  | (Ok a, _) => [CallTranslate instruction; CallExecuteAction a]
  | (Raise _, _) => [CallTranslate instruction]
  end.

(** What the result of a step records when it resolves as the pattern
    matcher decides: an assertion result once the assertion executor
    returned one for the dictionary of the matcher, an action once the
    translator returned one for [None], and neither when one of them
    raised before. *)
Definition resolution_by_matcher (env : Runner.Env W) (instruction : ustr) (w : W)
  : Resolution :=
  match Runner.parse env instruction w with
  | (Ok (Some info), w1) =>
      match Runner.execute_assertion env (Assertion_of_info info) w1 with
      | (Ok _, _) => AsAssertion
      | (Raise _, _) => Unresolved
      end
  | (Ok None, w1) =>
      match Runner.translate_to_actions env instruction w1 with
      | (Ok _, _) => AsAction
      | (Raise _, _) => Unresolved
      end
  | (Raise _, _) => Unresolved
  end.

(** What the result of a step records when it goes to the translator
    without asking the matcher: an action once the translator returned
    one, never an assertion result. *)
Definition resolution_without_matcher (env : RobustRunner.Env W) (instruction : ustr)
  (s : RobustRunner.State W) : Resolution :=
  if RobustRunner.page_unusable env s then Unresolved
  else
    match RobustRunner.translate_to_actions env instruction (RobustRunner.world s) with
    | (Ok _, _) => AsAction
    | (Raise _, _) => Unresolved
    end.

(** The exception a step of the Standard or Optimized runner meets
    first, if any: the missing instruction, or the first collaborator
    that raises. *)
Definition first_exception (env : Runner.Env W) (instr : option ustr) (w : W) : option exn :=
  match instr with
  | None | Some [] => Some (Exn ValueError (u "No instruction provided"))
  | Some i =>
      match Runner.parse env i w with
      | (Raise e, _) => Some e
      | (Ok (Some info), w1) =>
          match Runner.execute_assertion env (Assertion_of_info info) w1 with
          | (Raise e, _) => Some e
          | (Ok _, _) => None
          end
      | (Ok None, w1) =>
          match Runner.translate_to_actions env i w1 with
          | (Raise e, _) => Some e
          | (Ok a, w2) =>
              match Runner.execute_action env a w2 with
              | (Raise e, _) => Some e
              | (Ok _, _) => None
              end
          end
      end
  end.

End Tracing.

(** The step result records an action or an assertion result, and not
    both. *)
Definition records_exactly_one (r : StepResult) : Prop :=
  match r with
  | FullStep f =>
      match sr_assertion_result f, sr_action f with
      | Some _, None | None, Some _ => True
      | _, _ => False
      end
  | ErrorStep _ _ => False
  end.

(** The outcome [out] of a step is a step result that records what
    [expected] says: exactly one action or one assertion result, or
    neither, and then the step failed. Only what is no [Exception] goes
    through. *)
Definition resolves_as (expected : Resolution) (out : result StepResult) : Prop :=
  match out with
  | Ok r =>
      resolution r = expected
      /\ match expected with
         | Unresolved => step_status r = failed
         | _ => records_exactly_one r
         end
  | Raise e => is_Exception e = false
  end.

(** The outcome of a step is a failed step that records neither an action
    nor an assertion result. *)
Definition fails_unresolved (out : result StepResult) : Prop :=
  exists f, out = Ok (FullStep f) /\ sr_status f = failed
            /\ sr_action f = None /\ sr_assertion_result f = None.

Definition settled (st : Status) : Prop := st = passed \/ st = failed.


(** The outcome [out] of a step is the one the handler of the step
    gives to the first exception met, if any: a failed step carrying
    its message for an [Exception] (anything else goes through); a
    settled step when nothing is raised. *)
Definition catches_first_exception (first : option exn) (out : result StepResult) : Prop :=
  match first with
  | Some e =>
      if is_Exception e
      then exists f, out = Ok (FullStep f) /\ sr_status f = failed
                     /\ sr_error f = Some (str_of_exn e)
      else out = Raise e
  | None => exists f, out = Ok (FullStep f) /\ settled (sr_status f)
  end.

(** ** The exit code, in the words of the specification *)

Section ExitCode.
Variable W : Type.
Variable runners : Main.Runners W.

(** One run of the Standard Runner for each file, in order. *)
Fixpoint run_each (paths : list ustr) : M W (list SuiteResult) :=
  match paths with
  | [] => ret []
  | p :: rest =>
      mbind (Main.run_test_file runners p) (fun r =>
      mbind (run_each rest) (fun rs => ret (r :: rs)))
  end.

(** The files named on the command line: the three options add up. *)
Definition named_files (o : Main.Options) : list ustr :=
  (match Main.test_file o with Some f => [f] | None => [] end
   ++ Main.test_files o
   ++ match Main.test_dir o with Some l => l | None => [] end)%list.

(** What a batch runner gives for the files: the results of the batch,
    and for a single file the first result of a batch of that file. *)
Definition batch_results (batch : list ustr -> M W (list RobustRunner.FileResult))
  (paths : list ustr) : M W (list RobustRunner.FileResult) :=
  match paths with
  | [p] =>
      mbind (batch [p]) (fun l =>
        match l with
        | r :: _ => ret [r]
        | [] => raise (Exn IndexError (u "list index out of range"))
        end)
  | _ => batch paths
  end.

(** The results the process inspects: those the selected runner returns
    for the files named (the Robust Runner in robust mode, else the
    Optimized Runner in optimized mode, else one run of the Standard
    Runner for each file); none in interactive mode. *)
Definition inspected_results (o : Main.Options) : M W (list RobustRunner.FileResult) :=
  match named_files o with
  | [] => mbind (Main.run_interactive runners) (fun _ => ret [])
  | paths =>
      if Main.robust o then batch_results (Main.robust_batch runners) paths
      else if Main.optimized o then batch_results (Main.optimized_batch runners) paths
      else mbind (run_each paths) (fun rs => ret (map RobustRunner.FileSuite rs))
  end.

End ExitCode.

(** A summary reports a failed or an errored case. *)
Definition summary_reports_failure (m : Summary) : Prop :=
  (0 < n_failed m)%Z \/ (0 < n_errors m)%Z.

(** A result reports a failure when its summary does; the error
    dictionary of a file that crashed inside a batch has no summary. *)
Definition result_reports_failure (r : RobustRunner.FileResult) : Prop :=
  match r with
  | RobustRunner.FileSuite suite => summary_reports_failure (summary suite)
  | RobustRunner.FileError _ _ => False
  end.

(** ** Sample collaborators

    A browser whose pages are numbered in the order they are opened, a
    clock that stands still, and the mock translator. The action
    executor finds buttons and nothing else to click. *)

Record Browser := { opened : nat; closed : list nat }.

Definition element_not_found : exn := Exn EngineError (u "Element not found").

Definition click_works (a : Action) : result unit :=
  if ustr_eqb (action_type a) (u "click") then
    match a_selector a with
    | Some s => if ustr_eqb s (u "button") then Ok tt else Raise element_not_found
    | None => Raise element_not_found
    end
  else Ok tt.

(** The Standard (or Optimized) Runner over the sample browser, with
    the pattern matcher [matcher]. *)
Definition sample_env (ucd : Unicode)
  (matcher : ustr -> result (option assertion_info)) : Runner.Env Browser :=
  {| Runner.parse := fun i => lift (matcher i);
     Runner.translate_to_actions := fun i => lift (MockLLM.translate_to_actions ucd i);
     Runner.execute_action := fun a => lift (click_works a);
     Runner.execute_assertion :=
       fun a => lift (execute ucd (static_page (u "about:blank") [] []) a);
     Runner.navigate := fun _ => ret tt;
     Runner.take_screenshot := fun p => ret p;
     Runner.timestamp := ret (u "20250101_000000");
     Runner.screenshot_on_failure := true;
     Runner.output_dir := u "outputs" |}.

(** A matcher that takes no instruction for an assertion. *)
Definition declining_matcher (i : ustr) : result (option assertion_info) := Ok None.

(** The suite of two cases: a button to click, and a link that is not
    on the page. *)
Definition two_case_suite : TestData :=
  {| td_name := Some (u "two cases");
     td_base_url := None;
     td_test_cases :=
       Some [ {| tc_name := Some (u "case 1");
                 tc_steps := Some [StepMap (Some (u "ボタンをクリックする")) None] |};
              {| tc_name := Some (u "case 2");
                 tc_steps := Some [StepMap (Some (u "存在しないリンクをクリックする")) None] |} ] |}.

(** A suite whose first case has no name and fails, followed by a case
    that would pass. *)
Definition nameless_case_suite : TestData :=
  {| td_name := Some (u "nameless case");
     td_base_url := None;
     td_test_cases :=
       Some [ {| tc_name := None;
                 tc_steps := Some [StepMap (Some (u "存在しないリンクをクリックする")) None] |};
              {| tc_name := Some (u "case 2");
                 tc_steps := Some [StepMap (Some (u "ボタンをクリックする")) None] |} ] |}.

Definition fresh_browser : Browser := {| opened := 0; closed := [] |}.

(** A console that checks the tags of a text the way rich does, for
    tags written as [[name]] and [[/name]] without escapes: a closing tag
    closes the last open tag of its name, and the markup error is raised
    when there is none. *)
Fixpoint tag_end (s acc : ustr) : option (ustr * ustr) :=
  match s with
  | [] => None
  | c :: s' =>
      if (c =? 93)%N then Some (rev acc, s')
      else if (c =? 91)%N then None
      else tag_end s' (c :: acc)
  end.

Fixpoint close_tag (name : ustr) (open_tags : list ustr) : option (list ustr) :=
  match open_tags with
  | [] => None
  | t :: rest =>
      if ustr_eqb t name then Some rest
      else option_map (cons t) (close_tag name rest)
  end.

Definition opens_tag (c : N) : bool :=
  ((97 <=? c) && (c <=? 122) || (c =? 35) || (c =? 64))%N.

Fixpoint check_markup (fuel : nat) (s : ustr) (position : nat) (open_tags : list ustr)
  : option ustr :=
  match fuel with
  | O => None
  | S fuel' =>
      match s with
      | [] => None
      | c :: s' =>
          let skip := check_markup fuel' s' (S position) open_tags in
          if (c =? 91)%N then
            match tag_end s' [] with
            | Some (47%N :: name, rest) =>
                match close_tag name open_tags with
                | Some open_tags' =>
                    check_markup fuel' rest (position + length name + 3) open_tags'
                | None =>
                    Some (u "closing tag '[/" ++ name ++ u "]' at position "
                          ++ str_of_nat position ++ u " doesn't match any open tag")%list
                end
            | Some (c0 :: name, rest) =>
                if opens_tag c0
                then check_markup fuel' rest (position + length name + 3)
                       ((c0 :: name) :: open_tags)
                else skip
            | _ => skip
            end
          else skip
      end
  end.

Definition sample_console : Console :=
  fun text => check_markup (S (length text)) text 0 [].

(** The Robust Runner over the sample browser; [files] is what each
    test file loads as. *)
Definition sample_robust_env (ucd : Unicode) (files : ustr -> result TestData)
  : RobustRunner.Env Browser :=
  {| RobustRunner.translate_to_actions := fun i => lift (MockLLM.translate_to_actions ucd i);
     RobustRunner.execute_action := fun _ a _ => lift (click_works a);
     RobustRunner.navigate := fun _ _ => ret tt;
     RobustRunner.new_page :=
       fun b => (Ok (opened b), {| opened := S (opened b); closed := closed b |});
     RobustRunner.set_default_timeout := fun _ _ => ret tt;
     RobustRunner.is_closed := fun p b => existsb (Nat.eqb p) (closed b);
     RobustRunner.close_page :=
       fun p b => (Ok tt, {| opened := opened b; closed := p :: closed b |});
     RobustRunner.start_browser :=
       fun b => (Ok (opened b), {| opened := S (opened b); closed := closed b |});
     RobustRunner.close_browser := ret tt;
     RobustRunner.load_model := ret tt;
     RobustRunner._load_test_file := fun p => lift (files p);
     RobustRunner._save_results := fun _ p => ret p;
     RobustRunner.repr_action := fun a => action_type a;
     RobustRunner.config_timeout := 30000;
     RobustRunner.console := sample_console |}.

(** A test file whose [test_cases] key has no value, and one with a
    single passing case. *)
Definition suite_without_cases : TestData :=
  {| td_name := Some (u "no cases yet"); td_base_url := None; td_test_cases := None |}.

Definition one_case_suite : TestData :=
  {| td_name := Some (u "one case"); td_base_url := None;
     td_test_cases :=
       Some [ {| tc_name := Some (u "case 1");
                 tc_steps := Some [StepMap (Some (u "ボタンをクリックする")) None] |} ] |}.

Definition sample_files (p : ustr) : result TestData :=
  if ustr_eqb p (u "empty.yaml") then Ok suite_without_cases
  else if ustr_eqb p (u "one.yaml") then Ok one_case_suite
  else Raise (Exn EngineError (u "No such file or directory")).

(** The file tagged.yaml holds a suite without cases whose name is a
    closing tag followed by an opening tag. *)
Definition tagged_file (p : ustr) : result TestData :=
  if ustr_eqb p (u "tagged.yaml")
  then Ok {| td_name := Some (u "[/green][green]"); td_base_url := None;
             td_test_cases := Some [] |}
  else Raise (Exn EngineError (u "No such file or directory")).

(** The file stray.yaml holds a suite whose name is a closing tag that
    closes nothing and whose [test_cases] key has no value. *)
Definition stray_tag_file (p : ustr) : result TestData :=
  if ustr_eqb p (u "stray.yaml")
  then Ok {| td_name := Some (u "[/x]"); td_base_url := None; td_test_cases := None |}
  else Raise (Exn EngineError (u "No such file or directory")).

(** The session after [start]: page 0 is the active page. *)
Definition started_session : RobustRunner.State Browser :=
  {| RobustRunner.bm_page := Some 0%nat;
     RobustRunner.world := {| opened := 1; closed := [] |} |}.

End Notions.

(* ================================================================== *)
(** * Further notions: the shape of what [parse] returns, and the
      verdict of an assertion *)
(* ================================================================== *)

Module Shapes.
Import Py Actions Assertions Suite.
Local Open Scope string_scope.

(** What an evaluator reads of the assertion it is given: the expected
    value as a text, the selector, the selector and the expected value
    as a text, or the selector and the expected value as a number. *)
Inductive Shape := TextOnly | SelectorOnly | SelectorAndText | SelectorAndInt.

Definition shape_eqb (a b : Shape) : bool :=
  match a, b with
  | TextOnly, TextOnly | SelectorOnly, SelectorOnly
  | SelectorAndText, SelectorAndText | SelectorAndInt, SelectorAndInt => true
  | _, _ => false
  end.

(** The fields the branch of [parse] for a parameter kind fills in. *)
Definition shape_of_kind (k : string) : option Shape :=
  if k =? "text" then Some TextOnly
  else if k =? "selector" then Some SelectorOnly
  else if k =? "url" then Some TextOnly
  else if k =? "title" then Some TextOnly
  else if k =? "selector_value" then Some SelectorAndText
  else if k =? "selector_count" then Some SelectorAndInt
  else if k =? "html_element" then Some SelectorOnly
  else None.

(** The fields the evaluator of a type reads. *)
Definition shape_of_type (t : AssertionType) : option Shape :=
  match t with
  | TEXT_EXISTS | TEXT_NOT_EXISTS
  | URL_CONTAINS | URL_EQUALS | URL_STARTS_WITH | URL_ENDS_WITH
  | TITLE_CONTAINS | TITLE_EQUALS => Some TextOnly
  | ELEMENT_EXISTS | ELEMENT_NOT_EXISTS | ELEMENT_VISIBLE | ELEMENT_HIDDEN
  | CHECKBOX_CHECKED | CHECKBOX_UNCHECKED => Some SelectorOnly
  | INPUT_VALUE_EQUALS => Some SelectorAndText
  | ELEMENT_COUNT => Some SelectorAndInt
  | _ => None
  end.

Definition has_shape (s : Shape) (info : assertion_info) : bool :=
  match s, info_expected info, info_selector info with
  | TextOnly, VStr _, None => true
  | SelectorOnly, VNone, Some _ => true
  | SelectorAndText, VStr _, Some _ => true
  | SelectorAndInt, VInt _, Some _ => true
  | _, _, _ => false
  end.

(** A dictionary carries exactly what the evaluator of its type reads. *)
Definition well_formed (info : assertion_info) : bool :=
  match shape_of_type (info_type info) with
  | Some s => has_shape s info
  | None => false
  end.

(** An entry whose kind is handled pairs it with a type that reads the
    fields the kind fills in. *)
Definition entry_fits (e : string * AssertionType * string) : bool :=
  let '(_, t, k) := e in
  match shape_of_kind k with
  | Some s => match shape_of_type t with
              | Some s' => shape_eqb s s'
              | None => false
              end
  | None => true
  end.

(** The entries [parse] can reach: the table up to and including the
    entry of line 433. *)
Definition reachable_entries : list (string * AssertionType * string) :=
  firstn 113 PATTERNS.

Definition entries_never_reached : list (string * AssertionType * string) :=
  skipn 113 PATTERNS.

(** A runner whose pattern matcher is [AssertionPatternMatcher.parse]
    itself. *)
Definition with_matcher (ucd : Unicode) (W : Type) (env : Runner.Env W) : Runner.Env W :=
  {| Runner.parse := fun i => lift (parse ucd i);
     Runner.translate_to_actions := Runner.translate_to_actions env;
     Runner.execute_action := Runner.execute_action env;
     Runner.execute_assertion := Runner.execute_assertion env;
     Runner.navigate := Runner.navigate env;
     Runner.take_screenshot := Runner.take_screenshot env;
     Runner.timestamp := Runner.timestamp env;
     Runner.screenshot_on_failure := Runner.screenshot_on_failure env;
     Runner.output_dir := Runner.output_dir env |}.

(** A call to the pattern matcher or to the assertion executor. *)
Definition matcher_side (c : Notions.Call) : Prop :=
  match c with
  | Notions.CallParse _ | Notions.CallExecuteAssertion _ => True
  | Notions.CallTranslate _ | Notions.CallExecuteAction _ => False
  end.

(** The same assertion with another type. *)
Definition with_type (t : AssertionType) (a : Assertion) : Assertion :=
  {| type := t; selector := selector a; expected := expected a;
     attribute := attribute a; timeout := timeout a; ignore_case := ignore_case a;
     wait_for := wait_for a |}.

Definition without_waiting (a : Assertion) : Assertion :=
  {| type := type a; selector := selector a; expected := expected a;
     attribute := attribute a; timeout := timeout a; ignore_case := ignore_case a;
     wait_for := false |}.

(** The verdict of an execution: the passed flag of the result; an
    execution that raises gives no verdict and counts as not passed. *)
Definition passes (ucd : Unicode) (page : Page) (a : Assertion) : bool :=
  match execute ucd page a with
  | Ok r => Assertions.passed r
  | Raise _ => false
  end.

(** ** Comparisons and the case of letters *)








(** The number of case results with a given status. *)
Definition count_status (st : Status) (cases : list CaseResult) : Z :=
  Z.of_nat (length (filter (fun c => status_eqb (cr_status c) st) cases)).

(** The summary agrees with the case results recorded so far: each
    counter is the number of case results with that status, and no case
    result is still running. *)
Definition summary_agrees (r : SuiteResult) : Prop :=
  total (summary r) = Z.of_nat (length (test_cases r))
  /\ n_passed (summary r) = count_status passed (test_cases r)
  /\ n_failed (summary r) = count_status failed (test_cases r)
  /\ n_errors (summary r) = count_status error (test_cases r)
  /\ Forall (fun c => cr_status c <> running) (test_cases r).

Definition step_passed (r : StepResult) : Prop := step_status r = passed.

(** The steps a failed case records: steps that passed, then the step
    that failed. *)
Definition ends_in_failed_step (steps : list StepResult) : Prop :=
  exists pre r, steps = (pre ++ [r])%list /\ step_status r = failed /\ Forall step_passed pre.

End Shapes.

Module Samples.
Import Py Actions Assertions Suite.
Local Open Scope string_scope.

(** A page of a browser that has gone away: every call of the engine
    raises. *)
Definition target_closed : exn :=
  Exn EngineError (u "Target page, context or browser has been closed").

Definition broken_page : Page :=
  {| pg_url := u "about:blank";
     pg_title := Raise target_closed;
     pg_content := Raise target_closed;
     loc_count := fun _ => Raise target_closed;
     loc_first_wait_for := fun _ _ _ => Raise target_closed;
     loc_wait_for := fun _ _ _ => Raise target_closed;
     loc_is_visible := fun _ => Raise target_closed;
     loc_input_value := fun _ => Raise target_closed;
     loc_is_checked := fun _ => Raise target_closed |}.

End Samples.

Module Cli.
Import Py Actions Assertions Suite.

Section WithWorld.
Variable W : Type.

(** The runners the command line starts, with the Robust Runner built
    from its collaborators; the world of a run is the state of that
    runner. *)
Definition with_robust_runner (env : RobustRunner.Env W)
  (others : Main.Runners (RobustRunner.State W)) : Main.Runners (RobustRunner.State W) :=
  {| Main.robust_batch := RobustRunner.run_test_files_batch env;
     Main.optimized_batch := Main.optimized_batch others;
     Main.run_test_file := Main.run_test_file others;
     Main.run_interactive := Main.run_interactive others |}.

(** The file cannot be loaded: reading it raises an [Exception]
    whenever it is tried. *)
Definition unloadable (env : RobustRunner.Env W) (p : ustr) : Prop :=
  forall s : RobustRunner.State W,
    exists e s', RobustRunner.on_world (RobustRunner._load_test_file env p) s = (Raise e, s')
                 /\ is_Exception e = true.

(** What happens to a file up to the suite: the page opened for it and
    the outcome of its suite, when the file was loaded, the name of its
    suite printed, the page opened and its timeout set. *)
Definition suite_of_file (env : RobustRunner.Env W) (path : ustr)
  (s : RobustRunner.State W) : option (RobustRunner.page * result SuiteResult) :=
  match RobustRunner.on_world (RobustRunner._load_test_file env path) s with
  | (Raise _, _) => None
  | (Ok test_data, s0) =>
      match RobustRunner.print env
              (RobustRunner.loaded_line (RobustRunner.suite_name test_data)) s0 with
      | (Raise _, _) => None
      | (Ok _, s0') =>
          match RobustRunner.on_world (RobustRunner.new_page env) s0' with
          | (Raise _, _) => None
          | (Ok pg, s1) =>
              match RobustRunner.on_world
                      (RobustRunner.set_default_timeout env pg
                         (RobustRunner.config_timeout env)) s1 with
              | (Raise _, _) => None
              | (Ok _, s2) =>
                  Some (pg, fst (RobustRunner._execute_test_suite_robust env test_data
                                   (RobustRunner.set_page (Some pg) s2)))
              end
          end
      end
  end.

End WithWorld.

Definition is_file_error (r : RobustRunner.FileResult) : bool :=
  match r with
  | RobustRunner.FileError _ _ => true
  | RobustRunner.FileSuite _ => false
  end.

(** The options of a run in robust mode over the given files. *)
Definition robust_mode (paths : list ustr) : Main.Options :=
  {| Main.test_file := None; Main.test_files := paths; Main.test_dir := None;
     Main.optimized := true; Main.robust := true |}.

End Cli.

(* ================================================================== *)
(** * Action dictionaries *)
(* ================================================================== *)

Module Dicts.
Import Py.
Local Open Scope string_scope.

(** A value stored in an action dictionary, as far as the program looks
    at it: [None], a text, an integer, or anything else (a list, a nested
    object, a float, a boolean) with the text [str] gives for it. *)
Inductive aval :=
| ANone
| AStr (s : ustr)
| AInt (z : Z)
| AOther (shown : ustr).

(** [str(v)], also what an f-string inserts for [v]. *)
Definition str_of_aval (v : aval) : ustr :=
  match v with
  | ANone => u "None"
  | AStr s => s
  | AInt z => str_of_Z z
  | AOther shown => shown
  end.

(** A dictionary with text keys. *)
Definition ActionDict := list (ustr * aval).

(** [d.get(k)] *)
Fixpoint get (d : ActionDict) (k : ustr) : option aval :=
  match d with
  | [] => None
  | (k', v) :: rest => if ustr_eqb k k' then Some v else get rest k
  end.

(** [d.get(k, default)] *)
Definition get_or (d : ActionDict) (k : string) (default : aval) : aval :=
  match get d (u k) with
  | Some v => v
  | None => default
  end.

(** [v == "s"] for a text literal [s]. *)
Definition is_text (v : aval) (s : string) : bool :=
  match v with
  | AStr x => ustr_eqb x (u s)
  | _ => false
  end.

End Dicts.

(* ================================================================== *)
(** * browser.py: the browser manager *)
(* ================================================================== *)

Module BrowserManager.
Import Py Actions Assertions Suite Dicts.
Local Open Scope string_scope.

(** A page object of the engine, by identity. *)
Definition page := RobustRunner.page.

Section WithWorld.
(** The state of the browser engine and the clock. *)
Variable W : Type.
Variable ucd : Unicode.

(** The fields of a [BrowserManager]. The Playwright driver, the
    browser and the context are only tested for presence; the assertion
    executor is the page it was built on. *)
Record Manager := {
  config : Config.PlaywrightConfig;
  playwright : bool;
  browser : bool;
  context : bool;
  page_field : option page;              (* self.page *)
  assertion_executor : option page
}.

(** [BrowserManager.__init__] *)
Definition new_manager (config : Config.PlaywrightConfig) : Manager :=
  {| config := config; playwright := false; browser := false; context := false;
     page_field := None; assertion_executor := None |}.

Definition set_playwright (m : Manager) : Manager :=
  {| config := config m; playwright := true; browser := browser m; context := context m;
     page_field := page_field m; assertion_executor := assertion_executor m |}.
Definition set_browser (m : Manager) : Manager :=
  {| config := config m; playwright := playwright m; browser := true; context := context m;
     page_field := page_field m; assertion_executor := assertion_executor m |}.
Definition set_context (m : Manager) : Manager :=
  {| config := config m; playwright := playwright m; browser := browser m; context := true;
     page_field := page_field m; assertion_executor := assertion_executor m |}.
Definition set_page_field (p : option page) (m : Manager) : Manager :=
  {| config := config m; playwright := playwright m; browser := browser m;
     context := context m; page_field := p; assertion_executor := assertion_executor m |}.
Definition set_assertion_executor (p : option page) (m : Manager) : Manager :=
  {| config := config m; playwright := playwright m; browser := browser m;
     context := context m; page_field := page_field m; assertion_executor := p |}.

Record State := { mgr : Manager; world : W }.

(** The calls of the Playwright API the manager makes. *)
Record Engine := {
  playwright_start : M W unit;                    (* await async_playwright().start() *)
  launch : ustr -> bool -> list ustr -> M W unit; (* await browser_type.launch(headless, args) *)
  new_context : list (ustr * Z) -> M W unit;      (* await browser.new_context(viewport=..) *)
  new_page : M W page;                            (* await context.new_page() *)
  set_default_timeout : page -> Z -> M W unit;
  goto : page -> aval -> M W unit;
  wait_for_load_state : page -> ustr -> M W unit;
  go_back : page -> M W unit;
  title : page -> M W ustr;
  click : page -> aval -> M W unit;
  fill : page -> aval -> aval -> M W unit;
  wait_for_timeout : page -> aval -> M W unit;
  screenshot : page -> aval -> bool -> M W unit;  (* path, full_page *)
  mouse_wheel : page -> Z -> Z -> M W unit;
  wait_for_selector : page -> aval -> aval -> M W unit;
  text_content : page -> aval -> M W aval;
  get_attribute : page -> aval -> aval -> M W aval;
  select_option : page -> aval -> aval -> M W unit;
  page_close : page -> M W unit;
  context_close : M W unit;
  browser_close : M W unit;
  playwright_stop : M W unit;
  loop_time : M W Z;                  (* int(asyncio.get_event_loop().time()) *)
  page_view : page -> W -> Page;      (* what the page answers to an assertion executor *)
  console : Console                   (* the module's rich console *)
}.

Variable eng : Engine.

(** The lines printed with a text of an action, an assertion, a page or
    an exception in them. *)
Definition navigating_line (url : ustr) : ustr :=
  (u "[cyan]🚀 Navigating to: " ++ url ++ u "[/cyan]")%list.
Definition title_line (title : ustr) : ustr :=
  (u "[green]✓ Page title: " ++ title ++ u "[/green]")%list.
Definition navigation_failed_line (e : ustr) : ustr :=
  (u "[red]✗ Navigation failed: " ++ e ++ u "[/red]")%list.
Definition click_line (selector : ustr) : ustr :=
  (u "[blue]🕹️  Click: " ++ selector ++ u "[/blue]")%list.
Definition type_line (text selector : ustr) : ustr :=
  (u "[blue]⌨️  Type: '" ++ text ++ u "' → " ++ selector ++ u "[/blue]")%list.
Definition expected_line (expected : ustr) : ustr :=
  (u "[dim]   Expected: " ++ expected ++ u "[/dim]")%list.
Definition selector_line (selector : ustr) : ustr :=
  (u "[dim]   Selector: " ++ selector ++ u "[/dim]")%list.
Definition assertion_failed_line (error_message : ustr) : ustr :=
  (u "[red]✗ Assertion failed: " ++ error_message ++ u "[/red]")%list.
Definition actual_line (actual_value : ustr) : ustr :=
  (u "[dim]   Actual: " ++ actual_value ++ u "[/dim]")%list.
Definition close_failed_line (e : ustr) : ustr :=
  (u "[red]✗ Failed to close browser: " ++ e ++ u "[/red]")%list.

Definition on_world {A} (m : M W A) : M State A :=
  fun s => let (r, w') := m (world s) in (r, {| mgr := mgr s; world := w' |}).

(** An assignment to a field of the manager. *)
Definition assign (f : Manager -> Manager) : M State unit :=
  fun s => (Ok tt, {| mgr := f (mgr s); world := world s |}).

(** [console.print(text)] *)
Definition print (text : ustr) : M State unit :=
  lift (console_print (console eng) text).

(** [try: body  except Exception as e: console.print(line(e)); raise]:
    an exception of the print takes the place of [e]. *)
Definition reported {A} (line : ustr -> ustr) (body : M State A) : M State A :=
  try_except body (fun e => mbind (print (line (str_of_exn e))) (fun _ => raise e)).

Definition not_started : exn :=
  Exn RuntimeError (u "Browser not started. Call start() first.").

Definition supported_browser (name : ustr) : bool :=
  ustr_eqb name (u "chromium") || ustr_eqb name (u "firefox") || ustr_eqb name (u "webkit").

(** [d[k]] on the viewport dictionary. *)
Fixpoint viewport_item (k : ustr) (v : list (ustr * Z)) : result Z :=
  match v with
  | [] => Raise (Exn KeyError (u "'" ++ k ++ u "'")%list)
  | (k', z) :: rest => if ustr_eqb k k' then Ok z else viewport_item k rest
  end.

(** [BrowserManager.start]: the handler logs and raises again. *)
Definition start : M State unit :=
  mbind (on_world (playwright_start eng)) (fun _ =>
  mbind (assign set_playwright) (fun _ =>
  fun s =>
    let cfg := config (mgr s) in
    if supported_browser (Config.browser cfg) then
      (mbind (on_world (launch eng (Config.browser cfg) (Config.headless cfg)
                          (if Config.headless cfg
                           then [u "--no-sandbox"; u "--disable-dev-shm-usage"]
                           else []))) (fun _ =>
       mbind (assign set_browser) (fun _ =>
       mbind (on_world (new_context eng (Config.viewport cfg))) (fun _ =>
       mbind (assign set_context) (fun _ =>
       mbind (on_world (new_page eng)) (fun p =>
       mbind (assign (set_page_field (Some p))) (fun _ =>
       mbind (on_world (set_default_timeout eng p (Config.pw_timeout cfg))) (fun _ =>
       mbind (assign (set_assertion_executor (Some p))) (fun _ =>
       (* the report of the viewport and the timeout *)
       mbind (lift (viewport_item (u "width") (Config.viewport cfg))) (fun _ =>
       mbind (lift (viewport_item (u "height") (Config.viewport cfg))) (fun _ =>
         ret tt))))))))))) s
    else (Raise (Exn ValueError (u "Unsupported browser: " ++ Config.browser cfg)%list), s))).

(** [BrowserManager.navigate]: the address and the title of the page are
    printed; the handler prints the exception and raises it again. *)
Definition navigate (url : aval) : M State unit :=
  fun s =>
    match page_field (mgr s) with
    | None => (Raise not_started, s)
    | Some p =>
        reported navigation_failed_line
          (mbind (if is_text url "back"
                  then on_world (go_back eng p)
                  else mbind (print (navigating_line (str_of_aval url))) (fun _ =>
                       mbind (on_world (goto eng p url)) (fun _ =>
                         on_world (wait_for_load_state eng p (u "networkidle"))))) (fun _ =>
           mbind (on_world (title eng p)) (fun title =>
             print (title_line title)))) s
    end.

(** [action_type == "..."] for the value of [action.get("action_type")]. *)
Definition type_is (action_type : option aval) (s : string) : bool :=
  match action_type with
  | Some v => is_text v s
  | None => false
  end.

(** [BrowserManager.execute_action]: what the coroutine returns is
    [None] except for the two reading actions. A click and a typing are
    printed before they are made; the handler logs and raises again. *)
Definition execute_action (action : ActionDict) : M State aval :=
  fun s =>
    match page_field (mgr s) with
    | None => (Raise not_started, s)
    | Some p =>
        let action_type := get action (u "action_type") in
        let done (m : M State unit) : M State aval := mbind m (fun _ => ret ANone) in
        (if type_is action_type "click" then
           let selector := get_or action "selector" (AStr []) in
           done (mbind (print (click_line (str_of_aval selector))) (fun _ =>
                   on_world (click eng p selector)))
         else if type_is action_type "type" then
           let selector := get_or action "selector" (AStr []) in
           let text := get_or action "text" (AStr []) in
           done (mbind (print (type_line (str_of_aval text) (str_of_aval selector))) (fun _ =>
                   on_world (fill eng p selector text)))
         else if type_is action_type "wait" then
           done (on_world (wait_for_timeout eng p (get_or action "timeout" (AInt 3000))))
         else if type_is action_type "navigate" then
           done (navigate (get_or action "url" (AStr [])))
         else if type_is action_type "screenshot" then
           done (on_world (screenshot eng p (get_or action "path" (AStr (u "screenshot.png")))
                             false))
         else if type_is action_type "scroll" then
           done (on_world (mouse_wheel eng p 0 500))
         else if type_is action_type "wait_for_selector" then
           done (on_world (wait_for_selector eng p (get_or action "selector" (AStr []))
                             (get_or action "timeout"
                                (AInt (Config.pw_timeout (config (mgr s)))))))
         else if type_is action_type "get_text" then
           on_world (text_content eng p (get_or action "selector" (AStr [])))
         else if type_is action_type "get_attribute" then
           on_world (get_attribute eng p (get_or action "selector" (AStr []))
                       (get_or action "attribute" (AStr [])))
         else if type_is action_type "select" then
           done (on_world (select_option eng p (get_or action "selector" (AStr (u "select")))
                             (get_or action "value" (AStr []))))
         else ret ANone) s
    end.

(** The body of [execute_assertion] on the page [pg]: the expected value
    and the selector are printed when they are not empty, the assertion is
    evaluated, and for a result that did not pass its message and its
    actual value (unless [None]) are printed. *)
Definition run_assertion (pg : Page) (a : Assertion) : result AssertionResult :=
  bind (if truthy (expected a)
        then console_print (console eng) (expected_line (str_of_pyval (expected a)))
        else Ok tt) (fun _ =>
  bind (match selector a with
        | Some (c :: sel) => console_print (console eng) (selector_line (c :: sel))
        | _ => Ok tt
        end) (fun _ =>
  bind (execute ucd pg a) (fun result =>
  bind (if Assertions.passed result then Ok tt
        else
          bind (console_print (console eng)
                  (assertion_failed_line (str_of_opt (error_message result)))) (fun _ =>
            match actual_value result with
            | VNone => Ok tt
            | v => console_print (console eng) (actual_line (str_of_pyval v))
            end)) (fun _ =>
    Ok result)))).

(** [BrowserManager.execute_assertion]: the executor evaluates on the
    page it was built on; the handler logs and raises again. *)
Definition execute_assertion (a : Assertion) : M State AssertionResult :=
  fun s =>
    match assertion_executor (mgr s) with
    | None => (Raise not_started, s)
    | Some p => (run_assertion (page_view eng p (world s)) a, s)
    end.

(** [BrowserManager.take_screenshot]: a missing or empty path is
    replaced by a name made from the clock. *)
Definition take_screenshot (path : option ustr) : M State ustr :=
  fun s =>
    match page_field (mgr s) with
    | None => (Raise not_started, s)
    | Some p =>
        (mbind (match path with
                | Some (c :: rest) => ret (c :: rest)
                | _ => mbind (on_world (loop_time eng)) (fun t =>
                         ret (u "screenshot_" ++ str_of_Z t ++ u ".png")%list)
                end) (fun path =>
         mbind (on_world (screenshot eng p (AStr path) true)) (fun _ => ret path))) s
    end.

(** [BrowserManager.close]: each object that is present is closed, in
    this order; the fields are left as they are. The handler prints the
    exception and raises it again. *)
Definition close : M State unit :=
  fun s =>
    reported close_failed_line
      (mbind (match page_field (mgr s) with
              | Some p => on_world (page_close eng p)
              | None => ret tt
              end) (fun _ =>
       mbind (if context (mgr s) then on_world (context_close eng) else ret tt) (fun _ =>
       mbind (if browser (mgr s) then on_world (browser_close eng) else ret tt) (fun _ =>
       if playwright (mgr s) then on_world (playwright_stop eng) else ret tt)))) s.

(** [async with self.browser_manager: body]: [start], the body, and
    [close] whether the body raised or not; an exception of [close]
    takes the place of the outcome of the body. *)
Definition with_manager {A} (body : M State A) : M State A :=
  fun s =>
    match start s with
    | (Raise e, s1) => (Raise e, s1)
    | (Ok _, s1) =>
        let (r, s2) := body s1 in
        match close s2 with
        | (Ok _, s3) => (r, s3)
        | (Raise e, s3) => (Raise e, s3)
        end
    end.

End WithWorld.

End BrowserManager.

(* ================================================================== *)
(** * llm.py: from an instruction to an action dictionary *)
(* ================================================================== *)

Module LLMManager.
Import Py Suite Dicts.
Local Open Scope string_scope.

Section WithWorld.
(** The state of the model runtime. *)
Variable W : Type.
Variable ucd : Unicode.

(** [self.pipeline]: absent until the model is loaded. The call stands
    for the generation with the given prompt and [max_length], with the
    lookup of the end-of-text id before it and of
    [result[0][generated_text]] after it. *)
Variable pipeline : option (ustr -> Z -> M W ustr).

(** [json.loads] on a text that starts with an opening brace. *)
Variable json_loads : ustr -> result ActionDict.

Definition not_loaded : exn :=
  Exn RuntimeError (u "Model not loaded. Call load_model() first.").

(** [LLMManager.generate_text(prompt, max_length=..)] *)
Definition generate_text (prompt : ustr) (max_length : Z) : M W ustr :=
  match pipeline with
  | None => raise not_loaded
  | Some run => mbind (run prompt max_length) (fun generated_text =>
                  ret (strip generated_text))
  end.

Definition has (k : string) (s : ustr) : bool := contains (u k) s.

(** [LLMManager._fallback_action_parsing] *)
Definition _fallback_action_parsing (text : ustr) : ActionDict :=
  let text_lower := uc_lower ucd text in
  if has "click" text_lower || has "press" text_lower || has "tap" text_lower then
    [(u "action_type", AStr (u "click")); (u "selector", AStr (u "button"))]
  else if has "type" text_lower || has "input" text_lower || has "enter" text_lower then
    [(u "action_type", AStr (u "type")); (u "selector", AStr (u "input"));
     (u "text", AStr [])]
  else if has "wait" text_lower || has "pause" text_lower then
    [(u "action_type", AStr (u "wait")); (u "timeout", AInt 3000)]
  else if has "navigate" text_lower || has "go to" text_lower || has "open" text_lower then
    [(u "action_type", AStr (u "navigate")); (u "url", AStr [])]
  else
    [(u "action_type", AStr (u "unknown")); (u "original_text", AStr text)].

(** The prompt of [translate_to_actions]. *)
Definition prompt_of (natural_language : ustr) : ustr :=
  (u (nl ++ "Convert the following natural language instruction into executable Playwright actions."
      ++ nl ++ "Output in JSON format, including action_type (click, type, wait, navigate, screenshot, etc.) and parameters."
      ++ nl ++ nl ++ "Natural language instruction: ")
   ++ natural_language
   ++ u (nl ++ nl ++ "Conversion result (JSON format):" ++ nl))%list.

(** The pattern [\{.*\}] under [re.DOTALL]: the dot is every code point. *)
Definition json_pattern : Re.regex :=
  Re.Cat (Re.Lit 123) (Re.Cat (Re.Rep (Re.Cls true []) 0 None true) (Re.Lit 125)).

(** [json_match.group()] *)
Definition json_portion (response : ustr) : option ustr :=
  option_map (fun c => Re.group0 (Re.match_of 0 c)) (Re.search_from ucd json_pattern response).

(** [LLMManager.translate_to_actions] *)
Definition translate_to_actions (natural_language : ustr) : M W ActionDict :=
  try_except
    (mbind (generate_text (prompt_of natural_language) 256) (fun response =>
       match json_portion response with
       | Some text => lift (json_loads text)
       | None => ret (_fallback_action_parsing natural_language)
       end))
    (fun _ => ret (_fallback_action_parsing natural_language)).

End WithWorld.

End LLMManager.

(* ================================================================== *)
(** * Notions and samples for the browser manager *)
(* ================================================================== *)

Module BrowserNotions.
Import Py Suite Dicts Assertions.
Local Open Scope string_scope.

(** The action types [execute_action] has a branch for. *)
Definition known_action_types : list string :=
  ["click"; "type"; "wait"; "navigate"; "screenshot"; "scroll"; "wait_for_selector";
   "get_text"; "get_attribute"; "select"].

Definition known_action_type (action_type : option aval) : bool :=
  existsb (BrowserManager.type_is action_type) known_action_types.

(** [self.page = q], as the batch runners do for a closed page. *)
Definition replace_page (W : Type) (q : BrowserManager.page) (s : BrowserManager.State W)
  : BrowserManager.State W :=
  snd (BrowserManager.assign (BrowserManager.set_page_field (Some q)) s).

(** A click action on a selector. *)
Definition click_action (selector : ustr) : ActionDict :=
  [(u "action_type", AStr (u "click")); (u "selector", AStr selector)].

(** An engine that records the name of every call and lets each one
    succeed; the pages it creates are numbered by the length of the
    record. *)
Definition said {A} (name : string) (a : A) : M (list ustr) A :=
  fun w => (Ok a, u name :: w).

Definition recording_engine : BrowserManager.Engine (list ustr) :=
  {| BrowserManager.playwright_start := said "start" tt;
     BrowserManager.launch := fun _ _ _ => said "launch" tt;
     BrowserManager.new_context := fun _ => said "new_context" tt;
     BrowserManager.new_page := fun w => (Ok (length w), u "new_page" :: w);
     BrowserManager.set_default_timeout := fun _ _ => said "set_default_timeout" tt;
     BrowserManager.goto := fun _ _ => said "goto" tt;
     BrowserManager.wait_for_load_state := fun _ _ => said "wait_for_load_state" tt;
     BrowserManager.go_back := fun _ => said "go_back" tt;
     BrowserManager.title := fun _ => said "title" (u "Example");
     BrowserManager.click := fun _ _ => said "click" tt;
     BrowserManager.fill := fun _ _ _ => said "fill" tt;
     BrowserManager.wait_for_timeout := fun _ _ => said "wait_for_timeout" tt;
     BrowserManager.screenshot := fun _ _ _ => said "screenshot" tt;
     BrowserManager.mouse_wheel := fun _ _ _ => said "wheel" tt;
     BrowserManager.wait_for_selector := fun _ _ _ => said "wait_for_selector" tt;
     BrowserManager.text_content := fun _ _ => said "text_content" ANone;
     BrowserManager.get_attribute := fun _ _ _ => said "get_attribute" ANone;
     BrowserManager.select_option := fun _ _ _ => said "select_option" tt;
     BrowserManager.page_close := fun _ => said "page.close" tt;
     BrowserManager.context_close := said "context.close" tt;
     BrowserManager.browser_close := said "browser.close" tt;
     BrowserManager.playwright_stop := said "stop" tt;
     BrowserManager.loop_time := said "time" 0%Z;
     BrowserManager.page_view := fun _ _ =>
       Notions.static_page (u "https://example.com/") (u "Example") (u "hello");
     BrowserManager.console := Notions.sample_console |}.

(** A manager that was just constructed, over an empty record. *)
Definition fresh (cfg : Config.PlaywrightConfig) : BrowserManager.State (list ustr) :=
  {| BrowserManager.mgr := BrowserManager.new_manager cfg; BrowserManager.world := [] |}.

Definition with_browser (name : string) (cfg : Config.PlaywrightConfig)
  : Config.PlaywrightConfig :=
  {| Config.browser := u name; Config.headless := Config.headless cfg;
     Config.pw_timeout := Config.pw_timeout cfg; Config.viewport := Config.viewport cfg |}.

End BrowserNotions.

(* ================================================================== *)
(** * Notions for the regular expressions *)
(* ================================================================== *)

Module ReNotions.
Import Py Re.

(** The rounds of a repetition, as [rmatch] runs them for
    [Rep r1 lo hi greedy] with the continuation [k]. *)
Definition rounds (ucd : Unicode) (r1 : regex) (lo : nat) (hi : option nat) (greedy : bool)
  (k : ustr -> caps -> option caps) : nat -> nat -> ustr -> caps -> option caps :=
  fix rounds (fuel n : nat) (s : ustr) (c : caps) {struct fuel} : option caps :=
    match fuel with
    | O => None
    | S f =>
        let more (_ : unit) :=
          if may_repeat n hi then
            rmatch ucd r1 s c (fun s1 c1 =>
              match hi with
              | None => if Nat.ltb (length s1) (length s)
                        then rounds f (S n) s1 c1 else None
              | Some _ => rounds f (S n) s1 c1
              end)
          else None in
        let stop (_ : unit) := if Nat.leb lo n then k s c else None in
        if greedy then
          match more tt with
          | Some x => Some x
          | None => stop tt
          end
        else
          match stop tt with
          | Some x => Some x
          | None => more tt
          end
    end.

(** The longest-first choice of a suffix: [k] is tried on the empty
    rest first and on the whole text last. *)
Fixpoint longest_first (k : ustr -> option caps) (s : ustr) : option caps :=
  match s with
  | [] => k []
  | _ :: s' =>
      match longest_first k s' with
      | Some x => Some x
      | None => k s
      end
  end.

(** The text has no occurrence of the code point. *)
Definition lacks (c : N) (s : ustr) : Prop := mem_char c s = false.

End ReNotions.

(* ================================================================== *)
(** * Notions for the mock translator *)
(* ================================================================== *)

Module MockNotions.
Import Py Actions.
Local Open Scope string_scope.

(** The action types the mock translator returns. *)
Definition mock_action_types : list string :=
  ["navigate"; "click"; "type"; "wait"; "screenshot"].

Definition is_one_of (names : list string) (s : ustr) : bool :=
  existsb (fun n => ustr_eqb s (u n)) names.

(** The pattern compiles. *)
Definition compiles (pattern : ustr) : bool :=
  match Re.compile pattern with
  | Ok _ => true
  | Raise _ => false
  end.

(** The expression has no capturing group. *)
Fixpoint groupless (r : Re.regex) : bool :=
  match r with
  | Re.Eps | Re.Lit _ | Re.Dot | Re.Cls _ _ => true
  | Re.Cat r1 r2 | Re.Alt r1 r2 => groupless r1 && groupless r2
  | Re.Grp _ _ => false
  | Re.Rep r1 _ _ _ => groupless r1
  end.

(** A code point that [\d] takes. *)
Definition is_digit (ucd : Unicode) (c : N) : bool :=
  match uc_decimal ucd c with
  | Some _ => true
  | None => false
  end.

(** The pattern of the wait branch, a number and a unit, as it
    compiles: the group of the digits, and the white space and the unit
    after it. *)
Definition wait_unit : Re.regex :=
  Re.Cat (Re.Rep (Re.Cls false [Re.CSpace]) 0 None true)
    (Re.Cat
       (Re.Alt (Re.Cat (Re.Lit 31186) Re.Eps)
          (Re.Cat (Re.Lit 115) (Re.Cat (Re.Lit 101) (Re.Cat (Re.Lit 99)
             (Re.Cat (Re.Lit 111) (Re.Cat (Re.Lit 110) (Re.Cat (Re.Lit 100)
                (Re.Cat (Re.Rep (Re.Lit 115) 0 (Some 1%nat) true) Re.Eps))))))))
       Re.Eps).

Definition wait_number : Re.regex :=
  Re.Cat (Re.Rep (Re.Cls false [Re.CDigit]) 1 None true) Re.Eps.

Definition wait_pattern : Re.regex := Re.Cat (Re.Grp 1 wait_number) wait_unit.

End MockNotions.

(* ================================================================== *)
(** * optimized_runner.py: the batch of the Optimized Runner *)
(* ================================================================== *)

Module OptimizedBatch.
Import Py Actions Assertions Suite.
Local Open Scope string_scope.

Section WithWorld.
(** The state of the browser engine, the model, the files and the clock. *)
Variable W : Type.

(** The runner with its browser manager, as for the Robust Runner: the
    manager's [page] field and the world. *)
Definition State : Type := RobustRunner.State W.

(** The collaborators. [stepper] gives the matcher, the model and the
    browser manager as the steps and cases use them; the manager's
    operations act on the page its [page] field holds when they are
    called. *)
Record Env := {
  stepper : option RobustRunner.page -> Runner.Env W;
  new_page : M W RobustRunner.page;   (* await self.browser_manager.context.new_page() *)
  set_default_timeout : RobustRunner.page -> Z -> M W unit;
  is_closed : RobustRunner.page -> W -> bool;      (* page.is_closed() *)
  start_browser : M W RobustRunner.page;
        (* await self.browser_manager.start(): the page it opens *)
  close_browser : M W unit;           (* await self.browser_manager.close() *)
  load_model : M W unit;
  _load_test_file : ustr -> M W TestData;
  _save_results : SuiteResult -> ustr -> M W ustr;
  config_timeout : Z;                 (* self.browser_manager.config.timeout *)
  console : Console                   (* the module's rich console *)
}.

Variable env : Env.

(** [console.print(text)] *)
Definition print (text : ustr) : M State unit :=
  lift (console_print (console env) text).

(** The lines printed with a text of the test file or of the result file
    in them. *)
Definition loaded_line (name : ustr) : ustr :=
  (u "  ✓ Test data loaded: [green]" ++ name ++ u "[/green]")%list.

Definition saved_line (result_file : ustr) : ustr :=
  (u "  ✓ Results saved: [dim]" ++ result_file ++ u "[/dim]")%list.

Definition case_line (test_name : ustr) : ustr :=
  (u "    ⚡ " ++ test_name)%list.

(** A call of the step-level collaborators, on the page the field holds. *)
Definition with_page {A} (m : Runner.Env W -> M W A) : M State A :=
  fun s => RobustRunner.on_world (m (stepper env (RobustRunner.bm_page s))) s.

(** [OptimizedTestRunner._execute_test_case]: the text of
    [TestRunner._execute_test_case], over the step of the Optimized
    Runner. *)
Definition _execute_test_case (test_case : TestCase) : M State CaseResult :=
  with_page (fun r => Runner._execute_test_case r test_case).

(** The loop over the cases: the name of each case is printed, and the
    case is run and counted. *)
Fixpoint cases_loop (cases : list TestCase) (i : nat) (r : SuiteResult)
  : M State SuiteResult :=
  match cases with
  | [] => ret r
  | test_case :: rest =>
      mbind (print (case_line (RobustRunner.case_name i test_case))) (fun _ =>
      mbind (_execute_test_case test_case) (fun case_result =>
        cases_loop rest (S i) (Runner.add_case case_result r)))
  end.

(** [not self.browser_manager.page or self.browser_manager.page.is_closed()] *)
Definition page_unusable (s : State) : bool :=
  match RobustRunner.bm_page s with
  | None => true
  | Some p => is_closed env p (RobustRunner.world s)
  end.

(** [OptimizedTestRunner._execute_test_suite_optimized] *)
Definition _execute_test_suite_optimized (test_data : TestData) : M State SuiteResult :=
  let results := Runner.new_results test_data in
  mbind (match td_base_url test_data with
         | Some (c :: b) =>
             mbind (fun s =>
                      if page_unusable s then
                        (mbind (RobustRunner.on_world (new_page env)) (fun pg =>
                         mbind (fun s1 => (Ok tt, RobustRunner.set_page (Some pg) s1)) (fun _ =>
                           RobustRunner.on_world
                             (set_default_timeout env pg (config_timeout env))))) s
                      else (Ok tt, s)) (fun _ =>
               with_page (fun r => Runner.navigate r (c :: b)))
         | _ => ret tt
         end) (fun _ =>
    match td_test_cases test_data with
    | None => raise Runner.no_len
    | Some cases => cases_loop cases 0 results
    end).

(** [OptimizedTestRunner._run_single_test_optimized] *)
Definition _run_single_test_optimized (test_file_path : ustr) : M State SuiteResult :=
  mbind (RobustRunner.on_world (_load_test_file env test_file_path)) (fun test_data =>
  mbind (print (loaded_line (RobustRunner.suite_name test_data))) (fun _ =>
  mbind (_execute_test_suite_optimized test_data) (fun results =>
  mbind (RobustRunner.on_world (_save_results env results test_file_path)) (fun result_file =>
  mbind (print (saved_line result_file)) (fun _ =>
    ret results))))).

(** The loop of [run_test_files_batch] over the files. *)
Fixpoint files_loop (paths : list ustr) (acc : list RobustRunner.FileResult)
  : M State (list RobustRunner.FileResult) :=
  match paths with
  | [] => ret acc
  | test_file_path :: rest =>
      fun s =>
        match _run_single_test_optimized test_file_path s with
        | (Ok r, s1) => files_loop rest (acc ++ [RobustRunner.FileSuite r]) s1
        | (Raise e, s1) =>
            if is_Exception e
            then files_loop rest
                   (acc ++ [RobustRunner.FileError test_file_path (str_of_exn e)]) s1
            else (Raise e, s1)
        end
  end.

(** [OptimizedTestRunner._display_batch_summary]: the table of the
    results, one row for each. The first cell of a row is the name of the
    result, rendered as markup on its own when the table is printed: the
    name of the suite, or for an error dictionary the name of the file.
    The other cells and the lines around the table are fixed texts with
    numbers. *)
Fixpoint _display_batch_summary (batch_results : list RobustRunner.FileResult)
  : M State unit :=
  match batch_results with
  | [] => ret tt
  | RobustRunner.FileSuite r :: rest =>
      mbind (print (test_name r)) (fun _ => _display_batch_summary rest)
  | RobustRunner.FileError _ _ :: rest => _display_batch_summary rest
  end.

(** [OptimizedTestRunner.run_test_files_batch]: the [finally] closes the
    browser session, and an exception of the close is not caught; the
    summary is displayed after it. *)
Definition run_test_files_batch (test_file_paths : list ustr)
  : M State (list RobustRunner.FileResult) :=
  match test_file_paths with
  | [] => ret []
  | _ =>
      mbind (RobustRunner.on_world (load_model env)) (fun _ =>
      mbind (RobustRunner.on_world (start_browser env)) (fun p0 =>
      mbind (fun s =>
               let '(r, s1) :=
                 files_loop test_file_paths [] (RobustRunner.set_page (Some p0) s) in
               match RobustRunner.on_world (close_browser env) s1 with
               | (Ok _, s2) => (r, s2)
               | (Raise e, s2) => (Raise e, s2)
               end) (fun batch_results =>
      mbind (_display_batch_summary batch_results) (fun _ =>
        ret batch_results))))
  end.

End WithWorld.

End OptimizedBatch.

(* ================================================================== *)
(** * Notions and samples for the Optimized Runner *)
(* ================================================================== *)

Module OptimizedNotions.
Import Py Actions Assertions Suite Notions.
Local Open Scope string_scope.

(** The runners the command line starts, with the Optimized Runner
    built from its collaborators. *)
Definition with_optimized_runner (W : Type) (env : OptimizedBatch.Env W)
  (others : Main.Runners (RobustRunner.State W)) : Main.Runners (RobustRunner.State W) :=
  {| Main.robust_batch := Main.robust_batch others;
     Main.optimized_batch := OptimizedBatch.run_test_files_batch env;
     Main.run_test_file := Main.run_test_file others;
     Main.run_interactive := Main.run_interactive others |}.

(** The options of a run in optimized mode, the default of the command
    line, over the given files. *)
Definition optimized_mode (paths : list ustr) : Main.Options :=
  {| Main.test_file := None; Main.test_files := paths; Main.test_dir := None;
     Main.optimized := true; Main.robust := false |}.

(** The run of the file raises an [Exception], whenever it is tried. *)
Definition file_raises (W : Type) (env : OptimizedBatch.Env W) (p : ustr) : Prop :=
  forall s : RobustRunner.State W,
    exists e, fst (OptimizedBatch._run_single_test_optimized env p s) = Raise e
              /\ is_Exception e = true.

(** The close of the browser session raises [e], whenever it is tried. *)
Definition close_raises (W : Type) (env : OptimizedBatch.Env W) (e : exn) : Prop :=
  forall w : W, fst (OptimizedBatch.close_browser env w) = Raise e.

(** The Optimized Runner over the sample browser, where closing the
    browser session gives [close]; [files] is what each test file loads
    as. *)
Definition sample_optimized_env (ucd : Unicode) (files : ustr -> result TestData)
  (close : result unit) : OptimizedBatch.Env Browser :=
  {| OptimizedBatch.stepper := fun _ => sample_env ucd (parse ucd);
     OptimizedBatch.new_page :=
       fun b => (Ok (opened b), {| opened := S (opened b); closed := closed b |});
     OptimizedBatch.set_default_timeout := fun _ _ => ret tt;
     OptimizedBatch.is_closed := fun p b => existsb (Nat.eqb p) (closed b);
     OptimizedBatch.start_browser :=
       fun b => (Ok (opened b), {| opened := S (opened b); closed := closed b |});
     OptimizedBatch.close_browser := lift close;
     OptimizedBatch.load_model := ret tt;
     OptimizedBatch._load_test_file := fun p => lift (files p);
     OptimizedBatch._save_results := fun _ p => ret p;
     OptimizedBatch.config_timeout := 30000;
     OptimizedBatch.console := sample_console |}.

(** The runners of a command line none of whose other runners is
    reached. *)
Definition idle_runners (W : Type) : Main.Runners W :=
  {| Main.robust_batch := fun _ => ret [];
     Main.optimized_batch := fun _ => ret [];
     Main.run_test_file := fun _ => raise (Exn RuntimeError (u "not reached"));
     Main.run_interactive := ret tt |}.

(** The file two.yaml holds the suite of two cases; reading any other
    file is interrupted from the keyboard. *)
Definition interrupted_files (p : ustr) : result TestData :=
  if ustr_eqb p (u "two.yaml") then Ok two_case_suite
  else Raise (Exn KeyboardInterrupt []).

(** A file with the suite whose first case has no name and fails. *)
Definition nameless_file (p : ustr) : result TestData :=
  if ustr_eqb p (u "nameless.yaml") then Ok nameless_case_suite
  else Raise (Exn EngineError (u "No such file or directory")).

End OptimizedNotions.

(* ================================================================== *)
(** * Properties *)
(* ================================================================== *)

Import Py Actions Assertions Suite Notions.
Local Open Scope string_scope.

Lemma bind_ok {A B} (m : result A) (f : A -> result B) (b : B) :
  bind m f = Ok b -> exists a, m = Ok a /\ f a = Ok b.
Proof.
  destruct m as [a|e]; simpl; intro H.
  - exists a. split; [reflexivity | exact H].
  - discriminate H.
Qed.

Ltac open_binds H :=
  repeat match type of H with
  | bind ?m _ = Ok _ =>
      let x := fresh "x" in
      let E := fresh "E" in
      apply bind_ok in H; destruct H as (x & E & H)
  end.

(** ** The pattern table and [parse] *)

Lemma table_entries_ok : forallb entry_ok PATTERNS = true.
Proof. vm_compute. reflexivity. Qed.

(** [parse] is the loop over the table with [re.search]. *)
Lemma parse_unfold ucd instruction :
  parse ucd instruction = parse_with ucd (Re.search ucd) PATTERNS instruction.
Proof. exact (eq_refl (parse_with ucd (Re.search ucd) PATTERNS instruction)). Qed.

(** A dictionary comes out of a match only for a handled kind, and it
    carries the type of the entry. *)
Lemma build_info_type ucd t k groups info :
  build_info ucd t k groups = Ok (Some info) ->
  handled_kind k = true /\ info_type info = t.
Proof.
  unfold build_info, handled_kind.
  repeat match goal with
  | |- context [String.eqb k ?s] => destruct (String.eqb k s); simpl
  end;
  intro H;
  repeat match goal with
  | H : bind _ _ = Ok _ |- _ =>
      apply bind_ok in H; destruct H as (? & _ & H)
  end;
  try discriminate H;
  inversion H; subst; simpl; split; reflexivity.
Qed.

Lemma parse_with_type ucd search pats instruction info :
  forallb entry_ok pats = true ->
  parse_with ucd search pats instruction = Ok (Some info) ->
  implemented (info_type info) = true.
Proof.
  induction pats as [|[[p t] k] rest IH]; simpl; intros Hok H.
  - discriminate H.
  - apply andb_true_iff in Hok. destruct Hok as [He Hrest].
    apply bind_ok in H. destruct H as (m & _ & H).
    destruct m as [mo|].
    + apply bind_ok in H. destruct H as (r & Hb & H).
      destruct r as [i|].
      * inversion H; subst i.
        apply build_info_type in Hb. destruct Hb as [Hk Ht].
        rewrite Hk in He. rewrite Ht. exact He.
      * apply IH; assumption.
    + apply IH; assumption.
Qed.

Lemma starts_with_cons_ne (x y : N) (p s : ustr) :
  (x =? y)%N = false -> starts_with (x :: p) (y :: s) = false.
Proof. intro H. simpl. rewrite H. reflexivity. Qed.

(** The results of the sixteen evaluators never carry the message of the
    last branch of the dispatcher: a failure of a guarded evaluator
    starts with the evaluator's own prefix, whose first character is not
    the U of that message. *)
Lemma guarded_not_unimplemented (a : Assertion) (prefix : string)
  (body : result AssertionResult) (r : AssertionResult) :
  (hd 85 (u prefix) =? 85)%N = false ->
  (forall r', body = Ok r' -> is_unimplemented_failure r' = false) ->
  guarded a prefix body = Ok r ->
  is_unimplemented_failure r = false.
Proof.
  intros Hp Hb. unfold guarded.
  destruct body as [r'|e].
  - intro H. inversion H; subst. apply Hb. reflexivity.
  - destruct (is_Exception e); intro H; [|discriminate H].
    inversion H; subst. unfold is_unimplemented_failure, failed_result.
    cbn [error_message].
    destruct (u prefix) as [|y q]; cbn [hd] in Hp.
    + vm_compute in Hp. discriminate Hp.
    + rewrite <- app_comm_cons.
      replace (u "Unimplemented assertion type: ")
        with (85%N :: u "nimplemented assertion type: ") by (vm_compute; reflexivity).
      apply starts_with_cons_ne. rewrite N.eqb_sym. exact Hp.
Qed.

Lemma outcome_not_unimplemented (a : Assertion) (ok : bool) (actual expected_v : pyval)
  (msg : ustr) :
  starts_with (u "Unimplemented assertion type: ") msg = false ->
  is_unimplemented_failure (outcome a ok actual expected_v msg) = false.
Proof.
  intro H. unfold is_unimplemented_failure, outcome; simpl.
  destruct ok; [reflexivity | exact H].
Qed.

Ltac not_unimpl_msg :=
  apply outcome_not_unimplemented; vm_compute; reflexivity.

Ltac guarded_case H :=
  eapply guarded_not_unimplemented; [| | exact H]; [vm_compute; reflexivity|];
  let r' := fresh "r" in
  let Hb := fresh "Hb" in
  intros r' Hb; open_binds Hb; inversion Hb; subst; not_unimpl_msg.

Lemma implemented_never_unimplemented ucd page (a : Assertion) (r : AssertionResult) :
  implemented (type a) = true ->
  _execute_assertion ucd page a = Ok r ->
  is_unimplemented_failure r = false.
Proof.
  intros Himpl. unfold _execute_assertion.
  destruct (type a) eqn:Ht; try discriminate Himpl; clear Himpl.
  - unfold _assert_text_exists.
    destruct (text_exists_loop _ _ _ _) as [p0 c0].
    destruct p0; [| destruct (content_has ucd page a)];
      intro H; inversion H; subst; not_unimpl_msg.
  - unfold _assert_text_not_exists.
    intro H; inversion H; subst; not_unimpl_msg.
  - unfold _assert_element_exists. intro H. guarded_case H.
  - unfold _assert_element_not_exists. intro H. guarded_case H.
  - unfold _assert_element_visible. intro H. guarded_case H.
  - unfold _assert_element_hidden. intro H. guarded_case H.
  - unfold _assert_element_count. intro H. guarded_case H.
  - unfold _assert_url_equals. intro H; inversion H; subst; not_unimpl_msg.
  - unfold _assert_url_contains. intro H; inversion H; subst; not_unimpl_msg.
  - unfold _assert_url_starts_with. intro H; inversion H; subst; not_unimpl_msg.
  - unfold _assert_url_ends_with. intro H; inversion H; subst; not_unimpl_msg.
  - unfold _assert_title_equals. intro H. guarded_case H.
  - unfold _assert_title_contains. intro H. guarded_case H.
  - unfold _assert_input_value_equals. intro H. guarded_case H.
  - unfold _assert_checkbox_checked. intro H. guarded_case H.
  - unfold _assert_checkbox_unchecked. intro H. guarded_case H.
Qed.

(** The eleven types without a branch end in the failure of the last
    branch. *)
Lemma unimplemented_dispatch ucd page (a : Assertion) :
  implemented (type a) = false ->
  exists r, execute ucd page a = Ok r /\ is_unimplemented_failure r = true
            /\ Assertions.passed r = false.
Proof.
  intro H. unfold execute, _execute_assertion.
  destruct (type a); try discriminate H;
    (eexists; split; [reflexivity | split; [vm_compute; reflexivity | reflexivity]]).
Qed.

(** C1. Whatever the instruction, an assertion that [parse] returns has
    one of the sixteen types with an evaluator, so executing it never
    ends in the failure of the dispatcher for an unimplemented type;
    and yet the table holds entries tagged ELEMENT_ENABLED,
    ELEMENT_DISABLED, ATTRIBUTE_EXISTS, INPUT_VALUE_CONTAINS and
    TEXT_CONTAINS, none of which has an evaluator. *)
Theorem parse_emits_only_implemented_types :
  forall (ucd : Unicode) (instruction : ustr) (info : assertion_info),
    parse ucd instruction = Ok (Some info) ->
    implemented (info_type info) = true
    /\ (forall page r,
          execute ucd page (Assertion_of_info info) = Ok r ->
          is_unimplemented_failure r = false)
    /\ length (filter implemented all_assertion_types) = 16%nat
    /\ forallb (fun t => negb (implemented t) && existsb (entry_has_type t) PATTERNS)
         [ELEMENT_ENABLED; ELEMENT_DISABLED; ATTRIBUTE_EXISTS; INPUT_VALUE_CONTAINS;
          TEXT_CONTAINS] = true.
Proof.
  intros ucd instruction info H.
  assert (Hi : implemented (info_type info) = true).
  { rewrite parse_unfold in H.
    eapply parse_with_type; [exact table_entries_ok | exact H]. }
  split; [exact Hi|]. split.
  - intros page r Hr. unfold execute in Hr.
    eapply guarded_not_unimplemented; [| | exact Hr]; [vm_compute; reflexivity|].
    intros r' Hb. eapply implemented_never_unimplemented; [|exact Hb]. exact Hi.
  - split; vm_compute; reflexivity.
Qed.

Lemma parse_emits_only_implemented_types_witness :
  parse ascii_ucd (u "「ログイン」が表示されていることを確認する")
  = Ok (Some {| info_type := TEXT_EXISTS; info_expected := VStr (u "ログイン");
                info_selector := None |})
  /\ implemented TEXT_EXISTS = true.
Proof.
  assert (H : parse ascii_ucd (u "「ログイン」が表示されていることを確認する")
              = Ok (Some {| info_type := TEXT_EXISTS; info_expected := VStr (u "ログイン");
                            info_selector := None |}))
    by (vm_compute; reflexivity).
  split; [exact H|].
  exact (proj1 (@parse_emits_only_implemented_types _ _ _ H)).
Defined.

(** ** The URL patterns *)

Lemma url_entries_in_table :
  nth_error PATTERNS 10 = Some entry_line_135 /\ nth_error PATTERNS 14 = Some entry_line_143.
Proof. split; vm_compute; reflexivity. Qed.

(** The entry written for this phrasing matches the instruction too, but
    it is never reached. *)
Lemma url_suffix_instruction_matches_line_143 (ucd : Unicode) :
  option_map Re.groups
    (match Re.search ucd (u (fst (fst entry_line_143))) url_suffix_instruction with
     | Ok m => m
     | Raise _ => None
     end)
  = Some [Some (u (dq ++ "success" ++ dq))].
Proof. vm_compute. reflexivity. Qed.

(** C2. On the instruction of the URL suffix example, [parse] returns
    the type URL_CONTAINS with the expected text [success], not
    URL_ENDS_WITH: the first entry that matches is the one of line 135,
    which lists the phrase for ending under URL_CONTAINS and stands
    before the URL_ENDS_WITH entry of line 143. *)
Theorem parse_url_suffix_instruction :
  forall ucd : Unicode,
    parse ucd url_suffix_instruction
    = Ok (Some {| info_type := URL_CONTAINS; info_expected := VStr (u "success");
                  info_selector := None |}).
Proof. intro ucd. vm_compute. reflexivity. Qed.

(** ** [parse] never answers that an instruction is no assertion *)

Lemma entry_line_433_in_table : nth_error PATTERNS 112 = Some entry_line_433.
Proof. vm_compute. reflexivity. Qed.

(** The last group of the pattern of line 433 is a question mark with
    nothing before it in its alternative. *)
Lemma entry_line_433_does_not_compile :
  Re.compile (u (fst (fst entry_line_433)))
  = Raise (Exn ReError (u "nothing to repeat at position 83")).
Proof. vm_compute. reflexivity. Qed.

(** Every pattern of the table is inside the modelled fragment of [re];
    two of them do not compile. *)
Lemma table_in_fragment :
  forallb compiles_or_re_error PATTERNS = true
  /\ length (filter does_not_compile PATTERNS) = 2%nat.
Proof. split; vm_compute; reflexivity. Qed.

Lemma search_of_compile_error ucd (p s : ustr) (e : exn) :
  Re.compile p = Raise e -> Re.search ucd p s = Raise e.
Proof. intro H. unfold Re.search. rewrite H. reflexivity. Qed.

(** When the loop ends without a dictionary, [re.search] returned for
    every entry. *)
Lemma parse_with_none ucd search pats instruction :
  parse_with ucd search pats instruction = Ok None ->
  forall e, In e pats -> exists m, search (u (fst (fst e))) instruction = Ok m.
Proof.
  induction pats as [|[[p t] k] rest IH]; simpl; intros H e Hin.
  - contradiction.
  - apply bind_ok in H. destruct H as (m & Hs & H).
    destruct Hin as [<-|Hin]; [exists m; exact Hs|].
    destruct m as [mo|].
    + apply bind_ok in H. destruct H as (r & _ & H).
      destruct r as [i|]; [discriminate H | apply IH; assumption].
    + apply IH; assumption.
Qed.

(** [parse] returns a dictionary or raises; it never returns [None]. *)
Theorem parse_never_returns_none :
  forall (ucd : Unicode) (instruction : ustr), parse ucd instruction <> Ok None.
Proof.
  intros ucd instruction H. rewrite parse_unfold in H.
  destruct (@parse_with_none _ _ _ _ H entry_line_433
              (@nth_error_In _ _ _ _ entry_line_433_in_table)) as [m Hm].
  rewrite (@search_of_compile_error ucd _ instruction _ entry_line_433_does_not_compile) in Hm.
  discriminate Hm.
Qed.

(** ** How a step is resolved *)

Lemma standard_step_calls W (env : Runner.Env W) (c : N) (rest : ustr)
  (descr : option ustr) (idx : nat) (w : W) :
  calls_of_step env (StepMap (Some (c :: rest)) descr) idx w
  = calls_by_matcher env (c :: rest) w.
Proof.
  unfold calls_of_step, calls_by_matcher, Runner._execute_step, Runner.attempt.
  cbn -[u].
  unfold logged; cbn -[u].
  destruct (Runner.parse env (c :: rest) w) as [[[info|]|e] w1]; cbn -[u].
  - destruct (Runner.execute_assertion env (Assertion_of_info info) w1) as [[r|e] w2];
      cbn -[u]; [reflexivity | destruct (is_Exception e); reflexivity].
  - destruct (Runner.translate_to_actions env (c :: rest) w1) as [[a|e] w2]; cbn -[u].
    + destruct (Runner.execute_action env a w2) as [[x|e] w3]; cbn -[u];
        [reflexivity | destruct (is_Exception e); reflexivity].
    + destruct (is_Exception e); reflexivity.
  - destruct (is_Exception e); reflexivity.
Qed.

Lemma optimized_step_is_standard_step W (env : Runner.Env W) (step : Step) (idx : nat) :
  OptimizedRunner._execute_step env step idx = Runner._execute_step env step idx.
Proof. reflexivity. Qed.

Lemma optimized_step_calls W (env : Runner.Env W) (c : N) (rest : ustr)
  (descr : option ustr) (idx : nat) (w : W) :
  calls_of_optimized_step env (StepMap (Some (c :: rest)) descr) idx w
  = calls_by_matcher env (c :: rest) w.
Proof.
  unfold calls_of_optimized_step. rewrite optimized_step_is_standard_step.
  apply standard_step_calls.
Qed.

Lemma robust_step_calls W (renv : RobustRunner.Env W) (c : N) (rest : ustr)
  (descr : option ustr) (idx : nat) (s : RobustRunner.State W) :
  calls_of_robust_step renv (StepMap (Some (c :: rest)) descr) idx s
  = if RobustRunner.page_unusable renv s then []
    else calls_without_matcher renv (c :: rest) (RobustRunner.world s).
Proof.
  unfold calls_of_robust_step, calls_without_matcher, RobustRunner._execute_step_robust,
    RobustRunner.attempt, RobustRunner.page_unusable, RobustRunner.execute_with_timeout,
    RobustRunner.on_world.
  destruct s as [pg w]. cbn -[u].
  destruct pg as [p|]; cbn -[u]; [|reflexivity].
  destruct (RobustRunner.is_closed renv p w); cbn -[u]; [reflexivity|].
  unfold logged; cbn -[u].
  destruct (RobustRunner.translate_to_actions renv (c :: rest) w) as [[a|e] w2]; cbn -[u].
  - destruct (RobustRunner.execute_action renv (Some p) a (RobustRunner.config_timeout renv) w2)
      as [[x|e] w3]; cbn -[u]; [reflexivity|].
    destruct (exn_cls e); cbn -[u]; try (destruct (is_Exception e); reflexivity);
      reflexivity.
  - destruct (is_Exception e); reflexivity.
Qed.

Lemma empty_instruction_calls W (env : Runner.Env W) (renv : RobustRunner.Env W)
  (descr : option ustr) (idx : nat) (w : W) (s : RobustRunner.State W) :
  calls_of_step env (StepMap None descr) idx w = []
  /\ calls_of_step env (StepMap (Some []) descr) idx w = []
  /\ calls_of_optimized_step env (StepMap None descr) idx w = []
  /\ calls_of_optimized_step env (StepMap (Some []) descr) idx w = []
  /\ calls_of_robust_step renv (StepMap None descr) idx s = []
  /\ calls_of_robust_step renv (StepMap (Some []) descr) idx s = [].
Proof.
  repeat split; try reflexivity;
    unfold calls_of_robust_step, RobustRunner._execute_step_robust, RobustRunner.attempt,
      RobustRunner.page_unusable;
    destruct s as [[p|] w0]; cbn -[u]; try reflexivity;
    destruct (RobustRunner.is_closed renv p w0); reflexivity.
Qed.

Ltac resolved :=
  cbn -[u];
  first [ assumption
        | split; [reflexivity | first [exact I | reflexivity]] ].

Lemma standard_step_resolves W (env : Runner.Env W) (c : N) (rest : ustr)
  (descr : option ustr) (idx : nat) (w : W) :
  resolves_as (resolution_by_matcher env (c :: rest) w)
    (fst (Runner._execute_step env (StepMap (Some (c :: rest)) descr) idx w)).
Proof.
  unfold resolves_as, resolution_by_matcher, Runner._execute_step, Runner.attempt, ret.
  cbn -[u].
  destruct (Runner.parse env (c :: rest) w) as [[[info|]|e] w1]; cbn -[u].
  - destruct (Runner.execute_assertion env (Assertion_of_info info) w1) as [[r|e] w2];
      cbn -[u].
    + destruct (Assertions.passed r); resolved.
    + destruct (is_Exception e) eqn:He; resolved.
  - destruct (Runner.translate_to_actions env (c :: rest) w1) as [[a|e] w2]; cbn -[u].
    + destruct (Runner.execute_action env a w2) as [[x|e] w3]; cbn -[u]; [resolved|].
      destruct (is_Exception e) eqn:He; resolved.
    + destruct (is_Exception e) eqn:He; resolved.
  - destruct (is_Exception e) eqn:He; resolved.
Qed.

Lemma robust_step_resolves W (renv : RobustRunner.Env W) (c : N) (rest : ustr)
  (descr : option ustr) (idx : nat) (s : RobustRunner.State W) :
  resolves_as (resolution_without_matcher renv (c :: rest) s)
    (fst (RobustRunner._execute_step_robust renv (StepMap (Some (c :: rest)) descr) idx s)).
Proof.
  unfold resolves_as, resolution_without_matcher, RobustRunner._execute_step_robust,
    RobustRunner.attempt, RobustRunner.execute_with_timeout, RobustRunner.on_world, ret.
  destruct (RobustRunner.page_unusable renv s); cbn -[u]; [resolved|].
  destruct (RobustRunner.translate_to_actions renv (c :: rest) (RobustRunner.world s))
    as [[a|e] w2]; cbn -[u].
  - destruct (RobustRunner.execute_action renv (RobustRunner.bm_page s) a
                (RobustRunner.config_timeout renv) w2) as [[x|e] w3]; cbn -[u];
      [resolved|].
    destruct (exn_cls e) eqn:Hc; cbn -[u];
      try (destruct (is_Exception e) eqn:He; resolved); resolved.
  - destruct (is_Exception e) eqn:He; resolved.
Qed.

Lemma empty_instruction_fails W (env : Runner.Env W) (renv : RobustRunner.Env W)
  (descr : option ustr) (idx : nat) (w : W) (s : RobustRunner.State W) :
  fails_unresolved (fst (Runner._execute_step env (StepMap None descr) idx w))
  /\ fails_unresolved (fst (Runner._execute_step env (StepMap (Some []) descr) idx w))
  /\ fails_unresolved (fst (OptimizedRunner._execute_step env (StepMap None descr) idx w))
  /\ fails_unresolved
       (fst (OptimizedRunner._execute_step env (StepMap (Some []) descr) idx w))
  /\ fails_unresolved
       (fst (RobustRunner._execute_step_robust renv (StepMap None descr) idx s))
  /\ fails_unresolved
       (fst (RobustRunner._execute_step_robust renv (StepMap (Some []) descr) idx s)).
Proof.
  unfold fails_unresolved.
  repeat split; try (eexists; repeat split; reflexivity);
    unfold RobustRunner._execute_step_robust, RobustRunner.attempt;
    destruct (RobustRunner.page_unusable renv s); cbn -[u];
    eexists; repeat split; reflexivity.
Qed.

(** C3, runner by runner. In the Standard and Optimized runners a step with a
    non-empty instruction goes to the pattern matcher first: for a
    dictionary the only other call is the assertion executor, for [None]
    the translator and then, once it returned an action, the action
    executor; the step result records the assertion result or the action
    accordingly, exactly one of the two, and neither (a failed step) when
    the matcher, the assertion executor or the translator raised. The
    Robust Runner never asks the pattern matcher: with a usable page it
    hands every non-empty instruction to the translator and executes the
    action; its step result records an action or nothing, never an
    assertion result. A step without instruction reaches no collaborator
    in any runner: it fails and records neither. *)
Theorem steps_resolve_by_runner :
  forall (W : Type) (env : Runner.Env W) (renv : RobustRunner.Env W)
         (c : N) (rest : ustr) (descr : option ustr) (idx : nat) (w : W)
         (s : RobustRunner.State W),
    calls_of_step env (StepMap (Some (c :: rest)) descr) idx w
    = calls_by_matcher env (c :: rest) w
    /\ calls_of_optimized_step env (StepMap (Some (c :: rest)) descr) idx w
       = calls_by_matcher env (c :: rest) w
    /\ calls_of_robust_step renv (StepMap (Some (c :: rest)) descr) idx s
       = (if RobustRunner.page_unusable renv s then []
          else calls_without_matcher renv (c :: rest) (RobustRunner.world s))
    /\ calls_of_step env (StepMap None descr) idx w = []
    /\ calls_of_step env (StepMap (Some []) descr) idx w = []
    /\ calls_of_optimized_step env (StepMap None descr) idx w = []
    /\ calls_of_optimized_step env (StepMap (Some []) descr) idx w = []
    /\ calls_of_robust_step renv (StepMap None descr) idx s = []
    /\ calls_of_robust_step renv (StepMap (Some []) descr) idx s = []
    /\ resolves_as (resolution_by_matcher env (c :: rest) w)
         (fst (Runner._execute_step env (StepMap (Some (c :: rest)) descr) idx w))
    /\ resolves_as (resolution_by_matcher env (c :: rest) w)
         (fst (OptimizedRunner._execute_step env (StepMap (Some (c :: rest)) descr) idx w))
    /\ resolves_as (resolution_without_matcher renv (c :: rest) s)
         (fst (RobustRunner._execute_step_robust renv
                 (StepMap (Some (c :: rest)) descr) idx s))
    /\ fails_unresolved (fst (Runner._execute_step env (StepMap None descr) idx w))
    /\ fails_unresolved (fst (Runner._execute_step env (StepMap (Some []) descr) idx w))
    /\ fails_unresolved
         (fst (OptimizedRunner._execute_step env (StepMap None descr) idx w))
    /\ fails_unresolved
         (fst (OptimizedRunner._execute_step env (StepMap (Some []) descr) idx w))
    /\ fails_unresolved
         (fst (RobustRunner._execute_step_robust renv (StepMap None descr) idx s))
    /\ fails_unresolved
         (fst (RobustRunner._execute_step_robust renv (StepMap (Some []) descr) idx s)).
Proof.
  intros.
  pose proof (@empty_instruction_calls W env renv descr idx w s) as (H1 & H2 & H3 & H4 & H5 & H6).
  split; [apply standard_step_calls|].
  split; [apply optimized_step_calls|].
  split; [apply robust_step_calls|].
  split; [exact H1|]. split; [exact H2|]. split; [exact H3|]. split; [exact H4|].
  split; [exact H5|]. split; [exact H6|].
  split; [apply standard_step_resolves|].
  split; [rewrite optimized_step_is_standard_step; apply standard_step_resolves|].
  split; [apply robust_step_resolves|].
  apply empty_instruction_fails.
Qed.

(** Two steps that do not resolve as the claim says. The instruction
    [「ログイン」が表示されていることを確認する] is an assertion for the
    pattern matcher, and the Robust Runner executes it as an action: the
    mock translator turns it into a wait and no assertion is evaluated.
    A step without an instruction resolves to neither an action nor an
    assertion in the Standard Runner: it fails and its result records
    none. *)
Lemma robust_runner_executes_assertion_as_action :
  parse ascii_ucd (u "「ログイン」が表示されていることを確認する")
  = Ok (Some {| info_type := TEXT_EXISTS; info_expected := VStr (u "ログイン");
                info_selector := None |})
  /\ calls_of_robust_step (sample_robust_env ascii_ucd sample_files)
       (StepMap (Some (u "「ログイン」が表示されていることを確認する")) None) 0 started_session
     = [CallTranslate (u "「ログイン」が表示されていることを確認する");
        CallExecuteAction (with_timeout 1000 (action "wait"))]
  /\ option_map resolution
       (match fst (RobustRunner._execute_step_robust (sample_robust_env ascii_ucd sample_files)
                     (StepMap (Some (u "「ログイン」が表示されていることを確認する")) None) 0
                     started_session) with
        | Ok r => Some r
        | Raise _ => None
        end)
     = Some AsAction
  /\ option_map (fun r => (resolution r, step_status r))
       (match fst (Runner._execute_step (sample_env ascii_ucd (parse ascii_ucd))
                     (StepMap None (Some (u "a step without instruction"))) 0
                     fresh_browser) with
        | Ok r => Some r
        | Raise _ => None
        end)
     = Some (Unresolved, failed).
Proof. repeat split; vm_compute; reflexivity. Qed.

(** ** The exit code *)

Lemma check_results_spec (rs : list RobustRunner.FileResult) (b : bool) :
  Main.check_results rs b
  = b && negb (existsb Main.reports_failure (map Main.summary_of rs)).
Proof.
  revert b. induction rs as [|r rs IH]; intro b; simpl.
  - destruct b; reflexivity.
  - rewrite IH. destruct (Main.reports_failure (Main.summary_of r)), b; reflexivity.
Qed.

Lemma standard_loop_spec W (runners : Main.Runners W) (paths : list ustr) (b : bool) (w : W) :
  Main.standard_loop runners paths b w
  = match run_each runners paths w with
    | (Ok rs, w') =>
        (Ok (b && negb (existsb Main.reports_failure
                          (map (fun r => Some (summary r)) rs))), w')
    | (Raise e, w') => (Raise e, w')
    end.
Proof.
  revert b w. induction paths as [|p rest IH]; intros b w;
    cbn [Main.standard_loop run_each].
  - unfold ret. destruct b; reflexivity.
  - unfold mbind.
    destruct (Main.run_test_file runners p w) as [[r|e] w1]; [|reflexivity].
    rewrite IH.
    destruct (run_each runners rest w1) as [[rs|e] w2]; [|reflexivity].
    unfold ret. cbn [map existsb].
    destruct (Main.reports_failure (Some (summary r))), b; reflexivity.
Qed.

Lemma result_reports_failure_spec (r : RobustRunner.FileResult) :
  Main.reports_failure (Main.summary_of r) = true <-> result_reports_failure r.
Proof.
  destruct r as [suite|name err]; cbn [Main.summary_of Main.reports_failure
                                       result_reports_failure].
  - unfold summary_reports_failure. rewrite orb_true_iff, !Z.ltb_lt. reflexivity.
  - split; [discriminate | contradiction].
Qed.

Lemma some_result_reports_failure (rs : list RobustRunner.FileResult) :
  existsb Main.reports_failure (map Main.summary_of rs) = true
  <-> Exists result_reports_failure rs.
Proof.
  induction rs as [|r rs IH]; cbn [map existsb].
  - split; [discriminate | intro H; inversion H].
  - rewrite orb_true_iff, Exists_cons, IH, result_reports_failure_spec. reflexivity.
Qed.

Lemma map_summary_of_suites (rs : list SuiteResult) :
  map Main.summary_of (map RobustRunner.FileSuite rs) = map (fun r => Some (summary r)) rs.
Proof. induction rs as [|r rs IH]; cbn; [reflexivity | rewrite IH; reflexivity]. Qed.

(** The exit code of [main], from the results the process inspects. *)
Lemma main_by_results W (runners : Main.Runners W) (o : Main.Options) (w : W) :
  fst (Main.main runners o w)
  = match fst (inspected_results runners o w) with
    | Ok rs => if existsb Main.reports_failure (map Main.summary_of rs) then 1%Z else 0%Z
    | Raise e => match exn_cls e with KeyboardInterrupt => 0%Z | _ => 1%Z end
    end.
Proof.
  unfold Main.main, Main.run_tests, inspected_results.
  change (named_files o) with (Main.test_file_paths o).
  destruct (Main.test_file_paths o) as [|p [|q rest]].
  - (* interactive mode *)
    unfold mbind, ret.
    destruct (Main.run_interactive runners w) as [[x|e] w1];
      cbn -[Main.reports_failure u]; [reflexivity | destruct (exn_cls e); reflexivity].
  - (* one file *)
    destruct (Main.robust o); [|destruct (Main.optimized o)];
      unfold batch_results, mbind, ret, Main.first_of, mbind, ret, raise.
    + destruct (Main.robust_batch runners [p] w) as [[[|r l]|e] w1];
        cbn -[Main.reports_failure u];
        [reflexivity
        | destruct (Main.reports_failure (Main.summary_of r)); reflexivity
        | destruct (exn_cls e); reflexivity].
    + destruct (Main.optimized_batch runners [p] w) as [[[|r l]|e] w1];
        cbn -[Main.reports_failure u];
        [reflexivity
        | destruct (Main.reports_failure (Main.summary_of r)); reflexivity
        | destruct (exn_cls e); reflexivity].
    + cbn [run_each]. unfold mbind, ret.
      destruct (Main.run_test_file runners p w) as [[r|e] w1];
        cbn -[Main.reports_failure u];
        [destruct (Main.reports_failure (Some (summary r))); reflexivity
        | destruct (exn_cls e); reflexivity].
  - (* several files *)
    destruct (Main.robust o); [|destruct (Main.optimized o)].
    + unfold batch_results, mbind, ret.
      destruct (Main.robust_batch runners (p :: q :: rest) w) as [[rs|e] w1];
        cbn [fst]; [|destruct (exn_cls e); reflexivity].
      rewrite check_results_spec.
      destruct (existsb Main.reports_failure (map Main.summary_of rs)); reflexivity.
    + unfold batch_results, mbind, ret.
      destruct (Main.optimized_batch runners (p :: q :: rest) w) as [[rs|e] w1];
        cbn [fst]; [|destruct (exn_cls e); reflexivity].
      rewrite check_results_spec.
      destruct (existsb Main.reports_failure (map Main.summary_of rs)); reflexivity.
    + rewrite standard_loop_spec. unfold mbind, ret.
      destruct (run_each runners (p :: q :: rest) w) as [[rs|e] w1];
        cbn [fst]; [|destruct (exn_cls e); reflexivity].
      rewrite map_summary_of_suites.
      destruct (existsb Main.reports_failure (map (fun r => Some (summary r)) rs));
        reflexivity.
Qed.

(** C4. When the selected runner returns, the exit code of the process is
    1 if the summary of some result it returned reports failed > 0 or
    errors > 0, and 0 if none does: in particular 0 when interactive mode
    ends, and 0 for the error dictionaries of files that crashed inside a
    batch, which have no summary. When the run raises, the exit code is 0
    for a keyboard interrupt, whatever ran before it, and 1 for every
    other exception. *)
Theorem exit_code_follows_the_summaries :
  forall (W : Type) (runners : Main.Runners W) (o : Main.Options) (w : W),
    match fst (inspected_results runners o w) with
    | Ok results =>
        (Exists result_reports_failure results -> fst (Main.main runners o w) = 1%Z)
        /\ (~ Exists result_reports_failure results -> fst (Main.main runners o w) = 0%Z)
    | Raise e =>
        (exn_cls e = KeyboardInterrupt -> fst (Main.main runners o w) = 0%Z)
        /\ (exn_cls e <> KeyboardInterrupt -> fst (Main.main runners o w) = 1%Z)
    end.
Proof.
  intros W runners o w. rewrite main_by_results.
  destruct (fst (inspected_results runners o w)) as [rs|e].
  - pose proof (some_result_reports_failure rs) as H.
    destruct (existsb Main.reports_failure (map Main.summary_of rs)).
    + split; [reflexivity | intro Hn; exfalso; apply Hn, H; reflexivity].
    + split; [intro He; apply H in He; discriminate He | reflexivity].
  - split; intro H.
    + rewrite H. reflexivity.
    + destruct (exn_cls e); try reflexivity. exfalso. apply H. reflexivity.
Qed.

(** Two runs in the default mode of the command line that end with exit
    code 0 and are no full success. In the first, the suite of two.yaml
    is executed and its summary reports two failed cases, and reading the
    next file is interrupted from the keyboard. In the second, neither
    file can be read: both results are error dictionaries. *)
Lemma failures_that_leave_the_exit_code_at_zero :
  option_map summary
    (match fst (OptimizedBatch._run_single_test_optimized
                  (OptimizedNotions.sample_optimized_env ascii_ucd OptimizedNotions.interrupted_files (Ok tt))
                  (u "two.yaml") started_session) with
     | Ok r => Some r
     | Raise _ => None
     end)
  = Some {| total := 2; n_passed := 0; n_failed := 2; n_errors := 0 |}
  /\ fst (Main.main
            (OptimizedNotions.with_optimized_runner (OptimizedNotions.sample_optimized_env ascii_ucd OptimizedNotions.interrupted_files (Ok tt))
               (OptimizedNotions.idle_runners _))
            (OptimizedNotions.optimized_mode [u "two.yaml"; u "later.yaml"])
            {| RobustRunner.bm_page := None; RobustRunner.world := fresh_browser |})
     = 0%Z
  /\ fst (OptimizedBatch.run_test_files_batch
            (OptimizedNotions.sample_optimized_env ascii_ucd sample_files (Ok tt))
            [u "missing.yaml"; u "gone.yaml"]
            {| RobustRunner.bm_page := None; RobustRunner.world := fresh_browser |})
     = Ok [RobustRunner.FileError (u "missing.yaml") (u "No such file or directory");
           RobustRunner.FileError (u "gone.yaml") (u "No such file or directory")]
  /\ fst (Main.main
            (OptimizedNotions.with_optimized_runner (OptimizedNotions.sample_optimized_env ascii_ucd sample_files (Ok tt))
               (OptimizedNotions.idle_runners _))
            (OptimizedNotions.optimized_mode [u "missing.yaml"; u "gone.yaml"])
            {| RobustRunner.bm_page := None; RobustRunner.world := fresh_browser |})
     = 0%Z.
Proof. repeat split; vm_compute; reflexivity. Qed.

(** ** Saving and loading a configuration *)

Lemma ustr_eqb_refl (s : ustr) : ustr_eqb s s = true.
Proof. unfold ustr_eqb. destruct (list_eq_dec N.eq_dec s s); [reflexivity | contradiction]. Qed.

Section ConfigRoundTrip.
Variable float : Type.
Variables f_0_7 f_0_9 : float.
Variable float_of_int : Z -> float.
Variable path_parts : ustr -> list ustr.
Context {lax : Config.LaxMode float}.

(** What is written for the test section cannot be loaded safely. *)
Lemma test_section_is_refused (t : Config.TestConfig) :
  Config.safe_construct
    (Config.represent
       (Config.DDict
          [ (u "base_url", Config.DStr float (Config.base_url t));
            (u "screenshot_on_failure", Config.DBool float (Config.screenshot_on_failure t));
            (u "output_dir", Config.DPath float (Config.output_dir t));
            (u "retry_count", Config.DInt float (Config.retry_count t)) ]))
  = Raise (Config.constructor_error (u "pathlib.PosixPath")).
Proof. reflexivity. Qed.

(** The viewport, a dictionary of integers, is written and loaded back. *)
Lemma int_dict_loads (vp : list (ustr * Z)) :
  Config.safe_construct
    (Config.represent
       (Config.DDict (map (fun kv => (fst kv, Config.DInt float (snd kv))) vp)))
  = Ok (Config.DDict (map (fun kv => (fst kv, Config.DInt float (snd kv))) vp)).
Proof.
  cbn [Config.represent Config.safe_construct].
  induction vp as [|[k z] vp IH]; [reflexivity|].
  cbn [map fst snd Config.represent Config.safe_construct bind] in *.
  destruct (_ (map _ (map _ vp))) eqn:E in IH; [|discriminate IH].
  cbn [bind] in IH. injection IH as IH.
  rewrite E. cbn [bind]. inversion IH. reflexivity.
Qed.

(** The language-model section, which holds no path, is written and
    loaded back unchanged. *)
Lemma llm_section_round_trips (c : Config.LLMConfig float) :
  bind (Config.safe_construct
          (Config.represent
             (Config.DDict
                [ (u "model_name", Config.DStr float (Config.model_name c));
                  (u "device", Config.DStr float (Config.device c));
                  (u "max_length", Config.DInt float (Config.max_length c));
                  (u "temperature", Config.DFloat (Config.temperature c));
                  (u "top_p", Config.DFloat (Config.top_p c)) ])))
       (Config.build_LLMConfig f_0_7 f_0_9 float_of_int)
  = Ok c.
Proof. destruct c. vm_compute. reflexivity. Qed.

(** C5, at every configuration. Loading the file [save_config] wrote
    raises: the output directory, a path object, is dumped under a tag
    naming its Python class, and the safe loader refuses the tag. The
    round trip of the specification therefore never succeeds. *)
Theorem saved_config_does_not_load :
  forall (config : Config.KotobaConfig float) (config_path : ustr) (fs : Config.files float),
    Config.load_config f_0_7 f_0_9 float_of_int path_parts config_path
      (Config.save_config config config_path fs)
    = Raise (Config.constructor_error (u "pathlib.PosixPath")).
Proof.
  intros config config_path fs.
  unfold Config.load_config, Config.save_config.
  rewrite ustr_eqb_refl.
  unfold Config.model_dump.
  cbn [Config.represent map fst snd].
  cbn [Config.safe_construct bind].
  pose proof (int_dict_loads (Config.viewport (Config.playwright config))) as Hv.
  cbn [Config.represent Config.safe_construct] in Hv.
  destruct (_ (map _ (map _ (Config.viewport (Config.playwright config))))) eqn:E in Hv;
    [|discriminate Hv].
  rewrite E. cbn [bind]. reflexivity.
Qed.

End ConfigRoundTrip.

(** ** The selection branch of the mock translator *)

Lemma orb_false_l_r (a b : bool) : a || b = false -> a = false /\ b = false.
Proof. destruct a, b; intro H; try discriminate H; split; reflexivity. Qed.

(** C6, at every instruction of the branch. An instruction with a
    selection keyword and none of the earlier keywords does not get a
    select action: the branch calls [re.search] while the local name
    [re] is unbound (no import ran), and the call raises
    [UnboundLocalError]. *)
Theorem selection_branch_raises :
  forall (ucd : Unicode) (natural_language : ustr),
    MockLLM.selection_keyword ucd natural_language = true ->
    MockLLM.earlier_keyword ucd natural_language = false ->
    MockLLM.translate_to_actions ucd natural_language
    = Raise (Exn UnboundLocalError
               (u "cannot access local variable 're' where it is not associated with a value")).
Proof.
  intros ucd nl Hsel Hearlier.
  unfold MockLLM.earlier_keyword in Hearlier.
  repeat match type of Hearlier with
  | _ || _ = false =>
      apply orb_false_l_r in Hearlier;
      let H := fresh "Hk" in destruct Hearlier as [Hearlier H]
  end.
  unfold MockLLM.selection_keyword in Hsel.
  unfold MockLLM.translate_to_actions.
  repeat match goal with
  | H : MockLLM.kw ?k ?s = false |- _ => rewrite H; clear H
  end.
  cbn [orb]. rewrite Hsel. reflexivity.
Qed.

Lemma selection_branch_raises_witness :
  MockLLM.selection_keyword ascii_ucd (u "select Option 2") = true
  /\ MockLLM.earlier_keyword ascii_ucd (u "select Option 2") = false
  /\ MockLLM.translate_to_actions ascii_ucd (u "select Option 2")
     = Raise (Exn UnboundLocalError
                (u "cannot access local variable 're' where it is not associated with a value")).
Proof.
  assert (H1 : MockLLM.selection_keyword ascii_ucd (u "select Option 2") = true)
    by (vm_compute; reflexivity).
  assert (H2 : MockLLM.earlier_keyword ascii_ucd (u "select Option 2") = false)
    by (vm_compute; reflexivity).
  split; [exact H1|]. split; [exact H2|].
  exact (@selection_branch_raises ascii_ucd (u "select Option 2") H1 H2).
Defined.

(** ** The [ignore_case] field *)




(** ** The status of a step *)

Lemma standard_step_catches W (env : Runner.Env W) (instr descr : option ustr)
  (idx : nat) (w : W) :
  catches_first_exception (first_exception env instr w)
    (fst (Runner._execute_step env (StepMap instr descr) idx w)).
Proof.
  unfold catches_first_exception, first_exception, Runner._execute_step, Runner.attempt,
    raise, ret, settled.
  destruct instr as [[|c rest]|]; cbn -[u].
  - eexists; repeat split; reflexivity.
  - destruct (Runner.parse env (c :: rest) w) as [[[info|]|e] w1]; cbn -[u].
    + destruct (Runner.execute_assertion env (Assertion_of_info info) w1) as [[r|e] w2];
        cbn -[u].
      * eexists; split; [reflexivity|]. cbn -[u].
        destruct (Assertions.passed r); cbn; [left | right]; reflexivity.
      * destruct (is_Exception e); [eexists; repeat split; reflexivity | reflexivity].
    + destruct (Runner.translate_to_actions env (c :: rest) w1) as [[a|e] w2]; cbn -[u].
      * destruct (Runner.execute_action env a w2) as [[x|e] w3]; cbn -[u].
        -- eexists; split; [reflexivity | left; reflexivity].
        -- destruct (is_Exception e); [eexists; repeat split; reflexivity | reflexivity].
      * destruct (is_Exception e); [eexists; repeat split; reflexivity | reflexivity].
    + destruct (is_Exception e); [eexists; repeat split; reflexivity | reflexivity].
  - eexists; repeat split; reflexivity.
Qed.

Lemma catches_settled (first : option exn) (out : result StepResult) (r : StepResult) :
  catches_first_exception first out -> out = Ok r -> settled (step_status r).
Proof.
  unfold catches_first_exception. intros H ->.
  destruct first as [e|].
  - destruct (is_Exception e).
    + destruct H as (f & Hf & Hs & _). injection Hf as ->. right. exact Hs.
    + discriminate H.
  - destruct H as (f & Hf & Hs). injection Hf as ->. exact Hs.
Qed.

Lemma standard_step_settled W (env : Runner.Env W) (step : Step) (idx : nat) (w w' : W)
  (r : StepResult) :
  Runner._execute_step env step idx w = (Ok r, w') -> settled (step_status r).
Proof.
  destruct step as [instr descr|]; intro H; [|discriminate H].
  eapply catches_settled; [apply (standard_step_catches env instr descr idx w)|].
  rewrite H. reflexivity.
Qed.











(** The crash boundary is reached by a step that is no mapping: the
    Robust Runner records an error step and the case is in error. *)
Lemma robust_crash_boundary_example :
  option_map (fun c => (cr_status c, map step_status (cr_steps c)))
    (match fst (RobustRunner._execute_test_case_robust
                  (sample_robust_env ascii_ucd sample_files)
                  {| tc_name := Some (u "case"); tc_steps := Some [StepOther (u "str")] |}
                  started_session) with
     | Ok c => Some c
     | Raise _ => None
     end)
  = Some (error, [error]).
Proof. vm_compute. reflexivity. Qed.

(** ** The Standard Runner on a suite of two cases *)

(** C7, at the suite of the example. Case 1 clicks a button that is
    there and case 2 a link that is not, and the summary of the
    Standard Runner is total 2, passed 0, failed 2, errors 0, not
    passed 1 and failed 1: neither step reaches the translator, since
    [parse] raises on both instructions (the pattern of line 433 does
    not compile) and the handler of the step turns that into a failed
    step. *)
Theorem two_case_suite_summary :
  forall ucd : Unicode,
    option_map
      (fun r => (summary r,
                 map (fun c => (cr_status c,
                                map (fun s => match s with
                                              | FullStep f => (sr_action f, sr_error f)
                                              | ErrorStep _ e => (None, Some e)
                                              end) (cr_steps c)))
                     (test_cases r)))
      (match fst (Runner._execute_test_suite (sample_env ucd (parse ucd))
                    two_case_suite fresh_browser) with
       | Ok r => Some r
       | Raise _ => None
       end)
    = Some ({| total := 2; n_passed := 0; n_failed := 2; n_errors := 0 |},
            [ (failed, [(None, Some (u "nothing to repeat at position 83"))]);
              (failed, [(None, Some (u "nothing to repeat at position 83"))]) ]).
Proof. intro ucd. vm_compute. reflexivity. Qed.

(** With a pattern matcher that declines both instructions the same
    suite gives the summary of the specification: the defect is in the
    pattern table, not in the counting of the runner. *)
Lemma two_case_suite_summary_when_matcher_declines :
  option_map (fun r => (summary r, map cr_status (test_cases r)))
    (match fst (Runner._execute_test_suite (sample_env ascii_ucd declining_matcher)
                  two_case_suite fresh_browser) with
     | Ok r => Some r
     | Raise _ => None
     end)
  = Some ({| total := 2; n_passed := 1; n_failed := 1; n_errors := 0 |}, [passed; failed]).
Proof. vm_compute. reflexivity. Qed.

(** A step of the Standard Runner that has no instruction, or is not a
    dictionary, reaches no collaborator. *)
Lemma standard_step_without_instruction_calls W (env : Runner.Env W)
  (descr : option ustr) (idx : nat) (w : W) :
  calls_of_step env (StepMap None descr) idx w = []
  /\ calls_of_step env (StepMap (@Some ustr []) descr) idx w = []
  /\ (forall ty, calls_of_step env (StepOther ty) idx w = []).
Proof. repeat split; reflexivity. Qed.

Lemma fst_lift W A (r : result A) (w : W) : fst (lift r w) = r.
Proof. reflexivity. Qed.

(** The translator is called only after the pattern matcher returned
    [None]. *)
Lemma translator_called_after_none W (env : Runner.Env W) (i0 i : ustr) (w : W) :
  In (CallTranslate i) (calls_by_matcher env i0 w) ->
  fst (Runner.parse env i0 w) = Ok None.
Proof.
  unfold calls_by_matcher.
  destruct (Runner.parse env i0 w) as [[[info|]|e] w1]; intro Hin.
  - destruct Hin as [H|[H|[]]]; discriminate H.
  - reflexivity.
  - destruct Hin as [H|[]]; discriminate H.
Qed.

(** With the real pattern matcher no step of the Standard Runner is ever
    executed as an action: the translator is not called. *)
Lemma standard_runner_never_translates W (ucd : Unicode) (env : Runner.Env W)
  (step : Step) (idx : nat) (w : W) :
  (forall i, Runner.parse env i = lift (parse ucd i)) ->
  forall i, ~ In (CallTranslate i) (calls_of_step env step idx w).
Proof.
  intros Hparse i Hin.
  destruct (standard_step_without_instruction_calls env None idx w) as (_ & _ & Hother).
  destruct step as [[[|c rest]|] descr|ty];
    [ destruct (standard_step_without_instruction_calls env descr idx w) as (_ & Hempty & _);
      rewrite Hempty in Hin; exact Hin
    |
    | destruct (standard_step_without_instruction_calls env descr idx w) as (Hmissing & _);
      rewrite Hmissing in Hin; exact Hin
    | rewrite Hother in Hin; exact Hin ].
  rewrite standard_step_calls in Hin.
  apply translator_called_after_none in Hin.
  rewrite Hparse, fst_lift in Hin.
  exact (@parse_never_returns_none ucd (c :: rest) Hin).
Qed.

(** A case stops at its first failing step: in the steps a case records,
    every step before the last passed. *)
Lemma standard_steps_loop_stops W (env : Runner.Env W) (tc : TestCase)
  (steps : list Step) (idx : nat) (c : CaseResult) (w : W) :
  Forall (fun r => step_status r = passed) (cr_steps c) ->
  Forall (fun r => step_status r = passed)
    (removelast (cr_steps (fst (fst (Runner.steps_loop env tc steps idx c w))))).
Proof.
  revert idx c w. induction steps as [|step rest IH]; intros idx c w Hc;
    cbn [Runner.steps_loop].
  - cbn [fst]. clear - Hc. induction Hc as [|x l Hx Hl IHl]; [constructor|].
    destruct l; [constructor|]. cbn [removelast] in *. constructor; assumption.
  - assert (Hrm : Forall (fun r => step_status r = passed) (removelast (cr_steps c))).
    { clear - Hc. induction Hc as [|x l Hx Hl IHl]; [constructor|].
      destruct l; [constructor|]. cbn [removelast] in *. constructor; assumption. }
    destruct (Runner._execute_step env step idx w) as [[r|e] w1] eqn:Hs; [|exact Hrm].
    assert (Hlast : forall c', cr_steps c' = (cr_steps c ++ [r])%list ->
                     Forall (fun r => step_status r = passed) (removelast (cr_steps c'))).
    { intros c' ->. rewrite removelast_last. exact Hc. }
    destruct (status_eqb (step_status r) failed) eqn:Hf.
    + destruct (Runner.screenshot_on_failure env); [|apply Hlast; reflexivity].
      destruct (Runner.name_item tc); [|apply Hlast; reflexivity].
      destruct (Runner._take_failure_screenshot env a (Z.of_nat idx) w1) as [[p|e] w2];
        apply Hlast; reflexivity.
    + apply IH. cbn. apply Forall_app. split; [exact Hc|].
      constructor; [|constructor].
      destruct (standard_step_settled env step idx w Hs) as [Hp|Hp]; [exact Hp|].
      rewrite Hp in Hf. discriminate Hf.
Qed.

(** The suite goes on after every case: when the loop over the cases
    ends, each case has its result and was counted once. *)
Lemma cases_loop_counts W (env : Runner.Env W) (cases : list TestCase)
  (r r' : SuiteResult) (w w' : W) :
  Runner.cases_loop env cases r w = (Ok r', w') ->
  length (test_cases r') = (length (test_cases r) + length cases)%nat
  /\ total (summary r') = (total (summary r) + Z.of_nat (length cases))%Z
  /\ (n_passed (summary r') + n_failed (summary r') + n_errors (summary r')
      - total (summary r')
      = n_passed (summary r) + n_failed (summary r) + n_errors (summary r)
        - total (summary r))%Z.
Proof.
  revert r w. induction cases as [|tc rest IH]; intros r w H.
  - injection H as <- _. cbn [length]. repeat split; lia.
  - cbn [Runner.cases_loop] in H. unfold mbind in H.
    destruct (Runner._execute_test_case env tc w) as [[c|e] w1]; [|discriminate H].
    apply IH in H. destruct H as (Hl & Ht & Hs).
    unfold Runner.add_case in Hl, Ht, Hs. cbn [test_cases summary] in Hl, Ht, Hs.
    rewrite length_app in Hl. cbn [length] in *.
    unfold count_case in Ht, Hs.
    destruct (cr_status c); cbn [total n_passed n_failed n_errors] in Ht, Hs;
      repeat split; lia.
Qed.

(** The suite does not always go on. A case without a name whose step
    fails asks for the failure screenshot with the name item of the case: the
    [KeyError] is caught by the handler of the case, which asks for the
    name again, and this second [KeyError] leaves the case and ends the
    suite before the next case is run. *)
Lemma nameless_failing_case_ends_suite :
  fst (Runner._execute_test_suite (sample_env ascii_ucd declining_matcher)
         nameless_case_suite fresh_browser)
  = Raise Runner.key_error_name.
Proof. vm_compute. reflexivity. Qed.

(** ** The page of the browser manager in the Robust Runner *)

Lemma on_world_page W A (m : M W A) (s : RobustRunner.State W) :
  RobustRunner.bm_page (snd (RobustRunner.on_world m s)) = RobustRunner.bm_page s.
Proof. unfold RobustRunner.on_world. destruct (m (RobustRunner.world s)); reflexivity. Qed.

Lemma execute_with_timeout_page W (env : RobustRunner.Env W) (a : Action)
  (s : RobustRunner.State W) :
  RobustRunner.bm_page (snd (RobustRunner.execute_with_timeout env a s))
  = RobustRunner.bm_page s.
Proof.
  unfold RobustRunner.execute_with_timeout.
  pose proof (on_world_page
                (RobustRunner.execute_action env (RobustRunner.bm_page s) a
                   (RobustRunner.config_timeout env)) s) as H.
  destruct (RobustRunner.on_world _ s) as [[x|e] s']; [exact H|].
  destruct (exn_cls e); exact H.
Qed.

Lemma attempt_page W (A : Type) (m : M (RobustRunner.State W) A) (f : StepFields)
  (k : A -> M (RobustRunner.State W) StepResult) (s : RobustRunner.State W) :
  RobustRunner.bm_page (snd (m s)) = RobustRunner.bm_page s ->
  (forall a s', RobustRunner.bm_page (snd (k a s')) = RobustRunner.bm_page s') ->
  RobustRunner.bm_page (snd (RobustRunner.attempt m f k s)) = RobustRunner.bm_page s.
Proof.
  intros Hm Hk. unfold RobustRunner.attempt.
  destruct (m s) as [[a|e] s']; cbn [snd] in Hm.
  - rewrite Hk. exact Hm.
  - destruct (is_Exception e); exact Hm.
Qed.

(** A step does not touch the page field. *)
Lemma robust_step_page W (env : RobustRunner.Env W) (step : Step) (idx : nat)
  (s : RobustRunner.State W) :
  RobustRunner.bm_page (snd (RobustRunner._execute_step_robust env step idx s))
  = RobustRunner.bm_page s.
Proof.
  destruct step as [instr descr|]; [|reflexivity].
  unfold RobustRunner._execute_step_robust.
  apply attempt_page.
  - destruct (RobustRunner.page_unusable env s); reflexivity.
  - intros _ s1.
    destruct (match instr with Some i => i | None => [] end) as [|c rest].
    + apply attempt_page; [reflexivity | intros; reflexivity].
    + apply attempt_page; [apply on_world_page|].
      intros a s2. apply attempt_page; [apply execute_with_timeout_page|].
      intros; reflexivity.
Qed.

Lemma robust_steps_loop_page W (env : RobustRunner.Env W) (steps : list Step) (idx : nat)
  (c : CaseResult) (s : RobustRunner.State W) :
  RobustRunner.bm_page (snd (RobustRunner.steps_loop env steps idx c s))
  = RobustRunner.bm_page s.
Proof.
  revert idx c s. induction steps as [|step rest IH]; intros idx c s; [reflexivity|].
  cbn [RobustRunner.steps_loop].
  pose proof (robust_step_page env step idx s) as H.
  destruct (RobustRunner._execute_step_robust env step idx s) as [[r|e] s1]; cbn [snd] in H.
  - destruct (status_eqb (step_status r) failed); [exact H|].
    rewrite IH. exact H.
  - destruct (is_Exception e); exact H.
Qed.

Lemma robust_case_page W (env : RobustRunner.Env W) (tc : TestCase)
  (s : RobustRunner.State W) :
  RobustRunner.bm_page (snd (RobustRunner._execute_test_case_robust env tc s))
  = RobustRunner.bm_page s.
Proof.
  unfold RobustRunner._execute_test_case_robust.
  destruct (tc_steps tc) as [steps|].
  - pose proof (robust_steps_loop_page env steps 0 (Runner.new_case tc) s) as H.
    destruct (RobustRunner.steps_loop env steps 0 (Runner.new_case tc) s)
      as [[c [e|]] s1]; cbn [snd] in H |- *; [|exact H].
    destruct (is_Exception e); exact H.
  - reflexivity.
Qed.

Lemma robust_cases_loop_page W (env : RobustRunner.Env W) (cases : list TestCase) (i : nat)
  (r : SuiteResult) (s : RobustRunner.State W) :
  RobustRunner.bm_page (snd (RobustRunner.cases_loop env cases i r s))
  = RobustRunner.bm_page s.
Proof.
  revert i r s. induction cases as [|tc rest IH]; intros i r s; [reflexivity|].
  cbn [RobustRunner.cases_loop]. unfold mbind, RobustRunner.print, lift.
  destruct (console_print _ _) as [x|e0]; [|reflexivity].
  pose proof (robust_case_page env tc s) as H.
  destruct (RobustRunner._execute_test_case_robust env tc s) as [[c|e] s1]; cbn [snd] in H.
  - rewrite IH. exact H.
  - destruct (is_Exception e); [rewrite IH|]; exact H.
Qed.

(** The suite of a file runs on whatever page the field holds and leaves
    the field alone. *)
Lemma robust_suite_page W (env : RobustRunner.Env W) (td : TestData)
  (s : RobustRunner.State W) :
  RobustRunner.bm_page (snd (RobustRunner._execute_test_suite_robust env td s))
  = RobustRunner.bm_page s.
Proof.
  unfold RobustRunner._execute_test_suite_robust.
  assert (Hafter : forall s1,
            RobustRunner.bm_page
              (snd (match td_test_cases td with
                    | None => (Raise Runner.no_len, s1)
                    | Some cases =>
                        RobustRunner.cases_loop env cases 0 (Runner.new_results td) s1
                    end)) = RobustRunner.bm_page s1).
  { intro s1. destruct (td_test_cases td); [apply robust_cases_loop_page | reflexivity]. }
  destruct (td_base_url td) as [[|c b]|]; try apply Hafter.
  pose proof (on_world_page (RobustRunner.navigate env (RobustRunner.bm_page s) (c :: b)) s)
    as H.
  destruct (RobustRunner.on_world _ s) as [[x|e] s1]; cbn [snd] in H.
  - rewrite Hafter. exact H.
  - destruct (is_Exception e); exact H.
Qed.

Lemma close_used_page_page W (env : RobustRunner.Env W) (p : option RobustRunner.page)
  (A : Type) (r : result A) (s : RobustRunner.State W) :
  RobustRunner.bm_page (snd (RobustRunner.close_used_page env p r s))
  = RobustRunner.bm_page s.
Proof.
  unfold RobustRunner.close_used_page.
  destruct p as [pg|]; [|reflexivity].
  destruct (RobustRunner.is_closed env pg (RobustRunner.world s)); [reflexivity|].
  pose proof (on_world_page (RobustRunner.close_page env pg) s) as H.
  destruct (RobustRunner.on_world _ s) as [[x|e] s1]; cbn [snd] in H; [exact H|].
  destruct (is_Exception e); exact H.
Qed.

Lemma close_used_page_result W (env : RobustRunner.Env W) (p : option RobustRunner.page)
  (A : Type) (e : exn) (s : RobustRunner.State W) :
  exists e', fst (RobustRunner.close_used_page env p (@Raise A e) s) = Raise e'.
Proof.
  unfold RobustRunner.close_used_page.
  destruct p as [pg|]; [|exists e; reflexivity].
  destruct (RobustRunner.is_closed env pg (RobustRunner.world s)); [exists e; reflexivity|].
  destruct (RobustRunner.on_world _ s) as [[x|e1] s1]; [exists e; reflexivity|].
  destruct (is_Exception e1); [exists e | exists e1]; reflexivity.
Qed.

(** The success path: a file that returns its results leaves the page
    field as it found it. *)
Lemma completed_file_restores_page W (env : RobustRunner.Env W) (path : ustr)
  (s : RobustRunner.State W) (r : SuiteResult) :
  fst (RobustRunner._run_single_test_robust env path s) = Ok r ->
  RobustRunner.bm_page (snd (RobustRunner._run_single_test_robust env path s))
  = RobustRunner.bm_page s.
Proof.
  unfold RobustRunner._run_single_test_robust, mbind.
  pose proof (on_world_page (RobustRunner._load_test_file env path) s) as H0.
  destruct (RobustRunner.on_world (RobustRunner._load_test_file env path) s)
    as [[td|e] s0]; cbn [snd] in H0; [|intro H; discriminate H].
  unfold RobustRunner.print, lift.
  destruct (console_print _ _) as [x0|e]; [|intro H; discriminate H].
  pose proof (on_world_page (RobustRunner.new_page env) s0) as H1.
  destruct (RobustRunner.on_world (RobustRunner.new_page env) s0)
    as [[pg|e] s1]; cbn [snd] in H1; [|intro H; discriminate H].
  pose proof (on_world_page
                (RobustRunner.set_default_timeout env pg (RobustRunner.config_timeout env)) s1)
    as H2.
  destruct (RobustRunner.on_world
              (RobustRunner.set_default_timeout env pg (RobustRunner.config_timeout env)) s1)
    as [[x|e] s2]; cbn [snd] in H2.
  2:{ intro H. destruct (close_used_page_result env (Some pg) SuiteResult e s2) as [e' He'].
      rewrite He' in H. discriminate H. }
  cbv zeta.
  destruct (RobustRunner._execute_test_suite_robust env td
              (RobustRunner.set_page (Some pg) s2)) as [[res|e] s4].
  2:{ intro H. destruct (close_used_page_result env (Some pg) SuiteResult e s4) as [e' He'].
      rewrite He' in H. discriminate H. }
  pose proof (on_world_page (RobustRunner._save_results env res path)
                (RobustRunner.set_page (RobustRunner.bm_page s2) s4)) as H5.
  destruct (RobustRunner.on_world (RobustRunner._save_results env res path)
              (RobustRunner.set_page (RobustRunner.bm_page s2) s4))
    as [[y|e] s6]; cbn [snd] in H5.
  2:{ intro H. destruct (close_used_page_result env (Some pg) SuiteResult e s6) as [e' He'].
      rewrite He' in H. discriminate H. }
  destruct (console_print _ _) as [x7|e].
  2:{ intro H. destruct (close_used_page_result env (Some pg) SuiteResult e s6) as [e' He'].
      rewrite He' in H. discriminate H. }
  intros _. rewrite close_used_page_page, H5. cbn [RobustRunner.set_page RobustRunner.bm_page].
  rewrite H2, H1, H0. reflexivity.
Qed.

(** The failure path: whenever the suite of a file raises, the page
    field holds the page opened for the file afterwards. The assignment
    that restores the field comes after the call of the suite inside the
    [try] and is skipped; the [finally] closes the page and does not
    restore the field. *)
Lemma raising_suite_keeps_new_page W (env : RobustRunner.Env W) (path : ustr)
  (s s0 s1 s2 s4 : RobustRunner.State W) (td : TestData) (pg : RobustRunner.page)
  (e : exn) :
  RobustRunner.on_world (RobustRunner._load_test_file env path) s = (Ok td, s0) ->
  console_print (RobustRunner.console env)
    (RobustRunner.loaded_line (RobustRunner.suite_name td)) = Ok tt ->
  RobustRunner.on_world (RobustRunner.new_page env) s0 = (Ok pg, s1) ->
  RobustRunner.on_world
    (RobustRunner.set_default_timeout env pg (RobustRunner.config_timeout env)) s1
  = (Ok tt, s2) ->
  RobustRunner._execute_test_suite_robust env td (RobustRunner.set_page (Some pg) s2)
  = (Raise e, s4) ->
  RobustRunner.bm_page (snd (RobustRunner._run_single_test_robust env path s)) = Some pg.
Proof.
  intros H0 Hp H1 H2 H4. unfold RobustRunner._run_single_test_robust, mbind.
  rewrite H0. unfold RobustRunner.print, lift. rewrite Hp, H1, H2. cbv zeta. rewrite H4.
  rewrite close_used_page_page.
  pose proof (robust_suite_page env td (RobustRunner.set_page (Some pg) s2)) as H.
  rewrite H4 in H. exact H.
Qed.

(** C8, at a test file whose suite raises. The file [empty.yaml] has a
    [test_cases] key without a value, so the suite raises on the length
    of the cases. The session starts with page 0 active; the file opens
    page 1, fails, and afterwards page 1 is closed and still the active
    page: the field does not equal its value before the file. *)
Theorem failed_file_leaves_new_page_active :
  forall ucd : Unicode,
    RobustRunner.bm_page started_session = Some 0%nat
    /\ fst (RobustRunner._run_single_test_robust (sample_robust_env ucd sample_files)
              (u "empty.yaml") started_session)
       = Raise Runner.no_len
    /\ RobustRunner.bm_page
         (snd (RobustRunner._run_single_test_robust (sample_robust_env ucd sample_files)
                 (u "empty.yaml") started_session))
       = Some 1%nat
    /\ closed (RobustRunner.world
                 (snd (RobustRunner._run_single_test_robust
                         (sample_robust_env ucd sample_files)
                         (u "empty.yaml") started_session)))
       = [1%nat].
Proof. intro ucd. vm_compute. repeat split; reflexivity. Qed.

(** The success path on the sample browser: the file [one.yaml] opens
    page 1, completes, and page 0 is the active page again while page 1
    is closed. *)
Lemma completed_file_example :
  RobustRunner.bm_page
    (snd (RobustRunner._run_single_test_robust (sample_robust_env ascii_ucd sample_files)
            (u "one.yaml") started_session))
  = RobustRunner.bm_page started_session
  /\ closed (RobustRunner.world
               (snd (RobustRunner._run_single_test_robust
                       (sample_robust_env ascii_ucd sample_files)
                       (u "one.yaml") started_session)))
     = [1%nat].
Proof. vm_compute. split; reflexivity. Qed.

(** A batch of the two files: the first fails, the second completes, and
    when the batch ends the active page is page 1, which is closed. *)
Lemma batch_ends_on_closed_page :
  let out := RobustRunner.run_test_files_batch (sample_robust_env ascii_ucd sample_files)
               [u "empty.yaml"; u "one.yaml"]
               {| RobustRunner.bm_page := None; RobustRunner.world := fresh_browser |} in
  option_map (map (fun r => match r with
                            | RobustRunner.FileSuite _ => true
                            | RobustRunner.FileError _ _ => false
                            end))
    (match fst out with Ok l => Some l | Raise _ => None end)
  = Some [false; true]
  /\ RobustRunner.bm_page (snd out) = Some 1%nat
  /\ RobustRunner.page_unusable (sample_robust_env ascii_ucd sample_files) (snd out) = true.
Proof. vm_compute. repeat split; reflexivity. Qed.

(* ================================================================== *)
(** * Further properties of the pattern matcher *)
(* ================================================================== *)

Import Shapes.

(** The loop over the table ends at the first entry whose search
    raises: the entries after it do not matter. *)
Lemma parse_with_stops_at_raise ucd search
  (l1 l2 : list (string * AssertionType * string)) (e : string * AssertionType * string)
  (instruction : ustr) (x : exn) :
  search (u (fst (fst e))) instruction = Raise x ->
  parse_with ucd search (l1 ++ e :: l2) instruction
  = parse_with ucd search (l1 ++ [e]) instruction.
Proof.
  intro Hx. induction l1 as [|[[p t] k] l1 IH]; cbn [app parse_with].
  - destruct e as [[p t] k]. cbn [fst] in Hx. rewrite Hx. reflexivity.
  - destruct (search (u p) instruction) as [[mo|]|y]; cbn [bind]; try reflexivity;
      [|exact IH].
    destruct (build_info ucd t k (Re.groups mo)) as [[info|]|y]; cbn [bind];
      try reflexivity.
    exact IH.
Qed.

Lemma table_split_at_line_433 :
  PATTERNS = (firstn 112 PATTERNS ++ entry_line_433 :: entries_never_reached)%list
  /\ reachable_entries = (firstn 112 PATTERNS ++ [entry_line_433])%list.
Proof. split; vm_compute; reflexivity. Qed.

(** X1. Only the first 113 of the 187 entries of the table take part in
    [parse]: the search with the pattern of line 433 raises on every
    instruction, so whatever the instruction, [parse] gives what the
    loop over the table cut after that entry gives, and the 74 entries
    behind it are never tried. *)
Theorem parse_reads_only_the_first_113_entries :
  forall (ucd : Unicode) (instruction : ustr),
    parse ucd instruction
    = parse_with ucd (Re.search ucd) reachable_entries instruction
    /\ length PATTERNS = 187%nat
    /\ length reachable_entries = 113%nat
    /\ length entries_never_reached = 74%nat.
Proof.
  intros ucd instruction. split.
  - rewrite parse_unfold.
    destruct table_split_at_line_433 as [Hall Hreach].
    rewrite Hreach. rewrite Hall at 1.
    eapply parse_with_stops_at_raise.
    apply (@search_of_compile_error ucd _ instruction _ entry_line_433_does_not_compile).
  - repeat split; vm_compute; reflexivity.
Qed.

(** ** The shape of a dictionary *)

Lemma table_entries_fit : forallb entry_fits PATTERNS = true.
Proof. vm_compute. reflexivity. Qed.

Lemma build_info_shape ucd t k groups info :
  build_info ucd t k groups = Ok (Some info) ->
  exists s, shape_of_kind k = Some s /\ has_shape s info = true /\ info_type info = t.
Proof.
  unfold build_info, shape_of_kind.
  repeat match goal with
  | |- context [String.eqb k ?s] => destruct (String.eqb k s); simpl
  end;
  intro H;
  repeat match goal with
  | H : bind _ _ = Ok _ |- _ =>
      apply bind_ok in H; destruct H as (? & _ & H)
  end;
  try discriminate H;
  inversion H; subst; eexists; repeat split; reflexivity.
Qed.

Lemma parse_with_shape ucd search pats instruction info :
  forallb entry_fits pats = true ->
  parse_with ucd search pats instruction = Ok (Some info) ->
  well_formed info = true.
Proof.
  induction pats as [|[[p t] k] rest IH]; simpl; intros Hok H.
  - discriminate H.
  - apply andb_true_iff in Hok. destruct Hok as [He Hrest].
    apply bind_ok in H. destruct H as (m & _ & H).
    destruct m as [mo|].
    + apply bind_ok in H. destruct H as (r & Hb & H).
      destruct r as [i|].
      * inversion H; subst i.
        apply build_info_shape in Hb. destruct Hb as (s & Hk & Hs & Ht).
        rewrite Hk in He. unfold well_formed. rewrite Ht.
        destruct (shape_of_type t) as [s'|]; [|discriminate He].
        destruct s, s'; try discriminate He; exact Hs.
      * apply IH; assumption.
    + apply IH; assumption.
Qed.

(** X2. A dictionary that [parse] returns carries exactly the fields the
    evaluator of its type reads: a text and no selector for the text,
    URL and title types, a selector and no expected value for the
    element and checkbox types, a selector and a text for the input
    value, a selector and an integer for the element count. *)
Theorem parse_output_is_well_formed :
  forall (ucd : Unicode) (instruction : ustr) (info : assertion_info),
    parse ucd instruction = Ok (Some info) ->
    well_formed info = true.
Proof.
  intros ucd instruction info H. rewrite parse_unfold in H.
  eapply parse_with_shape; [exact table_entries_fit | exact H].
Qed.

Lemma parse_output_is_well_formed_witness :
  parse ascii_ucd (u "ログインボタンが表示されている")
  = Ok (Some {| info_type := ELEMENT_VISIBLE; info_expected := VNone;
                info_selector := Some (_text_to_selector ascii_ucd (u "ログインボタン")) |})
  /\ well_formed {| info_type := ELEMENT_VISIBLE; info_expected := VNone;
                    info_selector := Some (_text_to_selector ascii_ucd (u "ログインボタン")) |}
     = true.
Proof.
  assert (H : parse ascii_ucd (u "ログインボタンが表示されている")
              = Ok (Some {| info_type := ELEMENT_VISIBLE; info_expected := VNone;
                            info_selector :=
                              Some (_text_to_selector ascii_ucd (u "ログインボタン")) |}))
    by (vm_compute; reflexivity).
  split; [exact H|].
  exact (@parse_output_is_well_formed _ _ _ H).
Defined.

(** ** The runners with the real pattern matcher *)

Lemma with_matcher_parse (ucd : Unicode) W (env : Runner.Env W) (i : ustr) :
  Runner.parse (with_matcher ucd env) i = lift (parse ucd i).
Proof. reflexivity. Qed.

Lemma calls_by_matcher_side W (env : Runner.Env W) (i0 : ustr) (w : W) :
  fst (Runner.parse env i0 w) <> Ok None ->
  Forall matcher_side (calls_by_matcher env i0 w).
Proof.
  unfold calls_by_matcher.
  destruct (Runner.parse env i0 w) as [[[info|]|e] w1]; cbn [fst]; intro H.
  - repeat constructor.
  - exfalso. apply H. reflexivity.
  - repeat constructor.
Qed.

Lemma action_step_after_none W (env : Runner.Env W) (instr descr : option ustr)
  (idx : nat) (w w' : W) (r : StepResult) :
  Runner._execute_step env (StepMap instr descr) idx w = (Ok r, w') ->
  resolution r = AsAction ->
  exists i, instr = Some i /\ fst (Runner.parse env i w) = Ok None.
Proof.
  unfold Runner._execute_step, Runner.attempt, raise, ret.
  destruct instr as [[|c rest]|]; cbn -[u].
  - intros H Hr. inversion H; subst r. discriminate Hr.
  - destruct (Runner.parse env (c :: rest) w) as [[[info|]|e] w1] eqn:Hp.
    + destruct (Runner.execute_assertion env (Assertion_of_info info) w1)
        as [[ar|e] w2].
      * intros H Hr. inversion H; subst r.
        destruct (Assertions.passed ar); discriminate Hr.
      * destruct (is_Exception e); intros H Hr; [|discriminate H].
        inversion H; subst r. discriminate Hr.
    + intros _ _. exists (c :: rest). rewrite Hp. split; reflexivity.
    + destruct (is_Exception e); intros H Hr; [|discriminate H].
      inversion H; subst r. discriminate Hr.
  - intros H Hr. inversion H; subst r. discriminate Hr.
Qed.

(** X3. With the real pattern matcher, no step of the Standard or
    Optimized runner reaches the translator or the action executor:
    [parse] never returns [None], so a step calls the matcher and then
    at most the assertion executor, and no step result records an
    action. *)
Theorem real_matcher_steps_are_never_actions :
  forall (ucd : Unicode) (W : Type) (env : Runner.Env W) (step : Step) (idx : nat) (w : W),
    Forall matcher_side (calls_of_step (with_matcher ucd env) step idx w)
    /\ Forall matcher_side (calls_of_optimized_step (with_matcher ucd env) step idx w)
    /\ match fst (Runner._execute_step (with_matcher ucd env) step idx w) with
       | Ok r => resolution r <> AsAction
       | Raise _ => True
       end.
Proof.
  intros ucd W env step idx w.
  assert (Hcalls : Forall matcher_side (calls_of_step (with_matcher ucd env) step idx w)).
  { destruct (standard_step_without_instruction_calls (with_matcher ucd env) None idx w)
      as (_ & _ & Hother).
    destruct step as [[[|c rest]|] descr|].
    - destruct (standard_step_without_instruction_calls (with_matcher ucd env) descr idx w)
        as (_ & Hempty & _).
      rewrite Hempty. constructor.
    - rewrite standard_step_calls. apply calls_by_matcher_side.
      rewrite with_matcher_parse, fst_lift. apply parse_never_returns_none.
    - destruct (standard_step_without_instruction_calls (with_matcher ucd env) descr idx w)
        as (Hmissing & _).
      rewrite Hmissing. constructor.
    - rewrite Hother. constructor. }
  split; [exact Hcalls|]. split.
  - unfold calls_of_optimized_step. rewrite optimized_step_is_standard_step.
    exact Hcalls.
  - destruct step as [instr descr|]; [|exact I].
    destruct (Runner._execute_step (with_matcher ucd env) (StepMap instr descr) idx w)
      as [[r|e] w'] eqn:Hs; [|exact I].
    cbn [fst]. intro Hr.
    destruct (action_step_after_none _ _ _ _ _ Hs Hr) as (i & _ & Hnone).
    rewrite with_matcher_parse, fst_lift in Hnone.
    exact (@parse_never_returns_none ucd i Hnone).
Qed.

(* ================================================================== *)
(** * Further properties of the assertion executor *)
(* ================================================================== *)

(** ** Texts *)

Lemma starts_with_refl (s : ustr) : starts_with s s = true.
Proof. induction s as [|c s IH]; [reflexivity|]. cbn. rewrite N.eqb_refl. exact IH. Qed.

Lemma starts_with_app (p t : ustr) : starts_with p (p ++ t)%list = true.
Proof.
  induction p as [|c p IH]; [destruct t; reflexivity|].
  cbn. rewrite N.eqb_refl. exact IH.
Qed.

Lemma starts_with_split (p s : ustr) :
  starts_with p s = true -> exists t, s = (p ++ t)%list.
Proof.
  revert s. induction p as [|c p IH]; intros s H.
  - exists s. reflexivity.
  - destruct s as [|d s]; [discriminate H|].
    cbn in H. apply andb_true_iff in H. destruct H as [Hc Hp].
    apply N.eqb_eq in Hc. subst d.
    destruct (IH s Hp) as [t Ht]. exists t. rewrite Ht. reflexivity.
Qed.

Lemma starts_with_contains (p s : ustr) : starts_with p s = true -> contains p s = true.
Proof. intro H. destruct s; cbn [contains]; rewrite H; reflexivity. Qed.

Lemma contains_app_l (p x s : ustr) : contains p s = true -> contains p (x ++ s)%list = true.
Proof.
  intro H. induction x as [|c x IH]; [exact H|].
  cbn [app contains]. rewrite IH. apply orb_true_r.
Qed.

Lemma ends_with_contains (p s : ustr) : ends_with p s = true -> contains p s = true.
Proof.
  unfold ends_with. intro H.
  destruct (starts_with_split _ _ H) as [t Ht].
  assert (Hs : s = (rev t ++ p)%list).
  { rewrite <- (rev_involutive s), Ht, rev_app_distr, rev_involutive. reflexivity. }
  rewrite Hs. apply contains_app_l. apply starts_with_contains. apply starts_with_refl.
Qed.

Lemma ustr_eqb_eq (a b : ustr) : ustr_eqb a b = true -> a = b.
Proof.
  unfold ustr_eqb. destruct (list_eq_dec N.eq_dec a b); [trivial | discriminate].
Qed.

(** ** The handler of [execute] *)

Lemma guarded_guarded (a : Assertion) (p1 p2 : string) (b : result AssertionResult) :
  guarded a p1 (guarded a p2 b) = guarded a p2 b.
Proof.
  destruct b as [r|e]; [reflexivity|].
  cbn [guarded]. destruct (is_Exception e) eqn:He; cbn [guarded]; [reflexivity|].
  rewrite He. reflexivity.
Qed.

(** X4. The handler of [execute] never runs: every evaluator either
    returns a result or catches its own exceptions, so [execute] gives
    exactly what the dispatcher gives, no result carries the message of
    that handler, and the only exceptions that leave [execute] are those
    that are no [Exception] (a keyboard interrupt). *)
Theorem execute_handler_is_never_used :
  forall (ucd : Unicode) (page : Page) (a : Assertion),
    execute ucd page a = _execute_assertion ucd page a
    /\ match execute ucd page a with
       | Ok _ => True
       | Raise e => is_Exception e = false
       end.
Proof.
  intros ucd page a.
  assert (H : execute ucd page a = _execute_assertion ucd page a).
  { unfold execute, _execute_assertion.
    destruct (type a); try reflexivity;
      try (unfold _assert_text_exists;
           destruct (text_exists_loop _ _ _ _) as [p0 c0];
           destruct p0; [|destruct (content_has ucd page a)]; reflexivity);
      apply guarded_guarded. }
  split; [exact H|]. clear H.
  unfold execute, guarded.
  destruct (_execute_assertion ucd page a) as [r|e]; [exact I|].
  destruct (is_Exception e) eqn:He; [exact I | exact He].
Qed.

(** ** Types without an evaluator *)

(** X5. Eleven of the 27 assertion types have no evaluator, and an
    assertion of one of them fails on every page with the same result:
    the message names the type, and the page is not consulted. *)
Theorem unimplemented_types_fail_on_every_page :
  forall (ucd : Unicode) (page : Page) (a : Assertion),
    implemented (type a) = false ->
    execute ucd page a
    = Ok (failed_result a (u "Unimplemented assertion type: " ++ type_repr (type a))%list)
    /\ passes ucd page a = false
    /\ length (filter (fun t => negb (implemented t)) all_assertion_types) = 11%nat.
Proof.
  intros ucd page a H.
  assert (He : execute ucd page a
               = Ok (failed_result a
                       (u "Unimplemented assertion type: " ++ type_repr (type a))%list)).
  { unfold execute, _execute_assertion.
    destruct (type a); try discriminate H; reflexivity. }
  split; [exact He|]. split; [|reflexivity].
  unfold passes. rewrite He. reflexivity.
Qed.

Lemma unimplemented_types_fail_on_every_page_witness :
  implemented (type (assertion_of TEXT_CONTAINS (u "total"))) = false
  /\ passes ascii_ucd (static_page (u "about:blank") (u "total") (u "total"))
       (assertion_of TEXT_CONTAINS (u "total")) = false.
Proof.
  split; [reflexivity|].
  exact (proj1 (proj2 (@unimplemented_types_fail_on_every_page ascii_ucd
                         (static_page (u "about:blank") (u "total") (u "total"))
                         (assertion_of TEXT_CONTAINS (u "total")) eq_refl))).
Defined.

(** ** Verdicts that go together *)

Lemma passes_url (ucd : Unicode) (page : Page) (a : Assertion) :
  passes ucd page (with_type URL_EQUALS a)
  = ustr_eqb (pg_url page) (str_of_pyval (expected a))
  /\ passes ucd page (with_type URL_CONTAINS a)
     = contains (str_of_pyval (expected a)) (pg_url page)
  /\ passes ucd page (with_type URL_STARTS_WITH a)
     = starts_with (str_of_pyval (expected a)) (pg_url page)
  /\ passes ucd page (with_type URL_ENDS_WITH a)
     = ends_with (str_of_pyval (expected a)) (pg_url page).
Proof. repeat split; reflexivity. Qed.

Lemma passes_title (ucd : Unicode) (page : Page) (a : Assertion) :
  passes ucd page (with_type TITLE_EQUALS a)
  = match pg_title page with
    | Ok t => ustr_eqb t (str_of_pyval (expected a))
    | Raise _ => false
    end
  /\ passes ucd page (with_type TITLE_CONTAINS a)
     = match pg_title page with
       | Ok t => contains (str_of_pyval (expected a)) t
       | Raise _ => false
       end.
Proof.
  unfold passes, execute, _execute_assertion, with_type; cbn [type].
  unfold _assert_title_equals, _assert_title_contains.
  split; destruct (pg_title page) as [t|e]; unfold guarded; cbn [bind];
    try reflexivity;
    (destruct (is_Exception e) eqn:He; [reflexivity | rewrite He; reflexivity]).
Qed.

(** X6. On one page and for one expected value, the URL and title
    verdicts are ordered as the comparisons are: when the URL equals
    the expected text it also starts with it, ends with it and contains
    it; a URL that starts or ends with the text contains it; a title
    that equals the text contains it. The expected value is compared as
    [str] prints it, so an assertion without one compares with the text
    None. *)
Theorem url_and_title_verdicts_are_ordered :
  forall (ucd : Unicode) (page : Page) (a : Assertion),
    (passes ucd page (with_type URL_EQUALS a) = true ->
     passes ucd page (with_type URL_STARTS_WITH a) = true
     /\ passes ucd page (with_type URL_ENDS_WITH a) = true)
    /\ (passes ucd page (with_type URL_STARTS_WITH a) = true ->
        passes ucd page (with_type URL_CONTAINS a) = true)
    /\ (passes ucd page (with_type URL_ENDS_WITH a) = true ->
        passes ucd page (with_type URL_CONTAINS a) = true)
    /\ (passes ucd page (with_type TITLE_EQUALS a) = true ->
        passes ucd page (with_type TITLE_CONTAINS a) = true)
    /\ (expected a = VNone ->
        passes ucd page (with_type URL_EQUALS a) = ustr_eqb (pg_url page) (u "None")).
Proof.
  intros ucd page a.
  destruct (passes_url ucd page a) as (Heq & Hc & Hs & He).
  destruct (passes_title ucd page a) as (Hteq & Htc).
  rewrite Heq, Hc, Hs, He, Hteq, Htc.
  split; [|split; [|split; [|split]]].
  - intro H. apply ustr_eqb_eq in H. rewrite H. split.
    + apply starts_with_refl.
    + unfold ends_with. apply starts_with_refl.
  - apply starts_with_contains.
  - apply ends_with_contains.
  - destruct (pg_title page) as [t|e]; [|discriminate].
    intro H. apply ustr_eqb_eq in H. rewrite H.
    apply starts_with_contains, starts_with_refl.
  - intro H. rewrite H. reflexivity.
Qed.

(** ** Opposite assertions *)

Lemma passes_checkbox (ucd : Unicode) (page : Page) (a : Assertion) :
  passes ucd page (with_type CHECKBOX_CHECKED a)
  = match loc_is_checked page (selector a) with Ok b => b | Raise _ => false end
  /\ passes ucd page (with_type CHECKBOX_UNCHECKED a)
     = match loc_is_checked page (selector a) with Ok b => negb b | Raise _ => false end.
Proof.
  unfold passes, execute, _execute_assertion, with_type; cbn [type].
  unfold _assert_checkbox_checked, _assert_checkbox_unchecked; cbn [selector].
  split; destruct (loc_is_checked page (selector a)) as [b|e]; unfold guarded; cbn [bind];
    try reflexivity;
    (destruct (is_Exception e) eqn:He; [reflexivity | rewrite He; reflexivity]).
Qed.

Lemma passes_visibility (ucd : Unicode) (page : Page) (a : Assertion) :
  passes ucd page (with_type ELEMENT_VISIBLE a)
  = match (if wait_for a
           then loc_wait_for page (selector a) (Some (u "visible")) (timeout a)
           else Ok tt) with
    | Ok _ => match loc_is_visible page (selector a) with Ok b => b | Raise _ => false end
    | Raise _ => false
    end
  /\ passes ucd page (with_type ELEMENT_HIDDEN a)
     = match loc_is_visible page (selector a) with Ok b => negb b | Raise _ => false end.
Proof.
  unfold passes, execute, _execute_assertion, with_type; cbn [type].
  unfold _assert_element_visible, _assert_element_hidden;
    cbn [selector wait_for timeout].
  split.
  - destruct (if wait_for a then _ else _) as [x|e]; unfold guarded; cbn [bind].
    + destruct (loc_is_visible page (selector a)) as [b|e]; cbn [bind];
        [reflexivity|].
      destruct (is_Exception e) eqn:He; [reflexivity | rewrite He; reflexivity].
    + destruct (is_Exception e) eqn:He; [reflexivity | rewrite He; reflexivity].
  - destruct (loc_is_visible page (selector a)) as [b|e]; unfold guarded; cbn [bind];
      [reflexivity|].
    destruct (is_Exception e) eqn:He; [reflexivity | rewrite He; reflexivity].
Qed.

Lemma passes_existence (ucd : Unicode) (page : Page) (a : Assertion) :
  passes ucd page (with_type ELEMENT_EXISTS a)
  = match (if wait_for a
           then loc_first_wait_for page (selector a) (Some (u "visible")) (timeout a)
           else Ok tt) with
    | Ok _ => match loc_count page (selector a) with
              | Ok n => (0 <? n)%Z
              | Raise _ => false
              end
    | Raise _ => false
    end
  /\ passes ucd page (with_type ELEMENT_NOT_EXISTS a)
     = match loc_count page (selector a) with Ok n => (n =? 0)%Z | Raise _ => false end.
Proof.
  unfold passes, execute, _execute_assertion, with_type; cbn [type].
  unfold _assert_element_exists, _assert_element_not_exists;
    cbn [selector wait_for timeout].
  split.
  - destruct (if wait_for a then _ else _) as [x|e]; unfold guarded; cbn [bind].
    + destruct (loc_count page (selector a)) as [n|e]; cbn [bind];
        [reflexivity|].
      destruct (is_Exception e) eqn:He; [reflexivity | rewrite He; reflexivity].
    + destruct (is_Exception e) eqn:He; [reflexivity | rewrite He; reflexivity].
  - destruct (loc_count page (selector a)) as [n|e]; unfold guarded; cbn [bind];
      [reflexivity|].
    destruct (is_Exception e) eqn:He; [reflexivity | rewrite He; reflexivity].
Qed.

(** A selector that the loop of the absence check finds is found by
    the loop of the presence check too, when that one does not wait. *)
Lemma found_is_found (page : Page) (l l' : list ustr) (c : Z) :
  text_found_loop page l = true ->
  fst (text_exists_loop page false (l ++ l') c) = true.
Proof.
  revert c. induction l as [|sel l IH]; intros c H; [discriminate H|].
  cbn [app text_exists_loop text_found_loop] in *.
  destruct (loc_count page (Some sel)) as [n|e].
  - destruct (0 <? n)%Z; [reflexivity | apply IH; exact H].
  - apply IH; exact H.
Qed.

Lemma passes_text (ucd : Unicode) (page : Page) (a : Assertion) :
  passes ucd page (with_type TEXT_NOT_EXISTS a) = false ->
  passes ucd page (without_waiting (with_type TEXT_EXISTS a)) = true.
Proof.
  unfold passes, execute, _execute_assertion, with_type, without_waiting; cbn [type].
  unfold _assert_text_exists, _assert_text_not_exists;
    cbn [type selector expected attribute timeout ignore_case wait_for].
  set (e := str_of_pyval (expected a)).
  set (s1 := (u ("text=" ++ dq) ++ e ++ u dq)%list).
  set (s2 := (u "text=/" ++ e ++ u "/i")%list).
  set (s3 := (u ("text*=" ++ dq) ++ e ++ u dq)%list).
  set (s4 := (u (":text-is(" ++ dq) ++ e ++ u (dq ++ ")"))%list).
  set (s5 := (u (":text(" ++ dq) ++ e ++ u (dq ++ ")"))%list).
  pose proof (@found_is_found page [s1; s2; s3] [s4; s5] 0%Z) as Hf.
  cbn [app] in Hf. change (list N) with ustr in *. revert Hf.
  destruct (text_exists_loop page false [s1; s2; s3; s4; s5] 0) as [p0 c0].
  cbn [fst]. intro Hf.
  unfold guarded, outcome; cbn [Assertions.passed].
  assert (Hc : content_has ucd page
                 {| type := TEXT_NOT_EXISTS; selector := selector a; expected := expected a;
                    attribute := attribute a; timeout := timeout a;
                    ignore_case := ignore_case a; wait_for := wait_for a |}
               = content_has ucd page
                   {| type := TEXT_EXISTS; selector := selector a; expected := expected a;
                      attribute := attribute a; timeout := timeout a;
                      ignore_case := ignore_case a; wait_for := false |})
    by reflexivity.
  rewrite Hc.
  destruct (text_found_loop page [s1; s2; s3]).
  - rewrite (Hf eq_refl). reflexivity.
  - destruct p0; [reflexivity|].
    destruct (content_has ucd page _); [reflexivity | discriminate].
Qed.

(** X7. Opposite assertions on the same page and selector never both
    pass: checked and unchecked, visible and hidden, exists and not
    exists. When the engine answers the checkbox query, exactly one of
    checked and unchecked passes; when the query raises, both fail. A
    text assertion that does not wait passes whenever the assertion of
    the absence of the same text fails. *)
Theorem opposite_assertions_never_both_pass :
  forall (ucd : Unicode) (page : Page) (a : Assertion),
    passes ucd page (with_type CHECKBOX_CHECKED a)
      && passes ucd page (with_type CHECKBOX_UNCHECKED a) = false
    /\ passes ucd page (with_type ELEMENT_VISIBLE a)
         && passes ucd page (with_type ELEMENT_HIDDEN a) = false
    /\ passes ucd page (with_type ELEMENT_EXISTS a)
         && passes ucd page (with_type ELEMENT_NOT_EXISTS a) = false
    /\ match loc_is_checked page (selector a) with
       | Ok _ => passes ucd page (with_type CHECKBOX_CHECKED a)
                 = negb (passes ucd page (with_type CHECKBOX_UNCHECKED a))
       | Raise _ => passes ucd page (with_type CHECKBOX_CHECKED a) = false
                    /\ passes ucd page (with_type CHECKBOX_UNCHECKED a) = false
       end
    /\ passes ucd page (without_waiting (with_type TEXT_EXISTS a))
         || passes ucd page (with_type TEXT_NOT_EXISTS a) = true.
Proof.
  intros ucd page a.
  destruct (passes_checkbox ucd page a) as (Hc & Hu).
  destruct (passes_visibility ucd page a) as (Hv & Hh).
  destruct (passes_existence ucd page a) as (He & Hn).
  split; [|split; [|split; [|split]]].
  - rewrite Hc, Hu. destruct (loc_is_checked page (selector a)) as [[|]|e]; reflexivity.
  - rewrite Hv, Hh. clear.
    destruct (if wait_for a then _ else _) as [x|e];
      destruct (loc_is_visible page (selector a)) as [[|]|e']; reflexivity.
  - rewrite He, Hn. clear.
    destruct (if wait_for a then _ else _) as [x|e];
      destruct (loc_count page (selector a)) as [n|e']; try reflexivity.
    destruct (Z.ltb_spec 0 n) as [Hlt|Hge]; [|reflexivity].
    destruct (Z.eqb_spec n 0) as [Heq|Hne]; [lia | reflexivity].
  - rewrite Hc, Hu. destruct (loc_is_checked page (selector a)) as [[|]|e];
      [reflexivity | reflexivity | split; reflexivity].
  - destruct (passes ucd page (with_type TEXT_NOT_EXISTS a)) eqn:Hp.
    + apply orb_true_r.
    + rewrite (passes_text _ _ _ Hp). reflexivity.
Qed.

(** ** A page that does not answer *)

Lemma text_exists_loop_all_raise (page : Page) (wait : bool) (l : list ustr) (c : Z) :
  (forall sel, exists e, loc_count page sel = Raise e) ->
  text_exists_loop page wait l c = (false, c).
Proof.
  intro H. revert c. induction l as [|sel l IH]; intro c; [reflexivity|].
  cbn [text_exists_loop].
  destruct (H (Some sel)) as [e He]. rewrite He.
  destruct (if wait then _ else _); apply IH.
Qed.

Lemma text_found_loop_all_raise (page : Page) (l : list ustr) :
  (forall sel, exists e, loc_count page sel = Raise e) ->
  text_found_loop page l = false.
Proof.
  intro H. induction l as [|sel l IH]; [reflexivity|].
  cbn [text_found_loop]. destruct (H (Some sel)) as [e He]. rewrite He. exact IH.
Qed.

Lemma content_has_fails (ucd : Unicode) (page : Page) (a : Assertion) :
  (exists e, pg_content page = Raise e) \/ (forall s, expected a <> VStr s) ->
  content_has ucd page a = false.
Proof.
  unfold content_has. intros [[e He]|Hn].
  - rewrite He. reflexivity.
  - destruct (pg_content page) as [c|e]; [|reflexivity].
    destruct (expected a) as [|s| | |]; try reflexivity.
    exfalso. apply (Hn s). reflexivity.
Qed.

(** X8. Failures of the engine count as absence. On a page where every
    count query raises, and where reading the content raises or the
    expected value is no text, the assertion that a text is absent
    passes and the assertion that it is present fails: both evaluators
    swallow the exceptions of every strategy. *)
Theorem absent_text_passes_when_the_engine_fails :
  forall (ucd : Unicode) (page : Page) (a : Assertion),
    (forall sel, exists e, loc_count page sel = Raise e) ->
    (exists e, pg_content page = Raise e) \/ (forall s, expected a <> VStr s) ->
    passes ucd page (with_type TEXT_NOT_EXISTS a) = true
    /\ passes ucd page (with_type TEXT_EXISTS a) = false.
Proof.
  intros ucd page a Hcount Hcontent.
  unfold passes, execute, _execute_assertion, with_type; cbn [type].
  unfold _assert_text_exists, _assert_text_not_exists;
    cbn [type selector expected attribute timeout ignore_case wait_for].
  change (list N) with ustr in *.
  split.
  - rewrite (text_found_loop_all_raise _ _ Hcount).
    rewrite content_has_fails by exact Hcontent. reflexivity.
  - rewrite (text_exists_loop_all_raise _ _ _ _ Hcount).
    cbv iota beta.
    rewrite content_has_fails by exact Hcontent. reflexivity.
Qed.

Lemma absent_text_passes_when_the_engine_fails_witness :
  passes ascii_ucd Samples.broken_page (assertion_of TEXT_NOT_EXISTS (u "Error")) = true
  /\ passes ascii_ucd Samples.broken_page (assertion_of TEXT_EXISTS (u "Error")) = false.
Proof.
  exact (@absent_text_passes_when_the_engine_fails ascii_ucd Samples.broken_page
           (assertion_of TEXT_NOT_EXISTS (u "Error"))
           (fun sel => ex_intro _ Samples.target_closed eq_refl)
           (or_introl (ex_intro _ Samples.target_closed eq_refl))).
Defined.

(* ================================================================== *)
(** * Further properties of the Standard Runner *)
(* ================================================================== *)

(** ** The steps a case records *)

Lemma status_eqb_eq (a b : Status) : status_eqb a b = true <-> a = b.
Proof. destruct a, b; cbn; split; intro H; try reflexivity; discriminate H. Qed.

(** The loop over the steps, started on a case that is running and
    whose recorded steps passed: either the case is still running, with
    every recorded step passed (and, when nothing is pending, one
    recorded step per step), or it is failed and ends in the failed
    step. *)
Lemma standard_steps_loop_shape W (env : Runner.Env W) (tc : TestCase)
  (steps : list Step) (idx : nat) (c : CaseResult) (w : W) :
  cr_status c = running ->
  Forall step_passed (cr_steps c) ->
  let c' := fst (fst (Runner.steps_loop env tc steps idx c w)) in
  let pending := snd (fst (Runner.steps_loop env tc steps idx c w)) in
  cr_name c' = cr_name c /\ cr_error c' = cr_error c
  /\ ((cr_status c' = running /\ Forall step_passed (cr_steps c')
       /\ (pending = None ->
           length (cr_steps c') = (length (cr_steps c) + length steps)%nat))
      \/ (cr_status c' = failed /\ ends_in_failed_step (cr_steps c')
          /\ (Runner.screenshot_on_failure env = true -> tc_name tc = None ->
              pending = Some Runner.key_error_name))).
Proof.
  revert idx c w. induction steps as [|step rest IH]; intros idx c w Hrun Hpassed;
    cbn [Runner.steps_loop].
  - cbn [fst snd]. repeat split; try reflexivity.
    left. repeat split; [exact Hrun | exact Hpassed |].
    intros _. cbn [length]. lia.
  - destruct (Runner._execute_step env step idx w) as [[r|e] w1] eqn:Hs.
    + destruct (status_eqb (step_status r) failed) eqn:Hf.
      * apply status_eqb_eq in Hf.
        assert (Hend : ends_in_failed_step (cr_steps c ++ [r])).
        { exists (cr_steps c), r. repeat split; assumption. }
        destruct (Runner.screenshot_on_failure env).
        -- unfold Runner.name_item.
           destruct (tc_name tc) as [n|].
           ++ destruct (Runner._take_failure_screenshot env n (Z.of_nat idx) w1)
                as [[p|e] w2]; cbn [fst snd]; (split; [reflexivity|]);
                (split; [reflexivity|]); right; (split; [reflexivity|]);
                (split; [exact Hend|]); intros _ Hn; discriminate Hn.
           ++ cbn [fst snd]. repeat split; try reflexivity.
              right. repeat split; [exact Hend].
        -- cbn [fst snd]. repeat split; try reflexivity.
           right. repeat split; [exact Hend|]. intro Hd; discriminate Hd.
      * assert (Hp : step_passed r).
        { destruct (standard_step_settled env step idx w Hs) as [Hp|Hp]; [exact Hp|].
          rewrite Hp in Hf. discriminate Hf. }
        specialize (IH (S idx) (Runner.add_step r c) w1 Hrun).
        cbn [Runner.add_step cr_steps cr_name cr_error] in IH.
        assert (Hall : Forall step_passed (cr_steps c ++ [r])).
        { apply Forall_app. split; [exact Hpassed | repeat constructor; exact Hp]. }
        specialize (IH Hall). cbv zeta in IH.
        destruct IH as (Hn & He & IH). split; [exact Hn|]. split; [exact He|].
        destruct IH as [(Hr & Hps & Hlen)|Hfailed]; [left | right; exact Hfailed].
        repeat split; [exact Hr | exact Hps |].
        intro Hnone. rewrite (Hlen Hnone), length_app. cbn [length]. lia.
    + cbn [fst snd]. repeat split; try reflexivity.
      left. repeat split; [exact Hrun | exact Hpassed |].
      intro Hd; discriminate Hd.
Qed.

Lemma new_case_starts (tc : TestCase) :
  cr_status (Runner.new_case tc) = running
  /\ Forall step_passed (cr_steps (Runner.new_case tc))
  /\ length (cr_steps (Runner.new_case tc)) = 0%nat.
Proof. repeat split. constructor. Qed.

(** X9. What the status of a case of the Standard Runner says. A case
    that is returned is never still running. It is passed exactly when
    every step of the case was run and passed; a failed case ends in the
    step that failed, every step before it passed, and the steps after
    it were not run; a case in error carries the message of the
    exception. *)
Theorem standard_case_status_tells_the_steps :
  forall (W : Type) (env : Runner.Env W) (tc : TestCase) (w : W) (c : CaseResult),
    fst (Runner._execute_test_case env tc w) = Ok c ->
    cr_status c <> running
    /\ (cr_status c = passed ->
        exists steps, tc_steps tc = Some steps
                      /\ length (cr_steps c) = length steps
                      /\ Forall step_passed (cr_steps c))
    /\ (cr_status c = failed -> ends_in_failed_step (cr_steps c))
    /\ (cr_status c = error -> cr_error c <> None).
Proof.
  intros W env tc w c. unfold Runner._execute_test_case.
  destruct (tc_steps tc) as [steps|].
  - destruct (new_case_starts tc) as (Hrun & Hall & Hlen).
    pose proof (standard_steps_loop_shape env tc steps 0 (Runner.new_case tc) w Hrun Hall)
      as Hshape.
    cbv zeta in Hshape.
    destruct (Runner.steps_loop env tc steps 0 (Runner.new_case tc) w)
      as [[c' pending] w1].
    cbn [fst snd] in Hshape. destruct Hshape as (_ & Herr & Hshape).
    destruct pending as [e|].
    + destruct (is_Exception e); [|intro H; discriminate H].
      assert (Hgoal : forall c1 : CaseResult,
                 cr_status c1 = error -> cr_error c1 <> None ->
                 cr_status c1 <> running
                 /\ (cr_status c1 = passed ->
                     exists steps0, Some steps = Some steps0
                                    /\ length (cr_steps c1) = length steps0
                                    /\ Forall step_passed (cr_steps c1))
                 /\ (cr_status c1 = failed -> ends_in_failed_step (cr_steps c1))
                 /\ (cr_status c1 = error -> cr_error c1 <> None)).
      { intros c1 Hs He. rewrite Hs.
        split; [discriminate|]. split; [intro X; discriminate X|].
        split; [intro X; discriminate X|]. intros _. exact He. }
      destruct (Runner.screenshot_on_failure env).
      * destruct (Runner.name_item tc) as [n|e']; [|intro H; discriminate H].
        destruct (Runner._take_failure_screenshot env n (-1) w1) as [[p|e'] w2];
          intro H; [|discriminate H].
        cbn [fst] in H. inversion H; subst c.
        apply Hgoal; [reflexivity | discriminate].
      * intro H. cbn [fst] in H. inversion H; subst c.
        apply Hgoal; [reflexivity | discriminate].
    + cbn [fst]. intro H. inversion H; subst c. clear H.
      destruct Hshape as [(Hr & Hps & Hl)|(Hf & Hend & _)].
      * rewrite Hr. cbn [status_eqb Runner.set_case_status cr_status cr_steps].
        repeat split; try discriminate.
        intros _. exists steps. repeat split; [|exact Hps].
        rewrite (Hl eq_refl), Hlen. reflexivity.
      * rewrite Hf. cbn [status_eqb]. rewrite Hf.
        repeat split; try discriminate. intros _. exact Hend.
  - assert (Hex : is_Exception Runner.not_iterable = true) by reflexivity.
    rewrite Hex. clear Hex. generalize Runner.not_iterable. intro e.
    assert (Hgoal : forall c1 : CaseResult,
               cr_status c1 = error -> cr_error c1 <> None ->
               cr_status c1 <> running
               /\ (cr_status c1 = passed ->
                   exists steps0, @None (list Step) = Some steps0
                                  /\ length (cr_steps c1) = length steps0
                                  /\ Forall step_passed (cr_steps c1))
               /\ (cr_status c1 = failed -> ends_in_failed_step (cr_steps c1))
               /\ (cr_status c1 = error -> cr_error c1 <> None)).
    { intros c1 Hs He. rewrite Hs.
        split; [discriminate|]. split; [intro X; discriminate X|].
        split; [intro X; discriminate X|]. intros _. exact He. }
    destruct (Runner.screenshot_on_failure env).
    + destruct (Runner.name_item tc) as [n|e']; [|intro H; discriminate H].
      destruct (Runner._take_failure_screenshot env n (-1) w) as [[p|e'] w2];
        intro H; [|discriminate H].
      cbn [fst] in H. inversion H; subst c.
      apply Hgoal; [reflexivity | discriminate].
    + intro H. cbn [fst] in H. inversion H; subst c.
      apply Hgoal; [reflexivity | discriminate].
Qed.

Lemma standard_case_status_tells_the_steps_witness :
  exists c,
    fst (Runner._execute_test_case (sample_env ascii_ucd declining_matcher)
           {| tc_name := Some (u "case 2");
              tc_steps := Some [StepMap (Some (u "ボタンをクリックする")) None;
                                StepMap (Some (u "存在しないリンクをクリックする")) None;
                                StepMap (Some (u "ボタンをクリックする")) None] |}
           fresh_browser) = Ok c
    /\ cr_status c = failed
    /\ length (cr_steps c) = 2%nat
    /\ ends_in_failed_step (cr_steps c).
Proof.
  eexists. split; [vm_compute; reflexivity|].
  split; [reflexivity|]. split; [reflexivity|].
  refine (proj1 (proj2 (proj2
            (@standard_case_status_tells_the_steps _
               (sample_env ascii_ucd declining_matcher)
               {| tc_name := Some (u "case 2");
                  tc_steps := Some [StepMap (Some (u "ボタンをクリックする")) None;
                                    StepMap (Some (u "存在しないリンクをクリックする")) None;
                                    StepMap (Some (u "ボタンをクリックする")) None] |}
               fresh_browser _ _))) _).
  - vm_compute. reflexivity.
  - reflexivity.
Defined.

(** ** A case without a name *)

(** X10. A case without a name, with failure screenshots switched on
    (the default): if it is returned, it passed. As soon as a step fails
    or raises, the name is asked for with the name item of the case, in
    the body and again in the handler, and the second [KeyError] leaves
    the case: the original failure is lost, no case result is recorded,
    and the loop over the cases ends with that exception. *)
Theorem nameless_case_passes_or_ends_the_suite :
  forall (W : Type) (env : Runner.Env W) (tc : TestCase) (w : W),
    tc_name tc = None ->
    Runner.screenshot_on_failure env = true ->
    match fst (Runner._execute_test_case env tc w) with
    | Ok c => cr_status c = passed
    | Raise e =>
        (e = Runner.key_error_name \/ is_Exception e = false)
        /\ forall (rest : list TestCase) (r : SuiteResult),
             fst (Runner.cases_loop env (tc :: rest) r w) = Raise e
    end.
Proof.
  intros W env tc w Hname Hshot.
  assert (Hloop : forall rest r e,
            fst (Runner._execute_test_case env tc w) = Raise e ->
            fst (Runner.cases_loop env (tc :: rest) r w) = Raise e).
  { intros rest r e H. cbn [Runner.cases_loop]. unfold mbind.
    destruct (Runner._execute_test_case env tc w) as [[c|e'] w1]; cbn [fst] in *;
      [discriminate H | inversion H; reflexivity]. }
  revert Hloop. unfold Runner._execute_test_case. rewrite Hshot.
  unfold Runner.name_item. rewrite Hname.
  destruct (tc_steps tc) as [steps|].
  - destruct (new_case_starts tc) as (Hrun & Hall & Hlen).
    pose proof (standard_steps_loop_shape env tc steps 0 (Runner.new_case tc) w Hrun Hall)
      as Hshape.
    cbv zeta in Hshape.
    destruct (Runner.steps_loop env tc steps 0 (Runner.new_case tc) w)
      as [[c' pending] w1].
    cbn [fst snd] in Hshape. destruct Hshape as (_ & _ & Hshape).
    destruct pending as [e|].
    + destruct (is_Exception e) eqn:He; cbn [fst]; intro Hloop.
      * split; [left; reflexivity|]. intros rest r. apply Hloop. reflexivity.
      * split; [right; exact He|]. intros rest r. apply Hloop. reflexivity.
    + cbn [fst]. intros _.
      destruct Hshape as [(Hr & _)|(_ & _ & Hk)].
      * rewrite Hr. reflexivity.
      * specialize (Hk Hshot Hname). discriminate Hk.
  - assert (Hex : is_Exception Runner.not_iterable = true) by reflexivity.
    rewrite Hex. cbn [fst]. intro Hloop.
    split; [left; reflexivity|]. intros rest r. apply Hloop. reflexivity.
Qed.

Lemma nameless_case_passes_or_ends_the_suite_witness :
  tc_name {| tc_name := None;
             tc_steps := Some [StepMap (Some (u "存在しないリンクをクリックする")) None] |}
  = None
  /\ Runner.screenshot_on_failure (sample_env ascii_ucd declining_matcher) = true
  /\ match fst (Runner._execute_test_case (sample_env ascii_ucd declining_matcher)
                  {| tc_name := None;
                     tc_steps :=
                       Some [StepMap (Some (u "存在しないリンクをクリックする")) None] |}
                  fresh_browser) with
     | Ok c => cr_status c = passed
     | Raise e =>
         (e = Runner.key_error_name \/ is_Exception e = false)
         /\ forall (rest : list TestCase) (r : SuiteResult),
              fst (Runner.cases_loop (sample_env ascii_ucd declining_matcher)
                     ({| tc_name := None;
                         tc_steps :=
                           Some [StepMap (Some (u "存在しないリンクをクリックする")) None] |}
                      :: rest) r fresh_browser) = Raise e
     end.
Proof.
  split; [reflexivity|]. split; [reflexivity|].
  exact (@nameless_case_passes_or_ends_the_suite _
           (sample_env ascii_ucd declining_matcher)
           {| tc_name := None;
              tc_steps := Some [StepMap (Some (u "存在しないリンクをクリックする")) None] |}
           fresh_browser eq_refl eq_refl).
Defined.

(** ** The summary of a suite *)

Lemma count_status_app (st : Status) (l : list CaseResult) (c : CaseResult) :
  count_status st (l ++ [c])
  = (count_status st l + (if status_eqb (cr_status c) st then 1 else 0))%Z.
Proof.
  unfold count_status. rewrite filter_app, length_app. cbn [filter].
  destruct (status_eqb (cr_status c) st); cbn [length]; lia.
Qed.


Lemma standard_case_not_running W (env : Runner.Env W) (tc : TestCase) (w : W)
  (c : CaseResult) :
  fst (Runner._execute_test_case env tc w) = Ok c -> cr_status c <> running.
Proof.
  unfold Runner._execute_test_case.
  destruct (match tc_steps tc with
            | Some steps => Runner.steps_loop env tc steps 0 (Runner.new_case tc) w
            | None => ((Runner.new_case tc, Some Runner.not_iterable), w)
            end) as [[c' pending] w1].
  destruct pending as [e|].
  - destruct (is_Exception e); [|intro H; discriminate H].
    destruct (Runner.screenshot_on_failure env).
    + destruct (Runner.name_item tc) as [n|e']; [|intro H; discriminate H].
      destruct (Runner._take_failure_screenshot env n (-1) w1) as [[p|e'] w2];
        intro H; [|discriminate H].
      cbn [fst] in H. inversion H; subst c. discriminate.
    + intro H. cbn [fst] in H. inversion H; subst c. discriminate.
  - cbn [fst]. intro H. inversion H; subst c. clear H.
    destruct (status_eqb (cr_status c') running) eqn:Hs; [discriminate|].
    intro Hr. rewrite Hr in Hs. discriminate Hs.
Qed.

Lemma add_case_agrees (c : CaseResult) (r : SuiteResult) :
  cr_status c <> running -> summary_agrees r -> summary_agrees (Runner.add_case c r).
Proof.
  intros Hc (Ht & Hp & Hf & He & Hall).
  unfold summary_agrees, Runner.add_case; cbn [summary test_cases].
  rewrite !count_status_app, length_app. cbn [length].
  repeat split.
  - destruct (cr_status c); cbn [count_case total]; lia.
  - destruct (cr_status c); cbn [count_case n_passed status_eqb]; lia.
  - destruct (cr_status c); cbn [count_case n_failed status_eqb]; lia.
  - destruct (cr_status c); cbn [count_case n_errors status_eqb]; try lia.
    exfalso. apply Hc. reflexivity.
  - apply Forall_app. split; [exact Hall | repeat constructor; exact Hc].
Qed.

Lemma standard_cases_loop_agrees W (env : Runner.Env W) (cases : list TestCase)
  (r r' : SuiteResult) (w : W) :
  summary_agrees r ->
  fst (Runner.cases_loop env cases r w) = Ok r' ->
  summary_agrees r'
  /\ length (test_cases r') = (length (test_cases r) + length cases)%nat.
Proof.
  revert r w. induction cases as [|tc rest IH]; intros r w Hr H.
  - cbn in H. inversion H; subst r'. split; [exact Hr | cbn [length]; lia].
  - cbn [Runner.cases_loop] in H. unfold mbind in H.
    pose proof (@standard_case_not_running _ env tc w) as Hc.
    destruct (Runner._execute_test_case env tc w) as [[c|e] w1]; [|discriminate H].
    specialize (Hc c eq_refl).
    destruct (IH _ _ (@add_case_agrees c r Hc Hr) H) as (Hagree & Hlen).
    split; [exact Hagree|].
    rewrite Hlen. unfold Runner.add_case; cbn [test_cases].
    rewrite length_app. cbn [length]. lia.
Qed.

(** X11. The summary of a suite the Standard Runner returns counts
    the case results: there is one case result per test case, total is
    their number, and passed, failed and errors are the numbers of case
    results with that status, so that they add up to total. *)
Theorem standard_summary_counts_the_cases :
  forall (W : Type) (env : Runner.Env W) (td : TestData) (w : W) (r : SuiteResult),
    fst (Runner._execute_test_suite env td w) = Ok r ->
    summary_agrees r
    /\ (exists cases, td_test_cases td = Some cases
                      /\ length (test_cases r) = length cases)
    /\ (n_passed (summary r) + n_failed (summary r) + n_errors (summary r)
        = total (summary r))%Z.
Proof.
  intros W env td w r H.
  assert (Hmain : summary_agrees r
                  /\ exists cases, td_test_cases td = Some cases
                                   /\ length (test_cases r) = length cases).
  { unfold Runner._execute_test_suite, mbind in H.
    destruct (match td_base_url td with
              | Some (c :: b) => Runner.navigate env (c :: b)
              | _ => ret tt
              end w) as [[x|e] w1]; [|discriminate H].
    destruct (td_test_cases td) as [cases|]; [|discriminate H].
    assert (H0 : summary_agrees (Runner.new_results td)).
    { unfold summary_agrees. cbn. repeat split. constructor. }
    destruct (@standard_cases_loop_agrees _ env cases _ _ w1 H0 H) as (Hagree & Hlen).
    split; [exact Hagree|]. exists cases. split; [reflexivity|].
    rewrite Hlen. reflexivity. }
  destruct Hmain as (Hagree & Hcases). split; [exact Hagree|]. split; [exact Hcases|].
  destruct Hagree as (Ht & Hp & Hf & He & Hall).
  rewrite Ht, Hp, Hf, He. clear - Hall.
  unfold count_status.
  induction Hall as [|c l Hc Hl IH]; [reflexivity|].
  cbn [filter length].
  destruct (cr_status c); cbn [status_eqb length]; try lia.
  exfalso. apply Hc. reflexivity.
Qed.

Lemma standard_summary_counts_the_cases_witness :
  exists r,
    fst (Runner._execute_test_suite (sample_env ascii_ucd declining_matcher)
           two_case_suite fresh_browser) = Ok r
    /\ summary_agrees r.
Proof.
  eexists. split; [vm_compute; reflexivity|].
  refine (proj1 (@standard_summary_counts_the_cases _
                   (sample_env ascii_ucd declining_matcher) two_case_suite
                   fresh_browser _ _)).
  vm_compute. reflexivity.
Defined.

(* ================================================================== *)
(** * Further properties of the Robust Runner *)
(* ================================================================== *)

(** ** The crash boundaries of a suite *)





(** The name of a case with a closing tag that closes nothing leaves the
    suite through no crash boundary: the markup error of the line that
    prints it ends the suite, which records no case. *)
Lemma case_name_with_closing_tag_ends_suite :
  fst (RobustRunner._execute_test_suite_robust (sample_robust_env ascii_ucd sample_files)
         {| td_name := Some (u "suite"); td_base_url := None;
            td_test_cases :=
              Some [ {| tc_name := Some (u "[/x]");
                        tc_steps := Some [StepMap (Some (u "ボタンをクリックする")) None] |} ] |}
         started_session)
  = Raise (Exn MarkupError
             (u "closing tag '[/x]' at position 8 doesn't match any open tag")).
Proof. vm_compute. reflexivity. Qed.

(** ** A batch of files *)

Lemma robust_files_loop_outcome W (env : RobustRunner.Env W) (paths : list ustr)
  (acc : list RobustRunner.FileResult) (s : RobustRunner.State W) :
  match fst (RobustRunner.files_loop env paths acc s) with
  | Ok l =>
      length l = (length acc + length paths)%nat
      /\ forall r, In (RobustRunner.FileSuite r) l ->
           In (RobustRunner.FileSuite r) acc
           \/ exists p s', In p paths
                           /\ fst (RobustRunner._run_single_test_robust env p s') = Ok r
  | Raise e => is_Exception e = false
  end.
Proof.
  revert acc s. induction paths as [|p rest IH]; intros acc s.
  - cbn. split; [lia | intros r Hr; left; exact Hr].
  - cbn [RobustRunner.files_loop].
    destruct (RobustRunner._run_single_test_robust env p s) as [[r|e] s1] eqn:Hrun.
    + specialize (IH (acc ++ [RobustRunner.FileSuite r])%list s1).
      destruct (fst (RobustRunner.files_loop env rest
                       (acc ++ [RobustRunner.FileSuite r]) s1)) as [l|e];
        [|exact IH].
      destruct IH as (Hlen & Hin). split.
      * rewrite Hlen, length_app. cbn [length]. lia.
      * intros r0 Hr0. destruct (Hin r0 Hr0) as [Hacc|(p' & s' & Hp' & Hrun')].
        -- apply in_app_or in Hacc. destruct Hacc as [Hacc|[Heq|[]]]; [left; exact Hacc|].
           injection Heq as <-. right. exists p, s.
           split; [left; reflexivity | rewrite Hrun; reflexivity].
        -- right. exists p', s'. split; [right; exact Hp' | exact Hrun'].
    + destruct (is_Exception e) eqn:He; [|exact He].
      specialize (IH (acc ++ [RobustRunner.FileError p (str_of_exn e)])%list s1).
      destruct (fst (RobustRunner.files_loop env rest
                       (acc ++ [RobustRunner.FileError p (str_of_exn e)]) s1))
        as [l|e']; [|exact IH].
      destruct IH as (Hlen & Hin). split.
      * rewrite Hlen, length_app. cbn [length]. lia.
      * intros r0 Hr0. destruct (Hin r0 Hr0) as [Hacc|(p' & s' & Hp' & Hrun')].
        -- apply in_app_or in Hacc. destruct Hacc as [Hacc|[Heq|[]]]; [left; exact Hacc|].
           discriminate Heq.
        -- right. exists p', s'. split; [right; exact Hp' | exact Hrun'].
Qed.

(** The summary table: it is printed, or the name of a suite in it raises
    the markup error. *)
Lemma robust_display_outcome W (env : RobustRunner.Env W)
  (l : list RobustRunner.FileResult) (s : RobustRunner.State W) :
  snd (RobustRunner._display_batch_summary env l s) = s
  /\ match fst (RobustRunner._display_batch_summary env l s) with
     | Ok _ => True
     | Raise e =>
         exists r, In (RobustRunner.FileSuite r) l
                   /\ console_print (RobustRunner.console env) (test_name r) = Raise e
     end.
Proof.
  induction l as [|[r|name err] l IH]; [split; [reflexivity | exact I] | |].
  - cbn [RobustRunner._display_batch_summary]. unfold mbind, RobustRunner.print, lift.
    destruct (console_print (RobustRunner.console env) (test_name r)) as [x|e] eqn:Hp.
    + destruct IH as (Hs & Hr). split; [exact Hs|].
      destruct (fst (RobustRunner._display_batch_summary env l s)) as [y|e]; [exact I|].
      destruct Hr as (r0 & Hin & Hp0). exists r0. split; [right; exact Hin | exact Hp0].
    + split; [reflexivity|]. exists r. split; [left; reflexivity | exact Hp].
  - cbn [RobustRunner._display_batch_summary].
    destruct IH as (Hs & Hr). split; [exact Hs|].
    destruct (fst (RobustRunner._display_batch_summary env l s)) as [y|e]; [exact I|].
    destruct Hr as (r0 & Hin & Hp0). exists r0. split; [right; exact Hin | exact Hp0].
Qed.

(** X13. A batch of the Robust Runner with no file returns the empty
    list and touches nothing: the model is not loaded and no browser is
    started. Once the model is loaded and the browser started, a batch
    that returns gives one result per file, in which a file that raised
    is an error dictionary, and an [Exception] of the final close of the
    browser is swallowed. The only [Exception] a batch raises comes after
    the close, from the summary table: the markup error of the name of a
    suite that one of the files returned. *)
Theorem robust_batch_gives_one_result_per_file :
  forall (W : Type) (env : RobustRunner.Env W) (paths : list ustr)
         (s s1 s2 : RobustRunner.State W) (p0 : RobustRunner.page),
    RobustRunner.on_world (RobustRunner.load_model env) s = (Ok tt, s1) ->
    RobustRunner.on_world (RobustRunner.start_browser env) s1 = (Ok p0, s2) ->
    RobustRunner.run_test_files_batch env [] s = (Ok [], s)
    /\ match fst (RobustRunner.run_test_files_batch env paths s) with
       | Ok l => length l = length paths
       | Raise e =>
           is_Exception e = false
           \/ exists r p s',
                In p paths
                /\ fst (RobustRunner._run_single_test_robust env p s') = Ok r
                /\ console_print (RobustRunner.console env) (test_name r) = Raise e
       end.
Proof.
  intros W env paths s s1 s2 p0 Hload Hstart. split; [reflexivity|].
  destruct paths as [|p rest]; [reflexivity|].
  unfold RobustRunner.run_test_files_batch, mbind. rewrite Hload, Hstart.
  pose proof (robust_files_loop_outcome env (p :: rest) []
                (RobustRunner.set_page (Some p0) s2)) as H.
  destruct (RobustRunner.files_loop env (p :: rest) [] (RobustRunner.set_page (Some p0) s2))
    as [r s3].
  cbn [fst] in H.
  assert (Hshow : forall l s4,
            length l = (length (@nil RobustRunner.FileResult) + length (p :: rest))%nat
            /\ (forall r0, In (RobustRunner.FileSuite r0) l ->
                  In (RobustRunner.FileSuite r0) []
                  \/ exists p' s', In p' (p :: rest)
                       /\ fst (RobustRunner._run_single_test_robust env p' s') = Ok r0) ->
            match fst (let (r0, s5) := RobustRunner._display_batch_summary env l s4 in
                       match r0 with
                       | Ok _ => ret l s5
                       | Raise e => (Raise e, s5)
                       end) with
            | Ok l' => length l' = length (p :: rest)
            | Raise e =>
                is_Exception e = false
                \/ exists r0 p' s',
                     In p' (p :: rest)
                     /\ fst (RobustRunner._run_single_test_robust env p' s') = Ok r0
                     /\ console_print (RobustRunner.console env) (test_name r0) = Raise e
            end).
  { intros l s4 (Hlen & Hin).
    destruct (robust_display_outcome env l s4) as (_ & Hd).
    destruct (RobustRunner._display_batch_summary env l s4) as [[y|e] s5]; cbn [fst] in *.
    - exact Hlen.
    - destruct Hd as (r0 & Hr0 & Hp0). right.
      destruct (Hin r0 Hr0) as [[]|(p' & s' & Hp' & Hrun)].
      exists r0, p', s'. repeat split; assumption. }
  destruct (RobustRunner.on_world (RobustRunner.close_browser env) s3) as [[x|e] s4].
  - destruct r as [l|e]; [apply Hshow; exact H | left; exact H].
  - destruct (is_Exception e) eqn:He; [|left; exact He].
    destruct r as [l|e']; [apply Hshow; exact H | left; exact H].
Qed.

Lemma robust_batch_gives_one_result_per_file_witness :
  match fst (RobustRunner.run_test_files_batch (sample_robust_env ascii_ucd sample_files)
               [u "empty.yaml"; u "one.yaml"; u "missing.yaml"]
               {| RobustRunner.bm_page := None; RobustRunner.world := fresh_browser |}) with
  | Ok l => length l = length [u "empty.yaml"; u "one.yaml"; u "missing.yaml"]
  | Raise e =>
      is_Exception e = false
      \/ exists r p s',
           In p [u "empty.yaml"; u "one.yaml"; u "missing.yaml"]
           /\ fst (RobustRunner._run_single_test_robust
                     (sample_robust_env ascii_ucd sample_files) p s') = Ok r
           /\ console_print (RobustRunner.console (sample_robust_env ascii_ucd sample_files))
                (test_name r) = Raise e
  end.
Proof.
  pose proof (@robust_batch_gives_one_result_per_file _
                (sample_robust_env ascii_ucd sample_files)
                [u "empty.yaml"; u "one.yaml"; u "missing.yaml"]
                {| RobustRunner.bm_page := None; RobustRunner.world := fresh_browser |}
                {| RobustRunner.bm_page := None; RobustRunner.world := fresh_browser |}
                {| RobustRunner.bm_page := None;
                   RobustRunner.world := {| opened := 1; closed := [] |} |}
                0%nat) as H.
  destruct (H eq_refl eq_refl) as [_ H2]. exact H2.
Defined.

(** A suite whose name holds a closing tag that closes nothing: its file
    runs and its lines are printed, the name standing between the tags
    of the line, and the summary table, where the name stands alone,
    raises the markup error after the browser session is closed. *)
Lemma robust_suite_name_with_closing_tag_ends_batch :
  option_map test_name
    (match fst (RobustRunner._run_single_test_robust
                  (sample_robust_env ascii_ucd tagged_file)
                  (u "tagged.yaml") started_session) with
     | Ok r => Some r
     | Raise _ => None
     end)
  = Some (u "[/green][green]")
  /\ fst (RobustRunner.run_test_files_batch (sample_robust_env ascii_ucd tagged_file)
            [u "tagged.yaml"]
            {| RobustRunner.bm_page := None; RobustRunner.world := fresh_browser |})
     = Raise (Exn MarkupError
                (u "closing tag '[/green]' at position 0 doesn't match any open tag")).
Proof. split; vm_compute; reflexivity. Qed.

(** ** The page field after a file that completed *)

Lemma one_case_file_restores_page :
  exists r,
    fst (RobustRunner._run_single_test_robust (sample_robust_env ascii_ucd sample_files)
           (u "one.yaml") started_session) = Ok r
    /\ RobustRunner.bm_page
         (snd (RobustRunner._run_single_test_robust
                 (sample_robust_env ascii_ucd sample_files) (u "one.yaml") started_session))
       = RobustRunner.bm_page started_session.
Proof.
  eexists. split; [vm_compute; reflexivity|].
  refine (@completed_file_restores_page _ (sample_robust_env ascii_ucd sample_files)
            (u "one.yaml") started_session _ _).
  vm_compute. reflexivity.
Defined.

Import Cli.

(** X14. The page field after a file. Whatever happens to a file, the
    page field of the browser manager afterwards is the one from before
    the file, except in one case: when the suite of the file raised,
    the field holds the page that was opened for the file. *)
Theorem page_field_after_a_file :
  forall (W : Type) (env : RobustRunner.Env W) (path : ustr) (s : RobustRunner.State W),
    RobustRunner.bm_page (snd (RobustRunner._run_single_test_robust env path s))
    = match suite_of_file env path s with
      | Some (pg, Raise _) => Some pg
      | _ => RobustRunner.bm_page s
      end.
Proof.
  intros W env path s.
  unfold suite_of_file, RobustRunner._run_single_test_robust, mbind.
  pose proof (on_world_page (RobustRunner._load_test_file env path) s) as H0.
  destruct (RobustRunner.on_world (RobustRunner._load_test_file env path) s)
    as [[td|e] s0]; cbn [snd] in H0; [|exact H0].
  unfold RobustRunner.print, lift.
  destruct (console_print (RobustRunner.console env)
              (RobustRunner.loaded_line (RobustRunner.suite_name td))) as [x0|e];
    [|exact H0].
  pose proof (on_world_page (RobustRunner.new_page env) s0) as H1.
  destruct (RobustRunner.on_world (RobustRunner.new_page env) s0)
    as [[pg|e] s1]; cbn [snd] in H1.
  2:{ rewrite close_used_page_page, H1. exact H0. }
  pose proof (on_world_page
                (RobustRunner.set_default_timeout env pg (RobustRunner.config_timeout env)) s1)
    as H2.
  destruct (RobustRunner.on_world
              (RobustRunner.set_default_timeout env pg (RobustRunner.config_timeout env)) s1)
    as [[x|e] s2]; cbn [snd] in H2.
  2:{ rewrite close_used_page_page, H2, H1. exact H0. }
  cbv zeta.
  pose proof (robust_suite_page env td (RobustRunner.set_page (Some pg) s2)) as H3.
  destruct (RobustRunner._execute_test_suite_robust env td
              (RobustRunner.set_page (Some pg) s2)) as [[res|e] s4]; cbn [fst snd] in *.
  2:{ rewrite close_used_page_page. exact H3. }
  pose proof (on_world_page (RobustRunner._save_results env res path)
                (RobustRunner.set_page (RobustRunner.bm_page s2) s4)) as H5.
  destruct (RobustRunner.on_world (RobustRunner._save_results env res path)
              (RobustRunner.set_page (RobustRunner.bm_page s2) s4))
    as [[y|e] s6]; cbn [snd] in H5;
    [destruct (console_print (RobustRunner.console env) (RobustRunner.saved_line y))|];
    rewrite close_used_page_page, H5;
    cbn [RobustRunner.set_page RobustRunner.bm_page];
    rewrite H2, H1; exact H0.
Qed.

(** A file whose suite has a name that cannot be printed raises before a
    page is opened for it: the page field and the pages of the browser
    are what they were. *)
Lemma unprintable_suite_name_opens_no_page :
  option_map exn_cls
    (match fst (RobustRunner._run_single_test_robust
                  (sample_robust_env ascii_ucd stray_tag_file)
                  (u "stray.yaml") started_session) with
     | Ok _ => None
     | Raise e => Some e
     end)
  = Some MarkupError
  /\ snd (RobustRunner._run_single_test_robust (sample_robust_env ascii_ucd stray_tag_file)
            (u "stray.yaml") started_session)
     = started_session.
Proof. split; vm_compute; reflexivity. Qed.

(** ** Files that cannot be loaded, and the exit code *)

Lemma unloadable_file_raises W (env : RobustRunner.Env W) (p : ustr)
  (s : RobustRunner.State W) :
  unloadable env p ->
  exists e s', RobustRunner._run_single_test_robust env p s = (Raise e, s')
               /\ is_Exception e = true.
Proof.
  intro H. destruct (H s) as (e & s' & Hl & He).
  exists e, s'. unfold RobustRunner._run_single_test_robust, mbind. rewrite Hl.
  split; [reflexivity | exact He].
Qed.

Lemma files_loop_unloadable W (env : RobustRunner.Env W) (paths : list ustr)
  (acc : list RobustRunner.FileResult) (s : RobustRunner.State W) :
  Forall (unloadable env) paths ->
  exists l s', RobustRunner.files_loop env paths acc s = (Ok (acc ++ l)%list, s')
               /\ forallb is_file_error l = true
               /\ length l = length paths.
Proof.
  intro H. revert acc s. induction H as [|p rest Hp Hrest IH]; intros acc s.
  - exists [], s. cbn. rewrite app_nil_r. repeat split.
  - cbn [RobustRunner.files_loop].
    destruct (unloadable_file_raises s Hp) as (e & s1 & Hr & He).
    rewrite Hr, He.
    destruct (IH (acc ++ [RobustRunner.FileError p (str_of_exn e)])%list s1)
      as (l & s' & Hl & Hall & Hlen).
    exists (RobustRunner.FileError p (str_of_exn e) :: l), s'.
    rewrite Hl, <- app_assoc. cbn [app forallb is_file_error length].
    rewrite Hall, Hlen. repeat split.
Qed.

Lemma no_failure_in_file_errors (l : list RobustRunner.FileResult) :
  forallb is_file_error l = true ->
  existsb Main.reports_failure (map Main.summary_of l) = false.
Proof.
  induction l as [|r l IH]; [reflexivity|].
  cbn [forallb map existsb]. intro H. apply andb_true_iff in H. destruct H as [Hr Hl].
  destruct r; [discriminate Hr|]. cbn [Main.summary_of Main.reports_failure orb].
  apply IH. exact Hl.
Qed.

(** The table of a batch of error dictionaries is printed: the names in
    it are file names. *)
Lemma display_file_errors W (env : RobustRunner.Env W)
  (l : list RobustRunner.FileResult) (s : RobustRunner.State W) :
  forallb is_file_error l = true ->
  RobustRunner._display_batch_summary env l s = (Ok tt, s).
Proof.
  induction l as [|[r|name err] l IH]; [reflexivity | discriminate |].
  cbn [forallb is_file_error andb RobustRunner._display_batch_summary]. exact IH.
Qed.

(** X15. In robust mode the process exits with code 0 when none of its
    test files can be loaded: each file becomes an error dictionary,
    which has no summary, and the check of the results reads a missing
    summary as no failure and no error. *)
Theorem robust_mode_exits_zero_when_no_file_loads :
  forall (W : Type) (env : RobustRunner.Env W)
         (others : Main.Runners (RobustRunner.State W)) (paths : list ustr)
         (s s1 s2 : RobustRunner.State W) (p0 : RobustRunner.page),
    paths <> [] ->
    Forall (unloadable env) paths ->
    RobustRunner.on_world (RobustRunner.load_model env) s = (Ok tt, s1) ->
    RobustRunner.on_world (RobustRunner.start_browser env) s1 = (Ok p0, s2) ->
    fst (Main.main (with_robust_runner env others) (robust_mode paths) s) = 0%Z.
Proof.
  intros W env others paths s s1 s2 p0 Hne Hall Hload Hstart.
  unfold Main.main, Main.run_tests.
  assert (Hpaths : Main.test_file_paths (robust_mode paths) = paths).
  { unfold Main.test_file_paths, robust_mode. cbn. apply app_nil_r. }
  rewrite Hpaths. cbn [robust_mode Main.robust].
  destruct paths as [|p rest].
  - exfalso. apply Hne. reflexivity.
  - assert (Hbatch : exists r s',
              RobustRunner.run_test_files_batch env (p :: rest) s = (r, s')
              /\ match r with
                 | Ok l => forallb is_file_error l = true /\ length l = length (p :: rest)
                 | Raise e => is_Exception e = false
                 end).
    { unfold RobustRunner.run_test_files_batch, mbind. rewrite Hload, Hstart.
      destruct (files_loop_unloadable [] (RobustRunner.set_page (Some p0) s2) Hall)
        as (l & s3 & Hl & Hf & Hlen).
      rewrite Hl. cbn [app].
      destruct (RobustRunner.on_world (RobustRunner.close_browser env) s3)
        as [[x|e] s4].
      - exists (Ok l), s4. rewrite (display_file_errors env l s4 Hf).
        split; [reflexivity|]. split; assumption.
      - destruct (is_Exception e) eqn:He.
        + exists (Ok l), s4. rewrite (display_file_errors env l s4 Hf).
          split; [reflexivity|]. split; assumption.
        + exists (Raise e), s4. split; [reflexivity | exact He]. }
    destruct Hbatch as (r & s' & Hb & Hr).
    assert (Hint : forall e (s' : RobustRunner.State W), is_Exception e = false ->
              fst match exn_cls e with
                  | KeyboardInterrupt => (0%Z, s')
                  | _ => (1%Z, s')
                  end = 0%Z).
    { intros e s0 He. unfold is_Exception in He. destruct (exn_cls e); try discriminate He.
      reflexivity. }
    destruct rest as [|q rest].
    + unfold Main.first_of, mbind, ret, raise.
      cbn [with_robust_runner Main.robust_batch]. rewrite Hb.
      destruct r as [l|e].
      * destruct Hr as (Hf & Hlen). destruct l as [|r0 l]; [discriminate Hlen|].
        cbn [forallb] in Hf. apply andb_true_iff in Hf. destruct Hf as [Hr0 _].
        destruct r0; [discriminate Hr0|]. reflexivity.
      * apply Hint. exact Hr.
    + unfold mbind, ret. cbn [with_robust_runner Main.robust_batch]. rewrite Hb.
      destruct r as [l|e].
      * destruct Hr as (Hf & _).
        rewrite check_results_spec, (no_failure_in_file_errors _ Hf). reflexivity.
      * apply Hint. exact Hr.
Qed.

Lemma robust_mode_exits_zero_when_no_file_loads_witness :
  Forall (unloadable (sample_robust_env ascii_ucd sample_files))
    [u "missing.yaml"; u "tests.txt"]
  /\ fst (Main.main
            (with_robust_runner (sample_robust_env ascii_ucd sample_files)
               {| Main.robust_batch := fun _ => ret [];
                  Main.optimized_batch := fun _ => ret [];
                  Main.run_test_file := fun _ => raise (Exn RuntimeError []);
                  Main.run_interactive := ret tt |})
            (robust_mode [u "missing.yaml"; u "tests.txt"])
            {| RobustRunner.bm_page := None; RobustRunner.world := fresh_browser |})
     = 0%Z.
Proof.
  assert (H : Forall (unloadable (sample_robust_env ascii_ucd sample_files))
                [u "missing.yaml"; u "tests.txt"]).
  { repeat constructor; intro s; eexists; eexists; (split; [reflexivity|reflexivity]). }
  split; [exact H|].
  refine (@robust_mode_exits_zero_when_no_file_loads _
            (sample_robust_env ascii_ucd sample_files) _
            [u "missing.yaml"; u "tests.txt"]
            {| RobustRunner.bm_page := None; RobustRunner.world := fresh_browser |}
            _ _ _ _ H eq_refl eq_refl).
  discriminate.
Defined.

(* ================================================================== *)
(** * The browser manager *)
(* ================================================================== *)

Import Dicts BrowserManager BrowserNotions.

Lemma start_after_playwright (W : Type) (eng : Engine W) (s : State W) (w1 : W) :
  playwright_start eng (world s) = (Ok tt, w1) ->
  supported_browser (Config.browser (config (mgr s))) = false ->
  start eng s =
    (Raise (Exn ValueError
              (u "Unsupported browser: " ++ Config.browser (config (mgr s)))%list),
     {| mgr := set_playwright (mgr s); world := w1 |}).
Proof.
  intros Hs Hb. unfold start, mbind, on_world, assign. rewrite Hs. cbn.
  rewrite Hb. reflexivity.
Qed.

(** X16. With a browser name other than chromium, firefox and webkit,
    [async with browser_manager] raises the ValueError of [start] after
    the Playwright driver was started: the body does not run, [close] is
    not called, and the state is the one right after the driver start, so
    the driver is never stopped. *)
Theorem unsupported_browser_leaves_playwright_running
  (W A : Type) (eng : Engine W) (body : M (State W) A) (s : State W) (w1 : W) :
  playwright_start eng (world s) = (Ok tt, w1) ->
  supported_browser (Config.browser (config (mgr s))) = false ->
  with_manager eng body s =
    (Raise (Exn ValueError
              (u "Unsupported browser: " ++ Config.browser (config (mgr s)))%list),
     {| mgr := set_playwright (mgr s); world := w1 |}).
Proof.
  intros Hs Hb. unfold with_manager.
  rewrite (start_after_playwright eng s Hs Hb). reflexivity.
Qed.

Lemma unsupported_browser_leaves_playwright_running_witness :
  with_manager recording_engine
    (navigate recording_engine (AStr (u "https://example.com/")))
    (fresh (with_browser "safari" Config.default_PlaywrightConfig)) =
    (Raise (Exn ValueError (u "Unsupported browser: safari")),
     {| mgr := set_playwright
                 (new_manager (with_browser "safari" Config.default_PlaywrightConfig));
        world := [u "start"] |}).
Proof.
  refine (unsupported_browser_leaves_playwright_running recording_engine _
            (fresh (with_browser "safari" Config.default_PlaywrightConfig))
            (w1 := [u "start"]) _ _);
    vm_compute; reflexivity.
Defined.

(** Follows [start] call by call; only the run in which every call
    returns is left. *)
Ltac run_start eng s :=
  unfold start, mbind, on_world, assign, lift, ret;
  destruct (playwright_start eng (world s)) as [[[]|?] ?w]; cbn; [|discriminate];
  destruct (supported_browser (Config.browser (config (mgr s)))); cbn; [|discriminate];
  destruct (launch eng _ _ _ _) as [[[]|?] ?w]; cbn; [|discriminate];
  destruct (new_context eng _ _) as [[[]|?] ?w]; cbn; [|discriminate];
  destruct (new_page eng _) as [[?p|?] ?w]; cbn; [|discriminate];
  destruct (set_default_timeout eng _ _ _) as [[[]|?] ?w]; cbn; [|discriminate];
  destruct (viewport_item (u "width") _) as [?vw|?]; cbn; [|discriminate];
  destruct (viewport_item (u "height") _) as [?vh|?]; cbn; [|discriminate].

(** X17. When [start] returns, the driver, the browser and the context
    are present, the page field and the assertion executor hold the same
    new page, the configuration is untouched, the browser name is one of
    the three supported ones and the viewport has a width and a height
    (the closing report reads both). *)
Theorem started_manager_is_complete (W : Type) (eng : Engine W) (s : State W) :
  fst (start eng s) = Ok tt ->
  let m := mgr (snd (start eng s)) in
  playwright m = true /\ browser m = true /\ context m = true /\
  (exists p, page_field m = Some p /\ assertion_executor m = Some p) /\
  config m = config (mgr s) /\
  supported_browser (Config.browser (config (mgr s))) = true /\
  (exists w h,
     viewport_item (u "width") (Config.viewport (config (mgr s))) = Ok w /\
     viewport_item (u "height") (Config.viewport (config (mgr s))) = Ok h).
Proof.
  run_start eng s. intros _. repeat split; eauto.
Qed.

Lemma started_manager_is_complete_witness :
  fst (start recording_engine (fresh Config.default_PlaywrightConfig)) = Ok tt /\
  exists p,
    page_field (mgr (snd (start recording_engine (fresh Config.default_PlaywrightConfig))))
      = Some p /\
    assertion_executor
      (mgr (snd (start recording_engine (fresh Config.default_PlaywrightConfig)))) = Some p.
Proof.
  split; [vm_compute; reflexivity|].
  refine (proj1 (proj2 (proj2 (proj2
    (started_manager_is_complete recording_engine
       (fresh Config.default_PlaywrightConfig) _))))).
  vm_compute; reflexivity.
Defined.

Lemma unknown_type_branches (t : option aval) :
  known_action_type t = false ->
  type_is t "click" = false /\ type_is t "type" = false /\ type_is t "wait" = false /\
  type_is t "navigate" = false /\ type_is t "screenshot" = false /\
  type_is t "scroll" = false /\ type_is t "wait_for_selector" = false /\
  type_is t "get_text" = false /\ type_is t "get_attribute" = false /\
  type_is t "select" = false.
Proof.
  unfold known_action_type, known_action_types. cbn [existsb]. intros H.
  repeat (apply orb_false_iff in H; destruct H as [? H]).
  repeat split; assumption.
Qed.

(** X18. On a started manager, an action whose [action_type] is missing,
    is no text, or is a text other than the ten handled ones is not an
    error: [execute_action] returns [None] and neither the engine nor the
    manager is touched. *)
Theorem unknown_action_type_is_ignored
  (W : Type) (eng : Engine W) (action : ActionDict) (s : State W) (p : page) :
  page_field (mgr s) = Some p ->
  known_action_type (get action (u "action_type")) = false ->
  execute_action eng action s = (Ok ANone, s).
Proof.
  intros Hp Hk. unfold execute_action. rewrite Hp.
  destruct (unknown_type_branches _ Hk)
    as (H1 & H2 & H3 & H4 & H5 & H6 & H7 & H8 & H9 & H10).
  rewrite H1, H2, H3, H4, H5, H6, H7, H8, H9, H10. reflexivity.
Qed.

Lemma unknown_action_type_is_ignored_witness :
  execute_action recording_engine
    [(u "action_type", AStr (u "hover")); (u "selector", AStr (u "#menu"))]
    (snd (start recording_engine (fresh Config.default_PlaywrightConfig)))
  = (Ok ANone, snd (start recording_engine (fresh Config.default_PlaywrightConfig))).
Proof.
  refine (@unknown_action_type_is_ignored _ recording_engine
            [(u "action_type", AStr (u "hover")); (u "selector", AStr (u "#menu"))]
            (snd (start recording_engine (fresh Config.default_PlaywrightConfig)))
            3%nat _ _);
    vm_compute; reflexivity.
Defined.

(** X19. An assertion is evaluated on the page the manager was started
    with, also after the page field was given another page: once [start]
    has returned and the field is replaced by [q], a click goes to [q],
    after the line that announces it is printed, and an assertion is
    still evaluated on the first page, between the lines printed for
    it. *)
Theorem assertions_stay_on_the_first_page
  (W : Type) (ucd : Unicode) (eng : Engine W) (s : State W) :
  fst (start eng s) = Ok tt ->
  exists p,
    page_field (mgr (snd (start eng s))) = Some p /\
    forall (q : page) (a : Assertion) (selector : ustr),
      let s2 := replace_page q (snd (start eng s)) in
      execute_assertion ucd eng a s2
      = (run_assertion ucd eng (page_view eng p (world s2)) a, s2) /\
      execute_action eng (click_action selector) s2 =
        mbind (mbind (print eng (click_line selector))
                 (fun _ => on_world (click eng q (AStr selector))))
          (fun _ => ret ANone) s2.
Proof.
  run_start eng s. intros _.
  eexists. split; [reflexivity|]. intros q a selector.
  split; reflexivity.
Qed.

Lemma assertions_stay_on_the_first_page_witness :
  fst (start recording_engine (fresh Config.default_PlaywrightConfig)) = Ok tt /\
  exists p,
    page_field (mgr (snd (start recording_engine (fresh Config.default_PlaywrightConfig))))
      = Some p /\
    forall (q : page) (a : Assertion) (selector : ustr),
      let s2 :=
        replace_page q (snd (start recording_engine (fresh Config.default_PlaywrightConfig)))
      in
      execute_assertion ascii_ucd recording_engine a s2
      = (run_assertion ascii_ucd recording_engine
           (page_view recording_engine p (world s2)) a, s2) /\
      execute_action recording_engine (click_action selector) s2 =
        mbind (mbind (print recording_engine (click_line selector))
                 (fun _ => on_world (click recording_engine q (AStr selector))))
          (fun _ => ret ANone) s2.
Proof.
  split; [vm_compute; reflexivity|].
  refine (assertions_stay_on_the_first_page ascii_ucd recording_engine
            (fresh Config.default_PlaywrightConfig) _).
  vm_compute; reflexivity.
Defined.

(** The handler that prints an exception assigns nothing. *)
Lemma reported_mgr W (eng : Engine W) (A : Type) (line : ustr -> ustr)
  (body : M (State W) A) (s : State W) :
  mgr (snd (reported eng line body s)) = mgr (snd (body s)).
Proof.
  unfold reported, try_except.
  destruct (body s) as [[a|e] s']; [reflexivity|].
  destruct (is_Exception e); [|reflexivity].
  unfold mbind, print, lift, raise.
  destruct (console_print (console eng) (line (str_of_exn e))); reflexivity.
Qed.

(** X20. [close] calls the engine but assigns nothing: whether it
    returns or raises, every field of the manager is what it was, so a
    closed manager still holds its page and its assertion executor. *)
Theorem close_keeps_every_field (W : Type) (eng : Engine W) (s : State W) :
  mgr (snd (close eng s)) = mgr s.
Proof.
  unfold close. rewrite reported_mgr.
  unfold mbind, on_world, ret.
  destruct (page_field (mgr s)) as [p|];
    [destruct (page_close eng p (world s)) as [[[]|e] w1]; cbn; [|reflexivity]|cbn];
    (destruct (context (mgr s));
     [destruct (context_close eng _) as [[[]|e2] w2]; cbn; [|reflexivity]|cbn]);
    (destruct (browser (mgr s));
     [destruct (browser_close eng _) as [[[]|e3] w3]; cbn; [|reflexivity]|cbn]);
    (destruct (playwright (mgr s));
     [destruct (playwright_stop eng _) as [[[]|e4] w4]; reflexivity|reflexivity]).
Qed.

(** X21. Before [start], [navigate], [execute_action],
    [execute_assertion] and [take_screenshot] raise the RuntimeError
    that asks for [start] without a call to the engine, and [close]
    returns without a call to the engine. *)
Theorem operations_before_start_raise
  (W : Type) (ucd : Unicode) (eng : Engine W) (cfg : Config.PlaywrightConfig) (w : W) :
  let s := {| mgr := new_manager cfg; world := w |} in
  (forall url, navigate eng url s = (Raise not_started, s)) /\
  (forall action, execute_action eng action s = (Raise not_started, s)) /\
  (forall a, execute_assertion ucd eng a s = (Raise not_started, s)) /\
  (forall path, take_screenshot eng path s = (Raise not_started, s)) /\
  close eng s = (Ok tt, s).
Proof.
  cbn. repeat split.
Qed.

(* ================================================================== *)
(** * The model manager *)
(* ================================================================== *)

Import Dicts LLMManager ReNotions.

Lemma rmatch_rep (ucd : Unicode) (r1 : Re.regex) (lo : nat) (hi : option nat) (greedy : bool)
  (s : ustr) (c : Re.caps) (k : ustr -> Re.caps -> option Re.caps) :
  Re.rmatch ucd (Re.Rep r1 lo hi greedy) s c k =
  rounds ucd r1 lo hi greedy k
    (S (length s + lo + match hi with Some h => h | None => 0 end)) 0 s c.
Proof. reflexivity. Qed.

(** The greedy repetition of the class of all code points tries the
    continuation on the suffixes of the text, the shortest suffix
    first. *)
Lemma rounds_any (ucd : Unicode) (k : ustr -> Re.caps -> option Re.caps) (c : Re.caps)
  (s : ustr) :
  forall fuel n, (length s < fuel)%nat ->
    rounds ucd (Re.Cls true []) 0 None true k fuel n s c =
    longest_first (fun s1 => k s1 c) s.
Proof.
  induction s as [|y s' IH]; intros fuel n Hf; destruct fuel as [|f];
    try (cbn in Hf; lia).
  - reflexivity.
  - cbn [rounds Re.may_repeat Re.rmatch Re.in_set existsb xorb Nat.leb longest_first].
    assert (Hlt : Nat.ltb (length s') (length (y :: s')) = true)
      by (apply Nat.ltb_lt; cbn; lia).
    rewrite Hlt. rewrite IH by (cbn in Hf; lia). reflexivity.
Qed.


Lemma lacks_cons (x y : N) (s : ustr) :
  lacks x (y :: s) -> (x =? y)%N = false /\ lacks x s.
Proof.
  unfold lacks, mem_char. cbn [existsb]. intros H.
  apply orb_false_iff in H. exact H.
Qed.

(** From a text without a closing brace, the repetition finds no place
    for the closing brace. *)
Lemma longest_first_without_closing (ucd : Unicode) (c : Re.caps)
  (k : ustr -> Re.caps -> option Re.caps) (s : ustr) :
  lacks 125%N s ->
  longest_first (fun s1 => Re.rmatch ucd (Re.Lit 125) s1 c k) s = None.
Proof.
  induction s as [|y s' IH]; intros H.
  - reflexivity.
  - destruct (lacks_cons H) as [Hy Hs]. cbn [longest_first].
    rewrite (IH Hs). cbn [Re.rmatch]. rewrite Hy. reflexivity.
Qed.

(** The closing brace the repetition settles on is the last one. *)
Lemma longest_first_last_closing (ucd : Unicode) (c : Re.caps)
  (k : ustr -> Re.caps -> option Re.caps) (t : ustr) (x : Re.caps) (b : ustr) :
  lacks 125%N t -> k t c = Some x ->
  longest_first (fun s1 => Re.rmatch ucd (Re.Lit 125) s1 c k) (b ++ 125%N :: t)%list = Some x.
Proof.
  intros Ht Hk. induction b as [|y b' IH].
  - cbn [app longest_first]. rewrite (longest_first_without_closing ucd c k Ht).
    cbn. exact Hk.
  - cbn [app longest_first]. rewrite IH. reflexivity.
Qed.

Lemma firstn_front (A : Type) (x t : list A) :
  firstn (length (x ++ t) - length t) (x ++ t) = x.
Proof.
  rewrite length_app.
  replace (length x + length t - length t)%nat with (length x + 0)%nat by lia.
  rewrite firstn_app_2. cbn. apply app_nil_r.
Qed.

(** One attempt of the pattern at the start of a text. *)
Lemma json_attempt (ucd : Unicode) (s : ustr) (k : ustr -> Re.caps -> option Re.caps) :
  Re.rmatch ucd (Re.Grp 0 json_pattern) s [] k =
  match s with
  | y :: s' =>
      if (123 =? y)%N then
        longest_first
          (fun s2 => Re.rmatch ucd (Re.Lit 125) s2 []
             (fun s1 c1 => k s1 ((0%nat, firstn (length s - length s1) s) :: c1))) s'
      else None
  | [] => None
  end.
Proof.
  destruct s as [|y s']; [reflexivity|].
  set (K := fun s2 c2 =>
              Re.rmatch ucd (Re.Lit 125) s2 c2
                (fun s1 c1 =>
                   k s1 ((0%nat, firstn (length (y :: s') - length s1) (y :: s')) :: c1))).
  transitivity (if (123 =? y)%N
                then rounds ucd (Re.Cls true []) 0 None true K
                       (S (length s' + 0 + 0)) 0 s' []
                else None); [reflexivity|].
  destruct (123 =? y)%N; [|reflexivity].
  apply (rounds_any ucd K [] s'). lia.
Qed.

Lemma json_match_at_brace (ucd : Unicode) (b t : ustr) :
  lacks 125%N t ->
  Re.rmatch ucd (Re.Grp 0 json_pattern) (123%N :: b ++ 125%N :: t)%list [] (fun _ c => Some c)
  = Some [(0%nat, (123%N :: b ++ [125%N])%list)].
Proof.
  intros Ht. rewrite json_attempt. cbn [N.eqb Pos.eqb].
  apply longest_first_last_closing; [exact Ht|].
  f_equal. f_equal. f_equal.
  change (123%N :: b ++ 125%N :: t)%list with ((123%N :: b) ++ 125%N :: t)%list.
  replace ((123%N :: b) ++ 125%N :: t)%list with (((123%N :: b) ++ [125%N]) ++ t)%list
    by (rewrite <- app_assoc; reflexivity).
  apply (firstn_front ((123%N :: b) ++ [125%N])%list t).
Qed.

Lemma json_no_match_without_closing (ucd : Unicode) (s : ustr)
  (k : ustr -> Re.caps -> option Re.caps) :
  lacks 125%N s ->
  Re.rmatch ucd (Re.Grp 0 json_pattern) s [] k = None.
Proof.
  intros Hs. rewrite json_attempt.
  destruct s as [|y s']; [reflexivity|].
  destruct (123 =? y)%N; [|reflexivity].
  apply longest_first_without_closing. exact (proj2 (lacks_cons Hs)).
Qed.

Lemma json_no_match_at_other (ucd : Unicode) (y : N) (s : ustr)
  (k : ustr -> Re.caps -> option Re.caps) :
  (123 =? y)%N = false ->
  Re.rmatch ucd (Re.Grp 0 json_pattern) (y :: s) [] k = None.
Proof.
  intros Hy. rewrite json_attempt. rewrite Hy. reflexivity.
Qed.

Lemma search_without_closing (ucd : Unicode) (s : ustr) :
  lacks 125%N s -> Re.search_from ucd json_pattern s = None.
Proof.
  induction s as [|y s' IH]; intros Hs; cbn [Re.search_from];
    rewrite (@json_no_match_without_closing ucd _ (fun _ c => Some c) Hs); [reflexivity|].
  exact (IH (proj2 (lacks_cons Hs))).
Qed.

Lemma search_skips_to_brace (ucd : Unicode) (a s : ustr) :
  lacks 123%N a ->
  Re.search_from ucd json_pattern (a ++ s)%list = Re.search_from ucd json_pattern s.
Proof.
  induction a as [|y a' IH]; intros Ha; [reflexivity|].
  destruct (lacks_cons Ha) as [Hy Ha'].
  cbn [app Re.search_from]. rewrite (@json_no_match_at_other ucd _ _ (fun _ c => Some c) Hy).
  exact (IH Ha').
Qed.

(** X22. The part of the model's answer that is read as JSON starts at
    the first opening brace and ends at the last closing brace of the
    answer, whatever lies between them. *)
Theorem json_portion_spans_first_to_last_brace (ucd : Unicode) (a b t : ustr) :
  lacks 123%N a -> lacks 125%N t ->
  json_portion ucd (a ++ 123%N :: b ++ 125%N :: t)%list = Some (123%N :: b ++ [125%N])%list.
Proof.
  intros Ha Ht. unfold json_portion.
  rewrite (search_skips_to_brace ucd _ Ha).
  cbn [Re.search_from]. rewrite (json_match_at_brace ucd b Ht). reflexivity.
Qed.

Lemma json_portion_spans_first_to_last_brace_witness :
  json_portion ascii_ucd (u "Result: {a}, {b}.") = Some (u "{a}, {b}").
Proof.
  refine (@json_portion_spans_first_to_last_brace ascii_ucd
            (u "Result: ") (u "a}, {b") (u ".") _ _); vm_compute; reflexivity.
Defined.

(** X23. [translate_to_actions] never raises an Exception: it returns
    the fallback dictionary of the instruction or a dictionary that
    [json.loads] read from the brace-delimited part of a generated
    answer, and only an exception that is no Exception leaves it. Without a
    loaded model it returns the fallback and the model runtime is not
    touched. *)
Theorem translation_never_raises_an_exception
  (W : Type) (ucd : Unicode) (pipeline : option (ustr -> Z -> M W ustr))
  (json_loads : ustr -> result ActionDict) (text : ustr) (w : W) :
  match fst (translate_to_actions ucd pipeline json_loads text w) with
  | Ok d =>
      d = _fallback_action_parsing ucd text \/
      exists run answer portion,
        pipeline = Some run /\
        fst (run (prompt_of text) 256%Z w) = Ok answer /\
        json_portion ucd (strip answer) = Some portion /\
        json_loads portion = Ok d
  | Raise e => is_Exception e = false
  end /\
  translate_to_actions ucd None json_loads text w =
    (Ok (_fallback_action_parsing ucd text), w).
Proof.
  split; [|reflexivity].
  unfold translate_to_actions, try_except, generate_text, mbind, raise, ret, lift.
  destruct pipeline as [run|]; [|left; reflexivity].
  destruct (run (prompt_of text) 256%Z w) as [[answer|e] w1] eqn:Hrun; cbn.
  - destruct (json_portion ucd (strip answer)) as [portion|] eqn:Hp; cbn.
    + destruct (json_loads portion) as [d|e] eqn:Hj; cbn.
      * right. exists run, answer, portion. rewrite Hrun. repeat split; assumption.
      * destruct (is_Exception e) eqn:He; cbn; [left; reflexivity|exact He].
    + left. reflexivity.
  - destruct (is_Exception e) eqn:He; cbn; [left; reflexivity|exact He].
Qed.

(** X24. When the generated answer, stripped of surrounding white
    space, has no opening brace that is followed by a closing brace,
    [json.loads] is not consulted and the result is the fallback
    dictionary of the instruction. *)
Theorem answer_without_an_object_gives_the_fallback
  (W : Type) (ucd : Unicode) (run : ustr -> Z -> M W ustr)
  (json_loads : ustr -> result ActionDict) (text answer a b : ustr) (w w1 : W) :
  run (prompt_of text) 256%Z w = (Ok answer, w1) ->
  strip answer = (a ++ b)%list -> lacks 123%N a -> lacks 125%N b ->
  translate_to_actions ucd (Some run) json_loads text w =
    (Ok (_fallback_action_parsing ucd text), w1).
Proof.
  intros Hrun Hs Ha Hb.
  unfold translate_to_actions, try_except, generate_text, mbind, raise, ret, lift.
  rewrite Hrun. cbn. rewrite Hs. unfold json_portion.
  rewrite (search_skips_to_brace ucd _ Ha), (search_without_closing ucd Hb).
  reflexivity.
Qed.

Lemma answer_without_an_object_gives_the_fallback_witness :
  translate_to_actions ascii_ucd
    (Some (fun _ _ (w : nat) => (Ok (u " } click the button { "), S w)))
    (fun _ => Ok []) (u "Press Enter") 0%nat =
  (Ok [(u "action_type", AStr (u "click")); (u "selector", AStr (u "button"))], 1%nat).
Proof.
  refine (@answer_without_an_object_gives_the_fallback nat ascii_ucd
            (fun _ _ (w : nat) => (Ok (u " } click the button { "), S w))
            (fun _ => Ok []) (u "Press Enter") (u " } click the button { ")
            (u "} click the button ") (u "{") 0%nat 1%nat _ _ _ _);
    vm_compute; reflexivity.
Defined.

Import BrowserManager BrowserNotions.

(** X25. What the fallback dictionary of an instruction does on a
    started manager, by the first group of words found in the
    lower-cased instruction: a click on the selector [button], once the
    line that announces it is printed; the empty text filled into the
    selector [input], once its line is printed; a wait of 3000; a
    navigation to the empty address, which prints the address, goes to
    it, waits for the network and prints the title of the page, under
    the handler that prints the exception and raises it again; and for an
    instruction with none of the words nothing at all, [execute_action]
    returning [None]. *)
Theorem fallback_actions_on_the_engine
  (W : Type) (ucd : Unicode) (eng : Engine W) (text : ustr) (s : State W) (p : page) :
  page_field (mgr s) = Some p ->
  execute_action eng (_fallback_action_parsing ucd text) s =
    let text_lower := uc_lower ucd text in
    let done (m : M (State W) unit) := mbind m (fun _ => ret ANone) in
    if has "click" text_lower || has "press" text_lower || has "tap" text_lower then
      done (mbind (print eng (click_line (u "button")))
              (fun _ => on_world (click eng p (AStr (u "button"))))) s
    else if has "type" text_lower || has "input" text_lower || has "enter" text_lower then
      done (mbind (print eng (type_line [] (u "input")))
              (fun _ => on_world (fill eng p (AStr (u "input")) (AStr [])))) s
    else if has "wait" text_lower || has "pause" text_lower then
      done (on_world (wait_for_timeout eng p (AInt 3000))) s
    else if has "navigate" text_lower || has "go to" text_lower || has "open" text_lower then
      done (reported eng navigation_failed_line
              (mbind (mbind (print eng (navigating_line []))
                        (fun _ => mbind (on_world (goto eng p (AStr [])))
                           (fun _ => on_world (wait_for_load_state eng p (u "networkidle")))))
                 (fun _ => mbind (on_world (title eng p))
                    (fun title => print eng (title_line title))))) s
    else (Ok ANone, s).
Proof.
  intros Hp. unfold _fallback_action_parsing. cbv zeta.
  destruct (has "click" _ || has "press" _ || has "tap" _);
    [unfold execute_action; rewrite Hp; reflexivity|].
  destruct (has "type" _ || has "input" _ || has "enter" _);
    [unfold execute_action; rewrite Hp; reflexivity|].
  destruct (has "wait" _ || has "pause" _);
    [unfold execute_action; rewrite Hp; reflexivity|].
  destruct (has "navigate" _ || has "go to" _ || has "open" _).
  - unfold execute_action. rewrite Hp.
    change (get _ (u "action_type")) with (Some (AStr (u "navigate"))).
    change (type_is (Some (AStr (u "navigate"))) "click") with false.
    change (type_is (Some (AStr (u "navigate"))) "type") with false.
    change (type_is (Some (AStr (u "navigate"))) "wait") with false.
    change (type_is (Some (AStr (u "navigate"))) "navigate") with true.
    cbv iota. unfold navigate, mbind at 1. rewrite Hp.
    change (get_or _ "url" (AStr [])) with (AStr []).
    change (is_text (AStr []) "back") with false. cbv iota.
    reflexivity.
  - unfold execute_action; rewrite Hp; reflexivity.
Qed.

Lemma fallback_actions_on_the_engine_witness :
  execute_action recording_engine (_fallback_action_parsing ascii_ucd (u "Please pause"))
    (snd (start recording_engine (fresh Config.default_PlaywrightConfig))) =
  (Ok ANone,
   {| mgr := mgr (snd (start recording_engine (fresh Config.default_PlaywrightConfig)));
      world := [u "wait_for_timeout"; u "set_default_timeout"; u "new_page";
                u "new_context"; u "launch"; u "start"] |}).
Proof.
  refine (eq_trans
            (@fallback_actions_on_the_engine _ ascii_ucd recording_engine (u "Please pause")
               (snd (start recording_engine (fresh Config.default_PlaywrightConfig)))
               3%nat _) _);
    vm_compute; reflexivity.
Defined.

(* ================================================================== *)
(** * The mock translator *)
(* ================================================================== *)

Import MockNotions.

Lemma search_of_compiled (ucd : Unicode) (pattern s : ustr) :
  compiles pattern = true -> exists m, Re.search ucd pattern s = Ok m.
Proof.
  unfold compiles, Re.search. destruct (Re.compile pattern) as [[r g]|e]; [|discriminate].
  intros _. eexists. reflexivity.
Qed.

Ltac found_by_search ucd s :=
  match goal with
  | |- context [Re.search ucd ?p s] =>
      let m := fresh "m" in
      let Hm := fresh "Hm" in
      let Hc := fresh "Hc" in
      assert (Hc : compiles p = true) by (vm_compute; reflexivity);
      destruct (@search_of_compiled ucd p s Hc) as [m Hm]; rewrite Hm; clear Hm Hc;
      cbn [bind]
  end.

(** ** What the number group of the wait pattern holds *)

Import ReNotions.

(** An expression without groups hands the captures it was given to
    its continuation. *)
Lemma rounds_groupless (ucd : Unicode) (r1 : Re.regex) (lo : nat) (hi : option nat)
  (greedy : bool) (k : ustr -> Re.caps -> option Re.caps) :
  (forall s c k' x', Re.rmatch ucd r1 s c k' = Some x' -> exists s1, k' s1 c = Some x') ->
  forall fuel n s c x,
    rounds ucd r1 lo hi greedy k fuel n s c = Some x -> exists s1, k s1 c = Some x.
Proof.
  intros IH. induction fuel as [|f IHf]; intros n s c x H; [discriminate|].
  cbn [rounds] in H. cbv zeta in H.
  assert (Hmore : forall y,
            (if Re.may_repeat n hi
             then Re.rmatch ucd r1 s c
                    (fun s1 c1 =>
                       match hi with
                       | None => if Nat.ltb (length s1) (length s)
                                 then rounds ucd r1 lo hi greedy k f (S n) s1 c1
                                 else None
                       | Some _ => rounds ucd r1 lo hi greedy k f (S n) s1 c1
                       end)
             else None) = Some y -> exists s1, k s1 c = Some y).
  { intros y Hy. destruct (Re.may_repeat n hi); [|discriminate].
    apply IH in Hy. destruct Hy as [s1 Hs1]. cbv beta in Hs1.
    destruct hi as [h|].
    - exact (IHf _ _ _ _ Hs1).
    - destruct (Nat.ltb (length s1) (length s)); [|discriminate].
      exact (IHf _ _ _ _ Hs1). }
  assert (Hstop : forall y, (if Nat.leb lo n then k s c else None) = Some y ->
                            exists s1, k s1 c = Some y).
  { intros y Hy. destruct (Nat.leb lo n); [|discriminate]. exists s. exact Hy. }
  pose proof (Hmore x) as Hmx. pose proof (Hstop x) as Hsx. clear Hmore Hstop.
  destruct greedy.
  - match type of H with
    | match ?m with _ => _ end = _ => destruct m as [y|]
    end; [exact (Hmx H)|exact (Hsx H)].
  - match type of H with
    | match ?m with _ => _ end = _ => destruct m as [y|]
    end; [exact (Hsx H)|exact (Hmx H)].
Qed.

Lemma groupless_keeps_captures (ucd : Unicode) (r : Re.regex) :
  groupless r = true ->
  forall s c k x, Re.rmatch ucd r s c k = Some x -> exists s1, k s1 c = Some x.
Proof.
  induction r as [|a| |neg its|r1 IH1 r2 IH2|r1 IH1 r2 IH2|i r1 IH1|r1 IH1 lo hi greedy];
    intros Hg s c k x H; cbn [groupless] in Hg.
  - exists s. exact H.
  - cbn [Re.rmatch] in H. destruct s as [|y s']; [discriminate|].
    destruct (a =? y)%N; [|discriminate]. exists s'. exact H.
  - cbn [Re.rmatch] in H. destruct s as [|y s']; [discriminate|].
    destruct (y =? 10)%N; [discriminate|]. exists s'. exact H.
  - cbn [Re.rmatch] in H. destruct s as [|y s']; [discriminate|].
    destruct (xorb neg (Re.in_set ucd y its)); [|discriminate]. exists s'. exact H.
  - apply andb_true_iff in Hg. destruct Hg as [H1 H2].
    cbn [Re.rmatch] in H. apply (IH1 H1) in H. destruct H as [s1 H].
    exact (IH2 H2 _ _ _ _ H).
  - apply andb_true_iff in Hg. destruct Hg as [H1 H2].
    cbn [Re.rmatch] in H.
    destruct (Re.rmatch ucd r1 s c k) as [y|] eqn:Hm.
    + inversion H. subst y. exact (IH1 H1 _ _ _ _ Hm).
    + exact (IH2 H2 _ _ _ _ H).
  - discriminate.
  - rewrite rmatch_rep in H.
    exact (@rounds_groupless ucd r1 lo hi greedy k (IH1 Hg) _ _ _ _ _ H).
Qed.

Lemma digit_in_set (ucd : Unicode) (y : N) :
  Re.in_set ucd y [Re.CDigit] = is_digit ucd y.
Proof.
  unfold Re.in_set, is_digit. cbn [existsb Re.in_item].
  destruct (uc_decimal ucd y); reflexivity.
Qed.

(** The rounds of [\d+] consume digits, and at least one in all. *)
Lemma rounds_digits (ucd : Unicode) (k : ustr -> Re.caps -> option Re.caps) :
  forall fuel n s c x,
    rounds ucd (Re.Cls false [Re.CDigit]) 1 None true k fuel n s c = Some x ->
    exists d s1, s = (d ++ s1)%list /\ forallb (is_digit ucd) d = true
                 /\ (1 <= n + length d)%nat /\ k s1 c = Some x.
Proof.
  induction fuel as [|f IHf]; intros n s c x H; [discriminate|].
  cbn [rounds Re.may_repeat Re.rmatch] in H. cbv zeta in H.
  assert (Hstop : (if Nat.leb 1 n then k s c else None) = Some x ->
                  exists d s1, s = (d ++ s1)%list /\ forallb (is_digit ucd) d = true
                               /\ (1 <= n + length d)%nat /\ k s1 c = Some x).
  { intro Hy. destruct (Nat.leb 1 n) eqn:Hn; [|discriminate].
    apply Nat.leb_le in Hn. exists [], s. cbn. repeat split; [lia|exact Hy]. }
  destruct s as [|y s']; [exact (Hstop H)|].
  rewrite digit_in_set in H. cbn [xorb] in H.
  destruct (is_digit ucd y) eqn:Hy; [|exact (Hstop H)].
  destruct (Nat.ltb (length s') (length (y :: s'))); [|exact (Hstop H)].
  destruct (rounds ucd (Re.Cls false [Re.CDigit]) 1 None true k f (S n) s' c)
    as [z|] eqn:Hr; [|exact (Hstop H)].
  inversion H. subst z.
  destruct (IHf _ _ _ _ Hr) as (d & s1 & Hs & Hd & Hlen & Hk).
  exists (y :: d), s1. cbn [app forallb length]. rewrite Hs, Hy, Hd.
  repeat split; [lia|exact Hk].
Qed.

Lemma wait_number_match (ucd : Unicode) (s : ustr) (c : Re.caps)
  (k : ustr -> Re.caps -> option Re.caps) (x : Re.caps) :
  Re.rmatch ucd wait_number s c k = Some x ->
  exists d s1, s = (d ++ s1)%list /\ forallb (is_digit ucd) d = true
               /\ d <> [] /\ k s1 c = Some x.
Proof.
  unfold wait_number. intro H.
  change (Re.rmatch ucd (Re.Rep (Re.Cls false [Re.CDigit]) 1 None true) s c
            (fun s1 c1 => k s1 c1) = Some x) in H.
  rewrite rmatch_rep in H.
  destruct (@rounds_digits ucd _ _ _ _ _ _ H) as (d & s1 & Hs & Hd & Hlen & Hk).
  exists d, s1. repeat split; try assumption.
  intro Hnil. subst d. cbn in Hlen. lia.
Qed.

Lemma wait_attempt (ucd : Unicode) (s : ustr) (x : Re.caps) :
  Re.rmatch ucd (Re.Grp 0 wait_pattern) s [] (fun _ c => Some c) = Some x ->
  exists d post, Re.lookup_cap 1 x = Some d /\ forallb (is_digit ucd) d = true /\ d <> []
                 /\ s = (d ++ post)%list.
Proof.
  unfold wait_pattern. cbn [Re.rmatch]. intro H.
  apply wait_number_match in H. destruct H as (d & s1 & Hs & Hd & Hne & H).
  apply (@groupless_keeps_captures ucd wait_unit eq_refl) in H.
  destruct H as [s2 H]. inversion H. subst x.
  exists d, s1. cbn [Re.lookup_cap Nat.eqb]. split; [|repeat split; assumption].
  f_equal. subst s. apply firstn_front.
Qed.

Lemma wait_search_captures (ucd : Unicode) (s : ustr) (x : Re.caps) :
  Re.search_from ucd wait_pattern s = Some x ->
  exists d pre post,
    Re.lookup_cap 1 x = Some d /\ forallb (is_digit ucd) d = true /\ d <> []
    /\ s = (pre ++ d ++ post)%list.
Proof.
  induction s as [|y s' IH]; cbn [Re.search_from]; intro H.
  - destruct (Re.rmatch ucd (Re.Grp 0 wait_pattern) [] [] (fun _ c => Some c))
      as [z|] eqn:Hm; [|discriminate].
    inversion H. subst z.
    destruct (@wait_attempt ucd _ _ Hm) as (d & post & Hc & Hd & Hne & Hs).
    exists d, [], post. repeat split; assumption.
  - destruct (Re.rmatch ucd (Re.Grp 0 wait_pattern) (y :: s') [] (fun _ c => Some c))
      as [z|] eqn:Hm.
    + inversion H. subst z.
      destruct (@wait_attempt ucd _ _ Hm) as (d & post & Hc & Hd & Hne & Hs).
      exists d, [], post. repeat split; assumption.
    + destruct (IH H) as (d & pre & post & Hc & Hd & Hne & Hs).
      exists d, (y :: pre), post. rewrite Hs. repeat split; assumption.
Qed.

Lemma digits_have_a_value (ucd : Unicode) (d : ustr) :
  forallb (is_digit ucd) d = true ->
  forall acc, exists z, digits_value (uc_decimal ucd) acc d = Some z.
Proof.
  induction d as [|y d IH]; intros H acc; [exists acc; reflexivity|].
  cbn [forallb] in H. apply andb_true_iff in H. destruct H as [Hy Hd].
  cbn [digits_value]. unfold is_digit in Hy.
  destruct (uc_decimal ucd y) as [v|]; [|discriminate]. apply IH. exact Hd.
Qed.

Lemma wait_search (ucd : Unicode) (s : ustr) :
  Re.search ucd (u "(\d+)\s*(?:秒|seconds?)") s =
  Ok (option_map (Re.match_of 1) (Re.search_from ucd wait_pattern s)).
Proof.
  unfold Re.search.
  assert (Hc : Re.compile (u "(\d+)\s*(?:秒|seconds?)") = Ok (wait_pattern, 1%nat))
    by (vm_compute; reflexivity).
  rewrite Hc. reflexivity.
Qed.

(** X26. The mock translator returns only actions of the five types
    navigate, click, type, wait and screenshot, never a selection. It
    raises in two places only. In the selection branch, with the
    UnboundLocalError for the name [re]. And in the wait branch, where the
    number it converts is a run of digits of the instruction: the
    conversion fails for a run of more than 4300 digits, with the
    ValueError of the limit on the digits of an integer, and for no other
    number. *)
Theorem mock_translator_gives_five_action_types (ucd : Unicode) (natural_language : ustr) :
  match MockLLM.translate_to_actions ucd natural_language with
  | Ok a => is_one_of mock_action_types (action_type a) = true
  | Raise e =>
      (MockLLM.selection_keyword ucd natural_language = true /\
       MockLLM.earlier_keyword ucd natural_language = false /\
       exn_cls e = UnboundLocalError)
      \/ (exists d pre post,
            natural_language = (pre ++ d ++ post)%list /\
            forallb (is_digit ucd) d = true /\
            (int_max_str_digits < N.of_nat (length d))%N /\
            e = digit_limit_error (length d))
  end.
Proof.
  unfold MockLLM.translate_to_actions. cbv zeta.
  destruct (MockLLM.kw "移動" natural_language || _ || _) eqn:Hnav.
  { unfold MockLLM.re_search. found_by_search ucd natural_language. reflexivity. }
  destruct (MockLLM.kw "クリック" natural_language || _ || _) eqn:Hclick.
  { repeat match goal with
           | |- context [if ?b then _ else _] => destruct b
           end; try reflexivity.
    unfold MockLLM.re_search. found_by_search ucd natural_language.
    destruct m; reflexivity. }
  destruct (MockLLM.kw "入力" natural_language || _) eqn:Htype.
  { unfold MockLLM.re_search. found_by_search ucd natural_language. reflexivity. }
  destruct (MockLLM.kw "待つ" natural_language || _) eqn:Hwait.
  { unfold MockLLM.re_search. rewrite wait_search. cbn [bind].
    destruct (Re.search_from ucd wait_pattern natural_language) as [x|] eqn:Hs;
      cbn [option_map]; [|reflexivity].
    destruct (@wait_search_captures ucd _ _ Hs)
      as (d & pre & post & Hd & Hdigits & Hne & Hnl).
    change (MockLLM.group (Re.match_of 1 x) 1) with (Re.lookup_cap 1 x).
    rewrite Hd. destruct (@digits_have_a_value ucd d Hdigits 0%Z) as [z Hz].
    destruct d as [|d0 d']; [exfalso; apply Hne; reflexivity|].
    unfold int_of_digits. cbv beta iota. rewrite Hz.
    destruct (int_max_str_digits <? N.of_nat (length (d0 :: d')))%N eqn:Hlimit;
      [|reflexivity].
    cbn [bind]. right. exists (d0 :: d'), pre, post.
    repeat split; try assumption. apply N.ltb_lt. exact Hlimit. }
  destruct (MockLLM.kw "スクリーンショット" natural_language || _) eqn:Hshot; [reflexivity|].
  destruct (MockLLM.kw "確認" natural_language || _ || _) eqn:Hcheck; [reflexivity|].
  destruct (MockLLM.kw "戻る" natural_language || _) eqn:Hback; [reflexivity|].
  destruct (MockLLM.kw "選択" natural_language || _) eqn:Hsel; [|reflexivity].
  cbn [MockLLM.re_search bind]. left.
  unfold MockLLM.selection_keyword, MockLLM.earlier_keyword. cbv zeta.
  rewrite Hsel, Hnav. cbn [orb]. rewrite Hclick. cbn [orb]. rewrite Htype. cbn [orb].
  rewrite Hwait. cbn [orb]. rewrite Hshot. cbn [orb]. rewrite Hcheck. cbn [orb].
  rewrite Hback. repeat split; reflexivity.
Qed.

(** A wait of a number of 4301 digits is refused by the conversion. *)
Lemma wait_of_too_many_digits_raises :
  MockLLM.translate_to_actions ascii_ucd
    (u "wait " ++ repeat 57%N 4301 ++ u " seconds")%list
  = Raise (Exn ValueError
             (u ("Exceeds the limit (4300 digits) for integer string conversion: "
                 ++ "value has 4301 digits; use sys.set_int_max_str_digits() "
                 ++ "to increase the limit"))).
Proof. vm_compute. reflexivity. Qed.

(* ================================================================== *)
(** * The batch of the Optimized Runner *)
(* ================================================================== *)

Import OptimizedNotions.

Lemma optimized_files_loop_outcome (W : Type) (env : OptimizedBatch.Env W)
  (paths : list ustr) :
  forall (acc : list RobustRunner.FileResult) (s : RobustRunner.State W),
    match fst (OptimizedBatch.files_loop env paths acc s) with
    | Ok l =>
        length l = (length acc + length paths)%nat
        /\ forall r, In (RobustRunner.FileSuite r) l ->
             In (RobustRunner.FileSuite r) acc
             \/ exists p s', In p paths
                  /\ fst (OptimizedBatch._run_single_test_optimized env p s') = Ok r
    | Raise e => is_Exception e = false
    end.
Proof.
  induction paths as [|p rest IH]; intros acc s.
  - cbn. split; [lia | intros r Hr; left; exact Hr].
  - cbn [OptimizedBatch.files_loop].
    destruct (OptimizedBatch._run_single_test_optimized env p s) as [[r|e] s1] eqn:Hrun.
    + specialize (IH (acc ++ [RobustRunner.FileSuite r])%list s1).
      destruct (fst (OptimizedBatch.files_loop env rest _ s1)); [|exact IH].
      destruct IH as (Hlen & Hin). split.
      * rewrite Hlen, length_app. cbn. lia.
      * intros r0 Hr0. destruct (Hin r0 Hr0) as [Hacc|(p' & s' & Hp' & Hrun')].
        -- apply in_app_or in Hacc. destruct Hacc as [Hacc|[Heq|[]]]; [left; exact Hacc|].
           injection Heq as <-. right. exists p, s.
           split; [left; reflexivity | rewrite Hrun; reflexivity].
        -- right. exists p', s'. split; [right; exact Hp' | exact Hrun'].
    + destruct (is_Exception e) eqn:He; [|exact He].
      specialize (IH (acc ++ [RobustRunner.FileError p (str_of_exn e)])%list s1).
      destruct (fst (OptimizedBatch.files_loop env rest _ s1)); [|exact IH].
      destruct IH as (Hlen & Hin). split.
      * rewrite Hlen, length_app. cbn. lia.
      * intros r0 Hr0. destruct (Hin r0 Hr0) as [Hacc|(p' & s' & Hp' & Hrun')].
        -- apply in_app_or in Hacc. destruct Hacc as [Hacc|[Heq|[]]]; [left; exact Hacc|].
           discriminate Heq.
        -- right. exists p', s'. split; [right; exact Hp' | exact Hrun'].
Qed.

(** The summary table: it is printed, or the name of a suite in it raises
    the markup error. *)
Lemma optimized_display_outcome W (env : OptimizedBatch.Env W)
  (l : list RobustRunner.FileResult) (s : RobustRunner.State W) :
  match fst (OptimizedBatch._display_batch_summary env l s) with
  | Ok _ => True
  | Raise e =>
      exists r, In (RobustRunner.FileSuite r) l
                /\ console_print (OptimizedBatch.console env) (test_name r) = Raise e
  end.
Proof.
  induction l as [|[r|name err] l IH]; [exact I | |].
  - cbn [OptimizedBatch._display_batch_summary]. unfold mbind, OptimizedBatch.print, lift.
    destruct (console_print (OptimizedBatch.console env) (test_name r)) as [x|e] eqn:Hp.
    + destruct (fst (OptimizedBatch._display_batch_summary env l s)) as [y|e]; [exact I|].
      destruct IH as (r0 & Hin & Hp0). exists r0. split; [right; exact Hin | exact Hp0].
    + exists r. split; [left; reflexivity | exact Hp].
  - cbn [OptimizedBatch._display_batch_summary].
    destruct (fst (OptimizedBatch._display_batch_summary env l s)) as [y|e]; [exact I|].
    destruct IH as (r0 & Hin & Hp0). exists r0. split; [right; exact Hin | exact Hp0].
Qed.

(** The table of a batch of error dictionaries is printed: the names in
    it are file names. *)
Lemma optimized_display_file_errors W (env : OptimizedBatch.Env W)
  (l : list RobustRunner.FileResult) (s : RobustRunner.State W) :
  forallb Cli.is_file_error l = true ->
  OptimizedBatch._display_batch_summary env l s = (Ok tt, s).
Proof.
  induction l as [|[r|name err] l IH]; [reflexivity | discriminate |].
  cbn [forallb Cli.is_file_error andb OptimizedBatch._display_batch_summary]. exact IH.
Qed.

Lemma optimized_batch_close_raises (W : Type) (env : OptimizedBatch.Env W)
  (paths : list ustr) (s s1 s2 : RobustRunner.State W) (p0 : RobustRunner.page) (e : exn) :
  paths <> [] ->
  RobustRunner.on_world (OptimizedBatch.load_model env) s = (Ok tt, s1) ->
  RobustRunner.on_world (OptimizedBatch.start_browser env) s1 = (Ok p0, s2) ->
  close_raises env e ->
  fst (OptimizedBatch.run_test_files_batch env paths s) = Raise e.
Proof.
  intros Hne Hload Hstart Hclose.
  destruct paths as [|p rest]; [exfalso; apply Hne; reflexivity|].
  unfold OptimizedBatch.run_test_files_batch, mbind. rewrite Hload, Hstart.
  destruct (OptimizedBatch.files_loop env (p :: rest) []
              (RobustRunner.set_page (Some p0) s2)) as [r s3].
  unfold RobustRunner.on_world. specialize (Hclose (RobustRunner.world s3)).
  destruct (OptimizedBatch.close_browser env (RobustRunner.world s3)) as [[x|e'] w4];
    cbn [fst] in Hclose; [discriminate|].
  inversion Hclose. reflexivity.
Qed.

(** X27. A batch of the Optimized Runner with no file returns the empty
    list and touches nothing. Once the model is loaded and the browser
    started, a batch that returns gives one result per file, a file that
    raised an [Exception] being an error dictionary. An [Exception]
    leaves the batch in two ways only: unlike in the Robust Runner, an
    exception of the final close of the browser leaves the batch, also
    when it is an [Exception]; and after the close, the summary table
    raises the markup error of the name of a suite that one of the files
    returned. *)
Theorem optimized_batch_gives_one_result_per_file
  (W : Type) (env : OptimizedBatch.Env W) (paths : list ustr)
  (s s1 s2 : RobustRunner.State W) (p0 : RobustRunner.page) :
  RobustRunner.on_world (OptimizedBatch.load_model env) s = (Ok tt, s1) ->
  RobustRunner.on_world (OptimizedBatch.start_browser env) s1 = (Ok p0, s2) ->
  OptimizedBatch.run_test_files_batch env [] s = (Ok [], s)
  /\ match fst (OptimizedBatch.run_test_files_batch env paths s) with
     | Ok l => length l = length paths
     | Raise e =>
         is_Exception e = false
         \/ (exists w, fst (OptimizedBatch.close_browser env w) = Raise e)
         \/ (exists r p s',
               In p paths
               /\ fst (OptimizedBatch._run_single_test_optimized env p s') = Ok r
               /\ console_print (OptimizedBatch.console env) (test_name r) = Raise e)
     end.
Proof.
  intros Hload Hstart. split; [reflexivity|].
  destruct paths as [|p rest]; [reflexivity|].
  unfold OptimizedBatch.run_test_files_batch, mbind. rewrite Hload, Hstart.
  pose proof (optimized_files_loop_outcome env (p :: rest) []
                (RobustRunner.set_page (Some p0) s2)) as H.
  destruct (OptimizedBatch.files_loop env (p :: rest) []
              (RobustRunner.set_page (Some p0) s2)) as [r s3].
  cbn [fst] in H. unfold RobustRunner.on_world.
  destruct (OptimizedBatch.close_browser env (RobustRunner.world s3)) as [[x|e] w4] eqn:Hc.
  - destruct r as [l|e]; [|left; exact H].
    destruct H as (Hlen & Hin).
    pose proof (optimized_display_outcome env l
                  {| RobustRunner.bm_page := RobustRunner.bm_page s3;
                     RobustRunner.world := w4 |}) as Hd.
    destruct (OptimizedBatch._display_batch_summary env l _) as [[y|e] s5]; cbn [fst] in *.
    + exact Hlen.
    + destruct Hd as (r0 & Hr0 & Hp0). right. right.
      destruct (Hin r0 Hr0) as [[]|(p' & s' & Hp' & Hrun)].
      exists r0, p', s'. repeat split; assumption.
  - cbn [fst]. right. left. exists (RobustRunner.world s3). rewrite Hc. reflexivity.
Qed.

Lemma optimized_batch_gives_one_result_per_file_witness :
  match fst (OptimizedBatch.run_test_files_batch
               (sample_optimized_env ascii_ucd sample_files (Ok tt))
               [u "empty.yaml"; u "one.yaml"; u "missing.yaml"]
               {| RobustRunner.bm_page := None; RobustRunner.world := fresh_browser |}) with
  | Ok l => length l = length [u "empty.yaml"; u "one.yaml"; u "missing.yaml"]
  | Raise e =>
      is_Exception e = false
      \/ (exists w,
            fst (OptimizedBatch.close_browser
                   (sample_optimized_env ascii_ucd sample_files (Ok tt)) w) = Raise e)
      \/ (exists r p s',
            In p [u "empty.yaml"; u "one.yaml"; u "missing.yaml"]
            /\ fst (OptimizedBatch._run_single_test_optimized
                      (sample_optimized_env ascii_ucd sample_files (Ok tt)) p s') = Ok r
            /\ console_print
                 (OptimizedBatch.console (sample_optimized_env ascii_ucd sample_files (Ok tt)))
                 (test_name r) = Raise e)
  end.
Proof.
  pose proof (@optimized_batch_gives_one_result_per_file Browser
                (sample_optimized_env ascii_ucd sample_files (Ok tt))
                [u "empty.yaml"; u "one.yaml"; u "missing.yaml"]
                {| RobustRunner.bm_page := None; RobustRunner.world := fresh_browser |}
                {| RobustRunner.bm_page := None; RobustRunner.world := fresh_browser |}
                {| RobustRunner.bm_page := None;
                   RobustRunner.world := {| opened := 1; closed := [] |} |}
                0%nat) as H.
  destruct (H eq_refl eq_refl) as [_ H2]. exact H2.
Defined.

(** A suite whose name holds a closing tag that closes nothing: its file
    runs and its lines are printed, the name standing between the tags
    of the line, and the summary table, where the name stands alone,
    raises the markup error after the browser session is closed. *)
Lemma optimized_suite_name_with_closing_tag_ends_batch :
  option_map test_name
    (match fst (OptimizedBatch._run_single_test_optimized
                  (sample_optimized_env ascii_ucd tagged_file (Ok tt))
                  (u "tagged.yaml") started_session) with
     | Ok r => Some r
     | Raise _ => None
     end)
  = Some (u "[/green][green]")
  /\ fst (OptimizedBatch.run_test_files_batch
            (sample_optimized_env ascii_ucd tagged_file (Ok tt))
            [u "tagged.yaml"]
            {| RobustRunner.bm_page := None; RobustRunner.world := fresh_browser |})
     = Raise (Exn MarkupError
                (u "closing tag '[/green]' at position 0 doesn't match any open tag")).
Proof. split; vm_compute; reflexivity. Qed.

Lemma main_after_raise (W : Type) (runners : Main.Runners W) (o : Main.Options) (w : W)
  (e : exn) :
  fst (Main.run_tests runners o w) = Raise e ->
  fst (Main.main runners o w) =
    match exn_cls e with KeyboardInterrupt => 0%Z | _ => 1%Z end.
Proof.
  unfold Main.main. destruct (Main.run_tests runners o w) as [[b|e'] w']; cbn [fst];
    intros H; [discriminate|].
  inversion H. subst e'. destruct (exn_cls e); reflexivity.
Qed.

Lemma optimized_paths (paths : list ustr) :
  Main.test_file_paths (optimized_mode paths) = paths.
Proof. unfold Main.test_file_paths, optimized_mode. cbn. apply app_nil_r. Qed.

(** X28. In optimized mode, the default of the command line, the exit
    code is 1 whenever the close of the browser session raises an
    exception other than a keyboard interrupt, whatever the results of
    the test files were. *)
Theorem optimized_mode_exits_one_when_close_raises
  (W : Type) (env : OptimizedBatch.Env W) (others : Main.Runners (RobustRunner.State W))
  (paths : list ustr) (s s1 s2 : RobustRunner.State W) (p0 : RobustRunner.page) (e : exn) :
  paths <> [] ->
  RobustRunner.on_world (OptimizedBatch.load_model env) s = (Ok tt, s1) ->
  RobustRunner.on_world (OptimizedBatch.start_browser env) s1 = (Ok p0, s2) ->
  close_raises env e ->
  exn_cls e <> KeyboardInterrupt ->
  fst (Main.main (with_optimized_runner env others) (optimized_mode paths) s) = 1%Z.
Proof.
  intros Hne Hload Hstart Hclose Hcls.
  rewrite (@main_after_raise _ _ _ _ e).
  - destruct (exn_cls e); try reflexivity. exfalso. apply Hcls. reflexivity.
  - unfold Main.run_tests. rewrite optimized_paths. cbn [optimized_mode Main.robust Main.optimized].
    destruct paths as [|p [|q rest]]; [exfalso; apply Hne; reflexivity| |].
    + unfold Main.first_of, mbind. cbn [with_optimized_runner Main.optimized_batch].
      pose proof (@optimized_batch_close_raises _ env [p] s s1 s2 p0 e Hne Hload Hstart Hclose)
        as Hb.
      destruct (OptimizedBatch.run_test_files_batch env [p] s) as [[l|e'] s'];
        cbn [fst] in *; [discriminate|inversion Hb; reflexivity].
    + unfold mbind. cbn [with_optimized_runner Main.optimized_batch].
      pose proof (@optimized_batch_close_raises _ env (p :: q :: rest) s s1 s2 p0 e
                    Hne Hload Hstart Hclose) as Hb.
      destruct (OptimizedBatch.run_test_files_batch env (p :: q :: rest) s) as [[l|e'] s'];
        cbn [fst] in *; [discriminate|inversion Hb; reflexivity].
Qed.

Lemma optimized_mode_exits_one_when_close_raises_witness :
  fst (Main.main
         (with_optimized_runner
            (sample_optimized_env ascii_ucd sample_files (Raise Samples.target_closed))
            (idle_runners _))
         (optimized_mode [u "one.yaml"])
         {| RobustRunner.bm_page := None; RobustRunner.world := fresh_browser |}) = 1%Z.
Proof.
  refine (@optimized_mode_exits_one_when_close_raises _
            (sample_optimized_env ascii_ucd sample_files (Raise Samples.target_closed))
            (idle_runners _) [u "one.yaml"]
            {| RobustRunner.bm_page := None; RobustRunner.world := fresh_browser |}
            _ _ _ Samples.target_closed _ eq_refl eq_refl _ _).
  - discriminate.
  - intro w. reflexivity.
  - vm_compute. discriminate.
Defined.

Lemma optimized_files_loop_all_raise (W : Type) (env : OptimizedBatch.Env W)
  (paths : list ustr) (acc : list RobustRunner.FileResult) (s : RobustRunner.State W) :
  Forall (file_raises env) paths ->
  exists l s', OptimizedBatch.files_loop env paths acc s = (Ok (acc ++ l)%list, s')
               /\ forallb Cli.is_file_error l = true
               /\ length l = length paths.
Proof.
  intro H. revert acc s. induction H as [|p rest Hp Hrest IH]; intros acc s.
  - exists [], s. cbn. rewrite app_nil_r. repeat split.
  - cbn [OptimizedBatch.files_loop].
    destruct (Hp s) as (e & Hr & He).
    destruct (OptimizedBatch._run_single_test_optimized env p s) as [[r|e'] s1];
      cbn [fst] in Hr; [discriminate|].
    inversion Hr. subst e'. rewrite He.
    destruct (IH (acc ++ [RobustRunner.FileError p (str_of_exn e)])%list s1)
      as (l & s' & Hl & Hall & Hlen).
    exists (RobustRunner.FileError p (str_of_exn e) :: l), s'.
    rewrite Hl, <- app_assoc. cbn [app forallb Cli.is_file_error length].
    rewrite Hall, Hlen. repeat split.
Qed.

(** X29. In optimized mode, the default of the command line, the exit
    code is 0 when the run of every test file raised an [Exception], as
    it does for a file that cannot be loaded and for a suite in which a
    case raises: each file becomes an error dictionary without a
    summary, which the check of the results reads as no failure. *)
Theorem optimized_mode_exits_zero_when_every_file_raises
  (W : Type) (env : OptimizedBatch.Env W) (others : Main.Runners (RobustRunner.State W))
  (paths : list ustr) (s s1 s2 : RobustRunner.State W) (p0 : RobustRunner.page) :
  paths <> [] ->
  Forall (file_raises env) paths ->
  RobustRunner.on_world (OptimizedBatch.load_model env) s = (Ok tt, s1) ->
  RobustRunner.on_world (OptimizedBatch.start_browser env) s1 = (Ok p0, s2) ->
  (forall w, fst (OptimizedBatch.close_browser env w) = Ok tt) ->
  fst (Main.main (with_optimized_runner env others) (optimized_mode paths) s) = 0%Z.
Proof.
  intros Hne Hall Hload Hstart Hclose.
  unfold Main.main, Main.run_tests. rewrite optimized_paths.
  cbn [optimized_mode Main.robust Main.optimized].
  destruct paths as [|p rest]; [exfalso; apply Hne; reflexivity|].
  assert (Hbatch : exists l s',
            OptimizedBatch.run_test_files_batch env (p :: rest) s = (Ok l, s')
            /\ forallb Cli.is_file_error l = true /\ length l = length (p :: rest)).
  { unfold OptimizedBatch.run_test_files_batch, mbind. rewrite Hload, Hstart.
    destruct (optimized_files_loop_all_raise [] (RobustRunner.set_page (Some p0) s2) Hall)
      as (l & s3 & Hl & Hf & Hlen).
    rewrite Hl. cbn [app]. unfold RobustRunner.on_world.
    specialize (Hclose (RobustRunner.world s3)).
    destruct (OptimizedBatch.close_browser env (RobustRunner.world s3)) as [[x|e] w4];
      cbn [fst] in Hclose; [|discriminate].
    rewrite (optimized_display_file_errors env l _ Hf).
    eexists l, _. split; [reflexivity|]. split; assumption. }
  destruct Hbatch as (l & s' & Hb & Hf & Hlen).
  destruct rest as [|q rest].
  - unfold Main.first_of, mbind, ret, raise.
    cbn [with_optimized_runner Main.optimized_batch]. rewrite Hb.
    destruct l as [|r0 l]; [discriminate Hlen|].
    cbn [forallb] in Hf. apply andb_true_iff in Hf. destruct Hf as [Hr0 _].
    destruct r0; [discriminate Hr0|]. reflexivity.
  - unfold mbind, ret. cbn [with_optimized_runner Main.optimized_batch]. rewrite Hb.
    rewrite check_results_spec, (no_failure_in_file_errors _ Hf). reflexivity.
Qed.

Lemma optimized_mode_exits_zero_when_every_file_raises_witness :
  Forall (file_raises (sample_optimized_env ascii_ucd nameless_file (Ok tt)))
    [u "nameless.yaml"; u "missing.yaml"]
  /\ fst (Main.main
            (with_optimized_runner (sample_optimized_env ascii_ucd nameless_file (Ok tt))
               (idle_runners _))
            (optimized_mode [u "nameless.yaml"; u "missing.yaml"])
            {| RobustRunner.bm_page := None; RobustRunner.world := fresh_browser |}) = 0%Z.
Proof.
  assert (H : Forall (file_raises (sample_optimized_env ascii_ucd nameless_file (Ok tt)))
                [u "nameless.yaml"; u "missing.yaml"]).
  { repeat constructor; intro s; eexists; (split; [vm_compute; reflexivity|reflexivity]). }
  split; [exact H|].
  refine (@optimized_mode_exits_zero_when_every_file_raises _
            (sample_optimized_env ascii_ucd nameless_file (Ok tt)) (idle_runners _)
            [u "nameless.yaml"; u "missing.yaml"]
            {| RobustRunner.bm_page := None; RobustRunner.world := fresh_browser |}
            _ _ _ _ H eq_refl eq_refl _).
  - discriminate.
  - intro w. reflexivity.
Defined.
(* ================================================================== *)
(** * The case of letters in the comparisons *)
(* ================================================================== *)









(** The comparisons of the evaluators follow the case of the letters:
    the address [https://shop.example/Success] does not contain
    [success]. The fallback of the text evaluators does not: the text
    [login] is found in a page that shows [LOGIN], and for the same
    reason reported as present by the evaluator of absence. *)
Lemma comparisons_and_case :
  let page := static_page (u "https://shop.example/Success") (u "Shop")
                (u "<html><body>LOGIN</body></html>") in
  option_map Assertions.passed
    (match execute ascii_ucd page (assertion_of URL_CONTAINS (u "success")) with
     | Ok r => Some r | Raise _ => None end) = Some false
  /\ option_map Assertions.passed
       (match execute ascii_ucd page (assertion_of URL_ENDS_WITH (u "success")) with
        | Ok r => Some r | Raise _ => None end) = Some false
  /\ option_map Assertions.passed
       (match execute ascii_ucd page (assertion_of TITLE_EQUALS (u "shop")) with
        | Ok r => Some r | Raise _ => None end) = Some false
  /\ option_map Assertions.passed
       (match execute ascii_ucd page (assertion_of TEXT_EXISTS (u "login")) with
        | Ok r => Some r | Raise _ => None end) = Some true
  /\ option_map Assertions.passed
       (match execute ascii_ucd page (assertion_of TEXT_NOT_EXISTS (u "login")) with
        | Ok r => Some r | Raise _ => None end) = Some false.
Proof. repeat split; vm_compute; reflexivity. Qed.

